(** * Test execution and caching engine of the `shortest` runner

    A shallow embedding of
    - [core/runner/test-run.ts]      (the [TestRun] state machine),
    - [core/runner/index.ts]         (class [TestRunner]: [executeTest],
                                      [runCachedTest] and the per-test body
                                      of [executeTestFile]),
    - [browser/core/browser-tool]    (class [BrowserTool]: what [execute]
                                      leaves in the cache directory),
    - the cache repository [TestRunRepository]; its implementation file
      [core/runner/test-run-repository.ts] is not among the sources, so it is
      modelled from the specification and from its test-suite.

    JavaScript objects that are mutated in place (the [TestRun] under
    execution, the page, the cache directory) live in an explicit [World];
    exceptions carry the world at the point of the [throw]. *)

From Stdlib Require Import String Ascii List ZArith Lia Bool Arith PeanoNat.
From Stdlib Require DecimalString DecimalNat DecimalFacts.
Import ListNotations.

Set Implicit Arguments.
Local Open Scope string_scope.
Local Open Scope Z_scope.

(** ** Strings *)

Module Str.

Fixpoint map (f : ascii -> ascii) (s : string) : string :=
  match s with
  | EmptyString => EmptyString
  | String c r => String (f c) (map f r)
  end.

(** [s.includes(p)] *)
Fixpoint includes (p s : string) : bool :=
  String.prefix p s ||
  match s with
  | EmptyString => false
  | String _ r => includes p r
  end.

(** [s.endsWith(p)] *)
Definition endsWith (p s : string) : bool :=
  match Nat.leb (String.length p) (String.length s) with
  | true =>
      String.eqb (String.substring (String.length s - String.length p)
                                   (String.length p) s) p
  | false => false
  end.

(** [arr.filter(Boolean).join("\n")] on an array of strings *)
Definition newline : string := String (ascii_of_nat 10) EmptyString.

Fixpoint join (sep : string) (l : list string) : string :=
  match l with
  | [] => ""
  | [x] => x
  | x :: r => x ++ sep ++ join sep r
  end.

Definition truthy (s : string) : bool := negb (String.eqb s "").

Definition ofNat (n : nat) : string := DecimalString.NilEmpty.string_of_uint (Nat.to_uint n).

End Str.

(** ** Values that JavaScript code can throw *)

Inductive CacheErrorType := NotFound | Invalid.

(** The error classes the runner distinguishes with [instanceof]. *)
Inductive ErrorClass :=
| CacheErrorC (type : CacheErrorType)
| ShortestErrorC
| ToolErrorC
| TypeErrorC
| OtherErrorC.

Inductive Thrown :=
| ThrownError (cls : ErrorClass) (message : string)
| ThrownValue (text : string).

(** [new CacheError(type, message)] and [new ShortestError(message)] *)
Definition CacheError (type : CacheErrorType) (message : string) : Thrown :=
  ThrownError (CacheErrorC type) message.
Definition ShortestError (message : string) : Thrown :=
  ThrownError ShortestErrorC message.

(** [error instanceof CacheError] *)
Definition instanceofCacheError (e : Thrown) : bool :=
  match e with
  | ThrownError (CacheErrorC _) _ => true
  | _ => false
  end.

(** [error instanceof Error ? error.message : String(error)] *)
Definition errorMessage (e : Thrown) : string :=
  match e with
  | ThrownError _ m => m
  | ThrownValue t => t
  end.

Inductive Result (A : Type) :=
| Ok (a : A)
| Err (e : Thrown).
Arguments Ok {A} a.
Arguments Err {A} e.

(** ** Data model ([types/cache], [types/ai], [types/browser]) *)

Inductive TestStatus := pending | running | passed | failed.

Definition TestStatus_eqb (a b : TestStatus) : bool :=
  match a, b with
  | pending, pending | running, running | passed, passed | failed, failed => true
  | _, _ => false
  end.

(** the string value of a status *)
Definition statusName (s : TestStatus) : string :=
  match s with
  | pending => "pending"
  | running => "running"
  | passed => "passed"
  | failed => "failed"
  end.

Record TokenUsage := {
  completionTokens : Z;
  promptTokens : Z;
  totalTokens : Z
}.

(** The members of [InternalActionEnum] that [BrowserTool.execute] switches on. *)
Inductive InternalActionEnum :=
| LEFT_CLICK | RIGHT_CLICK | MIDDLE_CLICK | DOUBLE_CLICK | TRIPLE_CLICK
| MOUSE_MOVE | LEFT_CLICK_DRAG | LEFT_MOUSE_DOWN | LEFT_MOUSE_UP
| CURSOR_POSITION | SCREENSHOT | TYPE | KEY | HOLD_KEY | GITHUB_LOGIN
| CLEAR_SESSION | RUN_CALLBACK | NAVIGATE | WAIT | SCROLL | SLEEP | CHECK_EMAIL.

Definition InternalActionEnum_eqb (a b : InternalActionEnum) : bool :=
  match a, b with
  | LEFT_CLICK, LEFT_CLICK | RIGHT_CLICK, RIGHT_CLICK
  | MIDDLE_CLICK, MIDDLE_CLICK | DOUBLE_CLICK, DOUBLE_CLICK
  | TRIPLE_CLICK, TRIPLE_CLICK | MOUSE_MOVE, MOUSE_MOVE
  | LEFT_CLICK_DRAG, LEFT_CLICK_DRAG | LEFT_MOUSE_DOWN, LEFT_MOUSE_DOWN
  | LEFT_MOUSE_UP, LEFT_MOUSE_UP | CURSOR_POSITION, CURSOR_POSITION
  | SCREENSHOT, SCREENSHOT | TYPE, TYPE | KEY, KEY | HOLD_KEY, HOLD_KEY
  | GITHUB_LOGIN, GITHUB_LOGIN | CLEAR_SESSION, CLEAR_SESSION
  | RUN_CALLBACK, RUN_CALLBACK | NAVIGATE, NAVIGATE | WAIT, WAIT
  | SCROLL, SCROLL | SLEEP, SLEEP | CHECK_EMAIL, CHECK_EMAIL => true
  | _, _ => false
  end.

(** [ActionInput]: the discriminator, the recorded coordinate of pointer
    actions, and the remaining payload (text, url, key, ...) kept as text. *)
Record ActionInput := {
  action : InternalActionEnum;
  coordinate : option (Z * Z);
  payload : string
}.

Record StepAction := {
  type : string;
  name : string;
  input : ActionInput
}.

Record StepExtras := {
  componentStr : option string
}.

Record CacheStep := {
  reasoning : string;
  step_action : option StepAction;     (* [step.action?] *)
  step_timestamp : Z;
  result : option string;
  extras : option StepExtras
}.

(** [metadata.version] is a number in current entries and a string in legacy
    ones; it may also be absent. *)
Inductive JsVersion :=
| VNumber (n : Z)
| VString (s : string)
| VUndefined.

Record CacheMetadata := {
  md_timestamp : Z;
  md_version : JsVersion;
  md_status : TestStatus;
  md_reason : option string;
  md_tokenUsage : TokenUsage;
  md_runId : string;
  md_executedFromCache : bool
}.

Record CacheTest := {
  ct_name : string;
  ct_filePath : string
}.

Record CacheEntry := {
  metadata : CacheMetadata;
  test : CacheTest;
  data_steps : option (list CacheStep)   (* [data.steps], possibly absent *)
}.

(** ** Numbers *)

(** A JavaScript number that is an integer is given by its value.  The
    values of the Number type are the doubles: an integer written with
    more than 53 significant bits is rounded to the nearest of them, to the
    one with an even significand when two are equally near, and to Infinity
    from [2^1024 - 2^970] on. *)
Module Double.

(** stands for Infinity (and its opposite for -Infinity): it is larger than
    every finite double and equal to none *)
Definition infinity : Z := 2 ^ 1024.

(** the double nearest to the integer [a >= 0] *)
Definition roundNat (a : Z) : Z :=
  if a <? 2 ^ 53 then a
  else
    let e := Z.log2 a - 52 in
    let q := Z.shiftr a e in
    let r := a - Z.shiftl q e in
    let half := Z.shiftl 1 (e - 1) in
    let q' := if ((half <? r) || ((r =? half) && Z.odd q))%bool then q + 1 else q in
    let v := Z.shiftl q' e in
    if infinity <=? v then infinity else v.

Definition nearest (n : Z) : Z :=
  if n <? 0 then - roundNat (- n) else roundNat n.

End Double.

(** ** [parseInt(s, 10)] *)

Module ParseInt.

(** [StrWhiteSpaceChar], among the code units below 256: tab, line feed,
    vertical tab, form feed, carriage return, space and no-break space *)
Definition isWhite (c : ascii) : bool :=
  match nat_of_ascii c with
  | 9%nat | 10%nat | 11%nat | 12%nat | 13%nat | 32%nat | 160%nat => true
  | _ => false
  end.

Fixpoint skipWhite (s : string) : string :=
  match s with
  | String c r => if isWhite c then skipWhite r else s
  | EmptyString => s
  end.

Definition digitOf (c : ascii) : option Z :=
  let n := nat_of_ascii c in
  if (Nat.leb 48 n && Nat.leb n 57)%bool then Some (Z.of_nat (n - 48)) else None.

(** longest prefix of decimal digits; [None] when there is none (NaN) *)
Fixpoint digits (s : string) (acc : option Z) : option Z :=
  match s with
  | EmptyString => acc
  | String c r =>
      match digitOf c with
      | Some d => digits r (Some (10 * match acc with Some a => a | None => 0 end + d))
      | None => acc
      end
  end.

(** the mathematical integer that the text denotes: an optional sign and
    the longest run of digits; [None] when there is no digit *)
Definition mathInt (s : string) : option Z :=
  match skipWhite s with
  | String "-"%char r => option_map Z.opp (digits r None)
  | String "+"%char r => digits r None
  | t => digits t None
  end.

(** [parseInt(s, 10)]: the number for that integer, [None] for NaN *)
Definition parseInt10 (s : string) : option Z :=
  option_map Double.nearest (mathInt s).

End ParseInt.


(** ** Platform constants *)

(** [VERSION] is [TestRunRepository.VERSION], the current schema version of
    cache entries; the constant is declared in the repository file, which is
    not among the sources, so its value is a parameter.  [toISOString] is
    [Date.prototype.toISOString] applied to a date given in epoch
    milliseconds. *)
Class Platform := {
  VERSION : Z;
  toISOString : Z -> string
}.

(** ** Test cases ([core/runner/test-case]) *)

(** A JavaScript closure registered by the test file (test body, [before],
    [after], [beforeEach] ... callbacks) is a handle; the collaborators below
    say what invoking it does. *)
Definition Callback := nat.

Module Expectation.
Record t := {
  description : option string;
  payload : option string;
  fn : option Callback
}.
End Expectation.

Module TestCase.
Record t := {
  name : string;
  filePath : string;
  identifier : string;
  payload : option string;     (* the payload, as [JSON.stringify] prints it *)
  directExecution : bool;
  fn : option Callback;
  expectations : list Expectation.t;
  beforeFn : option Callback;
  afterFn : option Callback
}.
End TestCase.

(** ** [TestRun] ([core/runner/test-run.ts]) *)

Module TestRun.

(** [TestRunState]: a status and an optional reason. *)
Record TestRunState := {
  st_status : TestStatus;
  st_reason : option string
}.

Record t := {
  testCase : TestCase.t;
  runId : string;
  timestamp : Z;
  steps : list CacheStep;
  tokenUsage : TokenUsage;
  version : Z;
  _executedFromCache : bool;
  state : TestRunState
}.

Definition executedFromCache (r : t) : bool := _executedFromCache r.
Definition reason (r : t) : option string := st_reason (state r).
Definition status (r : t) : TestStatus := st_status (state r).

Definition set_state (s : TestRunState) (r : t) : t :=
  {| testCase := testCase r; runId := runId r; timestamp := timestamp r;
     steps := steps r; tokenUsage := tokenUsage r; version := version r;
     _executedFromCache := _executedFromCache r; state := s |}.

Definition set_tokenUsage (u : TokenUsage) (r : t) : t :=
  {| testCase := testCase r; runId := runId r; timestamp := timestamp r;
     steps := steps r; tokenUsage := u; version := version r;
     _executedFromCache := _executedFromCache r; state := state r |}.

Definition set_steps (l : list CacheStep) (r : t) : t :=
  {| testCase := testCase r; runId := runId r; timestamp := timestamp r;
     steps := l; tokenUsage := tokenUsage r; version := version r;
     _executedFromCache := _executedFromCache r; state := state r |}.

Definition set_version (v : Z) (r : t) : t :=
  {| testCase := testCase r; runId := runId r; timestamp := timestamp r;
     steps := steps r; tokenUsage := tokenUsage r; version := v;
     _executedFromCache := _executedFromCache r; state := state r |}.

Definition set_executedFromCache (b : bool) (r : t) : t :=
  {| testCase := testCase r; runId := runId r; timestamp := timestamp r;
     steps := steps r; tokenUsage := tokenUsage r; version := version r;
     _executedFromCache := b; state := state r |}.

(** the private constructor: field initialisers, then the three arguments *)
Definition new `{Platform} (tc : TestCase.t) (id : string) (ts : Z) (fromCache : bool) : t :=
  {| testCase := tc; runId := id; timestamp := ts;
     steps := [];
     tokenUsage := {| completionTokens := 0; promptTokens := 0; totalTokens := 0 |};
     version := VERSION;
     _executedFromCache := fromCache;
     state := {| st_status := pending; st_reason := None |} |}.

(** [.replace(/[:.]/g, "-")] *)
Definition dashes (s : string) : string :=
  Str.map (fun c => if (Ascii.eqb c ":" || Ascii.eqb c ".")%bool then "-"%char else c) s.

(** [TestRun.create(testCase)], with [startedAt] the current date *)
Definition create `{Platform} (tc : TestCase.t) (startedAt : Z) : t :=
  let timestamp := startedAt in
  let formattedStartedAt := dashes (toISOString startedAt) in
  let runId := formattedStartedAt ++ "_" ++ TestCase.identifier tc in
  new tc runId timestamp false.

(** [parseInt(v, 10) || 0] for a string, [v || 0] for a number *)
Definition coerceVersion (v : JsVersion) : Z :=
  match v with
  | VString s => match ParseInt.parseInt10 s with Some n => n | None => 0 end
  | VNumber n => n
  | VUndefined => 0
  end.

(** [TestRun.fromCache(testCase, cacheEntry)] *)
Definition fromCache `{Platform} (tc : TestCase.t) (cacheEntry : CacheEntry) : t :=
  let md := metadata cacheEntry in
  let testRun := new tc (md_runId md) (md_timestamp md) (md_executedFromCache md) in
  let testRun := set_version (coerceVersion (md_version md)) testRun in
  let testRun := set_state {| st_status := md_status md; st_reason := md_reason md |} testRun in
  let testRun := set_tokenUsage (md_tokenUsage md) testRun in
  match data_steps cacheEntry with
  | Some l => set_steps l testRun
  | None => testRun
  end.

Definition setUsage (u : option TokenUsage) (r : t) : t :=
  match u with
  | Some u => set_tokenUsage u r
  | None => r
  end.

Definition markRunning (r : t) : Result t :=
  if negb (TestStatus_eqb (status r) pending)
  then Err (ShortestError "Can only start from pending state")
  else Ok (set_state {| st_status := running; st_reason := None |} r).

Definition markPassed (reason : string) (tokenUsage : option TokenUsage) (r : t) : Result t :=
  if negb (TestStatus_eqb (status r) running)
  then Err (ShortestError "Can only pass from running state")
  else Ok (setUsage tokenUsage
             (set_state {| st_status := passed; st_reason := Some reason |} r)).

Definition markPassedFromCache (reason : string) (r : t) : Result t :=
  match markPassed reason None r with
  | Ok r' => Ok (set_executedFromCache true r')
  | Err e => Err e
  end.

Definition markFailed (reason : string) (tokenUsage : option TokenUsage) (r : t) : t :=
  setUsage tokenUsage (set_state {| st_status := failed; st_reason := Some reason |} r).

Definition addStep (step : CacheStep) (r : t) : t :=
  set_steps (steps r ++ [step])%list r.

Definition getSteps (r : t) : list CacheStep := steps r.

End TestRun.

(** ** External collaborators *)

(** [ToolResult] of [BrowserTool.execute]: the output text and the part of
    [metadata.window_info] the runner reads. *)
Record ToolResult := {
  output : option string;
  window_url : option string;
  window_title : option string
}.

(** [AIClientResponse]: [response.status], [response.reason], [metadata.usage] *)
Record AIClientResponse := {
  response_status : TestStatus;
  response_reason : string;
  usage : TokenUsage
}.

(** What a call of [AIClient.runAction] leaves behind: the page, the steps it
    appended to the run with [addStep], and its answer or the exception. *)
Record AiOutcome (B : Type) := {
  ai_page : B;
  ai_steps : list CacheStep;
  ai_response : Result AIClientResponse
}.

(** The Action Executor ([BrowserTool], Playwright's page), the Action
    Decider ([AIClient]) and the JavaScript engine running user callbacks.
    [Browser] is the state of the page.  A callback acts on the page and
    returns or throws; the Action Decider acts on the page and appends steps
    to the run; [getNormalizedComponentStringByCoords] only reads the page.
    [execute] is the page's side of [BrowserTool.execute]: what the call
    does to the page, and the result it returns or the error it throws;
    what a screenshot leaves in the cache directory is in [browserExecute]
    below. *)
Class Collaborators := {
  Browser : Type;
  invoke : Callback -> Browser -> Browser * option Thrown;
  execute : ActionInput -> Browser -> Browser * Result ToolResult;
  getNormalizedComponentStringByCoords : Z -> Z -> Browser -> Result string;
  goto : option string -> Browser -> Browser * option Thrown;
  runAction : string -> TestRun.t -> Browser -> AiOutcome Browser
}.

Record ShortestStrictConfig := {
  caching_enabled : bool
}.

(** the hook lists of the global registry read by [executeTestFile] *)
Record Registry := {
  beforeEachFns : list Callback;
  afterEachFns : list Callback
}.

(** ** The world and the effect monad *)

Inductive LogGroup := GroupCache | GroupAI.

Inductive HookKind := DirectFn | BeforeFn | AfterFn | BeforeEach | AfterEach.

(** What the runner and the repository do, as far as it is observed: the
    messages and groups of the runner's log, delays, the calls of the
    browser tool, of the Action Decider and of user callbacks, what the
    reporter is told, and the operations of the repository on locks and
    cache entries ([EvWriteFile], [EvUnlink], [EvRm]).  What a call of the
    browser tool does inside is not recorded; its screenshot shows in the
    [Store]. *)
Inductive Event :=
| EvLog (message : string)
| EvSetGroup (g : LogGroup)
| EvResetGroup
| EvTimeout (ms : Z)
| EvExecute (i : ActionInput)
| EvFingerprint (x y : Z)
| EvGoto (url : option string)
| EvInvoke (k : HookKind) (cb : Callback)
| EvRunAction (prompt : string)
| EvTestStart (tc : string)
| EvTestEnd (runId : string) (s : TestStatus)
| EvAcquireLock (lock : string) (acquired : bool)
| EvReleaseLock (lock : string)
| EvWriteFile (path : string)
| EvUnlink (path : string)
| EvRm (path : string).

(** The cache directory: the CacheEntry documents in enumeration order
    ([None] for a file that cannot be read or parsed), the per-run artifact
    directories, each with the names of the files in it, and the lock files
    currently held. *)
Record Store := {
  files : list (string * option CacheEntry);
  dirs : list (string * list string);
  locks : list string
}.

Section Effects.
Context {C : Collaborators}.

(** [trace] lists the events, most recent first. *)
Record World := {
  page : Browser;
  testRun : TestRun.t;
  store : Store;
  now : Z;
  trace : list Event
}.

Inductive Outcome (A : Type) :=
| Returned (a : A) (w : World)
| Threw (e : Thrown) (w : World)
| OutOfFuel.
Arguments Returned {A} a w.
Arguments Threw {A} e w.
Arguments OutOfFuel {A}.

Definition M (A : Type) := World -> Outcome A.

Definition ret {A} (a : A) : M A := fun w => Returned a w.

Definition bind {A B} (m : M A) (k : A -> M B) : M B :=
  fun w =>
    match m w with
    | Returned a w' => k a w'
    | Threw e w' => Threw e w'
    | OutOfFuel => OutOfFuel
    end.

Definition throw {A} (e : Thrown) : M A := fun w => Threw e w.

(** [try { m } catch (error) { h error }] *)
Definition tryCatch {A} (m : M A) (h : Thrown -> M A) : M A :=
  fun w =>
    match m w with
    | Threw e w' => h e w'
    | o => o
    end.

(** [try { m } finally { f }] *)
Definition tryFinally {A} (m : M A) (f : M unit) : M A :=
  fun w =>
    match m w with
    | Returned a w' => bind f (fun _ => ret a) w'
    | Threw e w' => bind f (fun _ => throw e) w'
    | OutOfFuel => OutOfFuel
    end.

Definition gets {A} (f : World -> A) : M A := fun w => Returned (f w) w.

Definition modify (f : World -> World) : M unit := fun w => Returned tt (f w).

Definition set_page (b : Browser) (w : World) : World :=
  {| page := b; testRun := testRun w; store := store w; now := now w; trace := trace w |}.

Definition set_testRun (r : TestRun.t) (w : World) : World :=
  {| page := page w; testRun := r; store := store w; now := now w; trace := trace w |}.

Definition set_store (s : Store) (w : World) : World :=
  {| page := page w; testRun := testRun w; store := s; now := now w; trace := trace w |}.

Definition set_now (n : Z) (w : World) : World :=
  {| page := page w; testRun := testRun w; store := store w; now := n; trace := trace w |}.

Definition record (e : Event) (w : World) : World :=
  {| page := page w; testRun := testRun w; store := store w; now := now w;
     trace := e :: trace w |}.

Definition emit (e : Event) : M unit := modify (record e).

Definition log (message : string) : M unit := emit (EvLog message).

(** [await new Promise((resolve) => setTimeout(resolve, ms))] *)
Definition sleep (ms : Z) : M unit :=
  modify (fun w => set_now (now w + ms) (record (EvTimeout ms) w)).

(** lifting of the [TestRun] methods to the run under execution *)
Definition onRun (f : TestRun.t -> Result TestRun.t) : M unit :=
  fun w =>
    match f (testRun w) with
    | Ok r => Returned tt (set_testRun r w)
    | Err e => Threw e w
    end.

Definition markFailed (reason : string) (tokenUsage : option TokenUsage) : M unit :=
  modify (fun w => set_testRun (TestRun.markFailed reason tokenUsage (testRun w)) w).

(** calls into the collaborators *)
Definition callback (k : HookKind) (cb : Callback) : M unit :=
  fun w =>
    let w := record (EvInvoke k cb) w in
    match invoke cb (page w) with
    | (b, None) => Returned tt (set_page b w)
    | (b, Some e) => Threw e (set_page b w)
    end.

(** [BrowserTool.execute] as far as the page goes: the call is recorded,
    acts on the page and returns or throws (the messages that the tool logs
    are not recorded) *)
Definition pageExecute (i : ActionInput) : M ToolResult :=
  fun w =>
    let w := record (EvExecute i) w in
    match execute i (page w) with
    | (b, Ok r) => Returned r (set_page b w)
    | (b, Err e) => Threw e (set_page b w)
    end.

Definition fingerprint (x y : Z) : M string :=
  fun w =>
    let w := record (EvFingerprint x y) w in
    match getNormalizedComponentStringByCoords x y (page w) with
    | Ok s => Returned s w
    | Err e => Threw e w
    end.

Definition pageGoto (url : option string) : M unit :=
  fun w =>
    let w := record (EvGoto url) w in
    match goto url (page w) with
    | (b, None) => Returned tt (set_page b w)
    | (b, Some e) => Threw e (set_page b w)
    end.

Definition aiRunAction (prompt : string) : M AIClientResponse :=
  fun w =>
    let w := record (EvRunAction prompt) w in
    let o := runAction prompt (testRun w) (page w) in
    let w := set_page (ai_page o)
               (set_testRun (fold_left (fun r s => TestRun.addStep s r) (ai_steps o) (testRun w)) w) in
    match ai_response o with
    | Ok r => Returned r w
    | Err e => Threw e w
    end.

End Effects.

Arguments Returned {C A} a w.
Arguments Threw {C A} e w.
Arguments OutOfFuel {C A}.

Declare Scope run_scope.
Delimit Scope run_scope with run.
Notation "x <- m ;; k" := (bind m (fun x => k))
  (at level 61, m at next level, right associativity) : run_scope.
Notation "m ;; k" := (bind m (fun _ => k))
  (at level 61, right associativity) : run_scope.

Local Open Scope run_scope.

Section Loops.
Context {C : Collaborators}.

(** [for (const x of xs) await f(x)] *)
Fixpoint forEach {A} (f : A -> M unit) (xs : list A) : M unit :=
  match xs with
  | [] => ret tt
  | x :: rest => f x ;; forEach f rest
  end.

End Loops.

(** ** The cache repository ([core/runner/test-run-repository]) *)

Module TestRunRepository.

Fixpoint lastOf {A} (l : list A) : option A :=
  match l with
  | [] => None
  | [x] => Some x
  | _ :: r => lastOf r
  end.

Definition indexed {A} (l : list A) : list (nat * A) :=
  combine (seq 0 (length l)) l.

Fixpoint upsert {A} (key : string) (a : A) (l : list (string * A)) : list (string * A) :=
  match l with
  | [] => [(key, a)]
  | (k, x) :: r => if String.eqb k key then (key, a) :: r else (k, x) :: upsert key a r
  end.

Definition without (key : string) (l : list string) : list string :=
  filter (fun k => negb (String.eqb k key)) l.

(** the directories other than [dir] *)
Definition otherDirs (dir : string) (l : list (string * list string))
  : list (string * list string) :=
  filter (fun d => negb (String.eqb (fst d) dir)) l.

(** [fs.mkdir(dir, { recursive: true })]: the directory is made unless it is
    there *)
Definition mkdir (dir : string) (s : Store) : Store :=
  if existsb (fun d => String.eqb (fst d) dir) (dirs s) then s
  else {| files := files s; dirs := (dirs s ++ [(dir, [])])%list; locks := locks s |}.

(** the names in a directory after a file called [name] is written to it *)
Definition withFile (name : string) (names : list string) : list string :=
  if existsb (String.eqb name) names then names else (names ++ [name])%list.

(** [fs.writeFile(join(dir, name), buffer)] on a directory that is there:
    the file is added to it, or replaces the one of that name (what the
    file holds is not kept) *)
Definition writeInto (dir name : string) (s : Store) : Store :=
  {| files := files s;
     dirs := map (fun d => if String.eqb (fst d) dir
                           then (fst d, withFile name (snd d)) else d) (dirs s);
     locks := locks s |}.

Section Repository.
Context {P : Platform} {C : Collaborators}.

(** Modelled from the spec: the lock file of a test case, missing with
    [test-run-repository.ts], is [<identifier>.lock]. *)
Definition lockFileName (tc : TestCase.t) : string :=
  TestCase.identifier tc ++ ".lock".

(** Modelled from the spec: the document of a run, missing with
    [test-run-repository.ts], is named by its [runId] ([<runId>.json] in the
    test-suite). *)
Definition getTestRunFilePath (run : TestRun.t) : string :=
  TestRun.runId run ++ ".json".

(** Modelled from the spec: the artifact directory of a run, missing with
    [test-run-repository.ts], is [<runId>/]. *)
Definition getTestRunDirPath (run : TestRun.t) : string :=
  TestRun.runId run.

(** Modelled from the spec: the CacheEntry files of an identifier, which
    the missing [getRuns] enumerates, are those named [<...>_<identifier>.json]. *)
Definition ownFile (tc : TestCase.t) (fileName : string) : bool :=
  Str.endsWith ("_" ++ TestCase.identifier tc ++ ".json") fileName.

(** Modelled from the spec: the missing [getRuns] enumerates the CacheEntry
    files of the identifier, skips the files that cannot be read, and
    rebuilds each run with [TestRun.fromCache]. *)
Definition loadRuns (tc : TestCase.t) (s : Store) : list TestRun.t :=
  flat_map (fun f =>
              if ownFile tc (fst f)
              then match snd f with
                   | Some entry => [TestRun.fromCache tc entry]
                   | None => []
                   end
              else [])
           (files s).

(** Modelled from the spec: the missing [getRuns], as a read of the cache
    directory.  The spec lets a repository keep the loaded runs in memory
    "until an explicit reload is warranted by the caller" and names no
    operation that reloads; here every call reads the directory, so that a
    call made after [saveRun] or [deleteRun] sees what they left. *)
Definition getRuns (tc : TestCase.t) : M (list TestRun.t) :=
  gets (fun w => loadRuns tc (store w)).

(** Modelled from the spec: the eligibility test of the missing
    [getLatestPassedRun]; a run is eligible for replay iff it passed, has the
    current schema version and was not itself executed from cache. *)
Definition eligible (r : TestRun.t) : bool :=
  TestStatus_eqb (TestRun.status r) passed
  && (TestRun.version r =? VERSION)
  && negb (TestRun.executedFromCache r).

(** Modelled from the spec: the missing [getLatestPassedRun] filters the
    loaded runs to the eligible ones and returns the last one in enumeration
    order, or null. *)
Definition getLatestPassedRun (runs : list TestRun.t) : option TestRun.t :=
  lastOf (filter eligible runs).

(** Modelled from the spec: the missing [getLatestPassedRun] on the runs
    that [getRuns] loads for the test case. *)
Definition latestPassedRunOf (tc : TestCase.t) : M (option TestRun.t) :=
  runs <- getRuns tc ;; ret (getLatestPassedRun runs).

(** Modelled from the spec: the serialisation inside the missing [saveRun];
    the document written for a run carries [metadata] (timestamp, version,
    status, reason, tokenUsage, runId, executedFromCache), [test] (name,
    filePath) and [data.steps]. *)
Definition toCacheEntry (run : TestRun.t) : CacheEntry :=
  {| metadata :=
       {| md_timestamp := TestRun.timestamp run;
          md_version := VNumber (TestRun.version run);
          md_status := TestRun.status run;
          md_reason := TestRun.reason run;
          md_tokenUsage := TestRun.tokenUsage run;
          md_runId := TestRun.runId run;
          md_executedFromCache := TestRun.executedFromCache run |};
     test := {| ct_name := TestCase.name (TestRun.testCase run);
                ct_filePath := TestCase.filePath (TestRun.testCase run) |};
     data_steps := Some (TestRun.getSteps run) |}.

(** Modelled from the spec: the missing [acquireLock]; the lock is
    exclusive, acquiring it fails when the lock file of the identifier is
    already held. *)
Definition acquireLock (tc : TestCase.t) : M bool :=
  fun w =>
    let l := lockFileName tc in
    let s := store w in
    if existsb (String.eqb l) (locks s)
    then Returned false (record (EvAcquireLock l false) w)
    else Returned true
           (record (EvAcquireLock l true)
              (set_store {| files := files s; dirs := dirs s; locks := l :: locks s |} w)).

(** Modelled from the spec: the missing [releaseLock] gives the lock of the
    identifier back. *)
Definition releaseLock (tc : TestCase.t) : M unit :=
  modify (fun w =>
    let l := lockFileName tc in
    let s := store w in
    record (EvReleaseLock l)
      (set_store {| files := files s; dirs := dirs s; locks := without l (locks s) |} w)).

(** [fs.writeFile(path, JSON.stringify(entry))]: the document replaces the
    file of that name, or is added to the directory *)
Definition writeFile (path : string) (entry : CacheEntry) : M unit :=
  modify (fun w =>
    let s := store w in
    record (EvWriteFile path)
      (set_store {| files := upsert path (Some entry) (files s);
                    dirs := dirs s; locks := locks s |} w)).

(** Modelled from the spec: the missing [saveRun] tries the lock; on
    contention the save is skipped; otherwise the run is serialised, written
    under its [runId] and the lock is released. *)
Definition saveRun (tc : TestCase.t) (run : TestRun.t) : M unit :=
  acquired <- acquireLock tc ;;
  if negb acquired then ret tt
  else
    writeFile (getTestRunFilePath run) (toCacheEntry run) ;;
    releaseLock tc.

(** Modelled from the spec: the missing [deleteRun] removes the run's file
    and its artifact directory; a failure of either is swallowed. *)
Definition deleteRun (run : TestRun.t) : M unit :=
  modify (fun w =>
    let s := store w in
    let file := getTestRunFilePath run in
    let dir := getTestRunDirPath run in
    record (EvRm dir) (record (EvUnlink file)
      (set_store {| files := filter (fun f => negb (String.eqb (fst f) file)) (files s);
                    dirs := otherDirs dir (dirs s);
                    locks := locks s |} w))).

(** Modelled from the spec: the missing [ensureTestRunDirPath] makes the
    artifact directory of the run when it is not there ([fs.mkdir] with
    [recursive], as the repository tests expect) and returns its path. *)
Definition ensureTestRunDirPath (run : TestRun.t) : M string :=
  modify (fun w => set_store (mkdir (getTestRunDirPath run) (store w)) w) ;;
  ret (getTestRunDirPath run).

(** Modelled from the spec: the version test of the missing
    [applyRetentionPolicy]. *)
Definition current (r : TestRun.t) : bool := TestRun.version r =? VERSION.

(** Modelled from the spec: the choice of step 4 of the missing
    [applyRetentionPolicy]; the most recently timestamped of the listed runs
    (the first of them when several share the largest timestamp). *)
Fixpoint mostRecent (l : list (nat * TestRun.t)) : option (nat * TestRun.t) :=
  match l with
  | [] => None
  | x :: rest =>
      match mostRecent rest with
      | Some y => if TestRun.timestamp (snd y) >? TestRun.timestamp (snd x)
                  then Some y else Some x
      | None => Some x
      end
  end.

(** Modelled from the spec: the missing [applyRetentionPolicy], step by step.
    1. every run whose version is not the current one is deleted;
    2. the remaining runs are split into cache-executed ones, which the
       policy leaves alone, and the others;
    3. if [getLatestPassedRun] gives a run, it is the one kept;
    4. otherwise the most recently timestamped of the others is kept;
    every other non-cache-executed run is deleted.
    Runs are identified by their position in the loaded list; the result is
    the sequence of runs handed to [deleteRun]. *)
Definition outdatedRuns (runs : list TestRun.t) : list (nat * TestRun.t) :=
  filter (fun x => negb (current (snd x))) (indexed runs).

(** Modelled from the spec: step 2 of the missing [applyRetentionPolicy],
    the current-version runs that were not executed from cache. *)
Definition candidates (runs : list TestRun.t) : list (nat * TestRun.t) :=
  filter (fun x => negb (TestRun.executedFromCache (snd x)))
    (filter (fun x => current (snd x)) (indexed runs)).

(** Modelled from the spec: steps 3 and 4 of the missing
    [applyRetentionPolicy], the run that is kept. *)
Definition kept (runs : list TestRun.t) : option (nat * TestRun.t) :=
  match lastOf (filter (fun x => eligible (snd x)) (indexed runs)) with
  | Some latestPassedRun => Some latestPassedRun
  | None => mostRecent (candidates runs)
  end.

(** Modelled from the spec: whether position [i] holds the run kept by the
    missing [applyRetentionPolicy]. *)
Definition isKept (runs : list TestRun.t) (i : nat) : bool :=
  match kept runs with
  | Some k => Nat.eqb (fst k) i
  | None => false
  end.

(** Modelled from the spec: the runs the missing [applyRetentionPolicy]
    hands to [deleteRun], outdated ones first, each with its position. *)
Definition applyRetentionPolicy (runs : list TestRun.t) : list (nat * TestRun.t) :=
  outdatedRuns runs
  ++ filter (fun x => negb (isKept runs (fst x))) (candidates runs).

(** Modelled from the spec: the missing [applyRetentionPolicy] on the runs
    loaded for the test case. *)
Definition applyRetentionPolicyOf (tc : TestCase.t) : M unit :=
  runs <- getRuns tc ;;
  forEach deleteRun (map snd (applyRetentionPolicy runs)).

End Repository.
End TestRunRepository.

(** ** The browser tool ([browser/core/browser-tool], class [BrowserTool]) *)

Section Tool.
Context {P : Platform} {C : Collaborators}.

(** the name of the image taken at [timestamp]:
    [`screenshot-${timestamp}.png`] with
    [timestamp = new Date().toISOString().replace(/[:.]/g, "-")] *)
Definition screenshotName (timestamp : Z) : string :=
  "screenshot-" ++ TestRun.dashes (toISOString timestamp) ++ ".png".

(** [takeScreenshotWithMetadata()]: the directory of the run under execution
    is ensured, the page is captured, and the image is written into the
    directory under the name of the moment.  [pageExecute] stands for
    [page.screenshot] and [getMetadata], which reads the page after the
    write and cannot throw. *)
Definition takeScreenshotWithMetadata (i : ActionInput) : M ToolResult :=
  timestamp <- gets now ;;
  run <- gets testRun ;;
  testRunDirPath <- TestRunRepository.ensureTestRunDirPath run ;;
  taken <- pageExecute i ;;
  modify (fun w => set_store (TestRunRepository.writeInto testRunDirPath
                                (screenshotName timestamp) (store w)) w) ;;
  ret taken.

(** [BrowserTool.execute(input)]: a screenshot goes through
    [takeScreenshotWithMetadata]; the other actions act on the page only *)
Definition browserExecute (i : ActionInput) : M ToolResult :=
  if InternalActionEnum_eqb (action i) SCREENSHOT
  then takeScreenshotWithMetadata i
  else pageExecute i.

End Tool.

(** ** The orchestrator ([core/runner/index.ts], class [TestRunner]) *)

Module TestRunner.
Section Runner.
Context {P : Platform} {C : Collaborators}.
Variable config : ShortestStrictConfig.

(** [`${v}`] for a possibly undefined string *)
Definition template (v : option string) : string :=
  match v with
  | Some s => s
  | None => "undefined"
  end.

(** [v || "unknown"] *)
Definition orUnknown (v : option string) : string :=
  match v with
  | Some s => if Str.truthy s then s else "unknown"
  | None => "unknown"
  end.

Definition isScreenshot (step : CacheStep) : bool :=
  match step_action step with
  | Some a => InternalActionEnum_eqb (action (input a)) SCREENSHOT
  | None => false
  end.

(** [step.action?.input.action === MOUSE_MOVE && step.action.input.coordinate] *)
Definition pointerMoveTarget (step : CacheStep) : option (Z * Z) :=
  match step_action step with
  | Some a =>
      if InternalActionEnum_eqb (action (input a)) MOUSE_MOVE
      then coordinate (input a)
      else None
  | None => None
  end.

(** [componentStr !== step.extras.componentStr] *)
Definition differs (componentStr : string) (recorded : option string) : bool :=
  match recorded with
  | Some s => negb (String.eqb componentStr s)
  | None => true
  end.

(** lines 426-441: the fingerprint under a recorded pointer move is
    recomputed and compared with the recorded one *)
Definition verifyTarget (step : CacheStep) : M unit :=
  match pointerMoveTarget step with
  | Some (x, y) =>
      componentStrNow <- fingerprint x y ;;
      match extras step with
      | None =>
          throw (ThrownError TypeErrorC
                   "Cannot read properties of undefined (reading 'componentStr')")
      | Some ex =>
          if differs componentStrNow (componentStr ex)
          then log "UI element mismatch with cached UI element" ;;
               throw (CacheError Invalid "UI element mismatch")
          else ret tt
      end
  | None => ret tt
  end.

(** lines 443-453: the recorded input is executed *)
Definition replayAction (step : CacheStep) : M unit :=
  match step_action step with
  | Some a =>
      tryCatch (_ <- browserExecute (input a) ;; ret tt)
        (fun error =>
           log "Failed to execute cached step" ;;
           throw (CacheError Invalid "Error executing cached step"))
  | None => ret tt
  end.

(** one iteration of the loop of [runCachedTest] (lines 425-453) *)
Definition replayStep (step : CacheStep) : M unit :=
  sleep 1000 ;;
  verifyTarget step ;;
  replayAction step.

Definition replaySteps (filteredSteps : list CacheStep) : M unit :=
  forEach replayStep filteredSteps.

(** [runCachedTest(testRun, browserTool)] *)
Definition runCachedTest : M unit :=
  tryFinally
    (emit (EvSetGroup GroupCache) ;;
     log "Attempting to execute test from cache" ;;
     tc <- gets (fun w => TestRun.testCase (testRun w)) ;;
     latestRun <- TestRunRepository.latestPassedRunOf tc ;;
     match latestRun with
     | None => throw (CacheError NotFound "No successful cached test run found")
     | Some latestRun =>
         let filteredSteps :=
           filter (fun step => negb (isScreenshot step)) (TestRun.steps latestRun) in
         log "Using cached test run" ;;
         if Nat.eqb (length filteredSteps) 0
         then throw (CacheError Invalid "No eligible steps in cache")
         else
           replaySteps filteredSteps ;;
           log "Successfully executed all cached steps" ;;
           onRun (TestRun.markPassedFromCache "All actions successfully replayed from cache")
     end)
    (emit EvResetGroup).

(** the prompt handed to the Action Decider (lines 318-341) *)
Definition expectationLine (i : nat) (exp : Expectation.t) : string :=
  Str.ofNat (i + 1) ++ ". " ++ template (Expectation.description exp)
  ++ match Expectation.fn exp with
     | Some _ => " [HAS_CALLBACK]"
     | None => "[NO_CALLBACK]"
     end.

Definition quote : string := String (ascii_of_nat 34) EmptyString.

Definition buildPrompt (tc : TestCase.t) (initialState : ToolResult) : string :=
  Str.join Str.newline (filter Str.truthy (
    [ "Test: " ++ quote ++ TestCase.name tc ++ quote;
      match TestCase.payload tc with
      | Some json => "Context: " ++ json
      | None => ""
      end;
      "Callback function: "
      ++ match TestCase.fn tc with
         | Some _ => " [HAS_CALLBACK]"
         | None => " [NO_CALLBACK]"
         end ]
    ++ match TestCase.expectations tc with
       | [] => [ Str.newline ++ "Expect:";
                 "1. " ++ quote ++ TestCase.name tc ++ quote ++ " expected to be successful" ]
       | exps => (Str.newline ++ "Expect:")
                 :: map (fun x => expectationLine (fst x) (snd x))
                        (TestRunRepository.indexed exps)
       end
    ++ [ Str.newline ++ "Current Page State:";
         "URL: " ++ orUnknown (window_url initialState);
         "Title: " ++ orUnknown (window_title initialState) ])).

(** the [afterFn] block of the cached path (lines 269-284) *)
Definition afterCached (tc : TestCase.t) : M unit :=
  match TestCase.afterFn tc with
  | Some afterFn =>
      tryCatch (callback AfterFn afterFn)
        (fun error =>
           r <- gets testRun ;;
           markFailed
             (if TestStatus_eqb (TestRun.status r) failed
              then "AI: " ++ template (TestRun.reason r) ++ ", After: " ++ errorMessage error
              else errorMessage error)
             None)
  | None => ret tt
  end.

(** the live path (lines 303-384), block by block *)

(** lines 303-312: the before hook; [false] stands for the early
    [return testRun] of the catch clause *)
Definition beforeLive (tc : TestCase.t) : M bool :=
  match TestCase.beforeFn tc with
  | Some beforeFn =>
      tryCatch (callback BeforeFn beforeFn ;; ret true)
        (fun error => markFailed (errorMessage error) None ;; ret false)
  | None => ret true
  end.

(** lines 314-346: the Action Decider *)
Definition decide (tc : TestCase.t) (initialState : ToolResult) : M AIClientResponse :=
  tryFinally
    (emit (EvSetGroup GroupAI) ;;
     aiRunAction (buildPrompt tc initialState))
    (emit EvResetGroup).

(** lines 348-365: the after hook; [false] stands for the early
    [return testRun] of the catch clause *)
Definition afterLive (tc : TestCase.t) (aiResponse : AIClientResponse) : M bool :=
  match TestCase.afterFn tc with
  | Some afterFn =>
      tryCatch (callback AfterFn afterFn ;; ret true)
        (fun error =>
           markFailed
             (if TestStatus_eqb (response_status aiResponse) failed
              then "AI: " ++ response_reason aiResponse
                   ++ ", After: " ++ errorMessage error
              else errorMessage error)
             (Some (usage aiResponse)) ;;
           ret false)
  | None => ret true
  end.

(** lines 366-383: the verdict of the Action Decider is recorded *)
Definition settle (aiResponse : AIClientResponse) : M unit :=
  match response_status aiResponse with
  | passed =>
      onRun (TestRun.markPassed (response_reason aiResponse) (Some (usage aiResponse)))
  | failed =>
      markFailed (response_reason aiResponse) (Some (usage aiResponse))
  | other =>
      throw (ShortestError ("Unexpected AI response status: " ++ statusName other))
  end.

Definition runLive (tc : TestCase.t) (initialState : ToolResult) : M unit :=
  proceed <- beforeLive tc ;;
  if negb proceed then ret tt
  else
    aiResponse <- decide tc initialState ;;
    hooked <- afterLive tc aiResponse ;;
    if negb hooked then ret tt
    else settle aiResponse.

(** the initial observation of line 262 *)
Definition screenshot : ActionInput :=
  {| action := SCREENSHOT; coordinate := None; payload := "" |}.

(** lines 236-249: direct execution *)
Definition runDirect (tc : TestCase.t) : M unit :=
  tryCatch
    (match TestCase.fn tc with
     | Some fn => callback DirectFn fn
     | None => ret tt
     end ;;
     onRun (TestRun.markPassed "Direct execution successful" None))
    (fun error =>
       markFailed
         (match error with
          | ThrownError _ message => message
          | ThrownValue _ => "Direct execution failed"
          end)
         None).

(** lines 286-295: the catch clause of the replay boundary; [retry] is the
    call [this.executeTest(testRun, context, true)] *)
Definition fallback (retry : M unit) (initialState : ToolResult) (error : Thrown) : M unit :=
  if negb (instanceofCacheError error) then throw error
  else
    log "Cache execution interrupted, falling back to normal execution" ;;
    pageGoto (window_url initialState) ;;
    retry.

(** [executeTest(testRun, context, skipCache)]; the run is [testRun] of the
    world.  [fuel] bounds the depth of the recursive call of line 294. *)
Fixpoint executeTest (fuel : nat) (skipCache : bool) : M unit :=
  match fuel with
  | O => fun _ => OutOfFuel
  | S fuel =>
      tc <- gets (fun w => TestRun.testCase (testRun w)) ;;
      log "Executing test" ;;
      if TestCase.directExecution tc then runDirect tc
      else
        initialState <- browserExecute screenshot ;;
        if (caching_enabled config && negb skipCache)%bool then
          tryCatch
            (runCachedTest ;; afterCached tc)
            (fallback (executeTest fuel true) initialState)
        else
          log "Skipping cache" ;;
          runLive tc initialState
  end.

(** the body of the loop over [testsToRun] in [executeTestFile]
    (lines 517-555) *)
Definition runTestCase (registry : Registry) (testCase : TestCase.t) : M unit :=
  forEach (callback BeforeEach) (beforeEachFns registry) ;;
  emit (EvTestStart (TestCase.name testCase)) ;;
  startedAt <- gets now ;;
  modify (set_testRun (TestRun.create testCase startedAt)) ;;
  tryCatch
    (onRun TestRun.markRunning ;; executeTest 2 false (* one retry at most *))
    (fun error => log "Handling error for executeTest" ;; throw error) ;;
  r <- gets testRun ;;
  emit (EvTestEnd (TestRun.runId r) (TestRun.status r)) ;;
  forEach (callback AfterEach) (afterEachFns registry) ;;
  testRun <- gets testRun ;;
  TestRunRepository.saveRun testCase testRun ;;
  tryCatch (TestRunRepository.applyRetentionPolicyOf testCase)
    (fun error => log "Failed to apply retention policy").

Definition runTests (registry : Registry) (testsToRun : list TestCase.t) : M unit :=
  log ("Running " ++ Str.ofNat (length testsToRun) ++ " test(s)") ;;
  forEach (runTestCase registry) testsToRun.

End Runner.
End TestRunner.

(** ** Observations on worlds and traces *)

Definition HookKind_eqb (a b : HookKind) : bool :=
  match a, b with
  | DirectFn, DirectFn | BeforeFn, BeforeFn | AfterFn, AfterFn
  | BeforeEach, BeforeEach | AfterEach, AfterEach => true
  | _, _ => false
  end.

(** an attempt of cached replay: the first trace message of [runCachedTest] *)
Definition isReplayAttempt (e : Event) : bool :=
  match e with
  | EvLog m => String.eqb m "Attempting to execute test from cache"
  | _ => false
  end.

Definition isInvoke (k : HookKind) (e : Event) : bool :=
  match e with
  | EvInvoke k' _ => HookKind_eqb k k'
  | _ => false
  end.

Definition isExecute (e : Event) : bool :=
  match e with
  | EvExecute _ => true
  | _ => false
  end.

Definition isWrite (e : Event) : bool :=
  match e with
  | EvWriteFile _ => true
  | _ => false
  end.

Definition count (p : Event -> bool) (tr : list Event) : nat :=
  length (filter p tr).

(** how often an optional hook is invoked when its turn comes *)
Definition hookCalls (hook : option Callback) : nat :=
  match hook with
  | Some _ => 1
  | None => 0
  end.

(** the inputs given to [BrowserTool.execute], most recent first *)
Definition executed (tr : list Event) : list ActionInput :=
  flat_map (fun e => match e with EvExecute i => [i] | _ => [] end) tr.

(** the recorded inputs of a sequence of steps, in order *)
Definition inputsOf (steps : list CacheStep) : list ActionInput :=
  flat_map (fun s => match step_action s with Some a => [input a] | None => [] end) steps.

Section Observations.
Context {P : Platform} {C : Collaborators}.

(** the world an outcome leaves behind *)
Definition worldOf {A} (o : Outcome A) (default : World) : World :=
  match o with
  | Returned _ w => w
  | Threw _ w => w
  | OutOfFuel => default
  end.

Definition terminates {A} (o : Outcome A) : Prop :=
  match o with
  | OutOfFuel => False
  | _ => True
  end.

(** the cache directory after a screenshot of the run of [w] taken at the
    time of [w]: the directory of the run holds the image *)
Definition shot (w : World) : Store :=
  TestRunRepository.writeInto (TestRunRepository.getTestRunDirPath (testRun w))
    (screenshotName (now w))
    (TestRunRepository.mkdir (TestRunRepository.getTestRunDirPath (testRun w)) (store w)).

(** the world in which [executeTest] reaches line 266, after its trace
    message and the initial screenshot that left the page in state [b] *)
Definition entered (w : World) (b : Browser) : World :=
  set_store (shot w)
    (set_page b (record (EvExecute TestRunner.screenshot) (record (EvLog "Executing test") w))).

(** the world in which [executeTest] throws what its initial screenshot
    threw: the directory of the run has been made, no image is in it *)
Definition unseen (w : World) (b : Browser) : World :=
  set_store (TestRunRepository.mkdir (TestRunRepository.getTestRunDirPath (testRun w))
               (store w))
    (set_page b (record (EvExecute TestRunner.screenshot) (record (EvLog "Executing test") w))).

(** whatever its outcome, a computation records exactly [n] events selected
    by [p] *)
Definition adds {A} (p : Event -> bool) (n : nat) (m : M A) : Prop :=
  forall w,
    match m w with
    | Returned _ w' | Threw _ w' => count p (trace w') = (n + count p (trace w))%nat
    | OutOfFuel => True
    end.

(** ... and none of them *)
Definition silent {A} (p : Event -> bool) (m : M A) : Prop := adds p 0 m.

(** whatever its outcome, a computation leaves the world related by [R] to
    the one it started in *)
Definition preserves {A} (R : World -> World -> Prop) (m : M A) : Prop :=
  forall w,
    match m w with
    | Returned _ w' | Threw _ w' => R w w'
    | OutOfFuel => True
    end.

(** the run under execution and the cache directory are the same *)
Definition sameRun (w w' : World) : Prop :=
  testRun w' = testRun w /\ store w' = store w.

(** a computation that never runs out of fuel *)
Definition total {A} (m : M A) : Prop := forall w, terminates (m w).

(** the world in which the loop of [runCachedTest] starts *)
Definition replaying (w : World) : World :=
  record (EvLog "Using cached test run")
    (record (EvLog "Attempting to execute test from cache")
       (record (EvSetGroup GroupCache) w)).

End Observations.

(** the eligibility invariant of the data model, as a proposition *)
Definition Eligible `{Platform} (r : TestRun.t) : Prop :=
  TestRun.status r = passed
  /\ TestRun.version r = VERSION
  /\ TestRun.executedFromCache r = false.


(** ** Scenarios *)

Module Scenario.

Definition sampleCase : TestCase.t :=
  {| TestCase.name := "Test case"; TestCase.filePath := "/test.ts";
     TestCase.identifier := "test-identifier"; TestCase.payload := None;
     TestCase.directExecution := false; TestCase.fn := None;
     TestCase.expectations := []; TestCase.beforeFn := None;
     TestCase.afterFn := None |}.

Definition zeroUsage : TokenUsage :=
  {| completionTokens := 0; promptTokens := 0; totalTokens := 0 |}.

(** a loaded run, as the retention tests build them *)
Definition loaded (id : string) (v : Z) (s : TestStatus) (fromCache : bool) (ts : Z)
  : TestRun.t :=
  {| TestRun.testCase := sampleCase; TestRun.runId := id; TestRun.timestamp := ts;
     TestRun.steps := []; TestRun.tokenUsage := zeroUsage; TestRun.version := v;
     TestRun._executedFromCache := fromCache;
     TestRun.state := {| TestRun.st_status := s;
                         TestRun.st_reason := match s with
                                              | passed | failed => Some "done"
                                              | _ => None
                                              end |} |}.


(** the run of the round-trip scenario: created, marked running, marked
    passed with a reason and token usage, steps appended *)
Definition recorded `{Platform} (tc : TestCase.t) (startedAt : Z) (reason : string)
    (usage : TokenUsage) (steps : list CacheStep) : Result TestRun.t :=
  match TestRun.markRunning (TestRun.create tc startedAt) with
  | Ok r =>
      match TestRun.markPassed reason (Some usage) r with
      | Ok r => Ok (fold_left (fun r s => TestRun.addStep s r) steps r)
      | Err e => Err e
      end
  | Err e => Err e
  end.

(** [TestRun] with another timestamp *)
Definition retimed (f : TestRun.t -> Z) (r : TestRun.t) : TestRun.t :=
  {| TestRun.testCase := TestRun.testCase r; TestRun.runId := TestRun.runId r;
     TestRun.timestamp := f r; TestRun.steps := TestRun.steps r;
     TestRun.tokenUsage := TestRun.tokenUsage r; TestRun.version := TestRun.version r;
     TestRun._executedFromCache := TestRun._executedFromCache r;
     TestRun.state := TestRun.state r |}.

End Scenario.

(** ** A small shop page, used to run the engine on concrete inputs *)

Module Shop.

#[local] Instance platform : Platform :=
  {| VERSION := 2; toISOString := fun _ => "2025-03-01T10:00:00.000Z" |}.

Definition buyButton : string := "<div><button>Buy</button></div>".
Definition sellButton : string := "<div><button>Sell</button></div>".

Definition home : ToolResult :=
  {| output := None;
     window_url := Some "http://localhost:3000/";
     window_title := Some "Shop" |}.

Definition usage42 : TokenUsage :=
  {| completionTokens := 10; promptTokens := 32; totalTokens := 42 |}.

Definition pointer (a : InternalActionEnum) (at_ : option (Z * Z)) (fp : option string)
  : CacheStep :=
  {| reasoning := "recorded";
     step_action := Some {| type := "tool_use"; name := "computer";
                            input := {| action := a; coordinate := at_; payload := "" |} |};
     step_timestamp := 1000;
     result := None;
     extras := Some {| componentStr := fp |} |}.

Definition shotStep : CacheStep := pointer SCREENSHOT None None.
Definition moveStep : CacheStep := pointer MOUSE_MOVE (Some (10, 20)) (Some buyButton).
Definition clickStep : CacheStep := pointer LEFT_CLICK None None.

(** The page state is the markup under the pointer.  Callback 0 returns,
    callback 1 throws [Error("boom")], any other throws the string "oops".
    The Action Decider clicks once; it passes with reason "ok" unless the
    page shows the sell button, where it fails with "no buy button". *)
#[local] Instance site : Collaborators :=
  {| Browser := string;
     invoke := fun cb b =>
       match cb with
       | O => (b, None)
       | S O => (b, Some (ThrownError OtherErrorC "boom"))
       | _ => (b, Some (ThrownValue "oops"))
       end;
     execute := fun _ b => (b, Ok home);
     getNormalizedComponentStringByCoords := fun _ _ b => Ok b;
     goto := fun _ b => (b, None);
     runAction := fun _ _ b =>
       {| ai_page := b;
          ai_steps := [clickStep];
          ai_response :=
            Ok (if String.eqb b sellButton
                then {| response_status := failed; response_reason := "no buy button";
                        usage := usage42 |}
                else {| response_status := passed; response_reason := "ok";
                        usage := usage42 |}) |} |}.

Definition testCase (before after : option Callback) : TestCase.t :=
  {| TestCase.name := "buy a book"; TestCase.filePath := "shop.test.ts";
     TestCase.identifier := "a1b2c3"; TestCase.payload := None;
     TestCase.directExecution := false; TestCase.fn := None;
     TestCase.expectations := []; TestCase.beforeFn := before;
     TestCase.afterFn := after |}.

(** the document of an earlier live run that passed *)
Definition earlier : CacheEntry :=
  {| metadata := {| md_timestamp := 1000; md_version := VNumber 2;
                    md_status := passed; md_reason := Some "ok";
                    md_tokenUsage := usage42; md_runId := "run1_a1b2c3";
                    md_executedFromCache := false |};
     test := {| ct_name := "buy a book"; ct_filePath := "shop.test.ts" |};
     data_steps := Some [shotStep; moveStep; clickStep] |}.

Definition cacheDir : Store :=
  {| files := [("run1_a1b2c3.json", Some earlier)]; dirs := []; locks := [] |}.

(** a fresh run of the test case, marked running *)
Definition started (tc : TestCase.t) : TestRun.t :=
  match TestRun.markRunning (TestRun.create tc 5000) with
  | Ok r => r
  | Err _ => TestRun.create tc 5000
  end.

Definition world (shown : string) (tc : TestCase.t) (s : Store) : World :=
  {| page := shown; testRun := started tc; store := s; now := 5000; trace := [] |}.

Definition cachingOn : ShortestStrictConfig := {| caching_enabled := true |}.
Definition cachingOff : ShortestStrictConfig := {| caching_enabled := false |}.

Definition noHooks : Registry := {| beforeEachFns := []; afterEachFns := [] |}.

End Shop.

(** ** Sequences of method calls on a run *)

Module Lifecycle.

(** a call of one of the mutating methods of [TestRun] *)
Inductive Op :=
| MarkRunning
| MarkPassed (reason : string) (tokenUsage : option TokenUsage)
| MarkPassedFromCache (reason : string)
| MarkFailed (reason : string) (tokenUsage : option TokenUsage)
| AddStep (step : CacheStep).

(** the object after the call; a call that throws does so before any
    assignment and leaves the object as it was *)
Definition apply (op : Op) (r : TestRun.t) : TestRun.t :=
  match op with
  | MarkRunning =>
      match TestRun.markRunning r with Ok r' => r' | Err _ => r end
  | MarkPassed reason usage =>
      match TestRun.markPassed reason usage r with Ok r' => r' | Err _ => r end
  | MarkPassedFromCache reason =>
      match TestRun.markPassedFromCache reason r with Ok r' => r' | Err _ => r end
  | MarkFailed reason usage => TestRun.markFailed reason usage r
  | AddStep step => TestRun.addStep step r
  end.

Definition run (ops : list Op) (r : TestRun.t) : TestRun.t :=
  fold_left (fun r op => apply op r) ops r.

(** pending, then running, then a verdict *)
Definition rank (s : TestStatus) : nat :=
  match s with
  | pending => 0
  | running => 1
  | passed | failed => 2
  end.

(** the steps given to [addStep], in call order *)
Definition added (ops : list Op) : list CacheStep :=
  flat_map (fun op => match op with AddStep s => [s] | _ => [] end) ops.

Definition isMarkPassedFromCache (op : Op) : bool :=
  match op with
  | MarkPassedFromCache _ => true
  | _ => false
  end.

End Lifecycle.

(** ** Further observations *)

Definition isFingerprint (e : Event) : bool :=
  match e with
  | EvFingerprint _ _ => true
  | _ => false
  end.

Definition isRunAction (e : Event) : bool :=
  match e with
  | EvRunAction _ => true
  | _ => false
  end.

Definition isGoto (e : Event) : bool :=
  match e with
  | EvGoto _ => true
  | _ => false
  end.

Definition isTimeout (e : Event) : bool :=
  match e with
  | EvTimeout _ => true
  | _ => false
  end.

(** a step whose replay reads the fingerprint under the pointer *)
Definition isPointerMove (step : CacheStep) : bool :=
  match TestRunner.pointerMoveTarget step with
  | Some _ => true
  | None => false
  end.

(** the steps of a recorded run that a replay goes through *)
Definition replayable (latest : TestRun.t) : list CacheStep :=
  filter (fun s => negb (TestRunner.isScreenshot s)) (TestRun.steps latest).

(** a run carries a verdict *)
Definition hasVerdict (r : TestRun.t) : Prop :=
  TestRun.status r = passed \/ TestRun.status r = failed.

(** ** More of the shop: other cache directories and test cases *)

Module Stock.

(** the document of a passed run that recorded nothing but a screenshot *)
Definition screenshotsOnly : CacheEntry :=
  {| metadata := {| md_timestamp := 1000; md_version := VNumber 2;
                    md_status := passed; md_reason := Some "ok";
                    md_tokenUsage := Shop.usage42; md_runId := "run1_a1b2c3";
                    md_executedFromCache := false |};
     test := {| ct_name := "buy a book"; ct_filePath := "shop.test.ts" |};
     data_steps := Some [Shop.shotStep] |}.

Definition emptyDir : Store := {| files := []; dirs := []; locks := [] |}.

(** a recorded pointer move that carries no [extras], as the steps of the
    test-suite of [TestRun] are built *)
Definition bareMove : CacheStep :=
  {| reasoning := "recorded";
     step_action := Some {| type := "tool_use"; name := "computer";
                            input := {| action := MOUSE_MOVE; coordinate := Some (10, 20);
                                        payload := "" |} |};
     step_timestamp := 1000;
     result := None;
     extras := None |}.

(** the document of a passed run whose pointer move has no [extras] *)
Definition unmarked : CacheEntry :=
  {| metadata := {| md_timestamp := 1000; md_version := VNumber 2;
                    md_status := passed; md_reason := Some "ok";
                    md_tokenUsage := Shop.usage42; md_runId := "run1_a1b2c3";
                    md_executedFromCache := false |};
     test := {| ct_name := "buy a book"; ct_filePath := "shop.test.ts" |};
     data_steps := Some [Shop.shotStep; bareMove; Shop.clickStep] |}.

Definition unmarkedDir : Store :=
  {| files := [("run1_a1b2c3.json", Some unmarked)]; dirs := []; locks := [] |}.

Definition shotsDir : Store :=
  {| files := [("run1_a1b2c3.json", Some screenshotsOnly)]; dirs := []; locks := [] |}.

End Stock.

(** ** The shop on a bad day *)

Module Outage.

(** as [Shop.site], but the browser tool throws on a click *)
#[local] Instance brokenClick : Collaborators :=
  {| Browser := string;
     invoke := fun _ b => (b, None);
     execute := fun i b =>
       match action i with
       | LEFT_CLICK => (b, Err (ThrownError OtherErrorC "element is detached"))
       | _ => (b, Ok Shop.home)
       end;
     getNormalizedComponentStringByCoords := fun _ _ b => Ok b;
     goto := fun _ b => (b, None);
     runAction := fun _ _ b =>
       {| ai_page := b; ai_steps := [];
          ai_response := Ok {| response_status := passed; response_reason := "ok";
                               usage := Shop.usage42 |} |} |}.

Definition world (shown : string) (tc : TestCase.t) (s : Store) : World :=
  {| page := shown; testRun := Shop.started tc; store := s; now := 5000; trace := [] |}.

End Outage.

(** the names of the files in the artifact directory [dir] *)
Definition imagesIn (dir : string) (s : Store) : list string :=
  flat_map (fun d => if String.eqb (fst d) dir then snd d else []) (dirs s).

(** from [s] to [s'] the cache entries and the locks are the same; of the
    artifact directories only [dir] can be new or have changed, and no file
    of it is gone *)
Definition sameEntries (dir : string) (s s' : Store) : Prop :=
  files s' = files s
  /\ locks s' = locks s
  /\ TestRunRepository.otherDirs dir (dirs s') = TestRunRepository.otherDirs dir (dirs s)
  /\ incl (imagesIn dir s) (imagesIn dir s').

(** the run under execution is the same object, with steps appended at most,
    and the cache directory holds the same entries: only the directory of
    the run can have changed *)
Definition sameTest {C : Collaborators} (w w' : World) : Prop :=
  sameEntries (TestRunRepository.getTestRunDirPath (testRun w)) (store w) (store w')
  /\ TestRun.testCase (testRun w') = TestRun.testCase (testRun w)
  /\ TestRun.runId (testRun w') = TestRun.runId (testRun w)
  /\ TestRun.timestamp (testRun w') = TestRun.timestamp (testRun w)
  /\ TestRun.version (testRun w') = TestRun.version (testRun w)
  /\ exists more,
       TestRun.steps (testRun w') = (TestRun.steps (testRun w) ++ more)%list.

(** what a direct test function throws on the page of [w], if anything *)
Definition directThrown {C : Collaborators} (tc : TestCase.t) (w : World) : option Thrown :=
  match TestCase.fn tc with
  | Some cb => snd (invoke cb (page w))
  | None => None
  end.

Module Direct.

(** a test registered with a function only: [test(fn)] *)
Definition testCase (fn : option Callback) : TestCase.t :=
  {| TestCase.name := "Direct Test #1"; TestCase.filePath := "shop.test.ts";
     TestCase.identifier := "d4e5f6"; TestCase.payload := None;
     TestCase.directExecution := true; TestCase.fn := fn;
     TestCase.expectations := []; TestCase.beforeFn := None;
     TestCase.afterFn := None |}.

End Direct.

Definition isTestStart (e : Event) : bool :=
  match e with
  | EvTestStart _ => true
  | _ => false
  end.

Definition isTestEnd (e : Event) : bool :=
  match e with
  | EvTestEnd _ _ => true
  | _ => false
  end.

(** the events [executeTest] can record: trace messages, log groups, delays,
    browser and Action Decider calls, and the hooks of the test itself *)
Definition runnerEvent (e : Event) : bool :=
  match e with
  | EvLog _ | EvSetGroup _ | EvResetGroup | EvTimeout _ | EvExecute _
  | EvFingerprint _ _ | EvGoto _ | EvRunAction _ => true
  | EvInvoke k _ =>
      match k with
      | DirectFn | BeforeFn | AfterFn => true
      | BeforeEach | AfterEach => false
      end
  | _ => false
  end.

(** the run [executeTestFile] hands to [executeTest]: created at [startedAt]
    and marked running *)
Definition freshRun `{Platform} (tc : TestCase.t) (startedAt : Z) : TestRun.t :=
  TestRun.set_state {| TestRun.st_status := running; TestRun.st_reason := None |}
    (TestRun.create tc startedAt).

Module Overload.

(** as [Shop.site], but the Action Decider is unavailable *)
#[local] Instance aiDown : Collaborators :=
  {| Browser := string;
     invoke := fun cb b =>
       match cb with
       | O => (b, None)
       | _ => (b, Some (ThrownError OtherErrorC "boom"))
       end;
     execute := fun _ b => (b, Ok Shop.home);
     getNormalizedComponentStringByCoords := fun _ _ b => Ok b;
     goto := fun _ b => (b, None);
     runAction := fun _ _ b =>
       {| ai_page := b; ai_steps := [];
          ai_response := Err (ThrownError OtherErrorC "overloaded") |} |}.

Definition world (shown : string) (tc : TestCase.t) (s : Store) : World :=
  {| page := shown; testRun := Shop.started tc; store := s; now := 5000; trace := [] |}.

End Overload.

Module Hooks.

(** three beforeEach hooks, the second of which throws on [Shop.site] *)
Definition secondThrows : Registry :=
  {| beforeEachFns := [0; 1; 0]%nat; afterEachFns := [0%nat] |}.

End Hooks.

(** ** Registration of tests and hooks ([src/index.ts]) *)

Module Registration.

(** [/\s/] on a code unit; strings are sequences of code units below 256 *)
Definition isSpace (c : ascii) : bool :=
  match nat_of_ascii c with
  | 9%nat | 10%nat | 11%nat | 12%nat | 13%nat | 32%nat | 160%nat => true
  | _ => false
  end.

(** [s.replace(/\s+/g, " ")]: every maximal run of white space becomes one
    blank; [inRun] tells that the code unit before was white space *)
Fixpoint collapse (inRun : bool) (s : string) : string :=
  match s with
  | EmptyString => EmptyString
  | String c r =>
      if isSpace c
      then if inRun then collapse true r else String " " (collapse true r)
      else String c (collapse false r)
  end.

Fixpoint trimStart (s : string) : string :=
  match s with
  | String c r => if isSpace c then trimStart r else s
  | EmptyString => EmptyString
  end.

Fixpoint trimEnd (s : string) : string :=
  match s with
  | EmptyString => EmptyString
  | String c r =>
      match trimEnd r with
      | EmptyString => if isSpace c then EmptyString else String c EmptyString
      | t => String c t
      end
  end.

(** [s.trim()] *)
Definition trim (s : string) : string := trimEnd (trimStart s).

(** [normalizeName] of [createTestChain] (line 129) *)
Definition normalizeName (name : string) : string := trim (collapse false name).

(** the argument of [createTestCase]; [in_directExecution] is [true] and
    [in_expectations] is given where the call passes the property *)
Record TestCaseInput := {
  in_name : string;
  in_filePath : string;
  in_payload : option string;
  in_directExecution : bool;
  in_fn : option Callback;
  in_expectations : option (list Expectation.t)
}.

(** [createTestCase] of [core/runner/test-case], which is not among the
    sources: the registration code is modelled for any such function *)
Class TestCases := {
  createTestCase : TestCaseInput -> TestCase.t
}.

(** The registry [global.__shortest__.registry].  Test cases are objects:
    [heap] holds them by reference, and the [tests] map and
    [currentFileTests] hold references, so that what a chain changes in a
    test case is seen through both. *)
Record t := {
  heap : list TestCase.t;
  tests : list (string * list nat);
  currentFileTests : list nat;
  currentFilePath : string;
  beforeAllFns : list Callback;
  afterAllFns : list Callback;
  beforeEachFns : list Callback;
  afterEachFns : list Callback;
  directTestCount : nat
}.

(** the state of a process that has just loaded the module (lines 30-43) *)
Definition initial : t :=
  {| heap := []; tests := []; currentFileTests := []; currentFilePath := "";
     beforeAllFns := []; afterAllFns := []; beforeEachFns := []; afterEachFns := [];
     directTestCount := 0 |}.

(** [registry.tests.get(name)] *)
Fixpoint mapGet (key : string) (m : list (string * list nat)) : option (list nat) :=
  match m with
  | [] => None
  | (k, v) :: rest => if String.eqb k key then Some v else mapGet key rest
  end.

(** [registry.tests.set(name, value)]: a key already present keeps its place *)
Fixpoint mapSet (key : string) (value : list nat) (m : list (string * list nat))
  : list (string * list nat) :=
  match m with
  | [] => [(key, value)]
  | (k, v) :: rest =>
      if String.eqb k key then (k, value) :: rest else (k, v) :: mapSet key value rest
  end.

(** the test case a reference points to *)
Definition deref (r : t) (ref : nat) : option TestCase.t := nth_error (heap r) ref.

(** the test cases of [currentFileTests], in order *)
Definition currentTests (r : t) : list TestCase.t :=
  flat_map (fun ref => match deref r ref with Some tc => [tc] | None => [] end)
           (currentFileTests r).

(** a new object; its reference is the next free index *)
Definition alloc (tc : TestCase.t) (r : t) : nat * t :=
  (length (heap r),
   {| heap := heap r ++ [tc]; tests := tests r;
      currentFileTests := currentFileTests r; currentFilePath := currentFilePath r;
      beforeAllFns := beforeAllFns r; afterAllFns := afterAllFns r;
      beforeEachFns := beforeEachFns r; afterEachFns := afterEachFns r;
      directTestCount := directTestCount r |}).

(** lines 139-140 and 192-193: [tests.set(key, [...(tests.get(key) || []), testCase])] *)
Definition enter (key : string) (ref : nat) (r : t) : t :=
  let existingTests := match mapGet key (tests r) with Some l => l | None => [] end in
  {| heap := heap r; tests := mapSet key (existingTests ++ [ref]) (tests r);
     currentFileTests := currentFileTests r; currentFilePath := currentFilePath r;
     beforeAllFns := beforeAllFns r; afterAllFns := afterAllFns r;
     beforeEachFns := beforeEachFns r; afterEachFns := afterEachFns r;
     directTestCount := directTestCount r |}.

(** [registry.currentFileTests.push(testCase)] *)
Definition push (ref : nat) (r : t) : t :=
  {| heap := heap r; tests := tests r;
     currentFileTests := currentFileTests r ++ [ref];
     currentFilePath := currentFilePath r;
     beforeAllFns := beforeAllFns r; afterAllFns := afterAllFns r;
     beforeEachFns := beforeEachFns r; afterEachFns := afterEachFns r;
     directTestCount := directTestCount r |}.

(** [registry.directTestCount++] *)
Definition count (r : t) : t :=
  {| heap := heap r; tests := tests r;
     currentFileTests := currentFileTests r; currentFilePath := currentFilePath r;
     beforeAllFns := beforeAllFns r; afterAllFns := afterAllFns r;
     beforeEachFns := beforeEachFns r; afterEachFns := afterEachFns r;
     directTestCount := S (directTestCount r) |}.

Fixpoint mapAt {A} (n : nat) (f : A -> A) (l : list A) : list A :=
  match l, n with
  | [], _ => []
  | x :: rest, O => f x :: rest
  | x :: rest, S n => x :: mapAt n f rest
  end.

(** an assignment to a property of the object behind a reference *)
Definition update (ref : nat) (f : TestCase.t -> TestCase.t) (r : t) : t :=
  {| heap := mapAt ref f (heap r);
     tests := tests r;
     currentFileTests := currentFileTests r; currentFilePath := currentFilePath r;
     beforeAllFns := beforeAllFns r; afterAllFns := afterAllFns r;
     beforeEachFns := beforeEachFns r; afterEachFns := afterEachFns r;
     directTestCount := directTestCount r |}.

(** the first argument of [test]: a name, an array of names or a function *)
Inductive NameOrFn :=
| Name (name : string)
| Names (names : list string)
| Body (fn : Callback).

(** the second argument: absent (or falsy), a function, or another value,
    given as [JSON.stringify] prints it *)
Inductive PayloadOrFn :=
| NoPayload
| PayloadFn (fn : Callback)
| Payload (json : string).

(** [typeof payloadOrFn === "function" ? undefined : payloadOrFn] *)
Definition payloadOf (payloadOrFn : PayloadOrFn) : option string :=
  match payloadOrFn with
  | Payload json => Some json
  | _ => None
  end.

(** [typeof payloadOrFn === "function" ? payloadOrFn : fn] *)
Definition fnOf (payloadOrFn : PayloadOrFn) (fn : option Callback) : option Callback :=
  match payloadOrFn with
  | PayloadFn f => Some f
  | _ => fn
  end.

(** what [test(...)] returns: the chain of a direct test, whose methods
    throw, or the chain that closes over a test case *)
Inductive TestChain :=
| DirectChain
| Chain (testCase : nat).

Section Api.
Context {T : TestCases}.

(** the callback of [nameOrFn.map] (lines 132-143) *)
Definition registerName (name : string) (r : t) : (nat * TestCase.t) * t :=
  let testCase :=
    createTestCase {| in_name := normalizeName name; in_filePath := currentFilePath r;
                      in_payload := None; in_directExecution := false; in_fn := None;
                      in_expectations := Some [] |} in
  let (ref, r) := alloc testCase r in
  ((ref, testCase), push ref (enter name ref r)).

Fixpoint registerNames (names : list string) (r : t) : list (nat * TestCase.t) * t :=
  match names with
  | [] => ([], r)
  | name :: rest =>
      let (x, r) := registerName name r in
      let (xs, r) := registerNames rest r in
      (x :: xs, r)
  end.

(** lines 183-231: the test registered under a name *)
Definition registerNamed (nameOrFn : string) (payloadOrFn : PayloadOrFn)
    (fn : option Callback) (r : t) : TestChain * t :=
  let name := normalizeName nameOrFn in
  let testCase :=
    createTestCase {| in_name := name; in_filePath := currentFilePath r;
                      in_payload := payloadOf payloadOrFn; in_directExecution := false;
                      in_fn := fnOf payloadOrFn fn; in_expectations := Some [] |} in
  let (ref, r) := alloc testCase r in
  (Chain ref, push ref (enter name ref r)).

(** [createTestChain(nameOrFn, payloadOrFn, fn)]; the call of line 150 has a
    string for its first argument and so is the third branch *)
Definition createTestChain (nameOrFn : NameOrFn) (payloadOrFn : PayloadOrFn)
    (fn : option Callback) (r : t) : Result TestChain * t :=
  match nameOrFn with
  | Names names =>
      let (created, r) := registerNames names r in
      match List.last (List.map Some created) None with
      | None =>
          (Err (ThrownError TypeErrorC "Cannot read properties of undefined (reading 'name')"),
           r)
      | Some (_, lastTest) =>
          if negb (Str.truthy (TestCase.name lastTest))
          then (Err (ShortestError "Test name is required"), r)
          else let (chain, r) := registerNamed (TestCase.name lastTest) payloadOrFn fn r in
               (Ok chain, r)
      end
  | Body fn =>
      let r := count r in
      let testCase :=
        createTestCase {| in_name := "Direct Test #" ++ Str.ofNat (directTestCount r);
                          in_filePath := currentFilePath r;
                          in_payload := None; in_directExecution := true;
                          in_fn := Some fn; in_expectations := None |} in
      let (ref, r) := alloc testCase r in
      (Ok DirectChain, push ref r)
  | Name name =>
      let (chain, r) := registerNamed name payloadOrFn fn r in
      (Ok chain, r)
  end.

End Api.

(** the first argument of [expect] and of the hook registrations *)
Inductive StringOrFn :=
| IsString (s : string)
| IsFn (fn : Callback).

Definition pushExpectation (e : Expectation.t) (tc : TestCase.t) : TestCase.t :=
  {| TestCase.name := TestCase.name tc; TestCase.filePath := TestCase.filePath tc;
     TestCase.identifier := TestCase.identifier tc; TestCase.payload := TestCase.payload tc;
     TestCase.directExecution := TestCase.directExecution tc; TestCase.fn := TestCase.fn tc;
     TestCase.expectations := (TestCase.expectations tc ++ [e])%list;
     TestCase.beforeFn := TestCase.beforeFn tc; TestCase.afterFn := TestCase.afterFn tc |}.

Definition setBeforeFn (fn : Callback) (tc : TestCase.t) : TestCase.t :=
  {| TestCase.name := TestCase.name tc; TestCase.filePath := TestCase.filePath tc;
     TestCase.identifier := TestCase.identifier tc; TestCase.payload := TestCase.payload tc;
     TestCase.directExecution := TestCase.directExecution tc; TestCase.fn := TestCase.fn tc;
     TestCase.expectations := TestCase.expectations tc;
     TestCase.beforeFn := Some fn; TestCase.afterFn := TestCase.afterFn tc |}.

Definition setAfterFn (fn : Callback) (tc : TestCase.t) : TestCase.t :=
  {| TestCase.name := TestCase.name tc; TestCase.filePath := TestCase.filePath tc;
     TestCase.identifier := TestCase.identifier tc; TestCase.payload := TestCase.payload tc;
     TestCase.directExecution := TestCase.directExecution tc; TestCase.fn := TestCase.fn tc;
     TestCase.expectations := TestCase.expectations tc;
     TestCase.beforeFn := TestCase.beforeFn tc; TestCase.afterFn := Some fn |}.

(** [chain.expect(descriptionOrFn, payloadOrFn, fn)] (lines 164-168, 197-220) *)
Definition expect (chain : TestChain) (descriptionOrFn : StringOrFn)
    (payloadOrFn : PayloadOrFn) (fn : option Callback) (r : t) : Result TestChain * t :=
  match chain with
  | DirectChain =>
      (Err (ShortestError "expect() cannot be called on direct execution test"), r)
  | Chain testCase =>
      match descriptionOrFn with
      | IsFn f =>
          (Ok chain,
           update testCase
             (pushExpectation {| Expectation.description := None;
                                 Expectation.payload := None;
                                 Expectation.fn := Some f |}) r)
      | IsString description =>
          (Ok chain,
           update testCase
             (pushExpectation {| Expectation.description := Some description;
                                 Expectation.payload := payloadOf payloadOrFn;
                                 Expectation.fn := fnOf payloadOrFn fn |}) r)
      end
  end.

(** [chain.before(fn)] (lines 174-178, 221-224) *)
Definition before (chain : TestChain) (fn : Callback) (r : t) : Result TestChain * t :=
  match chain with
  | DirectChain =>
      (Err (ShortestError "before() cannot be called on direct execution test"), r)
  | Chain testCase => (Ok chain, update testCase (setBeforeFn fn) r)
  end.

(** [chain.after(fn)] (lines 169-173, 225-228) *)
Definition after (chain : TestChain) (fn : Callback) (r : t) : Result TestChain * t :=
  match chain with
  | DirectChain =>
      (Err (ShortestError "after() cannot be called on direct execution test"), r)
  | Chain testCase => (Ok chain, update testCase (setAfterFn fn) r)
  end.

(** a call of a chain method *)
Inductive ChainCall :=
| Expect (descriptionOrFn : StringOrFn) (payloadOrFn : PayloadOrFn) (fn : option Callback)
| Before (fn : Callback)
| After (fn : Callback).

Definition call (c : ChainCall) (chain : TestChain) (r : t) : Result TestChain * t :=
  match c with
  | Expect descriptionOrFn payloadOrFn fn => expect chain descriptionOrFn payloadOrFn fn r
  | Before fn => before chain fn r
  | After fn => after chain fn r
  end.

(** [chain.m1(...).m2(...) ...]: the calls in order, up to the first that throws *)
Fixpoint calls (cs : list ChainCall) (chain : TestChain) (r : t) : Result TestChain * t :=
  match cs with
  | [] => (Ok chain, r)
  | c :: rest =>
      match call c chain r with
      | (Ok chain, r) => calls rest chain r
      | (Err e, r) => (Err e, r)
      end
  end.

(** what a sequence of chain calls does to the test case of the chain *)
Definition effect (c : ChainCall) (tc : TestCase.t) : TestCase.t :=
  match c with
  | Expect (IsFn f) _ _ =>
      pushExpectation {| Expectation.description := None; Expectation.payload := None;
                         Expectation.fn := Some f |} tc
  | Expect (IsString description) payloadOrFn fn =>
      pushExpectation {| Expectation.description := Some description;
                         Expectation.payload := payloadOf payloadOrFn;
                         Expectation.fn := fnOf payloadOrFn fn |} tc
  | Before fn => setBeforeFn fn tc
  | After fn => setAfterFn fn tc
  end.

(** [test.beforeAll], [test.afterAll], [test.beforeEach], [test.afterEach]
    (lines 241-256): only a function is registered *)
Definition beforeAll (nameOrFn : StringOrFn) (r : t) : t :=
  match nameOrFn with
  | IsFn hook =>
      {| heap := heap r; tests := tests r;
         currentFileTests := currentFileTests r; currentFilePath := currentFilePath r;
         beforeAllFns := beforeAllFns r ++ [hook]; afterAllFns := afterAllFns r;
         beforeEachFns := beforeEachFns r; afterEachFns := afterEachFns r;
         directTestCount := directTestCount r |}
  | IsString _ => r
  end.

Definition afterAll (nameOrFn : StringOrFn) (r : t) : t :=
  match nameOrFn with
  | IsFn hook =>
      {| heap := heap r; tests := tests r;
         currentFileTests := currentFileTests r; currentFilePath := currentFilePath r;
         beforeAllFns := beforeAllFns r; afterAllFns := afterAllFns r ++ [hook];
         beforeEachFns := beforeEachFns r; afterEachFns := afterEachFns r;
         directTestCount := directTestCount r |}
  | IsString _ => r
  end.

Definition beforeEach (nameOrFn : StringOrFn) (r : t) : t :=
  match nameOrFn with
  | IsFn hook =>
      {| heap := heap r; tests := tests r;
         currentFileTests := currentFileTests r; currentFilePath := currentFilePath r;
         beforeAllFns := beforeAllFns r; afterAllFns := afterAllFns r;
         beforeEachFns := beforeEachFns r ++ [hook]; afterEachFns := afterEachFns r;
         directTestCount := directTestCount r |}
  | IsString _ => r
  end.

Definition afterEach (nameOrFn : StringOrFn) (r : t) : t :=
  match nameOrFn with
  | IsFn hook =>
      {| heap := heap r; tests := tests r;
         currentFileTests := currentFileTests r; currentFilePath := currentFilePath r;
         beforeAllFns := beforeAllFns r; afterAllFns := afterAllFns r;
         beforeEachFns := beforeEachFns r; afterEachFns := afterEachFns r ++ [hook];
         directTestCount := directTestCount r |}
  | IsString _ => r
  end.

(** ** Shapes of names *)

(** every white-space code unit of [s] is a blank that is followed by a
    code unit that is not white space *)
Fixpoint spaced (s : string) : bool :=
  match s with
  | EmptyString => true
  | String c r =>
      if isSpace c
      then Ascii.eqb c " "
           && match r with
              | String d _ => negb (isSpace d)
              | EmptyString => false
              end
           && spaced r
      else spaced r
  end.

(** [s] is one word, or words separated by single blanks *)
Definition tidy (s : string) : bool :=
  match s with
  | String c _ => negb (isSpace c) && spaced s
  | EmptyString => true
  end.

(** the code units of [s] that are not white space *)
Fixpoint letters (s : string) : string :=
  match s with
  | EmptyString => EmptyString
  | String c r => if isSpace c then letters r else String c (letters r)
  end.

(** [s] does not start with white space *)
Definition headed (s : string) : bool :=
  match s with
  | String c _ => negb (isSpace c)
  | EmptyString => true
  end.

(** every white-space code unit of [s] is a blank that is not followed by
    white space *)
Fixpoint single (s : string) : bool :=
  match s with
  | EmptyString => true
  | String c r =>
      (if isSpace c then Ascii.eqb c " " && headed r else true) && single r
  end.

(** ** Test files as sequences of registrations *)

(** a top-level statement of a test file: [test(...)] followed by the calls
    chained on its result, or the registration of a hook *)
Inductive Statement :=
| Test (nameOrFn : NameOrFn) (payloadOrFn : PayloadOrFn) (fn : option Callback)
       (chained : list ChainCall)
| BeforeAll (nameOrFn : StringOrFn)
| AfterAll (nameOrFn : StringOrFn)
| BeforeEach (nameOrFn : StringOrFn)
| AfterEach (nameOrFn : StringOrFn).

Definition statement `{TestCases} (s : Statement) (r : t) : option Thrown * t :=
  match s with
  | Test nameOrFn payloadOrFn fn chained =>
      match createTestChain nameOrFn payloadOrFn fn r with
      | (Ok chain, r) =>
          match calls chained chain r with
          | (Ok _, r) => (None, r)
          | (Err e, r) => (Some e, r)
          end
      | (Err e, r) => (Some e, r)
      end
  | BeforeAll x => (None, beforeAll x r)
  | AfterAll x => (None, afterAll x r)
  | BeforeEach x => (None, beforeEach x r)
  | AfterEach x => (None, afterEach x r)
  end.

(** the statements in order, up to the first that throws *)
Fixpoint load `{TestCases} (script : list Statement) (r : t) : option Thrown * t :=
  match script with
  | [] => (None, r)
  | s :: rest =>
      match statement s r with
      | (None, r) => load rest r
      | (Some e, r) => (Some e, r)
      end
  end.

(** the number of test cases a statement adds to the file when it does not
    throw *)
Definition registered (s : Statement) : nat :=
  match s with
  | Test (Names names) _ _ _ => length names + 1
  | Test _ _ _ _ => 1
  | _ => 0
  end.

Definition isDirectTest (s : Statement) : bool :=
  match s with
  | Test (Body _) _ _ _ => true
  | _ => false
  end.

(** every reference of the registry points to an object, no test case is
    listed twice in [currentFileTests], and every test case entered in the
    [tests] map is listed in [currentFileTests] *)
Definition wellFormed (r : t) : Prop :=
  (forall ref, In ref (currentFileTests r) -> ref < length (heap r))%nat
  /\ NoDup (currentFileTests r)
  /\ (forall key refs ref,
        In (key, refs) (tests r) -> In ref refs -> In ref (currentFileTests r)).

End Registration.

(** ** A small test file *)

Module Suite.

(** a [createTestCase] that copies its argument; the identifier is made of
    the name and the file path *)
#[local] Instance plain : Registration.TestCases :=
  {| Registration.createTestCase := fun input =>
       {| TestCase.name := Registration.in_name input;
          TestCase.filePath := Registration.in_filePath input;
          TestCase.identifier :=
            Registration.in_name input ++ "@" ++ Registration.in_filePath input;
          TestCase.payload := Registration.in_payload input;
          TestCase.directExecution := Registration.in_directExecution input;
          TestCase.fn := Registration.in_fn input;
          TestCase.expectations :=
            match Registration.in_expectations input with
            | Some l => l
            | None => []
            end;
          TestCase.beforeFn := None;
          TestCase.afterFn := None |} |}.

(** the registry when [shop.test.ts] starts loading *)
Definition opened : Registration.t :=
  {| Registration.heap := []; Registration.tests := [];
     Registration.currentFileTests := [];
     Registration.currentFilePath := "shop.test.ts";
     Registration.beforeAllFns := []; Registration.afterAllFns := [];
     Registration.beforeEachFns := []; Registration.afterEachFns := [];
     Registration.directTestCount := 0 |}.

(** [test.beforeEach(fn0); test("buy  a book").expect("the cart shows it").after(fn0);
    test(fn2); test(["log in", "log out"], fn0)] *)
Definition script : list Registration.Statement :=
  [ Registration.BeforeEach (Registration.IsFn 0%nat);
    Registration.Test (Registration.Name "buy  a book") Registration.NoPayload None
      [ Registration.Expect (Registration.IsString "the cart shows it")
          Registration.NoPayload None;
        Registration.After 0%nat ];
    Registration.Test (Registration.Body 2%nat) Registration.NoPayload None [];
    Registration.Test (Registration.Names ["log in"; "log out"])
      (Registration.PayloadFn 0%nat) None [] ].

End Suite.

(** ** Selection of tests by line number ([filterTestsByLineNumber]) *)

Module LineFilter.

(** an entry of the array returned by [parseShortestTestFile], which is not
    among the sources *)
Record TestLocation := {
  testName : string;
  startLine : Z;
  endLine : Z
}.

(** [/[.*+?^${}()|[\]\\]/] *)
Definition isSpecial (c : ascii) : bool :=
  match nat_of_ascii c with
  | 46%nat (* . *) | 42%nat (* * *) | 43%nat (* + *) | 63%nat (* ? *)
  | 94%nat (* ^ *) | 36%nat (* $ *) | 123%nat (* { *) | 125%nat (* } *)
  | 40%nat (* ( *) | 41%nat (* ) *) | 124%nat (* | *) | 91%nat (* [ *)
  | 93%nat (* ] *) | 92%nat (* \ *) => true
  | _ => false
  end.

Definition backslash : ascii := ascii_of_nat 92.

(** [escapeRegex]: every special character gets a backslash in front *)
Fixpoint escapeRegex (str : string) : string :=
  match str with
  | EmptyString => EmptyString
  | String c r =>
      if isSpecial c
      then String backslash (String c (escapeRegex r))
      else String c (escapeRegex r)
  end.

(** [s.replace(new RegExp(p, "g"), x)] for a pattern [p] that matches
    literally and a replacement [x] without [$]: the occurrences of [p] are
    replaced from left to right, without overlap; [skip] counts the code
    units of an occurrence that are still to be passed over.  The empty
    pattern matches before every code unit and at the end. *)
Fixpoint replaceFrom (p x : string) (skip : nat) (s : string) : string :=
  match s with
  | EmptyString =>
      match skip, p with
      | O, EmptyString => x
      | _, _ => EmptyString
      end
  | String c r =>
      match skip with
      | S k => replaceFrom p x k r
      | O =>
          if String.prefix p s
          then match String.length p with
               | O => x ++ String c (replaceFrom p x 0 r)
               | S k => x ++ replaceFrom p x k r
               end
          else String c (replaceFrom p x 0 r)
      end
  end.

Definition replaceAll (p x s : string) : string := replaceFrom p x 0 s.

Definition TEMP_TOKEN : string := "##PLACEHOLDER##".

(** The regular expressions the filter builds are made of literal
    characters (plain, or special ones behind a backslash) and of [.*]. *)
Inductive Token :=
| Lit (c : ascii)
| AnyStar.

(** the pattern of [new RegExp(pattern)], read from left to right; [None]
    for a pattern outside this fragment *)
Fixpoint parse (pattern : string) : option (list Token) :=
  match pattern with
  | EmptyString => Some []
  | String c r =>
      if Ascii.eqb c backslash then
        match r with
        | String d r' =>
            if isSpecial d then option_map (cons (Lit d)) (parse r') else None
        | EmptyString => None
        end
      else if (Ascii.eqb c "." && String.prefix "*" r)%bool then
        match r with
        | String _ r' => option_map (cons AnyStar) (parse r')
        | EmptyString => None
        end
      else if isSpecial c then None
      else option_map (cons (Lit c)) (parse r)
  end.

(** [.] matches everything but a line terminator *)
Definition isLineTerminator (c : ascii) : bool :=
  match nat_of_ascii c with
  | 10%nat | 13%nat => true
  | _ => false
  end.

(** [new RegExp("^" + pattern + "$").test(s)] *)
Fixpoint matches (pattern : list Token) : string -> bool :=
  match pattern with
  | [] => fun s => String.eqb s ""
  | Lit c :: rest =>
      fun s =>
        match s with
        | String d r => Ascii.eqb c d && matches rest r
        | EmptyString => false
        end
  | AnyStar :: rest =>
      fix star (s : string) : bool :=
        matches rest s
        || match s with
           | String d r => negb (isLineTerminator d) && star r
           | EmptyString => false
           end
  end.

Section Filter.
(** [EXPRESSION_PLACEHOLDER] of the test-file parser *)
Variable EXPRESSION_PLACEHOLDER : string.

(** lines 606-613: the pattern made from the name of a location *)
Definition patternOf (locationName : string) : string :=
  let pattern := replaceAll EXPRESSION_PLACEHOLDER TEMP_TOKEN locationName in
  let pattern := escapeRegex pattern in
  replaceAll TEMP_TOKEN ".*" pattern.

(** lines 614-616 *)
Definition patternMatches (locationName testNameNormalized : string) : bool :=
  match parse (patternOf locationName) with
  | Some regex => matches regex testNameNormalized
  | None => false
  end.

(** lines 599-618: the location of a test, by its exact name first and by
    pattern otherwise *)
Definition locate (testLocations : list TestLocation) (name : string)
  : option TestLocation :=
  let testNameNormalized := Registration.trim name in
  match find (fun location => String.eqb (testName location) testNameNormalized)
             testLocations with
  | Some location => Some location
  | None =>
      find (fun location => patternMatches (testName location) testNameNormalized)
           testLocations
  end.

(** [filterTestsByLineNumber(tests, file, lineNumber)], with
    [testLocations] what [parseShortestTestFile(file)] returns *)
Definition filterTestsByLineNumber (tests : list TestCase.t)
    (testLocations : list TestLocation) (lineNumber : Z) : list TestCase.t :=
  filter (fun test =>
            match locate testLocations (TestCase.name test) with
            | None => false
            | Some testLocation =>
                (startLine testLocation <=? lineNumber)
                && (lineNumber <=? endLine testLocation)
            end)
         tests.

End Filter.

(** no code unit of [s] is a line terminator *)
Fixpoint oneLine (s : string) : bool :=
  match s with
  | EmptyString => true
  | String c r => negb (isLineTerminator c) && oneLine r
  end.

(** the literal pattern of a string *)
Fixpoint literal (s : string) : list Token :=
  match s with
  | EmptyString => []
  | String c r => Lit c :: literal r
  end.

(** no code unit of [s] is special *)
Fixpoint plain (s : string) : bool :=
  match s with
  | EmptyString => true
  | String c r => negb (isSpecial c) && plain r
  end.

End LineFilter.

(** ** Test files ([execute], [executeTestFile]) *)

Module Files.

(** calls of the reporter other than [onTestStart] and [onTestEnd], which
    are events of the world *)
Inductive Report :=
| ReportError (category message : string)
| OnRunStart (filesCount : nat)
| OnFileStart (filePath : string) (testsCount : nat)
| OnFileEnd (filePath : string) (status : TestStatus) (reason : string)
| OnRunEnd.

Inductive FileEvent :=
| Reported (r : Report)
| Compiled (filePath : string)
| Imported (compiledPath : string)
| Launched
| Closed
| InvokedAll (before : bool) (hook : Callback).

(** What the runner does not define itself: the working directory, [glob],
    the compiler, the dynamic [import] of a compiled test file (which runs
    its registrations), the test-file parser, the browser manager, and of
    [utils/errors] the function [asShortestError] and the classes that
    extend [ShortestError]; [allTestsPassed] is the answer of the reporter
    after the reports and the events it has seen. *)
Class Harness {C : Collaborators} := {
  cwd : string;
  glob : string -> Result (list string);
  compileFile : string -> Result string;
  importFile : string -> Registration.t -> option Thrown * Registration.t;
  parseShortestTestFile : string -> Result (list LineFilter.TestLocation);
  EXPRESSION_PLACEHOLDER : string;
  launch : Browser -> Browser * option Thrown;
  close : Browser -> Browser * option Thrown;
  asShortestError : Thrown -> Thrown;
  extendsShortestError : ErrorClass -> bool;
  allTestsPassed : list FileEvent -> list Event -> bool
}.

Section Runner.
Context {P : Platform} {C : Collaborators} {H : Harness}.
Variable config : ShortestStrictConfig.

(** The runner and the registry: [journal] lists the file-level events,
    most recent first; [testFileContext] is the field of that name, holding
    the number of the launch whose page it was made from; [launches] counts
    the browser contexts launched so far. *)
Record Session := {
  world : World;
  registry : Registration.t;
  journal : list FileEvent;
  testFileContext : option nat;
  launches : nat
}.

Inductive FileOutcome (A : Type) :=
| Done (a : A) (s : Session)
| Failed (e : Thrown) (s : Session)
| Stuck.
Arguments Done {A} a s.
Arguments Failed {A} e s.
Arguments Stuck {A}.

Definition F (A : Type) := Session -> FileOutcome A.

Definition fret {A} (a : A) : F A := fun s => Done a s.

Definition fbind {A B} (m : F A) (k : A -> F B) : F B :=
  fun s =>
    match m s with
    | Done a s' => k a s'
    | Failed e s' => Failed e s'
    | Stuck => Stuck
    end.

Definition fthrow {A} (e : Thrown) : F A := fun s => Failed e s.

Definition ftryCatch {A} (m : F A) (h : Thrown -> F A) : F A :=
  fun s =>
    match m s with
    | Failed e s' => h e s'
    | o => o
    end.

Definition ftryFinally {A} (m : F A) (f : F unit) : F A :=
  fun s =>
    match m s with
    | Done a s' => fbind f (fun _ => fret a) s'
    | Failed e s' => fbind f (fun _ => fthrow e) s'
    | Stuck => Stuck
    end.

Definition set_world (w : World) (s : Session) : Session :=
  {| world := w; registry := registry s; journal := journal s;
     testFileContext := testFileContext s; launches := launches s |}.

Definition set_registry (r : Registration.t) (s : Session) : Session :=
  {| world := world s; registry := r; journal := journal s;
     testFileContext := testFileContext s; launches := launches s |}.

Definition note (e : FileEvent) (s : Session) : Session :=
  {| world := world s; registry := registry s; journal := e :: journal s;
     testFileContext := testFileContext s; launches := launches s |}.

(** a computation of the per-test engine, run on the world of the session *)
Definition lift {A} (m : M A) : F A :=
  fun s =>
    match m (world s) with
    | Returned a w => Done a (set_world w s)
    | Threw e w => Failed e (set_world w s)
    | OutOfFuel => Stuck
    end.

Definition flog (message : string) : F unit := lift (log message).

Definition report (r : Report) : F unit := fun s => Done tt (note (Reported r) s).

Definition getsRegistry {A} (f : Registration.t -> A) : F A :=
  fun s => Done (f (registry s)) s.

Definition modifyRegistry (f : Registration.t -> Registration.t) : F unit :=
  fun s => Done tt (set_registry (f (registry s)) s).

Fixpoint fforEach {A} (f : A -> F unit) (xs : list A) : F unit :=
  match xs with
  | [] => fret tt
  | x :: rest => fbind (f x) (fun _ => fforEach f rest)
  end.

(** [s.slice(n)] *)
Fixpoint drop (n : nat) (s : string) : string :=
  match n, s with
  | S k, String _ r => drop k r
  | _, _ => s
  end.

(** [s.replace(p, x)] for a string [p] and a replacement without [$]: the
    first occurrence only *)
Fixpoint replaceFirst (p x s : string) : string :=
  if String.prefix p s then x ++ drop (String.length p) s
  else match s with
       | String c r => String c (replaceFirst p x r)
       | EmptyString => EmptyString
       end.

(** [`${n}`] for an integer *)
Definition ofZ (n : Z) : string :=
  if n <? 0 then "-" ++ Str.ofNat (Z.to_nat (- n)) else Str.ofNat (Z.to_nat n).

(** [error instanceof ShortestError] *)
Definition instanceofShortestError (e : Thrown) : bool :=
  match e with
  | ThrownError ShortestErrorC _ => true
  | ThrownError cls _ => extendsShortestError cls
  | ThrownValue _ => false
  end.

(** lines 470-471 and 473 *)
Definition openFile (filePathWithoutCwd : string) (r : Registration.t) : Registration.t :=
  {| Registration.heap := Registration.heap r;
     Registration.tests := [];
     Registration.currentFileTests := [];
     Registration.currentFilePath := filePathWithoutCwd;
     Registration.beforeAllFns := Registration.beforeAllFns r;
     Registration.afterAllFns := Registration.afterAllFns r;
     Registration.beforeEachFns := Registration.beforeEachFns r;
     Registration.afterEachFns := Registration.afterEachFns r;
     Registration.directTestCount := Registration.directTestCount r |}.

(** lines 563-566 *)
Definition resetHooks (r : Registration.t) : Registration.t :=
  {| Registration.heap := Registration.heap r;
     Registration.tests := Registration.tests r;
     Registration.currentFileTests := Registration.currentFileTests r;
     Registration.currentFilePath := Registration.currentFilePath r;
     Registration.beforeAllFns := [];
     Registration.afterAllFns := [];
     Registration.beforeEachFns := [];
     Registration.afterEachFns := [];
     Registration.directTestCount := Registration.directTestCount r |}.

(** line 584 *)
Definition closeFile (r : Registration.t) : Registration.t :=
  {| Registration.heap := Registration.heap r;
     Registration.tests := Registration.tests r;
     Registration.currentFileTests := Registration.currentFileTests r;
     Registration.currentFilePath := "";
     Registration.beforeAllFns := Registration.beforeAllFns r;
     Registration.afterAllFns := Registration.afterAllFns r;
     Registration.beforeEachFns := Registration.beforeEachFns r;
     Registration.afterEachFns := Registration.afterEachFns r;
     Registration.directTestCount := Registration.directTestCount r |}.

(** [await this.compiler.compileFile(filePath)] *)
Definition compile (filePath : string) : F string :=
  fun s =>
    let s := note (Compiled filePath) s in
    match compileFile filePath with
    | Ok compiledPath => Done compiledPath s
    | Err e => Failed e s
    end.

(** [await import(pathToFileURL(compiledPath).href)] *)
Definition import (compiledPath : string) : F unit :=
  fun s =>
    let s := note (Imported compiledPath) s in
    match importFile compiledPath (registry s) with
    | (None, r) => Done tt (set_registry r s)
    | (Some e, r) => Failed e (set_registry r s)
    end.

(** [await this.browserManager.launch()] *)
Definition launchBrowser : F unit :=
  fun s =>
    match launch (page (world s)) with
    | (b, None) =>
        Done tt
          {| world := set_page b (world s); registry := registry s;
             journal := Launched :: journal s;
             testFileContext := testFileContext s; launches := S (launches s) |}
    | (b, Some e) => Failed e (set_world (set_page b (world s)) s)
    end.

(** [await this.browserManager.close()] *)
Definition closeBrowser : F unit :=
  fun s =>
    let s := note Closed s in
    match close (page (world s)) with
    | (b, None) => Done tt (set_world (set_page b (world s)) s)
    | (b, Some e) => Failed e (set_world (set_page b (world s)) s)
    end.

(** [createFileTestContext(context)] (lines 633-665), called with the
    context just launched: the field is filled once and then kept *)
Definition createFileTestContext : F unit :=
  fun s =>
    match testFileContext s with
    | Some _ => Done tt s
    | None =>
        Done tt
          {| world := world s; registry := registry s; journal := journal s;
             testFileContext := Some (launches s); launches := launches s |}
    end.

(** [await hook(testContext)] for a beforeAll or afterAll hook *)
Definition hookAll (before : bool) (hook : Callback) : F unit :=
  fun s =>
    let s := note (InvokedAll before hook) s in
    match invoke hook (page (world s)) with
    | (b, None) => Done tt (set_world (set_page b (world s)) s)
    | (b, Some e) => Failed e (set_world (set_page b (world s)) s)
    end.

(** lines 480-495: the tests of the file, or those at the line asked for *)
Definition select (testsToRun : list TestCase.t) (filePath filePathWithoutCwd : string)
    (lineNumber : option Z) : F (list TestCase.t) :=
  match lineNumber with
  | None => fret testsToRun
  | Some n =>
      if n =? 0 then fret testsToRun
      else
        match parseShortestTestFile filePath with
        | Err e => fthrow e
        | Ok testLocations =>
            let testsToRun :=
              LineFilter.filterTestsByLineNumber EXPRESSION_PLACEHOLDER
                testsToRun testLocations n in
            if Nat.eqb (length testsToRun) 0
            then
              fbind (report (ReportError "Test Discovery"
                               ("No test found at line " ++ ofZ n ++ " in "
                                ++ filePathWithoutCwd)))
                (fun _ =>
                   fthrow (ShortestError ("No test found at line " ++ ofZ n ++ " in "
                                          ++ filePathWithoutCwd)))
            else fret testsToRun
        end
  end.

(** lines 496-503 *)
Definition launching : F unit :=
  ftryCatch
    (fbind (flog "Launching browser") (fun _ => launchBrowser))
    (fun error =>
       fbind (flog "Browser launching failed") (fun _ => fthrow (asShortestError error))).

(** lines 507-559: the hooks and the tests of the file *)
Definition running (filePathWithoutCwd : string) (testsToRun : list TestCase.t) : F unit :=
  fbind (getsRegistry Registration.beforeAllFns) (fun beforeAllFns =>
  fbind (fforEach (hookAll true) beforeAllFns) (fun _ =>
  fbind (report (OnFileStart filePathWithoutCwd (length testsToRun))) (fun _ =>
  fbind (getsRegistry (fun r =>
           {| beforeEachFns := Registration.beforeEachFns r;
              afterEachFns := Registration.afterEachFns r |})) (fun hooks =>
  fbind (lift (TestRunner.runTests config hooks testsToRun)) (fun _ =>
  fbind (getsRegistry Registration.afterAllFns) (fun afterAllFns =>
  fforEach (hookAll false) afterAllFns)))))).

(** lines 560-573: the [finally] clause of the inner [try] *)
Definition cleanup (filePath : string) : F unit :=
  fbind closeBrowser (fun _ =>
  fbind (modifyRegistry resetHooks) (fun _ =>
  report (OnFileEnd filePath passed ""))).

(** lines 469-573: the body of the outer [try] *)
Definition attempt (filePath : string) (lineNumber : option Z) : F unit :=
  let filePathWithoutCwd := replaceFirst (cwd ++ "/") "" filePath in
  fbind (flog "Executing test file") (fun _ =>
  fbind (modifyRegistry (openFile filePathWithoutCwd)) (fun _ =>
  fbind (compile filePath) (fun compiledPath =>
  fbind (flog "Importing compiled file") (fun _ =>
  fbind (import compiledPath) (fun _ =>
  fbind (getsRegistry Registration.currentTests) (fun testsToRun =>
  fbind (select testsToRun filePath filePathWithoutCwd lineNumber) (fun testsToRun =>
  fbind launching (fun _ =>
  fbind (flog "Creating test context") (fun _ =>
  fbind createFileTestContext (fun _ =>
  ftryFinally (running filePathWithoutCwd testsToRun) (cleanup filePath))))))))))).

(** lines 574-582: the [catch] clause of the outer [try] *)
Definition handle (filePath : string) (error : Thrown) : F unit :=
  fbind (flog "Handling error for executeTestFile") (fun _ =>
  if negb (instanceofShortestError error) then fthrow error
  else report (OnFileEnd filePath failed (errorMessage error))).

(** [executeTestFile(filePath, lineNumber)] *)
Definition executeTestFile (filePath : string) (lineNumber : option Z) : F unit :=
  ftryFinally
    (ftryCatch (attempt filePath lineNumber) (handle filePath))
    (modifyRegistry closeFile).

(** [execute(testPattern, lineNumber)] *)
Definition execute (testPattern : string) (lineNumber : option Z) : F bool :=
  fbind (flog "Finding test files") (fun _ =>
  match glob testPattern with
  | Err e => fthrow e
  | Ok files =>
      fbind (flog "Found test files") (fun _ =>
      if Nat.eqb (length files) 0
      then
        fbind (report (ReportError "Test Discovery"
                         ("No test files found matching the test pattern "
                          ++ testPattern))) (fun _ =>
        fbind (flog "No test files found matching") (fun _ =>
        fret false))
      else
        fbind (report (OnRunStart (length files))) (fun _ =>
        fbind (fforEach (fun file => executeTestFile file lineNumber) files) (fun _ =>
        fbind (report OnRunEnd) (fun _ =>
        fun s => Done (allTestsPassed (journal s) (trace (world s))) s))))
  end).

End Runner.

Arguments Done {C A} a s.
Arguments Failed {C A} e s.
Arguments Stuck {C A}.

(** ** Observations on journals *)

Definition isClosed (e : FileEvent) : bool :=
  match e with Closed => true | _ => false end.

Definition isLaunched (e : FileEvent) : bool :=
  match e with Launched => true | _ => false end.

Definition isFileEnd (status : TestStatus) (e : FileEvent) : bool :=
  match e with
  | Reported (OnFileEnd _ s _) => TestStatus_eqb s status
  | _ => false
  end.

Definition isRunEnd (e : FileEvent) : bool :=
  match e with Reported OnRunEnd => true | _ => false end.

Definition isCompiled (e : FileEvent) : bool :=
  match e with Compiled _ => true | _ => false end.

Definition tally (p : FileEvent -> bool) (j : list FileEvent) : nat :=
  length (filter p j).

(** the hook lists of a registry *)
Definition hooksOf (r : Registration.t) : list (list Callback) :=
  [ Registration.beforeAllFns r; Registration.afterAllFns r;
    Registration.beforeEachFns r; Registration.afterEachFns r ].

End Files.

(** whatever its outcome, a computation on sessions leaves the session
    related by [R] to the one it started in *)
Definition fpreserves {C : Collaborators} {A}
    (R : Files.Session -> Files.Session -> Prop) (m : Files.F A) : Prop :=
  forall s,
    match m s with
    | Files.Done _ s' | Files.Failed _ s' => R s s'
    | Files.Stuck => True
    end.

(** a computation on sessions that always ends *)
Definition ftotal {C : Collaborators} {A} (m : Files.F A) : Prop :=
  forall s, m s <> Files.Stuck.

(** the file context, once made, is kept, and launches are only counted up *)
Definition keepsContext {C : Collaborators} (s s' : Files.Session) : Prop :=
  (forall k, Files.testFileContext s = Some k -> Files.testFileContext s' = Some k)
  /\ (Files.launches s <= Files.launches s')%nat.

(** nothing but the world and the journal has changed, and the journal has
    as many events selected by [p] as before *)
Definition sameFile {C : Collaborators} (p : Files.FileEvent -> bool)
    (s s' : Files.Session) : Prop :=
  Files.registry s' = Files.registry s
  /\ Files.testFileContext s' = Files.testFileContext s
  /\ Files.launches s' = Files.launches s
  /\ Files.tally p (Files.journal s') = Files.tally p (Files.journal s).

(** ** A project with two test files *)

Module Studio.

(** the runner of a project in [/repo] on the shop page: both files hold the
    registrations of [Suite.script]; [launchable] tells whether the browser
    can be launched *)
Definition harness (launchable : bool) : @Files.Harness Shop.site :=
  {| Files.cwd := "/repo";
     Files.glob := fun _ => Ok ["/repo/shop.test.ts"; "/repo/cart.test.ts"];
     Files.compileFile := fun filePath => Ok (filePath ++ ".mjs");
     Files.importFile := fun _ r => Registration.load (H := Suite.plain) Suite.script r;
     Files.parseShortestTestFile := fun _ =>
       Ok [ {| LineFilter.testName := "buy a book";
               LineFilter.startLine := 3; LineFilter.endLine := 9 |} ];
     Files.EXPRESSION_PLACEHOLDER := "${}";
     Files.launch := fun b =>
       if launchable then (b, None)
       else (b, Some (ThrownError OtherErrorC "no browser"));
     Files.close := fun b => (b, None);
     Files.asShortestError := fun e => ShortestError (errorMessage e);
     Files.extendsShortestError := fun cls =>
       match cls with
       | CacheErrorC _ => true
       | _ => false
       end;
     Files.allTestsPassed := fun _ tr =>
       forallb (fun e => match e with
                         | EvTestEnd _ failed => false
                         | _ => true
                         end) tr |}.

(** a runner that has just been initialized *)
Definition fresh : Files.Session (C := Shop.site) :=
  {| Files.world := Shop.world Shop.buyButton (Shop.testCase None None) Shop.cacheDir;
     Files.registry := Registration.initial;
     Files.journal := [];
     Files.testFileContext := None;
     Files.launches := 0 |}.

(** a runner that has executed one file *)
Definition used : Files.Session (C := Shop.site) :=
  {| Files.world := Shop.world Shop.buyButton (Shop.testCase None None) Shop.cacheDir;
     Files.registry := Registration.initial;
     Files.journal := [];
     Files.testFileContext := Some 1%nat;
     Files.launches := 1 |}.

End Studio.

Module Limbo.

(** as [Shop.site], but the Action Decider answers with the status
    "pending" *)
#[local] Instance undecided : Collaborators :=
  {| Browser := string;
     invoke := fun _ b => (b, None);
     execute := fun _ b => (b, Ok Shop.home);
     getNormalizedComponentStringByCoords := fun _ _ b => Ok b;
     goto := fun _ b => (b, None);
     runAction := fun _ _ b =>
       {| ai_page := b; ai_steps := [];
          ai_response := Ok {| response_status := pending; response_reason := "";
                               usage := Shop.usage42 |} |} |}.

Definition harness : @Files.Harness undecided :=
  {| Files.cwd := "/repo";
     Files.glob := fun _ => Ok ["/repo/shop.test.ts"];
     Files.compileFile := fun filePath => Ok (filePath ++ ".mjs");
     Files.importFile := fun _ r => Registration.load (H := Suite.plain) Suite.script r;
     Files.parseShortestTestFile := fun _ => Ok [];
     Files.EXPRESSION_PLACEHOLDER := "${}";
     Files.launch := fun b => (b, None);
     Files.close := fun b => (b, None);
     Files.asShortestError := fun e => ShortestError (errorMessage e);
     Files.extendsShortestError := fun _ => false;
     Files.allTestsPassed := fun _ _ => true |}.

Definition fresh : Files.Session (C := undecided) :=
  {| Files.world :=
       {| page := Shop.buyButton; testRun := Shop.started (Shop.testCase None None);
          store := Shop.cacheDir; now := 5000; trace := [] |};
     Files.registry := Registration.initial;
     Files.journal := [];
     Files.testFileContext := None;
     Files.launches := 0 |}.

End Limbo.

(** the journal has as many events selected by [p] as before *)
Definition sameTally {C : Collaborators} (p : Files.FileEvent -> bool)
    (s s' : Files.Session) : Prop :=
  Files.tally p (Files.journal s') = Files.tally p (Files.journal s).

(** ** Framework detection ([core/framework-detector]) *)

Module Detector.

(** what [listFrameworks] of [@netlify/framework-info] says of a framework,
    as far as it is used *)
Record Framework := {
  fw_id : string;
  fw_name : string
}.

Record FrameworkInfo := {
  id : string;
  name : string;
  dirPath : string
}.

(** [ProjectInfo]; [git] is the [GitInfo] object as it is printed *)
Record ProjectInfo := {
  timestamp : Z;
  version : Z;
  git : string;
  frameworks : list FrameworkInfo
}.

(** what [detectFramework] returns: the value parsed from [project.json],
    given by its text, or the object it has just built *)
Inductive Info :=
| Cached (text : string)
| Detected (projectInfo : ProjectInfo).

Inductive Effect :=
| Logged (message : string)
| ReadProject
| ListedPaths
| ListedFrameworks (projectDir : string)
| MadeDir
| AskedGit
| Wrote (content : string).

(** The project directory at the time of the call and the functions the
    detector imports: [existsSync] and [readFile] on [PROJECT_JSON_PATH],
    whether [JSON.parse] accepts a text, [getPaths(process.cwd())],
    [path.dirname], [path.join], [listFrameworks], [fs.mkdir] on
    [DOT_SHORTEST_DIR_PATH], [Date.now()], [getGitInfo], [JSON.stringify]
    with indentation 2 and [fs.writeFile] on [PROJECT_JSON_PATH]. *)
Class Project := {
  cwd : string;
  existsSync : bool;
  readFile : Result string;
  parses : string -> bool;
  getPaths : Result (list string);
  dirname : string -> string;
  join : string -> string -> string;
  listFrameworks : string -> Result (list Framework);
  mkdir : option Thrown;
  dateNow : Z;
  getGitInfo : Result string;
  stringify : ProjectInfo -> string;
  writeFile : string -> option Thrown
}.

Section Detection.
Context {E : Project}.

(** effects are listed most recent first *)
Definition D (A : Type) := list Effect -> Result A * list Effect.

Definition dret {A} (a : A) : D A := fun l => (Ok a, l).

Definition dbind {A B} (m : D A) (k : A -> D B) : D B :=
  fun l =>
    match m l with
    | (Ok a, l') => k a l'
    | (Err e, l') => (Err e, l')
    end.

Definition dthrow {A} (e : Thrown) : D A := fun l => (Err e, l).

Definition dtryCatch {A} (m : D A) (h : Thrown -> D A) : D A :=
  fun l =>
    match m l with
    | (Err e, l') => h e l'
    | o => o
    end.

Definition does {A} (e : Effect) (r : Result A) : D A := fun l => (r, e :: l).

Definition dlog (message : string) : D unit := does (Logged message) (Ok tt).

(** [/next\.config\.(js|ts|mjs|cjs)$/.test(filePath)] *)
Definition isNextConfig (filePath : string) : bool :=
  Str.endsWith "next.config.js" filePath
  || Str.endsWith "next.config.ts" filePath
  || Str.endsWith "next.config.mjs" filePath
  || Str.endsWith "next.config.cjs" filePath.

(** the lower-case form of an upper-case letter *)
Definition lower (c : ascii) : ascii :=
  let n := nat_of_ascii c in
  if (Nat.leb 65 n && Nat.leb n 90)%bool then ascii_of_nat (n + 32) else c.

(** [/next/i.test(dirPath)] *)
Definition namedNext (dirPath : string) : bool :=
  Str.includes "next" (Str.map lower dirPath).

(** [detectNextJsDirPathFromConfig()] *)
Definition detectNextJsDirPathFromConfig : D (option string) :=
  dbind (does ListedPaths getPaths) (fun paths =>
  let nextDirConfigPaths := map dirname (filter isNextConfig paths) in
  match nextDirConfigPaths with
  | first :: _ =>
      dbind (dlog "Detected Next.js config paths") (fun _ =>
      let nextNamedDir := find namedNext nextDirConfigPaths in
      dret (Some (join cwd
                    (match nextNamedDir with
                     | Some dir => if Str.truthy dir then dir else first
                     | None => first
                     end))))
  | [] => dret None
  end).

(** lines 59-75: the frameworks of the Next.js directory, if there is one *)
Definition frameworkInfosOf (nextJsDirPath : option string) : D (list FrameworkInfo) :=
  match nextJsDirPath with
  | Some dir =>
      if Str.truthy dir
      then
        dbind (does (ListedFrameworks dir) (listFrameworks dir)) (fun frameworks =>
        dret (map (fun framework =>
                     {| id := fw_id framework; name := fw_name framework;
                        dirPath := dir |})
                  frameworks))
      else dret []
  | None => dret []
  end.

(** lines 79-104: the project information is built and saved *)
Definition save (frameworkInfos : list FrameworkInfo) : D Info :=
  dtryCatch
    (dbind (does AskedGit getGitInfo) (fun gitInfo =>
     let projectInfo :=
       {| timestamp := dateNow; version := 2; git := gitInfo;
          frameworks := frameworkInfos |} in
     dbind (does (Wrote (stringify projectInfo))
              (match writeFile (stringify projectInfo) with
               | None => Ok tt
               | Some e => Err e
               end)) (fun _ =>
     dbind (dlog "Saved project information") (fun _ =>
     dret (Detected projectInfo)))))
    (fun error =>
       dbind (dlog "Failed to save project information") (fun _ =>
       dthrow (ShortestError "Failed to save project information"))).

(** lines 59-104 *)
Definition detect : D Info :=
  dbind detectNextJsDirPathFromConfig (fun nextJsDirPath =>
  dbind (frameworkInfosOf nextJsDirPath) (fun frameworkInfos =>
  dbind (dlog "Frameworks detected") (fun _ =>
  dbind (does MadeDir (match mkdir with None => Ok tt | Some e => Err e end)) (fun _ =>
  save frameworkInfos)))).

(** lines 44-57: [Some] stands for the [return] inside the [try]; what
    [JSON.parse] throws on a text it does not accept is caught here and in
    [getProjectInfo], where only the log sees it *)
Definition cached (force : bool) : D (option Info) :=
  if (negb force && existsSync)%bool
  then
    dtryCatch
      (dbind (does ReadProject readFile) (fun text =>
       if parses text
       then dbind (dlog "Using cached framework information") (fun _ =>
            dret (Some (Cached text)))
       else dthrow (ThrownError OtherErrorC "Unexpected token in JSON")))
      (fun error =>
         dbind (dlog "Failed to read cached project data, performing detection")
           (fun _ => dret None))
  else dret None.

(** [detectFramework(options)], with [force] the truth of [options.force] *)
Definition detectFramework (force : bool) : D Info :=
  dbind (cached force) (fun projectInfo =>
  match projectInfo with
  | Some projectInfo => dret projectInfo
  | None => detect
  end).

(** [getProjectInfo()] *)
Definition getProjectInfo : D Info :=
  dtryCatch
    (dbind (does ReadProject readFile) (fun text =>
     if parses text then dret (Cached text)
     else dthrow (ThrownError OtherErrorC "Unexpected token in JSON")))
    (fun error =>
       dbind (dlog "Failed to read cached project data") (fun _ =>
       dthrow (ShortestError
                 "Failed to read cached project data, execute shortest detect-framework first"))).

End Detection.

(** the effects of a computation are put before the ones already there, and
    neither they nor the result depend on the latter *)
Definition appends {A} (m : D A) : Prop :=
  exists r new, forall l, m l = (r, (new ++ l)%list).

(** the contents written to [project.json], latest first *)
Definition written (l : list Effect) : list string :=
  flat_map (fun e => match e with Wrote content => [content] | _ => [] end) l.

Definition isDetection (e : Effect) : bool :=
  match e with
  | ListedPaths | ListedFrameworks _ | MadeDir | AskedGit | Wrote _ => true
  | _ => false
  end.

(** the cache is there, readable and parsable, and may be used *)
Definition usable `{Project} (force : bool) : bool :=
  negb force && existsSync
  && match readFile with
     | Ok text => parses text
     | Err _ => false
     end.

End Detector.

(** * Properties *)

(** ** The [TestRun] state machine *)

Lemma TestStatus_eqb_spec a b : reflect (a = b) (TestStatus_eqb a b).
Proof. destruct a, b; simpl; constructor; congruence. Qed.

Lemma markRunning_ok r r' :
  TestRun.markRunning r = Ok r' ->
  TestRun.status r = pending /\ TestRun.status r' = running /\ TestRun.reason r' = None.
Proof.
  unfold TestRun.markRunning.
  destruct (TestStatus_eqb_spec (TestRun.status r) pending) as [E|E]; simpl.
  - intros [= <-]. auto.
  - discriminate.
Qed.

Lemma markPassed_ok reason usage r r' :
  TestRun.markPassed reason usage r = Ok r' ->
  TestRun.status r = running /\ TestRun.status r' = passed
  /\ TestRun.reason r' = Some reason
  /\ TestRun.executedFromCache r' = TestRun.executedFromCache r.
Proof.
  unfold TestRun.markPassed.
  destruct (TestStatus_eqb_spec (TestRun.status r) running) as [E|E]; simpl.
  - intros [= <-]. destruct usage; auto.
  - discriminate.
Qed.

Lemma markPassedFromCache_ok reason r r' :
  TestRun.markPassedFromCache reason r = Ok r' ->
  TestRun.status r = running /\ TestRun.status r' = passed
  /\ TestRun.reason r' = Some reason /\ TestRun.executedFromCache r' = true.
Proof.
  unfold TestRun.markPassedFromCache.
  destruct (TestRun.markPassed reason None r) as [r1|e] eqn:E; [|discriminate].
  intros [= <-]. apply markPassed_ok in E. tauto.
Qed.

Lemma markFailed_state reason usage r :
  TestRun.status (TestRun.markFailed reason usage r) = failed
  /\ TestRun.reason (TestRun.markFailed reason usage r) = Some reason
  /\ TestRun.executedFromCache (TestRun.markFailed reason usage r)
     = TestRun.executedFromCache r.
Proof. destruct usage; auto. Qed.

(** C6.  [markRunning] succeeds exactly from [pending] and otherwise throws
    "Can only start from pending state"; [markPassed] succeeds exactly from
    [running] and otherwise throws "Can only pass from running state";
    [markFailed] has no guard: from every state it yields the state [failed]
    with the given reason. *)
Theorem transition_guards (r : TestRun.t) (reason : string) (usage : option TokenUsage) :
  ((exists r', TestRun.markRunning r = Ok r' /\ TestRun.status r' = running)
     <-> TestRun.status r = pending)
  /\ (TestRun.status r <> pending ->
      TestRun.markRunning r = Err (ShortestError "Can only start from pending state"))
  /\ ((exists r', TestRun.markPassed reason usage r = Ok r'
                  /\ TestRun.status r' = passed /\ TestRun.reason r' = Some reason)
        <-> TestRun.status r = running)
  /\ (TestRun.status r <> running ->
      TestRun.markPassed reason usage r
      = Err (ShortestError "Can only pass from running state"))
  /\ TestRun.status (TestRun.markFailed reason usage r) = failed
  /\ TestRun.reason (TestRun.markFailed reason usage r) = Some reason.
Proof.
  repeat split.
  - intros (r' & E & _). now apply markRunning_ok in E.
  - intros E. unfold TestRun.markRunning. rewrite E. simpl. eauto.
  - intros N. unfold TestRun.markRunning.
    destruct (TestStatus_eqb_spec (TestRun.status r) pending); [contradiction|reflexivity].
  - intros (r' & E & _). now apply markPassed_ok in E.
  - intros E. unfold TestRun.markPassed. rewrite E. simpl.
    eexists. split; [reflexivity|]. destruct usage; auto.
  - intros N. unfold TestRun.markPassed.
    destruct (TestStatus_eqb_spec (TestRun.status r) running); [contradiction|reflexivity].
  - apply markFailed_state.
  - apply markFailed_state.
Qed.

(** a run that already passed can neither be started nor passed again *)
Lemma transition_guards_witness :
  TestRun.markRunning (Scenario.loaded "r" 2 passed false 0)
  = Err (ShortestError "Can only start from pending state")
  /\ TestRun.markPassed "again" None (Scenario.loaded "r" 2 passed false 0)
     = Err (ShortestError "Can only pass from running state").
Proof.
  pose proof (transition_guards (Scenario.loaded "r" 2 passed false 0) "again" None)
    as (_ & R & _ & Q & _).
  split; [apply R | apply Q]; simpl; discriminate.
Defined.

(** ** Serialisation round trip *)

Section RoundTrip.
Context {P : Platform}.

Lemma fromCache_toCacheEntry (r : TestRun.t) :
  TestRun.fromCache (TestRun.testCase r) (TestRunRepository.toCacheEntry r) = r.
Proof. destruct r as [tc id ts st us v c [s rs]]. reflexivity. Qed.

Lemma fromCache_fields tc (r : TestRun.t) :
  let back := TestRun.fromCache tc (TestRunRepository.toCacheEntry r) in
  TestRun.status back = TestRun.status r
  /\ TestRun.reason back = TestRun.reason r
  /\ TestRun.tokenUsage back = TestRun.tokenUsage r
  /\ TestRun.getSteps back = TestRun.getSteps r.
Proof. destruct r as [tc' id ts st us v c [s rs]]. simpl. auto. Qed.

Lemma addSteps_fields steps : forall r,
  let r' := fold_left (fun r s => TestRun.addStep s r) steps r in
  TestRun.state r' = TestRun.state r
  /\ TestRun.tokenUsage r' = TestRun.tokenUsage r
  /\ TestRun.testCase r' = TestRun.testCase r
  /\ TestRun._executedFromCache r' = TestRun._executedFromCache r
  /\ TestRun.steps r' = (TestRun.steps r ++ steps)%list.
Proof.
  induction steps as [|s steps IH]; intros r; simpl.
  - rewrite app_nil_r. auto.
  - destruct (IH (TestRun.addStep s r)) as (A & B & C0 & D & E).
    rewrite A, B, C0, D, E. simpl. rewrite <- app_assoc. auto.
Qed.

(** C8.  The run of the scenario (created, marked running, marked passed with
    a reason and token usage, steps appended) is built without error, and
    reading back its CacheEntry with [fromCache] gives the same status,
    reason, token usage and step sequence. *)
Theorem cache_entry_round_trip (tc : TestCase.t) (startedAt : Z) (reason : string)
    (usage : TokenUsage) (steps : list CacheStep) :
  exists run,
    Scenario.recorded tc startedAt reason usage steps = Ok run
    /\ TestRun.status run = passed
    /\ TestRun.reason run = Some reason
    /\ TestRun.tokenUsage run = usage
    /\ TestRun.getSteps run = steps
    /\ let back := TestRun.fromCache tc (TestRunRepository.toCacheEntry run) in
       TestRun.status back = TestRun.status run
       /\ TestRun.reason back = TestRun.reason run
       /\ TestRun.tokenUsage back = TestRun.tokenUsage run
       /\ TestRun.getSteps back = TestRun.getSteps run.
Proof.
  unfold Scenario.recorded. simpl.
  eexists. split; [reflexivity|].
  match goal with |- context [fold_left ?f steps ?r0] =>
    destruct (addSteps_fields steps r0) as (A & B & _ & _ & E);
    pose proof (fromCache_fields tc (fold_left f steps r0)) as F
  end.
  simpl in F. unfold TestRun.status, TestRun.reason, TestRun.getSteps in *.
  rewrite A, B, E in *. simpl in *. tauto.
Qed.

End RoundTrip.

(** ** The repository: latest passed run and retention *)

Section RepositoryFacts.
Context {P : Platform}.
Import TestRunRepository.

Lemma eligible_iff r : eligible r = true <-> Eligible r.
Proof.
  unfold eligible, Eligible.
  rewrite !andb_true_iff, negb_true_iff, Z.eqb_eq.
  destruct (TestStatus_eqb_spec (TestRun.status r) passed); intuition congruence.
Qed.

Lemma eligible_false_iff r : eligible r = false <-> ~ Eligible r.
Proof.
  rewrite <- eligible_iff. destruct (eligible r); intuition congruence.
Qed.

Lemma lastOf_nonempty {A} (l : list A) : forall a, exists x, lastOf (a :: l) = Some x.
Proof.
  induction l as [|b l IH]; intros a.
  - exists a. reflexivity.
  - destruct (IH b) as [x E]. exists x. exact E.
Qed.

Lemma lastOf_cons {A} (a : A) l :
  lastOf (a :: l) = match lastOf l with Some x => Some x | None => Some a end.
Proof.
  destruct l as [|b l]; [reflexivity|].
  destruct (lastOf_nonempty l b) as [x E].
  change (lastOf (a :: b :: l)) with (lastOf (b :: l)). now rewrite E.
Qed.

Lemma lastOf_none {A} (l : list A) : lastOf l = None -> l = [].
Proof.
  induction l as [|a l IH]; [reflexivity|].
  rewrite lastOf_cons. destruct (lastOf l); discriminate.
Qed.

Lemma lastOf_map {A B} (f : A -> B) l : lastOf (map f l) = option_map f (lastOf l).
Proof.
  induction l as [|a l IH]; [reflexivity|].
  cbn [map]. rewrite !lastOf_cons, IH. destruct (lastOf l); reflexivity.
Qed.

(** the last element satisfying [p] splits the list *)
Lemma lastOf_filter {A} (p : A -> bool) l :
  match lastOf (filter p l) with
  | Some x => p x = true
              /\ exists before after, l = (before ++ x :: after)%list
                                      /\ forall y, In y after -> p y = false
  | None => forall y, In y l -> p y = false
  end.
Proof.
  induction l as [|a l IH]; simpl; [tauto|].
  destruct (p a) eqn:Pa.
  - rewrite lastOf_cons. destruct (lastOf (filter p l)) as [x|].
    + destruct IH as (Px & b & c & -> & H). split; [exact Px|].
      exists (a :: b), c. auto.
    + split; [exact Pa|]. exists [], l. auto.
  - destruct (lastOf (filter p l)) as [x|].
    + destruct IH as (Px & b & c & -> & H). split; [exact Px|].
      exists (a :: b), c. auto.
    + intros y [<-|Y]; auto.
Qed.

Lemma eligible_retimed f r : eligible (Scenario.retimed f r) = eligible r.
Proof. reflexivity. Qed.

Lemma filter_map_retimed f runs :
  filter eligible (map (Scenario.retimed f) runs)
  = map (Scenario.retimed f) (filter eligible runs).
Proof.
  induction runs as [|r runs IH]; [reflexivity|].
  simpl. rewrite eligible_retimed, IH. destruct (eligible r); reflexivity.
Qed.

(** C5.  [getLatestPassedRun] returns the last run, in enumeration order, that
    passed, has the current version and was not executed from cache; it
    returns null exactly when no loaded run meets the three conditions; the
    timestamps play no part in the choice. *)
Theorem latest_passed_run_is_last_eligible (runs : list TestRun.t) :
  match getLatestPassedRun runs with
  | Some r =>
      Eligible r
      /\ exists before after,
           runs = (before ++ r :: after)%list
           /\ forall r', In r' after -> ~ Eligible r'
  | None => forall r', In r' runs -> ~ Eligible r'
  end
  /\ forall f : TestRun.t -> Z,
       getLatestPassedRun (map (Scenario.retimed f) runs)
       = option_map (Scenario.retimed f) (getLatestPassedRun runs).
Proof.
  split.
  - unfold getLatestPassedRun.
    pose proof (lastOf_filter eligible runs) as H.
    destruct (lastOf (filter eligible runs)) as [r|].
    + destruct H as (E & b & a & -> & H). split; [now apply eligible_iff|].
      exists b, a. split; [reflexivity|].
      intros r' I. apply eligible_false_iff. auto.
    + intros r' I. apply eligible_false_iff. auto.
  - intros f. unfold getLatestPassedRun.
    rewrite filter_map_retimed. apply lastOf_map.
Qed.

(** the five runs of the repository test: the last valid one is returned
    although it carries the smallest timestamp *)
Example latest_passed_run_of_the_test :
  getLatestPassedRun
    [ Scenario.loaded "1" (VERSION - 1) passed false 5000;
      Scenario.loaded "2" VERSION failed false 4000;
      Scenario.loaded "3" VERSION passed true 3000;
      Scenario.loaded "4" VERSION passed false 2000;
      Scenario.loaded "5" VERSION passed false 1000 ]
  = Some (Scenario.loaded "5" VERSION passed false 1000).
Proof.
  unfold getLatestPassedRun, eligible. simpl.
  rewrite Z.eqb_refl.
  replace (VERSION - 1 =? VERSION) with false by (symmetry; apply Z.eqb_neq; lia).
  reflexivity.
Qed.

End RepositoryFacts.

Section Retention.
Context {P : Platform}.
Import TestRunRepository.













End Retention.


(** ** The repository: saving under the lock *)

Section Saving.
Context {C : Collaborators}.
Import TestRunRepository.

Lemma held_iff l ls : existsb (String.eqb l) ls = true <-> In l ls.
Proof.
  rewrite existsb_exists. split.
  - intros (x & I & E). apply String.eqb_eq in E. now subst.
  - intros I. exists l. split; [exact I|apply String.eqb_refl].
Qed.

Lemma without_absent l ls : ~ In l ls -> without l ls = ls.
Proof.
  induction ls as [|a ls IH]; simpl; [reflexivity|].
  intros N. destruct (String.eqb_spec a l) as [->|D]; simpl.
  - exfalso. auto.
  - rewrite IH; auto.
Qed.

Lemma upsert_In {A} key (a : A) l : In (key, a) (upsert key a l).
Proof.
  induction l as [|[k x] l IH]; simpl; [auto|].
  destruct (String.eqb k key); simpl; auto.
Qed.

Lemma upsert_other {A} key (a : A) l k x :
  k <> key -> In (k, x) (upsert key a l) <-> In (k, x) l.
Proof.
  intros D. induction l as [|[k' x'] l IH]; simpl.
  - split; [intros [[= -> _]|[]]; congruence | tauto].
  - destruct (String.eqb_spec k' key) as [->|D']; simpl.
    + split; intros [[= E _]|I]; auto; congruence.
    + rewrite IH. tauto.
Qed.

(** C7.  [saveRun] first tries the lock of the identifier.  When the lock is
    held, it returns with the cache directory unchanged and nothing written.
    When the lock is free, it writes one document, the CacheEntry of the run
    under the name given by its [runId], leaves every other file as it was,
    and releases the lock. *)
Theorem saveRun_lock_discipline (tc : TestCase.t) (run : TestRun.t) (w : World) :
  (In (lockFileName tc) (locks (store w)) ->
     exists w',
       saveRun tc run w = Returned tt w'
       /\ store w' = store w
       /\ trace w' = EvAcquireLock (lockFileName tc) false :: trace w)
  /\ (~ In (lockFileName tc) (locks (store w)) ->
     exists w',
       saveRun tc run w = Returned tt w'
       /\ trace w' = EvReleaseLock (lockFileName tc)
                      :: EvWriteFile (TestRun.runId run ++ ".json")
                      :: EvAcquireLock (lockFileName tc) true :: trace w
       /\ In (TestRun.runId run ++ ".json", Some (toCacheEntry run)) (files (store w'))
       /\ (forall name doc, name <> TestRun.runId run ++ ".json" ->
             (In (name, doc) (files (store w')) <-> In (name, doc) (files (store w))))
       /\ dirs (store w') = dirs (store w)
       /\ locks (store w') = locks (store w)).
Proof.
  split; intros H.
  - apply held_iff in H.
    unfold saveRun, bind, acquireLock. rewrite H. simpl.
    eexists. split; [reflexivity|]. split; reflexivity.
  - assert (E : existsb (String.eqb (lockFileName tc)) (locks (store w)) = false).
    { destruct (existsb _ _) eqn:E; [|reflexivity]. apply held_iff in E. contradiction. }
    unfold saveRun, bind, acquireLock. rewrite E. simpl.
    eexists. split; [reflexivity|]. simpl.
    split; [reflexivity|]. split; [apply upsert_In|].
    split; [intros name doc D; now apply upsert_other|].
    split; [reflexivity|].
    rewrite String.eqb_refl. simpl. now apply without_absent.
Qed.

End Saving.

(** with the lock of the test held elsewhere nothing is written; with the
    lock free the run's document is there afterwards *)
Lemma saveRun_lock_discipline_witness :
  let tc := Shop.testCase None None in
  let busy := {| files := files Shop.cacheDir; dirs := []; locks := ["a1b2c3.lock"] |} in
  (exists w', TestRunRepository.saveRun (C := Shop.site) tc (Shop.started tc)
                (Shop.world Shop.buyButton tc busy) = Returned tt w'
              /\ store w' = busy)
  /\ (exists w', TestRunRepository.saveRun (C := Shop.site) tc (Shop.started tc)
                   (Shop.world Shop.buyButton tc Shop.cacheDir) = Returned tt w'
                 /\ In ("2025-03-01T10-00-00-000Z_a1b2c3.json",
                        Some (TestRunRepository.toCacheEntry (Shop.started tc)))
                       (files (store w'))).
Proof.
  intros tc busy. split.
  - destruct (saveRun_lock_discipline (C := Shop.site) tc (Shop.started tc)
                (Shop.world Shop.buyButton tc busy)) as [Held _].
    destruct Held as (w' & E & S & _); [simpl; auto|].
    exists w'. split; [exact E|exact S].
  - destruct (saveRun_lock_discipline (C := Shop.site) tc (Shop.started tc)
                (Shop.world Shop.buyButton tc Shop.cacheDir)) as [_ Free].
    destruct Free as (w' & E & _ & I & _); [simpl; tauto|].
    exists w'. split; [exact E|exact I].
Defined.

(** ** Reasoning about computations *)

Section Computations.
Context {P : Platform} {C : Collaborators}.

(** [BrowserTool.execute] in one step: the call is recorded and acts on the
    page; a screenshot makes the directory of the run before it and writes
    the image after it *)
Lemma browserExecute_result i w :
  browserExecute i w
  = let dir := TestRunRepository.getTestRunDirPath (testRun w) in
    let s := if InternalActionEnum_eqb (action i) SCREENSHOT
             then TestRunRepository.mkdir dir (store w) else store w in
    let s' := if InternalActionEnum_eqb (action i) SCREENSHOT
              then TestRunRepository.writeInto dir (screenshotName (now w)) s else s in
    match execute i (page w) with
    | (b, Ok r) => Returned r (set_store s' (set_page b (record (EvExecute i) w)))
    | (b, Err e) => Threw e (set_store s (set_page b (record (EvExecute i) w)))
    end.
Proof.
  unfold browserExecute, takeScreenshotWithMetadata, pageExecute,
    TestRunRepository.ensureTestRunDirPath, bind, gets, modify, ret.
  destruct (InternalActionEnum_eqb (action i) SCREENSHOT); cbn.
  - destruct (execute i (page w)) as [b [r|e]]; reflexivity.
  - destruct w as [pg run st n tr]; cbn.
    destruct (execute i pg) as [b [r|e]]; reflexivity.
Qed.

Lemma bind_returned {A B} (m : M A) (k : A -> M B) w b w' :
  bind m k w = Returned b w' ->
  exists a w1, m w = Returned a w1 /\ k a w1 = Returned b w'.
Proof.
  unfold bind. destruct (m w) as [a w1| |]; try discriminate. eauto.
Qed.

Lemma bind_run {A B} (m : M A) (k : A -> M B) w a w1 :
  m w = Returned a w1 -> bind m k w = k a w1.
Proof. unfold bind. now intros ->. Qed.

Lemma bind_threw {A B} (m : M A) (k : A -> M B) w e w1 :
  m w = Threw e w1 -> bind m k w = Threw e w1.
Proof. unfold bind. now intros ->. Qed.

Lemma forEach_app {A} (f : A -> M unit) xs ys w :
  forEach f (xs ++ ys) w = bind (forEach f xs) (fun _ => forEach f ys) w.
Proof.
  revert w. induction xs as [|x xs IH]; intros w; simpl.
  - reflexivity.
  - unfold bind. destruct (f x w) as [[] w1|e w1|]; auto.
Qed.

Lemma total_ret {A} (a : A) : total (ret a).
Proof. intros w. exact I. Qed.

Lemma total_throw {A} e : total (throw (A := A) e).
Proof. intros w. exact I. Qed.

Lemma total_gets {A} (f : World -> A) : total (gets f).
Proof. intros w. exact I. Qed.

Lemma total_modify f : total (modify f).
Proof. intros w. exact I. Qed.

Lemma total_bind {A B} (m : M A) (f : A -> M B) :
  total m -> (forall a, total (f a)) -> total (bind m f).
Proof.
  intros Hm Hf w. unfold bind. specialize (Hm w).
  destruct (m w) as [a w1|e w1|]; [apply Hf|exact I|exact Hm].
Qed.

Lemma total_tryCatch {A} (m : M A) (h : Thrown -> M A) :
  total m -> (forall e, total (h e)) -> total (tryCatch m h).
Proof.
  intros Hm Hh w. unfold tryCatch. specialize (Hm w).
  destruct (m w) as [a w1|e w1|]; [exact I|apply Hh|exact Hm].
Qed.

Lemma total_tryFinally {A} (m : M A) (f : M unit) :
  total m -> total f -> total (tryFinally m f).
Proof.
  intros Hm Hf w. unfold tryFinally, bind, ret, throw. specialize (Hm w).
  destruct (m w) as [a w1|e w1|]; [| |exact Hm];
    specialize (Hf w1); destruct (f w1); auto.
Qed.

Lemma total_forEach {A} (f : A -> M unit) xs :
  (forall x, total (f x)) -> total (forEach f xs).
Proof.
  intros Hf. induction xs as [|x xs IH]; simpl.
  - apply total_ret.
  - apply total_bind; auto.
Qed.

Lemma total_onRun f : total (onRun f).
Proof. intros w. unfold onRun. destruct (f (testRun w)); exact I. Qed.

Lemma total_callback k cb : total (callback k cb).
Proof. intros w. unfold callback. destruct (invoke cb _) as [b [e|]]; exact I. Qed.

Lemma total_browserExecute i : total (browserExecute i).
Proof.
  intros w. rewrite browserExecute_result. cbv zeta.
  destruct (execute i _) as [b [r|e]]; exact I.
Qed.

Lemma total_fingerprint x y : total (fingerprint x y).
Proof.
  intros w. unfold fingerprint.
  destruct (getNormalizedComponentStringByCoords x y _); exact I.
Qed.

Lemma total_pageGoto url : total (pageGoto url).
Proof. intros w. unfold pageGoto. destruct (goto url _) as [b [e|]]; exact I. Qed.

Lemma total_aiRunAction prompt : total (aiRunAction prompt).
Proof. intros w. unfold aiRunAction. simpl. destruct (ai_response _); exact I. Qed.

Section Counting.
Variable p : Event -> bool.

Lemma silent_ret {A} (a : A) : silent p (ret a).
Proof. intros w. reflexivity. Qed.

Lemma silent_throw {A} e : silent p (throw (A := A) e).
Proof. intros w. reflexivity. Qed.

Lemma silent_gets {A} (f : World -> A) : silent p (gets f).
Proof. intros w. reflexivity. Qed.

Lemma adds_bind {A B} n k (m : M A) (f : A -> M B) :
  adds p n m -> (forall a, adds p k (f a)) ->
  forall w, match bind m f w with
            | Returned _ w' => count p (trace w') = (n + k + count p (trace w))%nat
            | Threw _ w' => (count p (trace w') = n + count p (trace w)
                             \/ count p (trace w') = n + k + count p (trace w))%nat
            | OutOfFuel => True
            end.
Proof.
  intros Hm Hf w. unfold bind. specialize (Hm w).
  destruct (m w) as [a w1|e w1|]; auto.
  specialize (Hf a w1). destruct (f a w1); auto; lia.
Qed.

Lemma silent_bind {A B} (m : M A) (f : A -> M B) :
  silent p m -> (forall a, silent p (f a)) -> silent p (bind m f).
Proof.
  intros Hm Hf w. pose proof (@adds_bind _ _ _ _ m f Hm Hf w) as H.
  destruct (bind m f w); simpl in *; lia.
Qed.

(** a prefix that records [n] events, whatever its outcome, followed by a
    silent continuation *)
Lemma adds_then_silent {A B} n (m : M A) (f : A -> M B) :
  adds p n m -> (forall a, silent p (f a)) -> adds p n (bind m f).
Proof.
  intros Hm Hf w. pose proof (@adds_bind _ _ _ _ m f Hm Hf w) as H.
  destruct (bind m f w); simpl in *; lia.
Qed.

Lemma silent_tryCatch {A} (m : M A) (h : Thrown -> M A) :
  silent p m -> (forall e, silent p (h e)) -> silent p (tryCatch m h).
Proof.
  intros Hm Hh w. unfold tryCatch. specialize (Hm w).
  destruct (m w) as [a w1|e w1|]; auto.
  specialize (Hh e w1). destruct (h e w1); simpl in *; lia.
Qed.

Lemma silent_tryFinally {A} (m : M A) (f : M unit) :
  silent p m -> silent p f -> silent p (tryFinally m f).
Proof.
  intros Hm Hf w. unfold tryFinally, bind, ret, throw. specialize (Hm w).
  destruct (m w) as [a w1|e w1|]; auto;
    specialize (Hf w1); destruct (f w1); simpl in *; lia.
Qed.

Lemma silent_forEach {A} (f : A -> M unit) xs :
  (forall x, silent p (f x)) -> silent p (forEach f xs).
Proof.
  intros Hf. induction xs as [|x xs IH]; simpl.
  - apply silent_ret.
  - apply silent_bind; auto.
Qed.

Lemma silent_modify (f : World -> World) :
  (forall w, trace (f w) = trace w) -> silent p (modify f).
Proof. intros H w. simpl. now rewrite H. Qed.

Lemma silent_emit e : p e = false -> silent p (emit e).
Proof. intros H w. unfold count. simpl. now rewrite H. Qed.

Lemma adds_emit e : p e = true -> adds p 1 (emit e).
Proof. intros H w. unfold count. simpl. now rewrite H. Qed.

Lemma silent_sleep ms : p (EvTimeout ms) = false -> silent p (sleep ms).
Proof. intros H w. unfold count. simpl. now rewrite H. Qed.

Lemma silent_onRun f : silent p (onRun f).
Proof. intros w. unfold onRun. destruct (f (testRun w)); reflexivity. Qed.

Lemma silent_markFailed reason usage : silent p (markFailed reason usage).
Proof. intros w. reflexivity. Qed.

Lemma silent_callback k cb : p (EvInvoke k cb) = false -> silent p (callback k cb).
Proof.
  intros H w. unfold callback, count. simpl.
  destruct (invoke cb (page w)) as [b [e|]]; simpl; now rewrite H.
Qed.

Lemma adds_callback k cb : p (EvInvoke k cb) = true -> adds p 1 (callback k cb).
Proof.
  intros H w. unfold callback, count. simpl.
  destruct (invoke cb (page w)) as [b [e|]]; simpl; now rewrite H.
Qed.

Lemma silent_browserExecute i : p (EvExecute i) = false -> silent p (browserExecute i).
Proof.
  intros H w. rewrite browserExecute_result. cbv zeta. unfold count.
  destruct (execute i (page w)) as [b [r|e]]; simpl; now rewrite H.
Qed.

Lemma silent_fingerprint x y : p (EvFingerprint x y) = false -> silent p (fingerprint x y).
Proof.
  intros H w. unfold fingerprint, count. simpl.
  destruct (getNormalizedComponentStringByCoords x y (page w)); simpl; now rewrite H.
Qed.

Lemma silent_pageGoto url : p (EvGoto url) = false -> silent p (pageGoto url).
Proof.
  intros H w. unfold pageGoto, count. simpl.
  destruct (goto url (page w)) as [b [e|]]; simpl; now rewrite H.
Qed.

Lemma silent_aiRunAction prompt :
  p (EvRunAction prompt) = false -> silent p (aiRunAction prompt).
Proof.
  intros H w. unfold aiRunAction, count. simpl.
  destruct (ai_response _); simpl; now rewrite H.
Qed.

End Counting.
End Computations.

(** one step of the decomposition of a goal [total m] along the structure
    of [m] *)
Ltac totality_step :=
  first
    [ apply total_ret | apply total_throw | apply total_gets | apply total_modify
    | apply total_onRun | apply total_callback | apply total_browserExecute
    | apply total_fingerprint | apply total_pageGoto | apply total_aiRunAction
    | apply total_bind; [|intros ?]
    | apply total_tryCatch; [|intros ?]
    | apply total_tryFinally
    | apply total_forEach; intros ?
    | match goal with
      | |- total (match ?x with _ => _ end) => destruct x
      | |- total (if ?x then _ else _) => destruct x
      end ].

Ltac totality := repeat totality_step.

(** one step of the decomposition of a goal [silent p m] along the
    structure of [m] *)
Ltac silence_step :=
  first
    [ apply silent_ret | apply silent_throw | apply silent_gets
    | apply silent_onRun | apply silent_markFailed
    | apply silent_emit; reflexivity
    | apply silent_sleep; reflexivity
    | apply silent_callback; reflexivity
    | apply silent_browserExecute; reflexivity
    | apply silent_fingerprint; reflexivity
    | apply silent_pageGoto; reflexivity
    | apply silent_aiRunAction; reflexivity
    | apply silent_modify; intros ?; reflexivity
    | apply silent_bind; [|intros ?]
    | apply silent_tryCatch; [|intros ?]
    | apply silent_tryFinally
    | apply silent_forEach; intros ?
    | match goal with
      | |- silent _ (match ?x with _ => _ end) => destruct x
      | |- silent _ (if ?x then _ else _) => destruct x
      end ].

Ltac silence := repeat silence_step.

(** ** Cached replay *)

Section Replay.
Context {P : Platform} {C : Collaborators}.
Import TestRunner.

Ltac run_cases :=
  repeat match goal with
         | |- context [match ?x with _ => _ end] => destruct x eqn:?
         end.

Lemma verifyTarget_returned step w w' :
  verifyTarget step w = Returned tt w' ->
  executed (trace w') = executed (trace w)
  /\ testRun w' = testRun w /\ store w' = store w.
Proof.
  unfold verifyTarget, bind, fingerprint, log, emit, modify, throw, ret.
  destruct (pointerMoveTarget step) as [[x y]|].
  - destruct (getNormalizedComponentStringByCoords x y _); [|discriminate].
    destruct (extras step) as [ex|]; [|discriminate].
    destruct (differs _ _); [discriminate|].
    intros H; inversion H; subst. auto.
  - intros H; inversion H; subst. auto.
Qed.

(** the steps that a replay goes through are no screenshots *)
Lemma replayed_no_screenshot (steps : list CacheStep) :
  Forall (fun s => isScreenshot s = false)
    (filter (fun s => negb (isScreenshot s)) steps).
Proof.
  apply Forall_forall. intros s I. apply filter_In in I.
  destruct I as [_ I]. now apply negb_true_iff in I.
Qed.

Lemma replayed_prefix (steps pre rest : list CacheStep) :
  filter (fun s => negb (isScreenshot s)) steps = (pre ++ rest)%list ->
  Forall (fun s => isScreenshot s = false) pre.
Proof.
  intros F. pose proof (replayed_no_screenshot steps) as N.
  rewrite F in N. apply Forall_app in N. apply N.
Qed.

Lemma replayAction_returned step w w' :
  isScreenshot step = false ->
  replayAction step w = Returned tt w' ->
  executed (trace w')
  = (match step_action step with Some a => [input a] | None => [] end
     ++ executed (trace w))%list
  /\ testRun w' = testRun w /\ store w' = store w.
Proof.
  unfold isScreenshot, replayAction, tryCatch, bind, log, emit, modify, throw, ret.
  destruct (step_action step) as [a|].
  - intros N. rewrite browserExecute_result, N. cbv zeta.
    destruct (execute (input a) (page w)) as [b [r|e]]; [|discriminate].
    intros H; inversion H; subst. auto.
  - intros _ H; inversion H; subst. auto.
Qed.

(** a replayed step that returns has executed its recorded input, and
    nothing else; the run and the cache directory are untouched *)
Lemma replayStep_returned step w w' :
  isScreenshot step = false ->
  replayStep step w = Returned tt w' ->
  executed (trace w')
  = (match step_action step with Some a => [input a] | None => [] end
     ++ executed (trace w))%list
  /\ testRun w' = testRun w /\ store w' = store w.
Proof.
  unfold replayStep. intros N H.
  apply bind_returned in H. destruct H as ([] & w1 & H1 & H).
  apply bind_returned in H. destruct H as ([] & w2 & H2 & H3).
  unfold sleep, modify in H1. inversion H1; subst. clear H1.
  apply verifyTarget_returned in H2. destruct H2 as (E2 & R2 & S2).
  apply (@replayAction_returned step _ _ N) in H3. destruct H3 as (E3 & R3 & S3).
  rewrite E3, E2, R3, R2, S3, S2. auto.
Qed.

Lemma replaySteps_returned steps : forall w w',
  Forall (fun s => isScreenshot s = false) steps ->
  replaySteps steps w = Returned tt w' ->
  executed (trace w') = (rev (inputsOf steps) ++ executed (trace w))%list
  /\ testRun w' = testRun w /\ store w' = store w.
Proof.
  unfold replaySteps.
  induction steps as [|s steps IH]; intros w w' N H; simpl in H.
  - inversion H; subst. auto.
  - apply bind_returned in H. destruct H as ([] & w1 & H1 & H2).
    inversion N as [|? ? N1 N2]; subst.
    apply (@replayStep_returned s _ _ N1) in H1. destruct H1 as (E1 & R1 & S1).
    apply (IH _ _ N2) in H2. destruct H2 as (E2 & R2 & S2).
    rewrite E2, E1, R2, R1, S2, S1. simpl.
    split; [|auto].
    destruct (step_action s); simpl; rewrite <- ?app_assoc; reflexivity.
Qed.

Lemma count_executed tr : count isExecute tr = length (executed tr).
Proof.
  unfold count, executed. induction tr as [|e tr IH]; [reflexivity|].
  destruct e; simpl; auto.
Qed.

Lemma differs_iff now_ recorded : differs now_ recorded = true <-> recorded <> Some now_.
Proof.
  unfold differs. destruct recorded as [s|].
  - rewrite negb_true_iff. destruct (String.eqb_spec now_ s); split; congruence.
  - split; congruence.
Qed.

(** the step at which the fingerprints differ throws before its action is
    executed *)
Lemma replayStep_mismatch step x y ex now_ w :
  pointerMoveTarget step = Some (x, y) ->
  extras step = Some ex ->
  getNormalizedComponentStringByCoords x y (page w) = Ok now_ ->
  componentStr ex <> Some now_ ->
  exists w',
    replayStep step w = Threw (CacheError Invalid "UI element mismatch") w'
    /\ trace w' = EvLog "UI element mismatch with cached UI element"
                  :: EvFingerprint x y :: EvTimeout 1000 :: trace w
    /\ page w' = page w /\ testRun w' = testRun w /\ store w' = store w.
Proof.
  intros T X F D. apply differs_iff in D.
  unfold replayStep, verifyTarget, bind, sleep, modify, fingerprint, log, emit, throw.
  rewrite T, X. simpl. rewrite F, D. simpl.
  eexists. split; [reflexivity|]. simpl. auto.
Qed.

(** with an eligible run whose filtered steps are not empty,
    [runCachedTest] is the replay loop followed by [markPassedFromCache] *)
Lemma runCachedTest_replay w latest :
  TestRunRepository.getLatestPassedRun
    (TestRunRepository.loadRuns (TestRun.testCase (testRun w)) (store w)) = Some latest ->
  filter (fun s => negb (isScreenshot s)) (TestRun.steps latest) <> [] ->
  runCachedTest w
  = tryFinally
      (replaySteps (filter (fun s => negb (isScreenshot s)) (TestRun.steps latest)) ;;
       log "Successfully executed all cached steps" ;;
       onRun (TestRun.markPassedFromCache "All actions successfully replayed from cache"))
      (emit EvResetGroup) (replaying w).
Proof.
  intros L N.
  cbv [runCachedTest TestRunRepository.latestPassedRunOf TestRunRepository.getRuns
       tryFinally bind emit log modify gets ret throw replaying record].
  cbn [testRun store]. rewrite L.
  destruct (filter (fun s => negb (isScreenshot s)) (TestRun.steps latest)) eqn:F;
    [congruence|].
  reflexivity.
Qed.

(** a pointer move recorded without [extras] throws where its fingerprint
    is read, once the fingerprint of the page has been recomputed: a
    TypeError, not a cache error, whatever the page shows *)
Lemma replayStep_unrecorded step x y now_ w :
  pointerMoveTarget step = Some (x, y) ->
  extras step = None ->
  getNormalizedComponentStringByCoords x y (page w) = Ok now_ ->
  replayStep step w
  = Threw (ThrownError TypeErrorC
             "Cannot read properties of undefined (reading 'componentStr')")
      (record (EvFingerprint x y)
         (set_now (now w + 1000) (record (EvTimeout 1000) w))).
Proof.
  intros T X F.
  unfold replayStep, verifyTarget, bind, sleep, modify, fingerprint, log, emit, throw.
  rewrite T, X. simpl. rewrite F. reflexivity.
Qed.

(** Let the eligible cached run be [latest] and let its steps, the
    screenshots dropped, be [pre ++ step :: post], where [pre] replays
    without error and [step] is a pointer move with recorded coordinates
    that carries [extras], whose recorded fingerprint differs from the one
    recomputed at these coordinates.  Then the fingerprint at the
    coordinates is recomputed, the replay ends with the "invalid" cache
    error, the actions executed are those of [pre] and no other, and the run
    is left as it was (it is not marked passed). *)
Lemma replay_aborts_on_fingerprint_mismatch
    (latest : TestRun.t) (pre post : list CacheStep) (step : CacheStep)
    (x y : Z) (ex : StepExtras) (now_ : string) (w w1 : World) :
  TestRunRepository.getLatestPassedRun
    (TestRunRepository.loadRuns (TestRun.testCase (testRun w)) (store w)) = Some latest ->
  filter (fun s => negb (isScreenshot s)) (TestRun.steps latest)
  = (pre ++ step :: post)%list ->
  replaySteps pre (replaying w) = Returned tt w1 ->
  pointerMoveTarget step = Some (x, y) ->
  extras step = Some ex ->
  getNormalizedComponentStringByCoords x y (page w1) = Ok now_ ->
  componentStr ex <> Some now_ ->
  exists w2,
    runCachedTest w = Threw (CacheError Invalid "UI element mismatch") w2
    /\ trace w2 = EvResetGroup
                  :: EvLog "UI element mismatch with cached UI element"
                  :: EvFingerprint x y :: EvTimeout 1000 :: trace w1
    /\ executed (trace w2) = (rev (inputsOf pre) ++ executed (trace w))%list
    /\ count isExecute (trace w2) = (length (inputsOf pre) + count isExecute (trace w))%nat
    /\ testRun w2 = testRun w
    /\ store w2 = store w.
Proof.
  intros L F Pre T X Fp D.
  destruct (@replayStep_mismatch step x y ex now_ w1 T X Fp D) as (w' & R & E' & _ & R' & S').
  pose proof (@replaySteps_returned pre _ _ (replayed_prefix _ _ _ F) Pre) as (E1 & R1 & S1).
  assert (Loop : replaySteps (pre ++ step :: post) (replaying w)
                 = Threw (CacheError Invalid "UI element mismatch") w').
  { unfold replaySteps in *. rewrite forEach_app.
    erewrite bind_run by exact Pre. simpl.
    erewrite bind_threw by exact R. reflexivity. }
  rewrite (runCachedTest_replay w L) by (rewrite F; now destruct pre).
  rewrite F. unfold tryFinally.
erewrite bind_threw by exact Loop. simpl.
  eexists. split; [reflexivity|]. simpl.
  rewrite !count_executed. simpl.
  rewrite E', R', R1, S', S1. simpl. rewrite E1.
  split; [reflexivity|]. split; [reflexivity|]. split; [|auto].
  now rewrite length_app, length_rev.
Qed.

End Replay.

(** the shop shows the sell button where the buy button was recorded: the
    replay stops at the pointer move, before any action *)
Lemma replay_aborts_on_recorded_mismatch :
  let tc := Shop.testCase None None in
  exists w2,
    TestRunner.runCachedTest (P := Shop.platform)
      (Shop.world Shop.sellButton tc Shop.cacheDir)
    = Threw (CacheError Invalid "UI element mismatch") w2
    /\ executed (trace w2) = []
    /\ testRun w2 = Shop.started tc.
Proof.
  intros tc.
  destruct (@replay_aborts_on_fingerprint_mismatch Shop.platform Shop.site
              (TestRun.fromCache (H := Shop.platform) tc Shop.earlier)
              [] [Shop.clickStep] Shop.moveStep 10 20
              {| componentStr := Some Shop.buyButton |} Shop.sellButton
              (Shop.world Shop.sellButton tc Shop.cacheDir)
              (replaying (Shop.world Shop.sellButton tc Shop.cacheDir)))
    as (w2 & E & _ & X & _ & R & _);
    try reflexivity.
  - discriminate.
  - exists w2. split; [exact E|]. split; [exact X|exact R].
Qed.

(** ** The orchestrator *)

Section Orchestration.
Context {P : Platform} {C : Collaborators}.
Variable config : ShortestStrictConfig.
Import TestRunner.

(** *** How [executeTest] starts *)

Lemma screenshot_entered w b r :
  execute screenshot (page w) = (b, r) ->
  browserExecute screenshot (record (EvLog "Executing test") w)
  = match r with
    | Ok init => Returned init (entered w b)
    | Err e => Threw e (unseen w b)
    end.
Proof.
  intros E. rewrite browserExecute_result. cbn. rewrite E.
  destruct r; reflexivity.
Qed.

Lemma executeTest_direct fuel skipCache w :
  TestCase.directExecution (TestRun.testCase (testRun w)) = true ->
  executeTest config (S fuel) skipCache w
  = runDirect (TestRun.testCase (testRun w)) (record (EvLog "Executing test") w).
Proof.
  intros D. cbn [executeTest].
  erewrite bind_run by reflexivity. erewrite bind_run by reflexivity.
  now rewrite D.
Qed.

Lemma executeTest_no_screenshot fuel skipCache w b e :
  TestCase.directExecution (TestRun.testCase (testRun w)) = false ->
  execute screenshot (page w) = (b, Err e) ->
  executeTest config (S fuel) skipCache w = Threw e (unseen w b).
Proof.
  intros D E. cbn [executeTest].
  erewrite bind_run by reflexivity. erewrite bind_run by reflexivity.
  rewrite D. erewrite bind_threw by (erewrite screenshot_entered by exact E; reflexivity).
  reflexivity.
Qed.

Lemma executeTest_live fuel skipCache w b init :
  TestCase.directExecution (TestRun.testCase (testRun w)) = false ->
  execute screenshot (page w) = (b, Ok init) ->
  (caching_enabled config && negb skipCache)%bool = false ->
  executeTest config (S fuel) skipCache w
  = (log "Skipping cache" ;; runLive (TestRun.testCase (testRun w)) init) (entered w b).
Proof.
  intros D E N. cbn [executeTest].
  erewrite bind_run by reflexivity. erewrite bind_run by reflexivity.
  rewrite D. erewrite bind_run by (erewrite screenshot_entered by exact E; reflexivity).
  now rewrite N.
Qed.

Lemma executeTest_cached fuel w b init :
  TestCase.directExecution (TestRun.testCase (testRun w)) = false ->
  execute screenshot (page w) = (b, Ok init) ->
  caching_enabled config = true ->
  executeTest config (S fuel) false w
  = tryCatch (runCachedTest ;; afterCached (TestRun.testCase (testRun w)))
      (fallback (executeTest config fuel true) init) (entered w b).
Proof.
  intros D E N. cbn [executeTest].
  erewrite bind_run by reflexivity. erewrite bind_run by reflexivity.
  rewrite D. erewrite bind_run by (erewrite screenshot_entered by exact E; reflexivity).
  now rewrite N.
Qed.

(** *** Termination: the recursion of line 294 is one level deep *)

Lemma total_runCachedTest : total runCachedTest.
Proof.
  unfold runCachedTest, TestRunRepository.latestPassedRunOf, TestRunRepository.getRuns,
    replaySteps, replayStep, verifyTarget, replayAction, emit, log, sleep.
  totality.
Qed.

Lemma total_afterCached tc : total (afterCached tc).
Proof. unfold afterCached, markFailed. totality. Qed.

Lemma total_runLive tc init : total (runLive tc init).
Proof.
  unfold runLive, beforeLive, decide, afterLive, settle, markFailed, emit, log.
  totality.
Qed.

Lemma total_runDirect tc : total (runDirect tc).
Proof. unfold runDirect, markFailed. totality. Qed.

Lemma total_executeTest_skip fuel : total (executeTest config (S fuel) true).
Proof.
  cbn [executeTest]. unfold log, emit.
  destruct (caching_enabled config); cbn [andb negb];
    repeat first [ apply total_runDirect | apply total_runLive | totality_step ].
Qed.

Lemma total_fallback retry init e : total retry -> total (fallback retry init e).
Proof. intros R. unfold fallback, log, emit. totality. exact R. Qed.

Lemma total_executeTest fuel skipCache : total (executeTest config (S (S fuel)) skipCache).
Proof.
  destruct skipCache; [apply total_executeTest_skip|].
  cbn [executeTest]. unfold log, emit.
  repeat first [ apply total_runDirect | apply total_runLive | apply total_runCachedTest
               | apply total_afterCached
               | apply total_fallback; apply total_executeTest_skip
               | totality_step ].
Qed.

(** *** What the paths record *)

Lemma adds_after_emit {A} p e n (m : M A) :
  adds p n m ->
  adds p ((if p e then 1 else 0) + n) (emit e ;; m).
Proof.
  intros Hm w. unfold bind, emit, modify. specialize (Hm (record e w)).
  unfold count in *. cbn [trace record filter] in Hm.
  destruct (m (record e w)); auto; destruct (p e); simpl in *; lia.
Qed.

Lemma adds_tryFinally {A} p n (m : M A) (f : M unit) :
  adds p n m -> silent p f -> adds p n (tryFinally m f).
Proof.
  intros Hm Hf w. unfold tryFinally, bind, ret, throw. specialize (Hm w).
  destruct (m w) as [a w1|e w1|]; auto;
    specialize (Hf w1); destruct (f w1); simpl in *; lia.
Qed.

Lemma silent_replaySteps p steps :
  (forall ms, p (EvTimeout ms) = false) -> (forall x y, p (EvFingerprint x y) = false) ->
  (forall i, p (EvExecute i) = false) ->
  p (EvLog "UI element mismatch with cached UI element") = false ->
  p (EvLog "Failed to execute cached step") = false ->
  silent p (replaySteps steps).
Proof.
  intros T F E L1 L2.
  unfold replaySteps, replayStep, verifyTarget, replayAction, log.
  repeat first [ apply silent_sleep; apply T | apply silent_fingerprint; apply F
               | apply silent_browserExecute; apply E
               | apply silent_emit; first [apply L1 | apply L2]
               | silence_step ].
Qed.

(** the replay itself invokes no callback at all *)
Lemma replay_invokes_no_hook k : silent (isInvoke k) runCachedTest.
Proof.
  unfold runCachedTest, TestRunRepository.latestPassedRunOf, TestRunRepository.getRuns,
    log.
  repeat first [ apply silent_replaySteps; reflexivity | silence_step ].
Qed.

(** the replay and its after hook never invoke the before hook *)
Lemma replay_skips_before tc :
  silent (isInvoke BeforeFn) (runCachedTest ;; afterCached tc).
Proof.
  unfold runCachedTest, TestRunRepository.latestPassedRunOf, TestRunRepository.getRuns,
    afterCached, log.
  repeat first [ apply silent_replaySteps; reflexivity | silence_step ].
Qed.

(** [runCachedTest] announces itself once, whatever its outcome *)
Lemma runCachedTest_attempts_once : adds isReplayAttempt 1 runCachedTest.
Proof.
  unfold runCachedTest. apply adds_tryFinally; [|apply silent_emit; reflexivity].
  apply (@adds_after_emit _ isReplayAttempt (EvSetGroup GroupCache) 1).
  apply (@adds_after_emit _ isReplayAttempt
           (EvLog "Attempting to execute test from cache") 0).
  unfold TestRunRepository.latestPassedRunOf, TestRunRepository.getRuns, log.
  fold (silent (A := unit) isReplayAttempt).
  repeat first [ apply silent_replaySteps; reflexivity | silence_step ].
  all: match goal with |- ?g => idtac g end.
Qed.

(** *** Frames: what the browser-side operations leave alone *)

Section Frame.
Variable R : World -> World -> Prop.
Hypothesis R_refl : forall w, R w w.
Hypothesis R_trans : forall w1 w2 w3, R w1 w2 -> R w2 w3 -> R w1 w3.
(** [R] looks at the run and the cache directory only *)
Hypothesis R_browser : forall w b n tr,
  R w {| page := b; testRun := testRun w; store := store w; now := n; trace := tr |}.

Lemma preserves_ret {A} (a : A) : preserves R (ret a).
Proof. intros w. apply R_refl. Qed.

Lemma preserves_throw {A} e : preserves R (throw (A := A) e).
Proof. intros w. apply R_refl. Qed.

Lemma preserves_gets {A} (f : World -> A) : preserves R (gets f).
Proof. intros w. apply R_refl. Qed.

Lemma preserves_bind {A B} (m : M A) (f : A -> M B) :
  preserves R m -> (forall a, preserves R (f a)) -> preserves R (bind m f).
Proof.
  intros Hm Hf w. unfold bind. specialize (Hm w).
  destruct (m w) as [a w1|e w1|]; auto.
  specialize (Hf a w1). destruct (f a w1); eauto.
Qed.

Lemma preserves_tryCatch {A} (m : M A) (h : Thrown -> M A) :
  preserves R m -> (forall e, preserves R (h e)) -> preserves R (tryCatch m h).
Proof.
  intros Hm Hh w. unfold tryCatch. specialize (Hm w).
  destruct (m w) as [a w1|e w1|]; auto.
  specialize (Hh e w1). destruct (h e w1); eauto.
Qed.

Lemma preserves_forEach {A} (f : A -> M unit) xs :
  (forall x, preserves R (f x)) -> preserves R (forEach f xs).
Proof.
  intros Hf. induction xs as [|x xs IH]; simpl.
  - apply preserves_ret.
  - apply preserves_bind; auto.
Qed.

Lemma preserves_emit e : preserves R (emit e).
Proof. intros w. exact (R_browser w _ _ _). Qed.

Lemma preserves_sleep ms : preserves R (sleep ms).
Proof. intros w. exact (R_browser w _ _ _). Qed.

Lemma preserves_fingerprint x y : preserves R (fingerprint x y).
Proof.
  intros w. unfold fingerprint.
  destruct (getNormalizedComponentStringByCoords x y _); exact (R_browser w _ _ _).
Qed.

(** an action other than a screenshot *)
Lemma preserves_browserExecute i :
  InternalActionEnum_eqb (action i) SCREENSHOT = false ->
  preserves R (browserExecute i).
Proof.
  intros N w. rewrite browserExecute_result, N. cbv zeta.
  destruct (execute i _) as [b [r|e]]; exact (R_browser w _ _ _).
Qed.

Lemma preserves_callback k cb : preserves R (callback k cb).
Proof.
  intros w. unfold callback.
  destruct (invoke cb _) as [b [e|]]; exact (R_browser w _ _ _).
Qed.

Lemma preserves_pageGoto url : preserves R (pageGoto url).
Proof.
  intros w. unfold pageGoto.
  destruct (goto url _) as [b [e|]]; exact (R_browser w _ _ _).
Qed.

Lemma preserves_replayStep step :
  isScreenshot step = false -> preserves R (replayStep step).
Proof.
  intros N. unfold replayStep, verifyTarget, replayAction, log.
  unfold isScreenshot in N.
  repeat first
    [ apply preserves_ret | apply preserves_throw | apply preserves_emit
    | apply preserves_sleep | apply preserves_fingerprint
    | apply preserves_browserExecute; exact N
    | apply preserves_bind; [|intros ?]
    | apply preserves_tryCatch; [|intros ?]
    | match goal with
      | |- preserves _ (match ?x with _ => _ end) => destruct x
      | |- preserves _ (if ?x then _ else _) => destruct x
      end ].
Qed.

(** steps without a screenshot among them, as a replay goes through *)
Lemma preserves_replaySteps steps :
  Forall (fun s => isScreenshot s = false) steps -> preserves R (replaySteps steps).
Proof.
  unfold replaySteps. induction 1 as [|s steps N _ IH]; simpl.
  - apply preserves_ret.
  - apply preserves_bind; [now apply preserves_replayStep|intros _; exact IH].
Qed.

End Frame.

Lemma replaySteps_sameRun steps :
  Forall (fun s => isScreenshot s = false) steps -> preserves sameRun (replaySteps steps).
Proof.
  apply preserves_replaySteps; unfold sameRun.
  - auto.
  - intros w1 w2 w3 [A B] [A' B']. split; congruence.
  - auto.
Qed.

Lemma bind_threw_inv {A B} (m : M A) (k : A -> M B) w e w' :
  bind m k w = Threw e w' ->
  m w = Threw e w' \/ exists a w1, m w = Returned a w1 /\ k a w1 = Threw e w'.
Proof.
  unfold bind. destruct (m w) as [a w1|e1 w1|]; try discriminate; intros H.
  - right. eauto.
  - left. inversion H; reflexivity.
Qed.

(** a replay that throws has not touched the run or the cache directory *)
Lemma runCachedTest_threw w e w' :
  runCachedTest w = Threw e w' -> sameRun w w'.
Proof.
  destruct (TestRunRepository.getLatestPassedRun
              (TestRunRepository.loadRuns (TestRun.testCase (testRun w)) (store w)))
    as [latest|] eqn:L.
  - destruct (filter (fun s => negb (isScreenshot s)) (TestRun.steps latest)) eqn:F.
    + cbv [runCachedTest TestRunRepository.latestPassedRunOf TestRunRepository.getRuns
           tryFinally bind emit log modify gets ret throw record].
      cbn [testRun store]. rewrite L, F. cbn.
      intros H; inversion H; subst. split; reflexivity.
    + rewrite (runCachedTest_replay w L) by (rewrite F; discriminate).
      rewrite F. unfold tryFinally.
      match goal with |- context [match ?m (replaying w) with _ => _ end] =>
        destruct (m (replaying w)) as [a w1|e1 w1|] eqn:I end;
        cbn; intros H; inversion H; subst.
      apply bind_threw_inv in I. destruct I as [T|(a & w2 & T & K)].
      * pose proof (replaySteps_sameRun (replayed_prefix _ _ [] (eq_trans F (eq_sym (app_nil_r _)))) (replaying w)) as S.
        rewrite T in S. exact S.
      * pose proof (replaySteps_sameRun (replayed_prefix _ _ [] (eq_trans F (eq_sym (app_nil_r _)))) (replaying w)) as S.
        rewrite T in S. destruct S as [S1 S2].
        unfold bind, log, emit, modify, onRun in K. cbn in K.
        destruct (TestRun.markPassedFromCache _ _); inversion K; subst.
        split; cbn; assumption.
  - cbv [runCachedTest TestRunRepository.latestPassedRunOf TestRunRepository.getRuns
         tryFinally bind emit log modify gets ret throw record].
    cbn [testRun store]. rewrite L. cbn.
    intros H; inversion H; subst. split; reflexivity.
Qed.

(** a replay that returns has marked the run passed from cache *)
Lemma runCachedTest_returned w w' :
  runCachedTest w = Returned tt w' ->
  TestRun.status (testRun w') = passed
  /\ TestRun.reason (testRun w') = Some "All actions successfully replayed from cache"
  /\ TestRun.executedFromCache (testRun w') = true
  /\ TestRun.status (testRun w) = running
  /\ store w' = store w.
Proof.
  destruct (TestRunRepository.getLatestPassedRun
              (TestRunRepository.loadRuns (TestRun.testCase (testRun w)) (store w)))
    as [latest|] eqn:L.
  - destruct (filter (fun s => negb (isScreenshot s)) (TestRun.steps latest)) eqn:F.
    + cbv [runCachedTest TestRunRepository.latestPassedRunOf TestRunRepository.getRuns
           tryFinally bind emit log modify gets ret throw record].
      cbn [testRun store]. rewrite L, F. cbn. discriminate.
    + rewrite (runCachedTest_replay w L) by (rewrite F; discriminate).
      rewrite F. unfold tryFinally.
      match goal with |- context [match ?m (replaying w) with _ => _ end] =>
        destruct (m (replaying w)) as [a w1|e1 w1|] eqn:I end;
        cbn; intros H; inversion H; subst.
      apply bind_returned in I. destruct I as ([] & w2 & T & K).
      pose proof (replaySteps_sameRun (replayed_prefix _ _ [] (eq_trans F (eq_sym (app_nil_r _)))) (replaying w)) as S.
      rewrite T in S. destruct S as [S1 S2].
      unfold bind, log, emit, modify, onRun in K. cbn in K.
      destruct (TestRun.markPassedFromCache _ _) as [r|] eqn:M; inversion K; subst.
      apply markPassedFromCache_ok in M. destruct M as (M0 & M1 & M2 & M3).
      cbn. rewrite S1 in M0. cbn in M0. auto.
  - cbv [runCachedTest TestRunRepository.latestPassedRunOf TestRunRepository.getRuns
         tryFinally bind emit log modify gets ret throw record].
    cbn [testRun store]. rewrite L. cbn. discriminate.
Qed.

(** *** The after hook *)

Lemma afterCached_result tc w :
  afterCached tc w
  = match TestCase.afterFn tc with
    | None => Returned tt w
    | Some cb =>
        match invoke cb (page w) with
        | (b, None) => Returned tt (set_page b (record (EvInvoke AfterFn cb) w))
        | (b, Some e) =>
            Returned tt
              (set_testRun
                 (TestRun.markFailed
                    (if TestStatus_eqb (TestRun.status (testRun w)) failed
                     then "AI: " ++ template (TestRun.reason (testRun w))
                          ++ ", After: " ++ errorMessage e
                     else errorMessage e)
                    None (testRun w))
                 (set_page b (record (EvInvoke AfterFn cb) w)))
        end
    end.
Proof.
  unfold afterCached. destruct (TestCase.afterFn tc) as [cb|]; [|reflexivity].
  unfold tryCatch, callback. cbn [page record].
  destruct (invoke cb (page w)) as [b [e|]]; reflexivity.
Qed.

Lemma afterLive_result tc aiResponse w :
  afterLive tc aiResponse w
  = match TestCase.afterFn tc with
    | None => Returned true w
    | Some cb =>
        match invoke cb (page w) with
        | (b, None) => Returned true (set_page b (record (EvInvoke AfterFn cb) w))
        | (b, Some e) =>
            Returned false
              (set_testRun
                 (TestRun.markFailed
                    (if TestStatus_eqb (response_status aiResponse) failed
                     then "AI: " ++ response_reason aiResponse
                          ++ ", After: " ++ errorMessage e
                     else errorMessage e)
                    (Some (usage aiResponse)) (testRun w))
                 (set_page b (record (EvInvoke AfterFn cb) w)))
        end
    end.
Proof.
  unfold afterLive. destruct (TestCase.afterFn tc) as [cb|]; [|reflexivity].
  unfold tryCatch, bind, callback. cbn [page record].
  destruct (invoke cb (page w)) as [b [e|]]; reflexivity.
Qed.

Lemma prefix_app p s : String.prefix p (p ++ s) = true.
Proof.
  induction p as [|c p IH]; simpl.
  - now destruct s.
  - destruct (ascii_dec c c); [exact IH|contradiction].
Qed.

Lemma includes_unfold p s :
  Str.includes p s
  = (String.prefix p s
     || match s with EmptyString => false | String _ r => Str.includes p r end)%bool.
Proof. destruct s; reflexivity. Qed.

Lemma includes_app p a s : Str.includes p (a ++ p ++ s) = true.
Proof.
  induction a as [|c a IH]; simpl.
  - rewrite includes_unfold, prefix_app. reflexivity.
  - rewrite IH. apply orb_true_r.
Qed.

Lemma append_empty s : s ++ "" = s.
Proof. induction s; simpl; congruence. Qed.

Lemma append_associative a b c : (a ++ b) ++ c = a ++ b ++ c.
Proof. induction a; simpl; congruence. Qed.

Lemma includes_end p a : Str.includes p (a ++ p) = true.
Proof. rewrite <- (append_empty p) at 2. apply includes_app. Qed.

Lemma includes_both r m :
  Str.includes r ("AI: " ++ r ++ ", After: " ++ m) = true
  /\ Str.includes m ("AI: " ++ r ++ ", After: " ++ m) = true.
Proof.
  split.
  - apply (includes_app r "AI: ").
  - replace ("AI: " ++ r ++ ", After: " ++ m) with (("AI: " ++ r ++ ", After: ") ++ m)
      by (now rewrite !append_associative).
    apply includes_end.
Qed.

(** C9, as amended.  Let the test case have an after hook that throws [e].
    On the live path, once the before hook and the Action Decider have
    returned a verdict, the run ends failed; its reason is
    "AI: <verdict reason>, After: <hook message>", which contains both, when
    the verdict is failed, and the hook's message alone otherwise (verdict
    passed).  On the cached path, after a replay that returned, the run ends
    failed with the hook's message alone as its reason. *)
Theorem after_hook_failure_reason (tc : TestCase.t) (cb : Callback) :
  TestCase.afterFn tc = Some cb ->
  (forall init w w1 w2 aiResponse b e,
     beforeLive tc w = Returned true w1 ->
     decide tc init w1 = Returned aiResponse w2 ->
     invoke cb (page w2) = (b, Some e) ->
     exists w',
       runLive tc init w = Returned tt w'
       /\ TestRun.status (testRun w') = failed
       /\ (response_status aiResponse = failed ->
           TestRun.reason (testRun w')
           = Some ("AI: " ++ response_reason aiResponse ++ ", After: " ++ errorMessage e)
           /\ Str.includes (response_reason aiResponse)
                ("AI: " ++ response_reason aiResponse ++ ", After: " ++ errorMessage e)
              = true
           /\ Str.includes (errorMessage e)
                ("AI: " ++ response_reason aiResponse ++ ", After: " ++ errorMessage e)
              = true)
       /\ (response_status aiResponse = passed ->
           TestRun.reason (testRun w') = Some (errorMessage e)))
  /\ (forall w w1 b e,
        runCachedTest w = Returned tt w1 ->
        invoke cb (page w1) = (b, Some e) ->
        exists w',
          (runCachedTest ;; afterCached tc) w = Returned tt w'
          /\ TestRun.status (testRun w') = failed
          /\ TestRun.reason (testRun w') = Some (errorMessage e)).
Proof.
  intros A. split.
  - intros init w w1 w2 aiResponse b e B D I.
    unfold runLive. erewrite bind_run by exact B. cbn [negb].
    erewrite bind_run by exact D.
    erewrite bind_run by (rewrite afterLive_result, A, I; reflexivity).
    cbn [negb]. eexists. split; [reflexivity|].
    cbn [testRun set_testRun].
    destruct (markFailed_state
                (if TestStatus_eqb (response_status aiResponse) failed
                 then "AI: " ++ response_reason aiResponse ++ ", After: " ++ errorMessage e
                 else errorMessage e)
                (Some (usage aiResponse)) (testRun w2)) as (S & R & _).
    split; [exact S|]. rewrite R. split; intros V; rewrite V; cbn.
    + split; [reflexivity|]. apply includes_both.
    + reflexivity.
  - intros w w1 b e Rp I.
    erewrite bind_run by exact Rp. rewrite afterCached_result, A, I.
    apply runCachedTest_returned in Rp. destruct Rp as (S & _).
    rewrite S. cbn. eexists. split; [reflexivity|]. split; reflexivity.
Qed.

(** *** Hooks and replay attempts along the paths *)

Lemma adds_tryCatch {A} p n (m : M A) (h : Thrown -> M A) :
  adds p n m -> (forall e, silent p (h e)) -> adds p n (tryCatch m h).
Proof.
  intros Hm Hh w. unfold tryCatch. specialize (Hm w).
  destruct (m w) as [a w1|e w1|]; auto.
  specialize (Hh e w1). destruct (h e w1); simpl in *; lia.
Qed.

(** the live path invokes the before hook, once, when there is one *)
Lemma beforeLive_adds tc :
  adds (isInvoke BeforeFn) (hookCalls (TestCase.beforeFn tc)) (beforeLive tc).
Proof.
  unfold beforeLive. destruct (TestCase.beforeFn tc) as [cb|]; simpl.
  - apply adds_tryCatch.
    + apply adds_then_silent; [apply adds_callback; reflexivity|].
      intros _. apply silent_ret.
    + intros e. silence.
  - apply silent_ret.
Qed.

Lemma live_adds_before tc init :
  adds (isInvoke BeforeFn) (hookCalls (TestCase.beforeFn tc))
    (log "Skipping cache" ;; runLive tc init).
Proof.
  apply (@adds_after_emit _ (isInvoke BeforeFn) (EvLog "Skipping cache")).
  unfold runLive. apply adds_then_silent; [apply beforeLive_adds|].
  intros proceed. unfold decide, afterLive, settle.
  silence.
Qed.

(** entered with [skipCache = true], [executeTest] never attempts a replay *)
Lemma live_attempts_no_replay fuel :
  silent isReplayAttempt (executeTest config fuel true).
Proof.
  destruct fuel as [|fuel]; [intros w; exact I|].
  cbn [executeTest].
  unfold runDirect, runLive, beforeLive, decide, afterLive, settle, log.
  destruct (caching_enabled config); cbn [andb negb]; silence.
Qed.

Lemma count_entered p w b :
  p (EvLog "Executing test") = false -> p (EvExecute screenshot) = false ->
  count p (trace (entered w b)) = count p (trace w).
Proof. intros L E. unfold count. simpl. now rewrite E, L. Qed.

Lemma count_returned p w b url :
  p (EvGoto url) = false ->
  p (EvLog "Cache execution interrupted, falling back to normal execution") = false ->
  count p (trace (set_page b
                    (record (EvGoto url)
                       (record (EvLog "Cache execution interrupted, falling back to normal execution")
                          w))))
  = count p (trace w).
Proof. intros G L. unfold count. simpl. now rewrite G, L. Qed.

(** C10.  Take a non-direct test case with caching enabled, entered with
    [skipCache = false], whose initial screenshot succeeds.
    - The replay and the after hook that follows it never invoke the before
      hook, whatever their outcome.
    - When the replay returns, [executeTest] returns with no before hook
      invoked and the after hook invoked once (when the test has one).
    - When the replay throws a cache error and the page is brought back, the
      retry runs the live path, where the before hook is invoked once (when
      the test has one). *)
Theorem before_hook_only_on_live_path (fuel : nat) (w : World) (b : Browser)
    (init : ToolResult) :
  caching_enabled config = true ->
  TestCase.directExecution (TestRun.testCase (testRun w)) = false ->
  execute screenshot (page w) = (b, Ok init) ->
  silent (isInvoke BeforeFn)
    (runCachedTest ;; afterCached (TestRun.testCase (testRun w)))
  /\ (forall w2,
        runCachedTest (entered w b) = Returned tt w2 ->
        exists w3,
          executeTest config (S fuel) false w = Returned tt w3
          /\ count (isInvoke BeforeFn) (trace w3) = count (isInvoke BeforeFn) (trace w)
          /\ count (isInvoke AfterFn) (trace w3)
             = (hookCalls (TestCase.afterFn (TestRun.testCase (testRun w)))
                + count (isInvoke AfterFn) (trace w))%nat)
  /\ (forall e w2 bg b' init',
        runCachedTest (entered w b) = Threw e w2 ->
        instanceofCacheError e = true ->
        goto (window_url init) (page w2) = (bg, None) ->
        execute screenshot bg = (b', Ok init') ->
        terminates (executeTest config (S (S fuel)) false w)
        /\ count (isInvoke BeforeFn)
             (trace (worldOf (executeTest config (S (S fuel)) false w) w))
           = (hookCalls (TestCase.beforeFn (TestRun.testCase (testRun w)))
              + count (isInvoke BeforeFn) (trace w))%nat).
Proof.
  intros Caching Direct Shot.
  set (tc := TestRun.testCase (testRun w)) in *.
  pose proof (replay_skips_before tc (entered w b)) as Quiet.
  split; [apply replay_skips_before|]. split.
  - intros w2 Rp.
    rewrite (@executeTest_cached fuel w b init Direct Shot Caching). fold tc.
    unfold tryCatch.
    assert (After : exists w3, (runCachedTest ;; afterCached tc) (entered w b)
                               = Returned tt w3
                               /\ count (isInvoke AfterFn) (trace w3)
                                  = (hookCalls (TestCase.afterFn tc)
                                     + count (isInvoke AfterFn) (trace w2))%nat).
    { erewrite bind_run by exact Rp. rewrite afterCached_result.
      destruct (TestCase.afterFn tc) as [cb|]; [|eauto].
      destruct (invoke cb (page w2)) as [bb [e|]]; eexists; split; reflexivity. }
    destruct After as (w3 & E & A). rewrite E in *.
    exists w3. split; [reflexivity|]. split.
    + cbn [Nat.add] in Quiet. rewrite Quiet. now apply count_entered.
    + pose proof (replay_invokes_no_hook AfterFn (entered w b)) as NoHook.
      rewrite Rp in NoHook. cbn [Nat.add] in NoHook.
      rewrite A, NoHook. now rewrite count_entered.
  - intros e w2 bg b' init' Rp Cache Goto Shot'.
    split; [apply total_executeTest|].
    rewrite (@executeTest_cached (S fuel) w b init Direct Shot Caching). fold tc.
    unfold tryCatch. erewrite bind_threw in * by exact Rp.
    unfold fallback. rewrite Cache. cbn [negb].
    unfold bind at 1. cbn [log emit modify].
    unfold bind at 1. unfold pageGoto. cbn [page record]. rewrite Goto.
    destruct (@runCachedTest_threw _ _ _ Rp) as [Same _]. cbn [testRun entered set_page record] in Same.
    match goal with |- context [executeTest config (S fuel) true ?x] =>
      set (w3 := x);
      assert (T3 : TestRun.testCase (testRun w3) = tc) by (cbn; now rewrite Same)
    end.
    rewrite (@executeTest_live fuel true w3 b' init')
      by (rewrite ?T3; auto using andb_false_r).
    rewrite T3.
    pose proof (live_adds_before tc init' (entered w3 b')) as Live.
    destruct ((log "Skipping cache" ;; runLive tc init') (entered w3 b'))
      as [[] w4|e4 w4|] eqn:O; cbn [worldOf].
    + rewrite Live, count_entered by reflexivity.
      subst w3. rewrite count_returned by reflexivity.
      cbn [Nat.add] in Quiet. rewrite Quiet. now rewrite count_entered.
    + rewrite Live, count_entered by reflexivity.
      subst w3. rewrite count_returned by reflexivity.
      cbn [Nat.add] in Quiet. rewrite Quiet. now rewrite count_entered.
    + pose proof (total_executeTest_skip fuel w3) as Tm.
      rewrite (@executeTest_live fuel true w3 b' init') in Tm
        by (rewrite ?T3; auto using andb_false_r).
      rewrite T3, O in Tm. destruct Tm.
Qed.

(** *** The replay boundary *)

(** with [skipCache = true] there is no recursive call: any fuel does *)
Lemma executeTest_skip_fuel fuel w :
  executeTest config (S fuel) true w = executeTest config 1 true w.
Proof.
  destruct (TestCase.directExecution (TestRun.testCase (testRun w))) eqn:D.
  - now rewrite !executeTest_direct.
  - destruct (execute screenshot (page w)) as [b [init|e]] eqn:E.
    + rewrite !(@executeTest_live _ true w b init) by auto using andb_false_r.
      reflexivity.
    + now rewrite !(@executeTest_no_screenshot _ true w b e).
Qed.

Lemma silent_fallback retry init e :
  silent isReplayAttempt retry -> silent isReplayAttempt (fallback retry init e).
Proof.
  intros R. unfold fallback, log.
  repeat first [ exact R | silence_step ].
Qed.

(** C4.  Take a non-direct test case with caching enabled, entered with
    [skipCache = false], whose initial screenshot succeeds, and let the
    replay throw [e].
    - If [e] is not a cache error, [executeTest] throws [e]: no fallback.
    - If [e] is a cache error (not-found or invalid), the run is the one
      [executeTest] was given, untouched; the page is sent back to the URL of
      the initial screenshot and [executeTest] is called once more with
      [skipCache = true]; this call needs no further fuel and takes the live
      path; in the whole execution the replay is attempted exactly once. *)
Theorem cache_error_falls_back_once (fuel : nat) (w : World) (b : Browser)
    (init : ToolResult) (e : Thrown) (w2 : World) :
  caching_enabled config = true ->
  TestCase.directExecution (TestRun.testCase (testRun w)) = false ->
  execute screenshot (page w) = (b, Ok init) ->
  runCachedTest (entered w b) = Threw e w2 ->
  (instanceofCacheError e = false ->
     executeTest config (S fuel) false w = Threw e w2)
  /\ (instanceofCacheError e = true ->
      let w3 :=
        record (EvLog "Cache execution interrupted, falling back to normal execution") w2 in
      testRun w2 = testRun w
      /\ executeTest config (S (S fuel)) false w
         = (pageGoto (window_url init) ;; executeTest config 1 true) w3
      /\ terminates (executeTest config (S (S fuel)) false w)
      /\ count isReplayAttempt
           (trace (worldOf (executeTest config (S (S fuel)) false w) w))
         = (1 + count isReplayAttempt (trace w))%nat
      /\ forall bg b' init',
           goto (window_url init) (page w2) = (bg, None) ->
           execute screenshot bg = (b', Ok init') ->
           executeTest config (S (S fuel)) false w
           = (log "Skipping cache" ;; runLive (TestRun.testCase (testRun w)) init')
               (entered (set_page bg (record (EvGoto (window_url init)) w3)) b')).
Proof.
  intros Caching Direct Shot Rp.
  set (tc := TestRun.testCase (testRun w)) in *.
  destruct (@runCachedTest_threw _ _ _ Rp) as [Same _].
  cbn [testRun entered set_page record] in Same.
  assert (Step : forall n,
            executeTest config (S n) false w
            = fallback (executeTest config n true) init e w2).
  { intros n. rewrite (@executeTest_cached n w b init Direct Shot Caching). fold tc.
    unfold tryCatch. erewrite bind_threw by exact Rp. reflexivity. }
  split.
  - intros N. rewrite Step. unfold fallback. now rewrite N.
  - intros Y w3.
    assert (Retry : executeTest config (S (S fuel)) false w
                    = (pageGoto (window_url init) ;; executeTest config 1 true) w3).
    { rewrite Step. unfold fallback. rewrite Y. cbn [negb].
      unfold bind at 1. cbn [log emit modify]. fold w3.
      unfold bind. destruct (pageGoto (window_url init) w3); auto.
      apply executeTest_skip_fuel. }
    split; [exact Same|]. split; [exact Retry|].
    split; [apply total_executeTest|]. split.
    + pose proof (total_executeTest fuel false w) as Tm.
      pose proof (@silent_fallback (executeTest config (S fuel) true) init e
                    (live_attempts_no_replay (S fuel)) w2) as Q.
      rewrite <- Step in Q.
      pose proof (runCachedTest_attempts_once (entered w b)) as Once.
      rewrite Rp in Once. rewrite count_entered in Once by reflexivity.
      destruct (executeTest config (S (S fuel)) false w); cbn [worldOf].
      * rewrite Q. exact Once.
      * rewrite Q. exact Once.
      * destruct Tm.
    + intros bg b' init' Goto Shot'. rewrite Retry.
      unfold bind at 1. unfold pageGoto. cbn [page record].
      replace (page w3) with (page w2) by reflexivity. rewrite Goto.
      rewrite (@executeTest_live 0 true _ b' init'); cbn [testRun set_page record page].
      * subst w3. cbn [testRun record]. rewrite Same. reflexivity.
      * subst w3. cbn [testRun record]. now rewrite Same.
      * exact Shot'.
      * apply andb_false_r.
Qed.

End Orchestration.

(** ** The engine on the shop page *)

(** both kinds of cache error are instances of [CacheError]; errors of the
    other classes and thrown values are not *)
Example cache_errors_are_recognised :
  instanceofCacheError (CacheError NotFound "No successful cached test run found") = true
  /\ instanceofCacheError (CacheError Invalid "UI element mismatch") = true
  /\ instanceofCacheError (ShortestError "Can only pass from running state") = false
  /\ instanceofCacheError (ThrownValue "oops") = false.
Proof. repeat split. Qed.

(** two failed runs, as in the repository tests: the older one is deleted *)
Example retention_keeps_the_newest_failed_run :
  map fst (TestRunRepository.applyRetentionPolicy (P := Shop.platform)
             [ Scenario.loaded "older-run" 2 failed false 1000;
               Scenario.loaded "newer-run" 2 failed false 2000 ])
  = [0%nat].
Proof. reflexivity. Qed.

(** the shop shows the sell button: the replay is invalid, the test is
    retried live, and the replay was attempted once *)
Lemma cache_error_falls_back_once_witness :
  let tc := Shop.testCase (Some 0%nat) None in
  let w := Shop.world Shop.sellButton tc Shop.cacheDir in
  terminates (TestRunner.executeTest (P := Shop.platform) Shop.cachingOn 2 false w)
  /\ count isReplayAttempt
       (trace (worldOf (TestRunner.executeTest (P := Shop.platform) Shop.cachingOn 2 false w) w))
     = 1%nat.
Proof.
  intros tc w.
  edestruct (@cache_error_falls_back_once Shop.platform Shop.site Shop.cachingOn
               0 w Shop.sellButton Shop.home) as [_ Fallback].
  - reflexivity.
  - reflexivity.
  - reflexivity.
  - reflexivity.
  - destruct Fallback as (_ & _ & T & N & _); [reflexivity|].
    split; [exact T|exact N].
Defined.

(** the Action Decider fails on the sell button and the after hook throws
    "boom": both texts are in the reason *)
Lemma after_hook_failure_reason_witness :
  let tc := Shop.testCase None (Some 1%nat) in
  let w := Shop.world Shop.sellButton tc Shop.cacheDir in
  exists w',
    TestRunner.runLive tc Shop.home w = Returned tt w'
    /\ TestRun.status (testRun w') = failed
    /\ TestRun.reason (testRun w') = Some "AI: no buy button, After: boom".
Proof.
  intros tc w.
  destruct (@after_hook_failure_reason Shop.platform Shop.site tc 1%nat eq_refl)
    as [Live _].
  edestruct (Live Shop.home w) as (w' & E & S & F & _).
  - reflexivity.
  - reflexivity.
  - reflexivity.
  - exists w'. split; [exact E|]. split; [exact S|].
    apply F. reflexivity.
Defined.

(** C9 as stated does not hold for a passed verdict: the Action Decider
    passes with reason "ok", the after hook throws "boom", and the run ends
    failed with the reason "boom", in which "ok" does not occur. *)
Lemma after_hook_failure_drops_passed_reason :
  let tc := Shop.testCase None (Some 1%nat) in
  let w := Shop.world Shop.buyButton tc Shop.cacheDir in
  ai_response (runAction (Collaborators := Shop.site) "" (testRun w) (page w))
  = Ok {| response_status := passed; response_reason := "ok"; usage := Shop.usage42 |}
  /\ invoke (Collaborators := Shop.site) 1%nat (page w)
     = (page w, Some (ThrownError OtherErrorC "boom"))
  /\ exists w',
       TestRunner.executeTest (P := Shop.platform) Shop.cachingOff 2 false w
       = Returned tt w'
       /\ TestRun.status (testRun w') = failed
       /\ TestRun.reason (testRun w') = Some "boom"
       /\ Str.includes "ok" "boom" = false.
Proof.
  intros tc w. split; [reflexivity|]. split; [reflexivity|].
  eexists. split; [vm_compute; reflexivity|].
  repeat split.
Qed.

(** the shop shows the recorded buy button: the replay passes, the before
    hook is not invoked *)
Lemma before_hook_only_on_live_path_witness :
  let tc := Shop.testCase (Some 0%nat) (Some 0%nat) in
  let w := Shop.world Shop.buyButton tc Shop.cacheDir in
  exists w3,
    TestRunner.executeTest (P := Shop.platform) Shop.cachingOn 1 false w = Returned tt w3
    /\ count (isInvoke BeforeFn) (trace w3) = 0%nat.
Proof.
  intros tc w.
  destruct (@before_hook_only_on_live_path Shop.platform Shop.site Shop.cachingOn
              0 w Shop.buyButton Shop.home eq_refl eq_refl eq_refl)
    as (_ & Replayed & _).
  assert (R : exists w2, TestRunner.runCachedTest (P := Shop.platform)
                           (entered (P := Shop.platform) w Shop.buyButton) = Returned tt w2)
    by (eexists; vm_compute; reflexivity).
  destruct R as [w2 R].
  destruct (Replayed w2 R) as (w3 & E & B & _).
  exists w3. split; [exact E|exact B].
Defined.

(** C2, the failing input: the cached run of the test holds a pointer move
    with recorded coordinates and no [extras].  The fingerprint at the
    coordinates is recomputed and the replay stops there, before any
    recorded action, but with the TypeError of [step.extras.componentStr]
    and not with the "invalid" cache error.  As it is no cache error,
    [executeTest] does not fall back to the live path: the replay was
    attempted once, the Action Decider is never asked, the page is not
    navigated back, and the error leaves [executeTest] and the per-test body
    of [executeTestFile], which does not save the run. *)
Theorem replay_without_recorded_fingerprint_is_no_cache_error :
  let tc := Shop.testCase None None in
  let w := Shop.world Shop.buyButton tc Stock.unmarkedDir in
  let e := ThrownError TypeErrorC
             "Cannot read properties of undefined (reading 'componentStr')" in
  TestRunRepository.getLatestPassedRun (P := Shop.platform)
    (TestRunRepository.loadRuns (P := Shop.platform) tc (store w))
  = Some (TestRun.fromCache (H := Shop.platform) tc Stock.unmarked)
  /\ TestRunner.pointerMoveTarget Stock.bareMove = Some (10, 20)
  /\ extras Stock.bareMove = None
  /\ instanceofCacheError e = false
  /\ (exists w2,
        TestRunner.runCachedTest (P := Shop.platform) (C := Shop.site) w = Threw e w2
        /\ trace w2 = [ EvResetGroup; EvFingerprint 10 20; EvTimeout 1000;
                        EvLog "Using cached test run";
                        EvLog "Attempting to execute test from cache";
                        EvSetGroup GroupCache ]
        /\ executed (trace w2) = [])
  /\ (exists w3,
        TestRunner.executeTest (P := Shop.platform) (C := Shop.site)
          Shop.cachingOn 2 false w = Threw e w3
        /\ count isReplayAttempt (trace w3) = 1%nat
        /\ count isRunAction (trace w3) = 0%nat
        /\ count isGoto (trace w3) = 0%nat
        /\ TestRun.status (testRun w3) = running)
  /\ (exists w4,
        TestRunner.runTestCase (P := Shop.platform) (C := Shop.site)
          Shop.cachingOn Shop.noHooks tc w = Threw e w4
        /\ count isWrite (trace w4) = 0%nat
        /\ files (store w4) = files Stock.unmarkedDir).
Proof.
  intros tc w e.
  split; [reflexivity|]. split; [reflexivity|]. split; [reflexivity|].
  split; [reflexivity|].
  split; [eexists; split; [vm_compute; reflexivity|split; reflexivity]|].
  split; [eexists; split; [vm_compute; reflexivity|repeat split]|].
  eexists. split; [vm_compute; reflexivity|split; reflexivity].
Qed.

(** C1, the failing input: a test whose cached run replays cleanly.  The
    per-test body of [executeTestFile] marks the run passed from cache and
    then saves it: a document named by the new [runId] is written, with
    [executedFromCache = true] in its metadata. *)
Theorem persist_step_writes_replayed_run :
  let tc := Shop.testCase None None in
  let w := Shop.world Shop.buyButton tc Shop.cacheDir in
  exists w' doc,
    TestRunner.runTestCase (P := Shop.platform) Shop.cachingOn Shop.noHooks tc w
    = Returned tt w'
    /\ TestRun.status (testRun w') = passed
    /\ TestRun.executedFromCache (testRun w') = true
    /\ count isWrite (trace w') = 1%nat
    /\ In (EvWriteFile (TestRun.runId (testRun w') ++ ".json")) (trace w')
    /\ In (TestRun.runId (testRun w') ++ ".json", Some doc) (files (store w'))
    /\ md_executedFromCache (metadata doc) = true.
Proof.
  intros tc w. eexists. eexists.
  split; [vm_compute; reflexivity|].
  split; [reflexivity|]. split; [reflexivity|]. split; [reflexivity|].
  split; [simpl; tauto|].
  split; [simpl; right; left; reflexivity|reflexivity].
Qed.

(** * Further properties *)

(** ** [TestRun]: what every sequence of method calls preserves *)

Section LifecycleFacts.
Import Lifecycle.

Lemma run_cons op ops r : run (op :: ops) r = run ops (apply op r).
Proof. reflexivity. Qed.

Lemma run_app ops1 ops2 r : run (ops1 ++ ops2) r = run ops2 (run ops1 r).
Proof. unfold run. apply fold_left_app. Qed.

(** the effect of one call on the fields other than the state *)
Lemma apply_fields op r :
  TestRun.testCase (apply op r) = TestRun.testCase r
  /\ TestRun.runId (apply op r) = TestRun.runId r
  /\ TestRun.timestamp (apply op r) = TestRun.timestamp r
  /\ TestRun.version (apply op r) = TestRun.version r
  /\ TestRun.steps (apply op r)
     = (TestRun.steps r ++ added [op])%list.
Proof.
  destruct op as [|reason usage|reason|reason usage|step]; simpl.
  - unfold TestRun.markRunning. destruct (negb _); simpl; rewrite app_nil_r; auto.
  - unfold TestRun.markPassed. destruct (negb _); simpl; [|destruct usage];
      simpl; rewrite app_nil_r; auto.
  - unfold TestRun.markPassedFromCache, TestRun.markPassed.
    destruct (negb _); simpl; rewrite app_nil_r; auto.
  - destruct usage; simpl; rewrite app_nil_r; auto.
  - auto.
Qed.

(** X1.  Whatever methods are called on a run, in whatever order and
    whether they throw or not, its test case, runId, timestamp and version
    stay as they were, and its step log is the old log followed by exactly
    the steps given to [addStep], in call order: steps are only appended, and
    no transition touches them. *)
Theorem calls_keep_identity_and_append_steps (ops : list Lifecycle.Op) (r : TestRun.t) :
  TestRun.testCase (run ops r) = TestRun.testCase r
  /\ TestRun.runId (run ops r) = TestRun.runId r
  /\ TestRun.timestamp (run ops r) = TestRun.timestamp r
  /\ TestRun.version (run ops r) = TestRun.version r
  /\ TestRun.getSteps (run ops r) = (TestRun.getSteps r ++ added ops)%list
  /\ length (TestRun.getSteps (run ops r))
     = (length (TestRun.getSteps r) + length (added ops))%nat.
Proof.
  assert (Main : TestRun.testCase (run ops r) = TestRun.testCase r
                 /\ TestRun.runId (run ops r) = TestRun.runId r
                 /\ TestRun.timestamp (run ops r) = TestRun.timestamp r
                 /\ TestRun.version (run ops r) = TestRun.version r
                 /\ TestRun.steps (run ops r) = (TestRun.steps r ++ added ops)%list).
  { revert r. induction ops as [|op ops IH]; intros r.
    - simpl. rewrite app_nil_r. auto.
    - rewrite run_cons.
      destruct (IH (apply op r)) as (A & B & C & D & E).
      destruct (apply_fields op r) as (A' & B' & C' & D' & E').
      rewrite A, B, C, D, E, A', B', C', D', E'.
      repeat split; auto.
      rewrite <- app_assoc. f_equal. simpl. now rewrite app_nil_r. }
  destruct Main as (A & B & C & D & E). unfold TestRun.getSteps.
  repeat split; auto. rewrite E. apply length_app.
Qed.

(** the state of a run is coherent when a reason is recorded exactly for a
    verdict *)
Lemma apply_coherent op r :
  (TestRun.reason r = None <-> rank (TestRun.status r) < 2)%nat ->
  (TestRun.reason (apply op r) = None <-> rank (TestRun.status (apply op r)) < 2)%nat.
Proof.
  intros H.
  destruct op as [|reason usage|reason|reason usage|step]; simpl.
  - unfold TestRun.markRunning. destruct (negb _); simpl; [exact H|].
    split; [lia|reflexivity].
  - unfold TestRun.markPassed. destruct (negb _); simpl; [exact H|].
    destruct usage; simpl; split; (discriminate || lia).
  - unfold TestRun.markPassedFromCache, TestRun.markPassed.
    destruct (negb _); simpl; [exact H|]. split; (discriminate || lia).
  - destruct usage; simpl; split; (discriminate || lia).
  - exact H.
Qed.

Lemma run_coherent ops : forall r,
  (TestRun.reason r = None <-> rank (TestRun.status r) < 2)%nat ->
  (TestRun.reason (run ops r) = None <-> rank (TestRun.status (run ops r)) < 2)%nat.
Proof.
  induction ops as [|op ops IH]; intros r H; [exact H|].
  rewrite run_cons. apply IH. now apply apply_coherent.
Qed.

(** X2.  For a run made by [TestRun.create], after any sequence of method
    calls the reason is present exactly when the status is passed or failed:
    a pending or running run has no reason, a passed or failed run has one. *)
Theorem reason_present_iff_verdict `{Platform} (tc : TestCase.t) (startedAt : Z)
    (ops : list Lifecycle.Op) :
  let r := run ops (TestRun.create tc startedAt) in
  (TestRun.reason r = None
     <-> TestRun.status r = pending \/ TestRun.status r = running)
  /\ ((exists reason, TestRun.reason r = Some reason)
     <-> TestRun.status r = passed \/ TestRun.status r = failed).
Proof.
  intros r.
  assert (Co : (TestRun.reason r = None <-> rank (TestRun.status r) < 2)%nat).
  { apply run_coherent. simpl. split; [lia|reflexivity]. }
  destruct (TestRun.status r), (TestRun.reason r) as [reason|]; simpl in Co;
    destruct Co as [C1 C2];
    try (assert (F : (2 < 2)%nat) by (apply C1; reflexivity); lia);
    try (assert (F : Some reason = None) by (apply C2; lia); discriminate F);
    (split; split; intros K;
     first [ now left | now right | reflexivity | now (exists reason)
           | discriminate K
           | destruct K as [x K]; discriminate K
           | destruct K as [K|K]; discriminate K ]).
Qed.

Lemma apply_rank op r :
  (rank (TestRun.status r) <= rank (TestRun.status (apply op r)))%nat
  /\ (TestRun.status r = failed -> TestRun.status (apply op r) = failed).
Proof.
  destruct op as [|reason usage|reason|reason usage|step]; simpl.
  - unfold TestRun.markRunning.
    destruct (TestStatus_eqb_spec (TestRun.status r) pending) as [E|E]; simpl;
      [rewrite E; simpl; split; [lia|discriminate] | auto].
  - unfold TestRun.markPassed.
    destruct (TestStatus_eqb_spec (TestRun.status r) running) as [E|E]; simpl;
      [|auto]. rewrite E. destruct usage; simpl; split; (lia || discriminate).
  - unfold TestRun.markPassedFromCache, TestRun.markPassed.
    destruct (TestStatus_eqb_spec (TestRun.status r) running) as [E|E]; simpl;
      [|auto]. rewrite E. simpl; split; (lia || discriminate).
  - destruct usage; simpl; (split; [destruct (TestRun.status r); simpl; lia|reflexivity]).
  - auto.
Qed.

(** X3.  The status of a run never goes back: along any sequence of method
    calls it moves from pending to running to a verdict and no further, and
    a failed run stays failed, so no call ever turns a failure into a pass. *)
Theorem status_never_goes_back (ops : list Lifecycle.Op) (r : TestRun.t) :
  (rank (TestRun.status r) <= rank (TestRun.status (run ops r)))%nat
  /\ (TestRun.status r = failed -> TestRun.status (run ops r) = failed).
Proof.
  revert r. induction ops as [|op ops IH]; intros r; [auto|].
  rewrite run_cons.
  destruct (apply_rank op r) as [A B]. destruct (IH (apply op r)) as [A' B'].
  split; [lia|auto].
Qed.

Lemma apply_flag op r :
  (TestRun.executedFromCache r = true -> rank (TestRun.status r) = 2%nat) ->
  (TestRun.executedFromCache (apply op r) = true ->
     rank (TestRun.status (apply op r)) = 2%nat
     /\ (TestRun.executedFromCache r = true \/ isMarkPassedFromCache op = true))
  /\ (TestRun.executedFromCache r = true -> TestRun.executedFromCache (apply op r) = true).
Proof.
  intros Inv.
  destruct op as [|reason usage|reason|reason usage|step]; simpl.
  - unfold TestRun.markRunning.
    destruct (TestStatus_eqb_spec (TestRun.status r) pending) as [E|E]; simpl;
      [|auto].
    split; [|auto]. intros F. specialize (Inv F). rewrite E in Inv. discriminate.
  - unfold TestRun.markPassed.
    destruct (TestStatus_eqb_spec (TestRun.status r) running) as [E|E]; simpl;
      [|auto].
    destruct usage; simpl; auto.
  - unfold TestRun.markPassedFromCache, TestRun.markPassed.
    destruct (TestStatus_eqb_spec (TestRun.status r) running) as [E|E]; simpl; auto.
  - destruct usage; simpl; auto.
  - auto.
Qed.

Lemma run_flag ops : forall r,
  (TestRun.executedFromCache r = true -> rank (TestRun.status r) = 2%nat) ->
  (TestRun.executedFromCache (run ops r) = true ->
     rank (TestRun.status (run ops r)) = 2%nat
     /\ (TestRun.executedFromCache r = true \/ existsb isMarkPassedFromCache ops = true))
  /\ (TestRun.executedFromCache r = true -> TestRun.executedFromCache (run ops r) = true).
Proof.
  induction ops as [|op ops IH]; intros r Inv.
  - simpl. auto.
  - rewrite run_cons. destruct (@apply_flag op r Inv) as [A B].
    destruct (IH (apply op r)) as [A' B']; [intros F; now apply A|].
    split; [|auto]. intros F. destruct (A' F) as [R [G|G]].
    + split; [exact R|]. destruct (A G) as [_ [G'|G']]; [auto|].
      right. simpl. now rewrite G'.
    + split; [exact R|]. right. simpl. rewrite G. apply orb_true_r.
Qed.

(** X4.  The executed-from-cache flag of a run made by [TestRun.create] is
    set only by [markPassedFromCache]: if it is set after a sequence of
    method calls, one of the calls was [markPassedFromCache] and the run
    carries a verdict (passed, or failed by a later [markFailed]).  Once set,
    no call clears it. *)
Theorem flag_set_only_by_markPassedFromCache `{Platform} (tc : TestCase.t)
    (startedAt : Z) (ops more : list Lifecycle.Op) :
  let r := run ops (TestRun.create tc startedAt) in
  TestRun.executedFromCache r = true ->
  existsb isMarkPassedFromCache ops = true
  /\ (TestRun.status r = passed \/ TestRun.status r = failed)
  /\ TestRun.executedFromCache (run more r) = true.
Proof.
  intros r F.
  destruct (@run_flag ops (TestRun.create tc startedAt)) as [A _];
    [discriminate|].
  destruct (A F) as [R [G|G]]; [discriminate G|].
  split; [exact G|]. split.
  - fold r in R. destruct (TestRun.status r); simpl in R; auto; discriminate.
  - destruct (@run_flag more r) as [_ B]; [intros _; exact R|]. now apply B.
Qed.

End LifecycleFacts.

(** a run replayed from cache whose after hook then fails keeps its flag *)
Lemma flag_set_only_by_markPassedFromCache_witness :
  let ops := [ Lifecycle.MarkRunning; Lifecycle.MarkPassedFromCache "replayed" ] in
  let r := Lifecycle.run ops (TestRun.create (H := Shop.platform) Scenario.sampleCase 7) in
  TestRun.status r = passed
  /\ TestRun.status (Lifecycle.run [Lifecycle.MarkFailed "boom" None] r) = failed
  /\ TestRun.executedFromCache (Lifecycle.run [Lifecycle.MarkFailed "boom" None] r) = true.
Proof.
  intros ops r.
  destruct (@flag_set_only_by_markPassedFromCache Shop.platform Scenario.sampleCase 7
              ops [Lifecycle.MarkFailed "boom" None] eq_refl) as (_ & _ & K).
  split; [reflexivity|]. split; [reflexivity|exact K].
Defined.

(** ** [TestRun.fromCache]: legacy version strings *)

Section VersionFacts.

(** the text after the digits: nothing, or something that is not a digit *)
Lemma digits_of_uint d trailing : forall a : nat,
  match trailing with
  | EmptyString => True
  | String c _ => ParseInt.digitOf c = None
  end ->
  ParseInt.digits (DecimalString.NilEmpty.string_of_uint d ++ trailing)
    (Some (Z.of_nat a))
  = Some (Z.of_nat (Nat.of_uint_acc d a)).
Proof.
  induction d as [|d IH|d IH|d IH|d IH|d IH|d IH|d IH|d IH|d IH|d IH]; intros a T;
    [ destruct trailing as [|c t]; [reflexivity|]; simpl; now rewrite T |..];
    cbn [DecimalString.NilEmpty.string_of_uint Nat.of_uint_acc ParseInt.digits
         String.append];
    rewrite <- (IH _ T), Nat.tail_mul_spec;
    match goal with |- context [ParseInt.digitOf ?c] =>
      let v := eval vm_compute in (ParseInt.digitOf c) in
      change (ParseInt.digitOf c) with v
    end;
    cbv beta iota; f_equal; f_equal; lia.
Qed.

Lemma skipWhite_app leading s :
  ParseInt.skipWhite leading = "" ->
  ParseInt.skipWhite (leading ++ s) = ParseInt.skipWhite s.
Proof.
  induction leading as [|c l IH]; simpl; [reflexivity|].
  destruct (ParseInt.isWhite c); [exact IH|discriminate].
Qed.

Lemma mathInt_of_uint d leading trailing :
  d <> Decimal.Nil ->
  ParseInt.skipWhite leading = "" ->
  match trailing with
  | EmptyString => True
  | String c _ => ParseInt.digitOf c = None
  end ->
  ParseInt.mathInt (leading ++ DecimalString.NilEmpty.string_of_uint d ++ trailing)
  = Some (Z.of_nat (Nat.of_uint d)).
Proof.
  intros N L T. unfold Nat.of_uint, ParseInt.mathInt.
  rewrite (@skipWhite_app leading _ L).
  destruct d as [|d|d|d|d|d|d|d|d|d|d]; [contradiction|..];
    cbn [DecimalString.NilEmpty.string_of_uint Nat.of_uint_acc String.append];
    rewrite <- (@digits_of_uint d trailing _ T); reflexivity.
Qed.

(** [parseInt] reads back what the decimal printing of a natural number
    wrote, whatever white space precedes it and whatever text that does not
    start with a digit follows it, and gives the double nearest to it *)
Lemma parseInt_ofNat n leading trailing :
  ParseInt.skipWhite leading = "" ->
  match trailing with
  | EmptyString => True
  | String c _ => ParseInt.digitOf c = None
  end ->
  ParseInt.parseInt10 (leading ++ Str.ofNat n ++ trailing)
  = Some (Double.nearest (Z.of_nat n)).
Proof.
  intros L T. unfold ParseInt.parseInt10, Str.ofNat. rewrite mathInt_of_uint; auto.
  - now rewrite DecimalNat.Unsigned.of_to.
  - rewrite <- (DecimalNat.Unsigned.of_to n) at 1.
    rewrite DecimalNat.Unsigned.to_of. apply DecimalFacts.unorm_nonnil.
Qed.

(** the integers up to [2^53] are doubles *)
Lemma nearest_exact n : 0 <= n <= 2 ^ 53 -> Double.nearest n = n.
Proof.
  intros [L U]. unfold Double.nearest, Double.roundNat.
  destruct (Z.ltb_spec n 0); [lia|].
  destruct (Z.ltb_spec n (2 ^ 53)); [reflexivity|].
  assert (n = 2 ^ 53) as -> by lia. reflexivity.
Qed.

(** X5.  A cache entry whose version field is a string holding the decimal
    digits of a number, as legacy entries have it, loads with the double
    nearest to that number as its version, hence with the number itself
    when it is at most 2^53; white space before the digits and text after
    them (anything that does not start with a digit) are ignored, as
    [parseInt] does. *)
Theorem legacy_version_string_loads_as_number `{Platform} (tc : TestCase.t)
    (entry : CacheEntry) (n : nat) (leading trailing : string) :
  md_version (metadata entry) = VString (leading ++ Str.ofNat n ++ trailing) ->
  ParseInt.skipWhite leading = "" ->
  match trailing with
  | EmptyString => True
  | String c _ => ParseInt.digitOf c = None
  end ->
  TestRun.version (TestRun.fromCache tc entry) = Double.nearest (Z.of_nat n)
  /\ (Z.of_nat n <= 2 ^ 53 ->
      TestRun.version (TestRun.fromCache tc entry) = Z.of_nat n).
Proof.
  intros V L T.
  assert (E : TestRun.version (TestRun.fromCache tc entry) = Double.nearest (Z.of_nat n)).
  { unfold TestRun.fromCache.
    destruct (data_steps entry); simpl; rewrite V; simpl;
      now rewrite (@parseInt_ofNat n leading trailing L T). }
  split; [exact E|].
  intros U. rewrite E. apply nearest_exact. lia.
Qed.

End VersionFacts.

(** beyond 2^53 the version is the nearest double: 2^53 + 1 lies between two
    of them and goes to the even one, and 2^53 + 3 goes up; a no-break space
    before the digits is skipped *)
Example parseInt_rounds_to_nearest_double :
  ParseInt.parseInt10 "9007199254740993" = Some 9007199254740992
  /\ ParseInt.parseInt10 "9007199254740995" = Some 9007199254740996
  /\ ParseInt.parseInt10 "-9007199254740993" = Some (-9007199254740992)
  /\ ParseInt.parseInt10 (String (ascii_of_nat 160) "7") = Some 7
  /\ ParseInt.parseInt10 "v2" = None.
Proof. repeat split; vm_compute; reflexivity. Qed.

(** the entry of the test-suite whose version is the string "1", and one
    written as " 2.0" *)
Lemma legacy_version_string_loads_as_number_witness :
  TestRun.version
    (TestRun.fromCache (H := Shop.platform) Scenario.sampleCase
       {| metadata := {| md_timestamp := 1234567890; md_version := VString "1";
                         md_status := passed; md_reason := Some "test passed";
                         md_tokenUsage := Shop.usage42; md_runId := "test-run-id";
                         md_executedFromCache := false |};
          test := {| ct_name := "Test case"; ct_filePath := "/test.ts" |};
          data_steps := Some [] |}) = 1
  /\ TestRun.version
       (TestRun.fromCache (H := Shop.platform) Scenario.sampleCase
          {| metadata := {| md_timestamp := 0; md_version := VString " 2.0";
                            md_status := failed; md_reason := None;
                            md_tokenUsage := Shop.usage42; md_runId := "r";
                            md_executedFromCache := false |};
             test := {| ct_name := "Test case"; ct_filePath := "/test.ts" |};
             data_steps := None |}) = 2.
Proof.
  split.
  - match goal with |- TestRun.version (TestRun.fromCache _ ?entry) = _ =>
      refine (proj2 (@legacy_version_string_loads_as_number Shop.platform
                       Scenario.sampleCase entry 1%nat "" "" eq_refl eq_refl I) _)
    end.
    vm_compute. discriminate.
  - match goal with |- TestRun.version (TestRun.fromCache _ ?entry) = _ =>
      refine (proj2 (@legacy_version_string_loads_as_number Shop.platform
                       Scenario.sampleCase entry 2%nat " " ".0" eq_refl eq_refl eq_refl) _)
    end.
    vm_compute. discriminate.
Defined.

(** ** [runCachedTest]: the other ways a replay ends *)

Section ReplayEdges.
Context {P : Platform} {C : Collaborators}.
Import TestRunner.

(** X6.  Without a usable recording the replay stops before touching the
    page.  When no run is eligible it throws the "not-found" cache error;
    when the eligible run has no step left once its screenshots are dropped
    (none recorded, or screenshots only) it throws the "invalid" cache error
    "No eligible steps in cache".  Either way nothing was executed, no
    fingerprint read, no delay taken, and the page, the run and the cache
    directory are as before. *)
Theorem replay_without_usable_recording (w : World) :
  (TestRunRepository.getLatestPassedRun
     (TestRunRepository.loadRuns (TestRun.testCase (testRun w)) (store w)) = None ->
   runCachedTest w
   = Threw (CacheError NotFound "No successful cached test run found")
       (record EvResetGroup
          (record (EvLog "Attempting to execute test from cache")
             (record (EvSetGroup GroupCache) w))))
  /\ (forall latest,
        TestRunRepository.getLatestPassedRun
          (TestRunRepository.loadRuns (TestRun.testCase (testRun w)) (store w))
        = Some latest ->
        (forall s, In s (TestRun.steps latest) -> isScreenshot s = true) ->
        runCachedTest w
        = Threw (CacheError Invalid "No eligible steps in cache")
            (record EvResetGroup (replaying w))).
Proof.
  split.
  - intros L.
    cbv [runCachedTest TestRunRepository.latestPassedRunOf TestRunRepository.getRuns
         tryFinally bind emit log modify gets ret throw record].
    cbn [testRun store]. rewrite L. reflexivity.
  - intros latest L S.
    assert (F : filter (fun s => negb (isScreenshot s)) (TestRun.steps latest) = []).
    { induction (TestRun.steps latest) as [|s l IH]; [reflexivity|].
      simpl. rewrite (S s) by (left; reflexivity). simpl.
      apply IH. intros s' I. apply S. now right. }
    cbv [runCachedTest TestRunRepository.latestPassedRunOf TestRunRepository.getRuns
         tryFinally bind emit log modify gets ret throw record replaying].
    cbn [testRun store]. rewrite L, F. reflexivity.
Qed.

Lemma verifyTarget_quiet step w w' :
  verifyTarget step w = Returned tt w' ->
  now w' = now w /\ page w' = page w
  /\ count isFingerprint (trace w')
     = ((if isPointerMove step then 1 else 0) + count isFingerprint (trace w))%nat
  /\ count isTimeout (trace w') = count isTimeout (trace w).
Proof.
  unfold verifyTarget, isPointerMove, bind, fingerprint, log, emit, modify, throw, ret.
  destruct (pointerMoveTarget step) as [[x y]|].
  - destruct (getNormalizedComponentStringByCoords x y _); [|discriminate].
    destruct (extras step) as [ex|]; [|discriminate].
    destruct (differs _ _); [discriminate|].
    intros H; inversion H; subst. auto.
  - intros H; inversion H; subst. auto.
Qed.

Lemma replayAction_quiet step w w' :
  replayAction step w = Returned tt w' ->
  now w' = now w
  /\ count isFingerprint (trace w') = count isFingerprint (trace w)
  /\ count isTimeout (trace w') = count isTimeout (trace w).
Proof.
  unfold replayAction, tryCatch, bind, log, emit, modify, throw, ret.
  destruct (step_action step) as [a|].
  - rewrite browserExecute_result. cbv zeta.
    destruct (execute (input a) (page w)) as [b [r|e]]; [|discriminate].
    intros H; inversion H; subst. auto.
  - intros H; inversion H; subst. auto.
Qed.

(** a replayed step that returns waited one second and read the
    fingerprint only if it is a pointer move with coordinates *)
Lemma replayStep_pace step w w' :
  replayStep step w = Returned tt w' ->
  now w' = now w + 1000
  /\ count isFingerprint (trace w')
     = ((if isPointerMove step then 1 else 0) + count isFingerprint (trace w))%nat
  /\ count isTimeout (trace w') = (1 + count isTimeout (trace w))%nat.
Proof.
  unfold replayStep. intros H.
  apply bind_returned in H. destruct H as ([] & w1 & H1 & H).
  apply bind_returned in H. destruct H as ([] & w2 & H2 & H3).
  unfold sleep, modify in H1. inversion H1; subst. clear H1.
  apply verifyTarget_quiet in H2. destruct H2 as (N2 & _ & F2 & T2).
  apply replayAction_quiet in H3. destruct H3 as (N3 & F3 & T3).
  rewrite N3, N2, F3, F2, T3, T2. auto.
Qed.

Lemma replaySteps_pace steps : forall w w',
  replaySteps steps w = Returned tt w' ->
  now w' = now w + 1000 * Z.of_nat (length steps)
  /\ count isFingerprint (trace w')
     = (length (filter isPointerMove steps) + count isFingerprint (trace w))%nat
  /\ count isTimeout (trace w') = (length steps + count isTimeout (trace w))%nat.
Proof.
  unfold replaySteps.
  induction steps as [|s steps IH]; intros w w' H; simpl in H.
  - inversion H; subst. simpl. split; [lia|auto].
  - apply bind_returned in H. destruct H as ([] & w1 & H1 & H2).
    apply replayStep_pace in H1. destruct H1 as (N1 & F1 & T1).
    apply IH in H2. destruct H2 as (N2 & F2 & T2).
    rewrite N2, N1, F2, F1, T2, T1. cbn [length filter].
    split; [lia|]. split; [|lia].
    destruct (isPointerMove s); simpl; lia.
Qed.

Lemma inputsOf_no_screenshot steps :
  Forall (fun i => action i <> SCREENSHOT)
    (inputsOf (filter (fun s => negb (isScreenshot s)) steps)).
Proof.
  induction steps as [|s steps IH]; simpl; [constructor|].
  destruct (isScreenshot s) eqn:E; simpl; [exact IH|].
  unfold isScreenshot in E. destruct (step_action s) as [a|]; simpl; [|exact IH].
  constructor; [|exact IH].
  intros A. rewrite A in E. discriminate.
Qed.

(** X7.  A replay whose steps all go through executes exactly the recorded
    inputs of the eligible run, in recorded order and without its
    screenshots, waits one second before each step, reads the fingerprint
    once per pointer move with coordinates, and then marks the run passed
    from cache with the reason "All actions successfully replayed from
    cache".  If the run is not in the running state by then, the steps have
    been executed all the same and the invalid-transition error is thrown. *)
Theorem replay_executes_recorded_steps_in_order (latest : TestRun.t) (w w1 : World) :
  TestRunRepository.getLatestPassedRun
    (TestRunRepository.loadRuns (TestRun.testCase (testRun w)) (store w)) = Some latest ->
  replayable latest <> [] ->
  replaySteps (replayable latest) (replaying w) = Returned tt w1 ->
  Forall (fun i => action i <> SCREENSHOT) (inputsOf (replayable latest))
  /\ executed (trace w1) = (rev (inputsOf (replayable latest)) ++ executed (trace w))%list
  /\ now w1 = now w + 1000 * Z.of_nat (length (replayable latest))
  /\ count isTimeout (trace w1)
     = (length (replayable latest) + count isTimeout (trace w))%nat
  /\ count isFingerprint (trace w1)
     = (length (filter isPointerMove (replayable latest))
        + count isFingerprint (trace w))%nat
  /\ match TestRun.markPassedFromCache
             "All actions successfully replayed from cache" (testRun w) with
     | Ok r =>
         runCachedTest w
         = Returned tt
             (record EvResetGroup
                (set_testRun r
                   (record (EvLog "Successfully executed all cached steps") w1)))
     | Err e =>
         TestRun.status (testRun w) <> running
         /\ runCachedTest w
            = Threw e
                (record EvResetGroup
                   (record (EvLog "Successfully executed all cached steps") w1))
     end.
Proof.
  intros L N R. unfold replayable in *.
  pose proof (@replaySteps_returned _ _ _ _ _ (replayed_no_screenshot _) R) as (E1 & R1 & S1).
  pose proof R as R0. apply replaySteps_pace in R0. destruct R0 as (N1 & F1 & T1).
  split; [apply inputsOf_no_screenshot|].
  split; [exact E1|]. split; [exact N1|]. split; [exact T1|]. split; [exact F1|].
  rewrite (runCachedTest_replay w L N). unfold tryFinally.
  erewrite bind_run by exact R.
  cbv [bind log emit modify onRun ret throw].
  change (testRun (record (EvLog "Successfully executed all cached steps") w1))
    with (testRun w1).
  rewrite R1. change (testRun (replaying w)) with (testRun w).
  destruct (TestRun.markPassedFromCache _ (testRun w)) as [r|e] eqn:M.
  - reflexivity.
  - split; [|reflexivity].
    intros Run. unfold TestRun.markPassedFromCache, TestRun.markPassed in M.
    rewrite Run in M. discriminate.
Qed.

End ReplayEdges.


(** an empty cache directory, and one whose only run recorded a screenshot *)
Lemma replay_without_usable_recording_witness :
  let tc := Shop.testCase None None in
  (exists w2,
     TestRunner.runCachedTest (P := Shop.platform) (C := Shop.site)
       (Shop.world Shop.buyButton tc Stock.emptyDir)
     = Threw (CacheError NotFound "No successful cached test run found") w2
     /\ executed (trace w2) = [])
  /\ (exists w2,
        TestRunner.runCachedTest (P := Shop.platform) (C := Shop.site)
          (Shop.world Shop.buyButton tc Stock.shotsDir)
        = Threw (CacheError Invalid "No eligible steps in cache") w2
        /\ executed (trace w2) = []).
Proof.
  intros tc. split.
  - eexists. split.
    + apply (proj1 (@replay_without_usable_recording Shop.platform Shop.site
                      (Shop.world Shop.buyButton tc Stock.emptyDir))).
      reflexivity.
    + reflexivity.
  - eexists. split.
    + apply (proj2 (@replay_without_usable_recording Shop.platform Shop.site
                      (Shop.world Shop.buyButton tc Stock.shotsDir))
               (TestRun.fromCache (H := Shop.platform) tc Stock.screenshotsOnly)).
      * reflexivity.
      * intros s [<-|[]]. reflexivity.
    + reflexivity.
Defined.

(** the recorded move and click are replayed, the screenshot is not *)
Lemma replay_executes_recorded_steps_in_order_witness :
  let tc := Shop.testCase None None in
  let w := Shop.world Shop.buyButton tc Shop.cacheDir in
  exists w2,
    TestRunner.runCachedTest (P := Shop.platform) (C := Shop.site) w = Returned tt w2
    /\ executed (trace w2)
       = [ {| action := LEFT_CLICK; coordinate := None; payload := "" |};
           {| action := MOUSE_MOVE; coordinate := Some (10, 20); payload := "" |} ]
    /\ now w2 = 7000
    /\ TestRun.executedFromCache (testRun w2) = true.
Proof.
  intros tc w.
  assert (R : exists w1,
             TestRunner.replaySteps (P := Shop.platform) (C := Shop.site)
               (replayable (TestRun.fromCache (H := Shop.platform) tc Shop.earlier))
               (replaying w) = Returned tt w1)
    by (eexists; vm_compute; reflexivity).
  destruct R as [w1 R].
  destruct (@replay_executes_recorded_steps_in_order Shop.platform Shop.site
              (TestRun.fromCache (H := Shop.platform) tc Shop.earlier) w w1
              eq_refl ltac:(discriminate) R)
    as (_ & E & N & _ & _ & M).
  set (m := TestRun.markPassedFromCache _ (testRun w)) in M.
  vm_compute in m. subst m. cbv beta iota in M.
  eexists. split; [exact M|].
  split; [exact E|]. split; [exact N|reflexivity].
Defined.


Section ReplayFailure.
Context {P : Platform} {C : Collaborators}.
Import TestRunner.

(** X8.  Let the eligible cached run be [latest] and let its steps, the
    screenshots dropped, be [pre ++ step :: post], where [pre] replays
    without error, the check of [step] passes and the browser tool then
    throws on the recorded input of [step].  Whatever was thrown, the replay
    ends with the "invalid" cache error "Error executing cached step": the
    original error is logged and dropped.  The failing input was the last
    one executed, no step of [post] is tried, and the run and the cache
    directory are as before. *)
Theorem replay_stops_at_failing_action
    (latest : TestRun.t) (pre post : list CacheStep) (step : CacheStep)
    (a : StepAction) (b : Browser) (e : Thrown) (w w1 w2 : World) :
  TestRunRepository.getLatestPassedRun
    (TestRunRepository.loadRuns (TestRun.testCase (testRun w)) (store w)) = Some latest ->
  replayable latest = (pre ++ step :: post)%list ->
  replaySteps pre (replaying w) = Returned tt w1 ->
  (sleep 1000 ;; verifyTarget step) w1 = Returned tt w2 ->
  step_action step = Some a ->
  execute (input a) (page w2) = (b, Err e) ->
  exists w3,
    runCachedTest w = Threw (CacheError Invalid "Error executing cached step") w3
    /\ trace w3 = EvResetGroup :: EvLog "Failed to execute cached step"
                  :: EvExecute (input a) :: trace w2
    /\ executed (trace w3)
       = (input a :: rev (inputsOf pre) ++ executed (trace w))%list
    /\ page w3 = b
    /\ testRun w3 = testRun w
    /\ store w3 = store w.
Proof.
  intros L F Pre V A X. unfold replayable in F.
  pose proof (@replaySteps_returned _ _ _ _ _ (replayed_prefix _ _ _ F) Pre) as (E1 & R1 & S1).
  assert (NS : InternalActionEnum_eqb (action (input a)) SCREENSHOT = false).
  { pose proof (replayed_no_screenshot (TestRun.steps latest)) as N.
    rewrite F in N. apply Forall_app in N. destruct N as [_ N].
    inversion N as [|? ? N1 _]; subst. unfold isScreenshot in N1.
    now rewrite A in N1. }
  apply bind_returned in V as Q. destruct Q as ([] & w1' & Sl & V').
  unfold sleep, modify in Sl. inversion Sl; subst w1'. clear Sl.
  apply verifyTarget_returned in V' as Q. destruct Q as (E2 & R2 & S2).
  set (w3 := record (EvLog "Failed to execute cached step")
               (set_page b (record (EvExecute (input a)) w2))).
  assert (Step : replayStep step w1
                 = Threw (CacheError Invalid "Error executing cached step") w3).
  { unfold replayStep.
    erewrite bind_run by reflexivity.
    erewrite bind_run by exact V'.
    unfold replayAction. rewrite A.
    unfold tryCatch, bind, log, emit, modify, throw.
    rewrite browserExecute_result, NS, X. cbv zeta.
    destruct w2; reflexivity. }
  assert (Loop : replaySteps (pre ++ step :: post) (replaying w)
                 = Threw (CacheError Invalid "Error executing cached step") w3).
  { unfold replaySteps in *. rewrite forEach_app.
    erewrite bind_run by exact Pre. simpl.
    erewrite bind_threw by exact Step. reflexivity. }
  rewrite (runCachedTest_replay w L) by (rewrite F; now destruct pre).
  rewrite F. unfold tryFinally.
  erewrite bind_threw by exact Loop.
  exists (record EvResetGroup w3). split; [reflexivity|].
  split; [reflexivity|].
  split.
  { cbn [trace record set_page w3 executed flat_map app].
    change (flat_map _ (trace w2)) with (executed (trace w2)).
    rewrite E2. cbn [trace record set_now executed flat_map app].
    change (flat_map _ (trace w1)) with (executed (trace w1)).
    rewrite E1. reflexivity. }
  split; [reflexivity|].
  cbn [testRun store record set_page w3].
  rewrite R2, S2. cbn [testRun store record set_now]. rewrite R1, S1.
  split; reflexivity.
Qed.

End ReplayFailure.


(** the recorded move is replayed, then the click throws in the browser *)
Lemma replay_stops_at_failing_action_witness :
  let tc := Shop.testCase None None in
  exists w3,
    TestRunner.runCachedTest (P := Shop.platform) (C := Outage.brokenClick)
      (Outage.world Shop.buyButton tc Shop.cacheDir)
    = Threw (CacheError Invalid "Error executing cached step") w3
    /\ executed (trace w3)
       = [ {| action := LEFT_CLICK; coordinate := None; payload := "" |};
           {| action := MOUSE_MOVE; coordinate := Some (10, 20); payload := "" |} ]
    /\ testRun w3 = Shop.started tc.
Proof.
  intros tc.
  assert (R : exists w1,
             TestRunner.replaySteps (P := Shop.platform) (C := Outage.brokenClick) [Shop.moveStep]
               (replaying (Outage.world Shop.buyButton tc Shop.cacheDir))
             = Returned tt w1)
    by (eexists; vm_compute; reflexivity).
  destruct R as [w1 R].
  destruct (@replay_stops_at_failing_action Shop.platform Outage.brokenClick
              (TestRun.fromCache (H := Shop.platform) tc Shop.earlier)
              [Shop.moveStep] [] Shop.clickStep _ _ _
              (Outage.world Shop.buyButton tc Shop.cacheDir) w1 _
              eq_refl eq_refl R eq_refl eq_refl eq_refl)
    as (w3 & E & _ & X & _ & T & _).
  exists w3. split; [exact E|]. split; [exact X|exact T].
Defined.


(** ** [executeTest]: verdicts *)

Section Verdicts.
Context {P : Platform} {C : Collaborators}.
Variable config : ShortestStrictConfig.
Import TestRunner.

(** X9.  Direct execution never throws and never touches the browser tool,
    the Action Decider or the cache: [executeTest] returns after invoking the
    test function (if there is one) and nothing else.  The run is failed
    with the message of the thrown [Error], or with "Direct execution
    failed" when something else was thrown.  When the function returns, the
    run is passed with "Direct execution successful" provided it was
    running; otherwise the error of [markPassed] is caught as well and the
    run is failed with "Can only pass from running state".  Steps and token
    usage are as before. *)
Theorem direct_execution_settles_without_browser
    (fuel : nat) (skipCache : bool) (w : World) :
  TestCase.directExecution (TestRun.testCase (testRun w)) = true ->
  exists w',
    executeTest config (S fuel) skipCache w = Returned tt w'
    /\ trace w'
       = (match TestCase.fn (TestRun.testCase (testRun w)) with
          | Some cb => [EvInvoke DirectFn cb]
          | None => []
          end ++ EvLog "Executing test" :: trace w)%list
    /\ store w' = store w
    /\ TestRun.steps (testRun w') = TestRun.steps (testRun w)
    /\ TestRun.tokenUsage (testRun w') = TestRun.tokenUsage (testRun w)
    /\ (TestRun.status (testRun w'), TestRun.reason (testRun w'))
       = match directThrown (TestRun.testCase (testRun w)) w with
         | Some (ThrownError _ message) => (failed, Some message)
         | Some (ThrownValue _) => (failed, Some "Direct execution failed")
         | None =>
             if TestStatus_eqb (TestRun.status (testRun w)) running
             then (passed, Some "Direct execution successful")
             else (failed, Some "Can only pass from running state")
         end.
Proof.
  intros D. rewrite executeTest_direct by exact D.
  unfold runDirect, directThrown, tryCatch, bind, callback, onRun, markFailed, modify, ret.
  destruct (TestCase.fn (TestRun.testCase (testRun w))) as [cb|]; cbn [page record testRun].
  - destruct (invoke cb (page w)) as [b' [e|]]; cbn [snd].
    + destruct e as [cls message|text]; eexists; split; try reflexivity;
        repeat split; reflexivity.
    + cbn [testRun set_page record]. unfold TestRun.markPassed.
      destruct (TestStatus_eqb (TestRun.status (testRun w)) running);
        cbn [negb]; eexists; split; try reflexivity; repeat split; reflexivity.
  - unfold TestRun.markPassed.
    destruct (TestStatus_eqb (TestRun.status (testRun w)) running);
      cbn [negb]; eexists; split; try reflexivity; repeat split; reflexivity.
Qed.

(** *** The live path, block by block *)

Lemma beforeLive_result tc w :
  beforeLive tc w
  = match TestCase.beforeFn tc with
    | None => Returned true w
    | Some cb =>
        match invoke cb (page w) with
        | (b, None) => Returned true (set_page b (record (EvInvoke BeforeFn cb) w))
        | (b, Some e) =>
            Returned false
              (set_testRun (TestRun.markFailed (errorMessage e) None (testRun w))
                 (set_page b (record (EvInvoke BeforeFn cb) w)))
        end
    end.
Proof.
  unfold beforeLive. destruct (TestCase.beforeFn tc) as [cb|]; [|reflexivity].
  unfold tryCatch, bind, callback. cbn [page record].
  destruct (invoke cb (page w)) as [b [e|]]; reflexivity.
Qed.

Lemma decide_result tc init w :
  let prompt := buildPrompt tc init in
  let o := runAction prompt (testRun w) (page w) in
  let w' :=
    record EvResetGroup
      (set_page (ai_page o)
         (set_testRun
            (fold_left (fun r s => TestRun.addStep s r) (ai_steps o) (testRun w))
            (record (EvRunAction prompt) (record (EvSetGroup GroupAI) w)))) in
  decide tc init w
  = match ai_response o with
    | Ok r => Returned r w'
    | Err e => Threw e w'
    end.
Proof.
  cbv zeta. unfold decide, tryFinally, bind, emit, modify, aiRunAction, ret, throw.
  cbn [page testRun record].
  destruct (ai_response _); reflexivity.
Qed.

(** X10.  On the live path (caching disabled, or the retry after a cache
    error), a before hook that throws fails the test with the hook's
    message: [executeTest] returns at once, the Action Decider is never
    asked, the after hook is not invoked, and the steps and the token usage
    of the run are as before.  All that the call leaves in the cache
    directory is the initial screenshot, in the directory of the run. *)
Theorem before_hook_failure_skips_the_ai
    (fuel : nat) (skipCache : bool) (w : World) (b b' : Browser)
    (init : ToolResult) (cb : Callback) (e : Thrown) :
  TestCase.directExecution (TestRun.testCase (testRun w)) = false ->
  execute screenshot (page w) = (b, Ok init) ->
  (caching_enabled config && negb skipCache)%bool = false ->
  TestCase.beforeFn (TestRun.testCase (testRun w)) = Some cb ->
  invoke cb b = (b', Some e) ->
  exists w',
    executeTest config (S fuel) skipCache w = Returned tt w'
    /\ trace w' = EvInvoke BeforeFn cb :: EvLog "Skipping cache"
                  :: EvExecute screenshot :: EvLog "Executing test" :: trace w
    /\ page w' = b'
    /\ store w' = shot w
    /\ TestRun.status (testRun w') = failed
    /\ TestRun.reason (testRun w') = Some (errorMessage e)
    /\ TestRun.steps (testRun w') = TestRun.steps (testRun w)
    /\ TestRun.tokenUsage (testRun w') = TestRun.tokenUsage (testRun w).
Proof.
  intros D E N B I.
  rewrite (@executeTest_live _ _ config fuel skipCache w b init D E N).
  erewrite bind_run by reflexivity.
  unfold runLive.
  erewrite bind_run
    by (rewrite beforeLive_result, B; cbn [page record set_page set_store entered];
        rewrite I; reflexivity).
  cbn [negb]. eexists. split; [reflexivity|].
  repeat split; reflexivity.
Qed.

(** X11.  On the live path, once the before hook (if any) has returned, the
    Action Decider is asked once, with the prompt built from the test case
    and the initial state, and the steps it produces are appended to the
    run.  If it throws, [executeTest] throws the same error after resetting
    the log group: the after hook is not invoked and the run keeps its
    status.  If it answers and the after hook (if any) returns, the answer
    is the verdict: "passed" marks the run passed (which throws "Can only
    pass from running state" unless the run is running), "failed" marks it
    failed, both with the reason and the token usage of the answer; any
    other status throws "Unexpected AI response status: ...". *)
Theorem live_verdict_follows_the_ai
    (fuel : nat) (skipCache : bool) (w w1 : World) (b : Browser) (init : ToolResult) :
  let tc := TestRun.testCase (testRun w) in
  let prompt := buildPrompt tc init in
  let o := runAction prompt (testRun w1) (page w1) in
  let asked :=
    record EvResetGroup
      (set_page (ai_page o)
         (set_testRun
            (fold_left (fun r s => TestRun.addStep s r) (ai_steps o) (testRun w1))
            (record (EvRunAction prompt) (record (EvSetGroup GroupAI) w1)))) in
  TestCase.directExecution tc = false ->
  execute screenshot (page w) = (b, Ok init) ->
  (caching_enabled config && negb skipCache)%bool = false ->
  beforeLive tc (record (EvLog "Skipping cache") (entered w b)) = Returned true w1 ->
  testRun w1 = testRun w
  /\ TestRun.steps (testRun asked) = (TestRun.steps (testRun w) ++ ai_steps o)%list
  /\ TestRun.status (testRun asked) = TestRun.status (testRun w)
  /\ match ai_response o with
     | Err e => executeTest config (S fuel) skipCache w = Threw e asked
     | Ok answer =>
         forall w3,
           afterLive tc answer asked = Returned true w3 ->
           testRun w3 = testRun asked
           /\ match response_status answer with
              | passed =>
                  if TestStatus_eqb (TestRun.status (testRun w)) running
                  then exists r,
                      executeTest config (S fuel) skipCache w
                      = Returned tt (set_testRun r w3)
                      /\ TestRun.status r = passed
                      /\ TestRun.reason r = Some (response_reason answer)
                      /\ TestRun.tokenUsage r = usage answer
                      /\ TestRun.steps r = TestRun.steps (testRun asked)
                  else executeTest config (S fuel) skipCache w
                       = Threw (ShortestError "Can only pass from running state") w3
              | failed =>
                  exists r,
                    executeTest config (S fuel) skipCache w
                    = Returned tt (set_testRun r w3)
                    /\ TestRun.status r = failed
                    /\ TestRun.reason r = Some (response_reason answer)
                    /\ TestRun.tokenUsage r = usage answer
                    /\ TestRun.steps r = TestRun.steps (testRun asked)
              | other =>
                  executeTest config (S fuel) skipCache w
                  = Threw (ShortestError
                             ("Unexpected AI response status: " ++ statusName other)) w3
              end
     end.
Proof.
  intros tc prompt o asked D E N B.
  assert (R1 : testRun w1 = testRun w).
  { rewrite beforeLive_result in B.
    destruct (TestCase.beforeFn tc) as [cb|].
    - destruct (invoke cb _) as [b' [e|]]; inversion B; reflexivity.
    - inversion B; reflexivity. }
  pose proof (addSteps_fields (ai_steps o) (testRun w1)) as (St & _ & _ & _ & Sp).
  split; [exact R1|].
  split; [subst asked; cbn [testRun record set_page set_testRun]; rewrite Sp, R1; reflexivity|].
  split; [subst asked; cbn [testRun record set_page set_testRun];
          unfold TestRun.status; rewrite St, R1; reflexivity|].
  rewrite (@executeTest_live _ _ config fuel skipCache w b init D E N).
  erewrite bind_run by reflexivity.
  unfold runLive. erewrite bind_run by exact B. cbn [negb].
  pose proof (decide_result tc init w1) as Dec. cbv zeta in Dec.
  fold prompt in Dec. fold o in Dec. fold asked in Dec.
  destruct (ai_response o) as [answer|e].
  - intros w3 A.
    assert (R3 : testRun w3 = testRun asked).
    { rewrite afterLive_result in A.
      destruct (TestCase.afterFn tc) as [cb|].
      - destruct (invoke cb _) as [b' [e|]]; inversion A; reflexivity.
      - inversion A; reflexivity. }
    split; [exact R3|].
    erewrite bind_run by exact Dec.
    erewrite bind_run by exact A. cbn [negb].
    assert (Q : TestRun.status (testRun w3) = TestRun.status (testRun w)).
    { rewrite R3. subst asked. cbn [testRun record set_page set_testRun].
      unfold TestRun.status. rewrite St, R1. reflexivity. }
    unfold settle. destruct (response_status answer).
    + reflexivity.
    + reflexivity.
    + unfold onRun, TestRun.markPassed. rewrite Q.
      destruct (TestStatus_eqb (TestRun.status (testRun w)) running); cbn [negb].
      * eexists. split; [reflexivity|]. rewrite R3. repeat split; reflexivity.
      * reflexivity.
    + unfold markFailed, modify.
      eexists. split; [reflexivity|]. rewrite R3. repeat split; reflexivity.
  - erewrite bind_threw by exact Dec. reflexivity.
Qed.

End Verdicts.


(** a direct test whose function throws a string *)
Lemma direct_execution_settles_without_browser_witness :
  let w := Shop.world Shop.buyButton (Direct.testCase (Some 2%nat)) Shop.cacheDir in
  exists w',
    TestRunner.executeTest (P := Shop.platform) (C := Shop.site) Shop.cachingOn 1 false w
    = Returned tt w'
    /\ trace w' = [EvInvoke DirectFn 2%nat; EvLog "Executing test"]
    /\ (TestRun.status (testRun w'), TestRun.reason (testRun w'))
       = (failed, Some "Direct execution failed").
Proof.
  intros w.
  destruct (@direct_execution_settles_without_browser Shop.platform Shop.site
              Shop.cachingOn 0 false w eq_refl)
    as (w' & E & T & _ & _ & _ & V).
  exists w'. split; [exact E|]. split; [exact T|exact V].
Defined.

(** the before hook of the test throws [Error("boom")] *)
Lemma before_hook_failure_skips_the_ai_witness :
  let w := Shop.world Shop.buyButton (Shop.testCase (Some 1%nat) (Some 0%nat)) Shop.cacheDir in
  exists w',
    TestRunner.executeTest (P := Shop.platform) (C := Shop.site) Shop.cachingOff 1 false w
    = Returned tt w'
    /\ count isRunAction (trace w') = 0%nat
    /\ count (isInvoke AfterFn) (trace w') = 0%nat
    /\ TestRun.status (testRun w') = failed
    /\ TestRun.reason (testRun w') = Some "boom"
    /\ files (store w') = files Shop.cacheDir
    /\ dirs (store w')
       = [("2025-03-01T10-00-00-000Z_a1b2c3",
           ["screenshot-2025-03-01T10-00-00-000Z.png"])].
Proof.
  intros w.
  destruct (@before_hook_failure_skips_the_ai Shop.platform Shop.site
              Shop.cachingOff 0%nat false w Shop.buyButton Shop.buyButton Shop.home 1%nat
              (ThrownError OtherErrorC "boom") eq_refl eq_refl eq_refl eq_refl eq_refl)
    as (w' & E & T & _ & St & S & R & _).
  exists w'. split; [exact E|]. rewrite T, St.
  split; [reflexivity|]. split; [reflexivity|]. split; [exact S|].
  split; [exact R|]. split; reflexivity.
Defined.

(** with caching disabled the Action Decider passes the shop test *)
Lemma live_verdict_follows_the_ai_witness :
  let w := Shop.world Shop.buyButton (Shop.testCase None None) Shop.cacheDir in
  exists w',
    TestRunner.executeTest (P := Shop.platform) (C := Shop.site) Shop.cachingOff 1 false w
    = Returned tt w'
    /\ TestRun.status (testRun w') = passed
    /\ TestRun.reason (testRun w') = Some "ok"
    /\ TestRun.tokenUsage (testRun w') = Shop.usage42
    /\ TestRun.steps (testRun w') = [Shop.clickStep].
Proof.
  intros w.
  pose proof (@live_verdict_follows_the_ai Shop.platform Shop.site
                Shop.cachingOff 0 false w
                (record (EvLog "Skipping cache") (entered (P := Shop.platform) w Shop.buyButton))
                Shop.buyButton Shop.home eq_refl eq_refl eq_refl eq_refl)
    as (_ & _ & _ & H).
  cbv zeta in H.
  change (ai_response _)
    with (Ok (A := AIClientResponse)
            {| response_status := passed; response_reason := "ok";
               usage := Shop.usage42 |}) in H.
  cbv beta iota in H.
  destruct (H _ eq_refl) as (_ & r & E & S & R & U & St).
  eexists. split; [exact E|].
  split; [exact S|]. split; [exact R|]. split; [exact U|exact St].
Defined.


(** ** [executeTest]: what it leaves alone *)

Section Entries.
Import TestRunRepository.

Lemma sameEntries_refl dir s : sameEntries dir s s.
Proof. unfold sameEntries. repeat split. apply incl_refl. Qed.

Lemma sameEntries_trans dir s1 s2 s3 :
  sameEntries dir s1 s2 -> sameEntries dir s2 s3 -> sameEntries dir s1 s3.
Proof.
  intros (F1 & L1 & O1 & I1) (F2 & L2 & O2 & I2).
  unfold sameEntries. repeat split; try congruence.
  eapply incl_tran; eassumption.
Qed.

(** making a directory leaves the others and its own files alone *)
Lemma sameEntries_mkdir dir s : sameEntries dir s (mkdir dir s).
Proof.
  unfold mkdir. destruct (existsb _ (dirs s)); [apply sameEntries_refl|].
  unfold sameEntries, otherDirs, imagesIn. cbn [files dirs locks].
  repeat split.
  - rewrite filter_app. cbn. rewrite String.eqb_refl. cbn. apply app_nil_r.
  - rewrite flat_map_app. apply incl_appl, incl_refl.
Qed.

Lemma withFile_incl name names : incl names (withFile name names).
Proof.
  unfold withFile. destruct (existsb _ names); [apply incl_refl|].
  apply incl_appl, incl_refl.
Qed.

(** a file written into a directory leaves the others and its other files
    alone *)
Lemma sameEntries_writeInto dir name s : sameEntries dir s (writeInto dir name s).
Proof.
  unfold sameEntries, writeInto, otherDirs, imagesIn. cbn [files dirs locks].
  repeat split.
  - induction (dirs s) as [|d l IH]; [reflexivity|].
    cbn [map filter]. destruct (String.eqb (fst d) dir) eqn:E; cbn [fst negb].
    + rewrite E. exact IH.
    + rewrite E. cbn [negb]. now rewrite IH.
  - induction (dirs s) as [|d l IH]; [apply incl_refl|].
    cbn [map flat_map]. destruct (String.eqb (fst d) dir) eqn:E; cbn [fst snd].
    + rewrite E. apply incl_app_app; [apply withFile_incl|exact IH].
    + rewrite E. exact IH.
Qed.

(** the written file is in the directory, once the directory is there *)
Lemma written_image dir name s :
  In name (imagesIn dir (writeInto dir name (mkdir dir s))).
Proof.
  assert (W : forall l, existsb (fun d => String.eqb (fst d) dir) l = true ->
                        In name (flat_map (fun d => if String.eqb (fst d) dir
                                                    then snd d else [])
                                   (map (fun d => if String.eqb (fst d) dir
                                                  then (fst d, withFile name (snd d))
                                                  else d) l))).
  { induction l as [|d l IH]; [discriminate|].
    cbn [existsb map flat_map]. destruct (String.eqb (fst d) dir) eqn:E; cbn [fst snd].
    - intros _. rewrite E. apply in_or_app. left.
      unfold withFile. destruct (existsb _ (snd d)) eqn:X.
      + apply existsb_exists in X. destruct X as (x & I & Q).
        apply String.eqb_eq in Q. now subst x.
      + apply in_or_app. right. now left.
    - rewrite E. cbn [orb]. intros X. apply in_or_app. right. now apply IH. }
  unfold imagesIn, writeInto. cbn [dirs]. apply W.
  unfold mkdir. destruct (existsb _ (dirs s)) eqn:X; [exact X|].
  cbn [dirs]. rewrite existsb_app. cbn. rewrite String.eqb_refl.
  now rewrite orb_true_r.
Qed.

End Entries.

Section Invariants.
Context {P : Platform} {C : Collaborators}.
Variable config : ShortestStrictConfig.
Import TestRunner.

Lemma sameTest_refl w : sameTest w w.
Proof.
  unfold sameTest. split; [apply sameEntries_refl|].
  repeat split; try reflexivity.
  exists []. now rewrite app_nil_r.
Qed.

Lemma sameTest_trans w1 w2 w3 : sameTest w1 w2 -> sameTest w2 w3 -> sameTest w1 w3.
Proof.
  intros (S1 & T1 & I1 & M1 & V1 & a & A1) (S2 & T2 & I2 & M2 & V2 & b & A2).
  unfold sameTest. split.
  { unfold TestRunRepository.getTestRunDirPath in *. rewrite I1 in S2.
    eapply sameEntries_trans; eassumption. }
  repeat split; try congruence.
  exists (a ++ b)%list. rewrite A2, A1. now rewrite app_assoc.
Qed.

(** a change of the cache directory that keeps its entries, with any change
    of the page, the clock and the trace *)
Lemma sameTest_store (w : World) b s n tr :
  sameEntries (TestRunRepository.getTestRunDirPath (testRun w)) (store w) s ->
  sameTest w {| page := b; testRun := testRun w; store := s; now := n; trace := tr |}.
Proof.
  intros S. unfold sameTest. cbn. split; [exact S|].
  repeat split; try reflexivity.
  exists []. now rewrite app_nil_r.
Qed.

Lemma sameTest_browser (w : World) b n tr :
  sameTest w {| page := b; testRun := testRun w; store := store w; now := n; trace := tr |}.
Proof. apply sameTest_store, sameEntries_refl. Qed.

(** [BrowserTool.execute], screenshots included *)
Lemma preserves_execute i : preserves sameTest (browserExecute i).
Proof.
  intros w. rewrite browserExecute_result. cbv zeta.
  destruct (InternalActionEnum_eqb (action i) SCREENSHOT);
    destruct (execute i _) as [b [r|e]];
    first [ exact (sameTest_browser w _ _ _)
          | exact (@sameTest_store w _ _ _ _ (sameEntries_mkdir _ _))
          | exact (@sameTest_store w _ _ _ _
                     (sameEntries_trans (sameEntries_mkdir _ _)
                        (sameEntries_writeInto _ _ _))) ].
Qed.

(** a change of the run by a sequence of its own methods *)
Lemma sameTest_calls ops (w : World) :
  sameTest w (set_testRun (Lifecycle.run ops (testRun w)) w).
Proof.
  unfold sameTest. cbn [store testRun set_testRun].
  assert (F : forall ops r,
             TestRun.testCase (Lifecycle.run ops r) = TestRun.testCase r
             /\ TestRun.runId (Lifecycle.run ops r) = TestRun.runId r
             /\ TestRun.timestamp (Lifecycle.run ops r) = TestRun.timestamp r
             /\ TestRun.version (Lifecycle.run ops r) = TestRun.version r
             /\ exists more,
                  TestRun.steps (Lifecycle.run ops r) = (TestRun.steps r ++ more)%list).
  { clear. induction ops as [|op ops IH]; intros r.
    - cbn. repeat split. exists []. now rewrite app_nil_r.
    - rewrite run_cons.
      destruct (IH (Lifecycle.apply op r)) as (A & B & C0 & D & more & E).
      destruct (apply_fields op r) as (A' & B' & C' & D' & E').
      repeat split; try congruence.
      exists (Lifecycle.added [op] ++ more)%list.
      rewrite E, E'. now rewrite app_assoc. }
  destruct (F ops (testRun w)) as (A & B & C0 & D & E).
  split; [apply sameEntries_refl|].
  repeat split; assumption.
Qed.

Lemma preserves_markFailed reason usage : preserves sameTest (markFailed reason usage).
Proof.
  intros w. unfold markFailed, modify.
  exact (sameTest_calls [Lifecycle.MarkFailed reason usage] w).
Qed.

Lemma preserves_markPassed reason usage :
  preserves sameTest (onRun (TestRun.markPassed reason usage)).
Proof.
  intros w. unfold onRun.
  pose proof (sameTest_calls [Lifecycle.MarkPassed reason usage] w) as H.
  cbn in H. destruct (TestRun.markPassed reason usage (testRun w)).
  - exact H.
  - apply sameTest_refl.
Qed.

Lemma preserves_markPassedFromCache reason :
  preserves sameTest (onRun (TestRun.markPassedFromCache reason)).
Proof.
  intros w. unfold onRun.
  pose proof (sameTest_calls [Lifecycle.MarkPassedFromCache reason] w) as H.
  cbn in H. destruct (TestRun.markPassedFromCache reason (testRun w)).
  - exact H.
  - apply sameTest_refl.
Qed.

Lemma addSteps_calls steps : forall r,
  fold_left (fun r s => TestRun.addStep s r) steps r
  = Lifecycle.run (map Lifecycle.AddStep steps) r.
Proof.
  induction steps as [|s steps IH]; intros r; [reflexivity|].
  cbn [fold_left map]. rewrite run_cons. apply IH.
Qed.

Lemma preserves_aiRunAction prompt : preserves sameTest (aiRunAction prompt).
Proof.
  intros w. unfold aiRunAction. cbn [page testRun record].
  set (o := runAction prompt (testRun w) (page w)).
  assert (H : sameTest w
                (set_page (ai_page o)
                   (set_testRun
                      (fold_left (fun r s => TestRun.addStep s r) (ai_steps o) (testRun w))
                      (record (EvRunAction prompt) w)))).
  { apply sameTest_trans with (w2 := record (EvRunAction prompt) w).
    - exact (sameTest_browser w _ _ _).
    - rewrite addSteps_calls.
      apply sameTest_trans
        with (w2 := set_testRun
                      (Lifecycle.run (map Lifecycle.AddStep (ai_steps o))
                         (testRun (record (EvRunAction prompt) w)))
                      (record (EvRunAction prompt) w)).
      + apply sameTest_calls.
      + exact (sameTest_browser _ _ _ _). }
  destruct (ai_response o); exact H.
Qed.

Lemma preserves_tryFinally {A} (m : M A) (f : M unit) :
  preserves sameTest m -> preserves sameTest f -> preserves sameTest (tryFinally m f).
Proof.
  intros Hm Hf w. unfold tryFinally, bind, ret, throw. specialize (Hm w).
  destruct (m w) as [a w1|e w1|]; auto;
    specialize (Hf w1); destruct (f w1) as [[] w2|e2 w2|]; auto;
    eapply sameTest_trans; eassumption.
Qed.

Ltac frame_step :=
  first
    [ apply (@preserves_ret _ sameTest sameTest_refl)
    | apply (@preserves_throw _ sameTest sameTest_refl)
    | apply (@preserves_gets _ sameTest sameTest_refl)
    | apply (@preserves_emit _ sameTest sameTest_browser)
    | apply (@preserves_sleep _ sameTest sameTest_browser)
    | apply (@preserves_callback _ sameTest sameTest_browser)
    | apply preserves_execute
    | apply (@preserves_fingerprint _ sameTest sameTest_browser)
    | apply (@preserves_pageGoto _ sameTest sameTest_browser)
    | apply preserves_markFailed
    | apply preserves_markPassed
    | apply preserves_markPassedFromCache
    | apply preserves_aiRunAction
    | apply preserves_tryFinally
    | apply (@preserves_bind _ sameTest sameTest_trans); [|intros ?]
    | apply (@preserves_tryCatch _ sameTest sameTest_trans); [|intros ?]
    | apply (@preserves_forEach _ sameTest sameTest_refl sameTest_trans); intros ?
    | match goal with
      | |- preserves _ (match ?x with _ => _ end) => destruct x
      | |- preserves _ (if ?x then _ else _) => destruct x
      end ].

Lemma preserves_runCachedTest : preserves sameTest runCachedTest.
Proof.
  unfold runCachedTest, TestRunRepository.latestPassedRunOf, TestRunRepository.getRuns,
    replaySteps, replayStep, verifyTarget, replayAction, log.
  repeat frame_step.
Qed.

Lemma preserves_runLive tc init : preserves sameTest (runLive tc init).
Proof.
  unfold runLive, beforeLive, decide, afterLive, settle, log.
  repeat frame_step.
Qed.

Lemma preserves_runDirect tc : preserves sameTest (runDirect tc).
Proof. unfold runDirect. repeat frame_step. Qed.

Lemma preserves_afterCached tc : preserves sameTest (afterCached tc).
Proof. unfold afterCached. repeat frame_step. Qed.

Lemma preserves_executeTest fuel : forall skipCache,
  preserves sameTest (executeTest config fuel skipCache).
Proof.
  induction fuel as [|fuel IH]; intros skipCache; [intros w; exact I|].
  cbn [executeTest]. unfold fallback, log.
  repeat first [ apply preserves_runDirect | apply preserves_runLive
               | apply preserves_runCachedTest | apply preserves_afterCached
               | apply IH | frame_step ].
Qed.

(** what follows the initial screenshot keeps the entries as well *)
Lemma executeTest_after_screenshot fuel skipCache w b init :
  TestCase.directExecution (TestRun.testCase (testRun w)) = false ->
  execute screenshot (page w) = (b, Ok init) ->
  match executeTest config (S (S fuel)) skipCache w with
  | Returned _ w' | Threw _ w' => sameTest (entered w b) w'
  | OutOfFuel => True
  end.
Proof.
  intros D E.
  destruct (caching_enabled config && negb skipCache)%bool eqn:N.
  - apply andb_true_iff in N. destruct N as [N K].
    destruct skipCache; [discriminate|].
    rewrite (@executeTest_cached _ _ config (S fuel) w b init D E N).
    assert (Pr : preserves sameTest
                   (tryCatch (runCachedTest ;; afterCached (TestRun.testCase (testRun w)))
                      (fallback (executeTest config (S fuel) true) init))).
    { unfold fallback, log.
      repeat first [ apply preserves_runCachedTest | apply preserves_afterCached
                   | apply preserves_executeTest | frame_step ]. }
    exact (Pr (entered w b)).
  - rewrite (@executeTest_live _ _ config (S fuel) skipCache w b init D E N).
    assert (Pr : preserves sameTest
                   (log "Skipping cache" ;; runLive (TestRun.testCase (testRun w)) init)).
    { unfold log. repeat first [ apply preserves_runLive | frame_step ]. }
    exact (Pr (entered w b)).
Qed.

(** X12.  Whatever happens in it and however it ends, [executeTest] keeps
    the entries of the cache directory and the identity of the run it was
    given.  No cache entry is written, replaced or deleted and no lock is
    taken or released; the artifact directories of the other runs are as
    they were, and no file is removed from the directory of the run itself,
    where a test that is not direct leaves its initial screenshot.  Test
    case, run id, timestamp and version are unchanged, and the recorded
    steps are the former steps with new ones appended at most.  (Two levels
    of the recursion are always enough, so the call does end.) *)
Theorem executeTest_keeps_cache_and_identity
    (fuel : nat) (skipCache : bool) (w : World) :
  let dir := TestRunRepository.getTestRunDirPath (testRun w) in
  exists w',
    (executeTest config (S (S fuel)) skipCache w = Returned tt w'
     \/ exists e, executeTest config (S (S fuel)) skipCache w = Threw e w')
    /\ files (store w') = files (store w)
    /\ locks (store w') = locks (store w)
    /\ TestRunRepository.otherDirs dir (dirs (store w'))
       = TestRunRepository.otherDirs dir (dirs (store w))
    /\ incl (imagesIn dir (store w)) (imagesIn dir (store w'))
    /\ (TestCase.directExecution (TestRun.testCase (testRun w)) = false ->
        forall b init, execute screenshot (page w) = (b, Ok init) ->
        In (screenshotName (now w)) (imagesIn dir (store w')))
    /\ TestRun.testCase (testRun w') = TestRun.testCase (testRun w)
    /\ TestRun.runId (testRun w') = TestRun.runId (testRun w)
    /\ TestRun.timestamp (testRun w') = TestRun.timestamp (testRun w)
    /\ TestRun.version (testRun w') = TestRun.version (testRun w)
    /\ exists more,
         TestRun.steps (testRun w') = (TestRun.steps (testRun w) ++ more)%list.
Proof.
  intros dir.
  pose proof (preserves_executeTest (S (S fuel)) skipCache w) as H.
  pose proof (total_executeTest config fuel skipCache w) as T.
  assert (Shot : forall w',
             (executeTest config (S (S fuel)) skipCache w = Returned tt w'
              \/ exists e, executeTest config (S (S fuel)) skipCache w = Threw e w') ->
             TestCase.directExecution (TestRun.testCase (testRun w)) = false ->
             forall b init, execute screenshot (page w) = (b, Ok init) ->
             In (screenshotName (now w)) (imagesIn dir (store w'))).
  { intros w' X D b init E.
    pose proof (@executeTest_after_screenshot fuel skipCache w b init D E) as A.
    assert (S' : sameTest (entered w b) w')
      by (destruct X as [X|[e X]]; rewrite X in A; exact A).
    destruct S' as ((_ & _ & _ & I) & _).
    apply I. apply written_image. }
  destruct (executeTest config (S (S fuel)) skipCache w) as [[] w'|e w'|].
  - exists w'. destruct H as ((F & L & O & I) & Id).
    split; [left; reflexivity|].
    repeat (split; [assumption|]).
    split; [apply Shot; left; reflexivity|exact Id].
  - exists w'. destruct H as ((F & L & O & I) & Id).
    split; [right; exists e; reflexivity|].
    repeat (split; [assumption|]).
    split; [apply Shot; right; exists e; reflexivity|exact Id].
  - destruct T.
Qed.

(** *** A returned call has settled the run *)

Lemma runLive_returned tc init w w' :
  runLive tc init w = Returned tt w' -> hasVerdict (testRun w').
Proof.
  unfold runLive. intros H.
  apply bind_returned in H. destruct H as (proceed & w1 & B & H).
  rewrite beforeLive_result in B.
  destruct proceed; cbn [negb] in H.
  - apply bind_returned in H. destruct H as (answer & w2 & _ & H).
    apply bind_returned in H. destruct H as (hooked & w3 & A & H).
    rewrite afterLive_result in A.
    destruct hooked; cbn [negb] in H.
    + unfold settle in H.
      destruct (response_status answer); try discriminate.
      * unfold onRun in H.
        destruct (TestRun.markPassed _ _ (testRun w3)) as [r|e] eqn:M; [|discriminate].
        injection H as <-. cbn [testRun set_testRun].
        apply markPassed_ok in M. left. tauto.
      * unfold markFailed, modify in H. injection H as <-.
        cbn [testRun set_testRun]. right. reflexivity.
    + injection H as <-.
      destruct (TestCase.afterFn tc) as [cb|]; [|discriminate].
      destruct (invoke cb _) as [b' [e|]]; [|discriminate].
      injection A as <-. right. reflexivity.
  - injection H as <-.
    destruct (TestCase.beforeFn tc) as [cb|]; [|discriminate].
    destruct (invoke cb _) as [b' [e|]]; [|discriminate].
    injection B as <-. right. reflexivity.
Qed.

Lemma runDirect_returned tc w w' :
  runDirect tc w = Returned tt w' -> hasVerdict (testRun w').
Proof.
  unfold runDirect, tryCatch.
  match goal with |- match ?m w with _ => _ end = _ -> _ =>
    destruct (m w) as [[] w1|e w1|] eqn:B end.
  - intros H. injection H as <-.
    apply bind_returned in B. destruct B as ([] & w0 & _ & M).
    unfold onRun in M.
    destruct (TestRun.markPassed _ _ (testRun w0)) as [r|e] eqn:K; [|discriminate].
    injection M as <-. apply markPassed_ok in K. left. tauto.
  - unfold markFailed, modify. intros H. injection H as <-.
    right. reflexivity.
  - discriminate.
Qed.

Lemma cachedPath_returned tc w w' :
  (runCachedTest ;; afterCached tc) w = Returned tt w' -> hasVerdict (testRun w').
Proof.
  intros H. apply bind_returned in H. destruct H as ([] & w1 & R & A).
  apply runCachedTest_returned in R. destruct R as (S1 & _).
  rewrite afterCached_result in A.
  destruct (TestCase.afterFn tc) as [cb|].
  - destruct (invoke cb _) as [b' [e|]]; injection A as <-.
    + right. reflexivity.
    + left. exact S1.
  - injection A as <-. left. exact S1.
Qed.

(** X13.  Whenever [executeTest] returns (rather than throws), the run has a
    verdict: its status is passed or failed, never pending or running.
    This holds on every path: direct execution, replay from cache, the live
    run, and the live run that follows a failed replay. *)
Theorem executeTest_returns_with_verdict
    (fuel : nat) (skipCache : bool) (w w' : World) :
  executeTest config fuel skipCache w = Returned tt w' ->
  TestRun.status (testRun w') = passed \/ TestRun.status (testRun w') = failed.
Proof.
  change (executeTest config fuel skipCache w = Returned tt w' -> hasVerdict (testRun w')).
  revert skipCache w w'.
  induction fuel as [|fuel IH]; intros skipCache w w'; [discriminate|].
  destruct (TestCase.directExecution (TestRun.testCase (testRun w))) eqn:D.
  - rewrite executeTest_direct by exact D. apply runDirect_returned.
  - destruct (execute screenshot (page w)) as [b [init|e]] eqn:E.
    + destruct (caching_enabled config && negb skipCache)%bool eqn:N.
      * apply andb_true_iff in N. destruct N as [N1 N2].
        destruct skipCache; [discriminate|].
        rewrite (@executeTest_cached _ _ config fuel w b init D E N1).
        unfold tryCatch.
        destruct ((runCachedTest ;; afterCached (TestRun.testCase (testRun w)))
                    (entered w b)) as [[] w1|e w1|] eqn:B.
        -- intros H. inversion H; subst. eapply cachedPath_returned. exact B.
        -- unfold fallback.
           destruct (instanceofCacheError e); cbn [negb]; [|discriminate].
           intros H.
           apply bind_returned in H. destruct H as ([] & w2 & _ & H).
           apply bind_returned in H. destruct H as ([] & w3 & _ & H).
           eapply IH. exact H.
        -- discriminate.
      * rewrite (@executeTest_live _ _ config fuel skipCache w b init D E N).
        intros H. apply bind_returned in H. destruct H as ([] & w1 & _ & H).
        eapply runLive_returned. exact H.
    + rewrite (@executeTest_no_screenshot _ _ config fuel skipCache w b e D E).
      discriminate.
Qed.

(** *** Without the cache *)

(** X14.  With caching disabled in the configuration, or when called with
    [skipCache = true], [executeTest] never attempts a replay: however it
    ends, it has read no fingerprint, waited for no delay and navigated
    nowhere, and the only "Attempting to execute test from cache" messages
    in the trace are those that were there before. *)
Theorem no_cache_no_replay (fuel : nat) (skipCache : bool) (w : World) :
  (caching_enabled config && negb skipCache)%bool = false ->
  exists w',
    (executeTest config (S fuel) skipCache w = Returned tt w'
     \/ exists e, executeTest config (S fuel) skipCache w = Threw e w')
    /\ count isReplayAttempt (trace w') = count isReplayAttempt (trace w)
    /\ count isFingerprint (trace w') = count isFingerprint (trace w)
    /\ count isTimeout (trace w') = count isTimeout (trace w)
    /\ count isGoto (trace w') = count isGoto (trace w).
Proof.
  intros N.
  assert (Quiet : forall p,
             p (EvLog "Executing test") = false ->
             p (EvLog "Skipping cache") = false ->
             (forall i, p (EvExecute i) = false) ->
             (forall k cb, p (EvInvoke k cb) = false) ->
             (forall g, p (EvSetGroup g) = false) ->
             p EvResetGroup = false ->
             (forall prompt, p (EvRunAction prompt) = false) ->
             silent p (executeTest config (S fuel) skipCache)).
  { intros p L1 L2 X I G Rg A. cbn [executeTest]. rewrite N.
    unfold runDirect, runLive, beforeLive, decide, afterLive, settle, log.
    repeat first
      [ apply silent_emit; solve [auto]
      | apply silent_callback; solve [auto]
      | apply silent_browserExecute; solve [auto]
      | apply silent_aiRunAction; solve [auto]
      | silence_step ]. }
  pose proof (Quiet isReplayAttempt eq_refl eq_refl (fun _ => eq_refl) (fun _ _ => eq_refl)
                (fun _ => eq_refl) eq_refl (fun _ => eq_refl) w) as H1.
  pose proof (Quiet isFingerprint eq_refl eq_refl (fun _ => eq_refl) (fun _ _ => eq_refl)
                (fun _ => eq_refl) eq_refl (fun _ => eq_refl) w) as H2.
  pose proof (Quiet isTimeout eq_refl eq_refl (fun _ => eq_refl) (fun _ _ => eq_refl)
                (fun _ => eq_refl) eq_refl (fun _ => eq_refl) w) as H3.
  pose proof (Quiet isGoto eq_refl eq_refl (fun _ => eq_refl) (fun _ _ => eq_refl)
                (fun _ => eq_refl) eq_refl (fun _ => eq_refl) w) as H4.
  assert (T : terminates (executeTest config (S fuel) skipCache w)).
  { destruct skipCache.
    - apply total_executeTest_skip.
    - rewrite andb_true_r in N.
      cbn [executeTest]. rewrite N. cbn [andb].
      unfold log, emit.
      repeat first [ apply total_runDirect | apply total_runLive | totality_step ]. }
  destruct (executeTest config (S fuel) skipCache w) as [[] w'|e w'|].
  - exists w'. split; [left; reflexivity|]. cbn in H1, H2, H3, H4. auto.
  - exists w'. split; [right; exists e; reflexivity|]. cbn in H1, H2, H3, H4. auto.
  - destruct T.
Qed.

End Invariants.


(** the shop test replayed from its cache directory: the entry of the
    earlier run is all there is among the documents, and the screenshot of
    the new run is in its directory *)
Lemma executeTest_keeps_cache_and_identity_witness :
  let w := Shop.world Shop.buyButton (Shop.testCase None None) Shop.cacheDir in
  exists w',
    TestRunner.executeTest (P := Shop.platform) (C := Shop.site) Shop.cachingOn 2 false w
    = Returned tt w'
    /\ files (store w') = [("run1_a1b2c3.json", Some Shop.earlier)]
    /\ In "screenshot-2025-03-01T10-00-00-000Z.png"
         (imagesIn "2025-03-01T10-00-00-000Z_a1b2c3" (store w'))
    /\ TestRun.runId (testRun w') = "2025-03-01T10-00-00-000Z_a1b2c3".
Proof.
  intros w.
  destruct (@executeTest_keeps_cache_and_identity Shop.platform Shop.site
              Shop.cachingOn 0%nat false w)
    as (w' & [E|[e E]] & F & _ & _ & _ & Shot & _ & Id & _).
  - exists w'. split; [exact E|]. split; [exact F|].
    split; [exact (Shot eq_refl Shop.buyButton Shop.home eq_refl)|exact Id].
  - exfalso.
    assert (R : exists w2,
               TestRunner.executeTest (P := Shop.platform) (C := Shop.site)
                 Shop.cachingOn 2 false w = Returned tt w2)
      by (eexists; vm_compute; reflexivity).
    destruct R as [w2 R]. rewrite R in E. discriminate E.
Defined.

(** the shop test replayed from its cache directory *)
Lemma executeTest_returns_with_verdict_witness :
  let w := Shop.world Shop.buyButton (Shop.testCase None None) Shop.cacheDir in
  exists w',
    TestRunner.executeTest (P := Shop.platform) (C := Shop.site) Shop.cachingOn 2 false w
    = Returned tt w'
    /\ (TestRun.status (testRun w') = passed \/ TestRun.status (testRun w') = failed).
Proof.
  intros w.
  assert (R : exists w',
             TestRunner.executeTest (P := Shop.platform) (C := Shop.site)
               Shop.cachingOn 2 false w = Returned tt w')
    by (eexists; vm_compute; reflexivity).
  destruct R as [w' R]. exists w'. split; [exact R|].
  exact (@executeTest_returns_with_verdict Shop.platform Shop.site Shop.cachingOn
           2%nat false w w' R).
Defined.

(** the shop test with caching disabled *)
Lemma no_cache_no_replay_witness :
  let w := Shop.world Shop.buyButton (Shop.testCase None None) Shop.cacheDir in
  exists w',
    (TestRunner.executeTest (P := Shop.platform) (C := Shop.site) Shop.cachingOff 1 false w
     = Returned tt w'
     \/ exists e,
          TestRunner.executeTest (P := Shop.platform) (C := Shop.site)
            Shop.cachingOff 1 false w = Threw e w')
    /\ count isReplayAttempt (trace w') = 0%nat
    /\ count isFingerprint (trace w') = 0%nat
    /\ count isTimeout (trace w') = 0%nat
    /\ count isGoto (trace w') = 0%nat.
Proof.
  intros w.
  exact (@no_cache_no_replay Shop.platform Shop.site Shop.cachingOff 0%nat false w eq_refl).
Defined.


(** ** The loop over the tests of a file *)

Section Harness.
Context {P : Platform} {C : Collaborators}.
Variable config : ShortestStrictConfig.
Import TestRunner.

Section Emitted.
Variable p : Event -> bool.
Hypothesis p_runner : forall e, runnerEvent e = true -> p e = false.

Ltac quiet_step :=
  first
    [ apply silent_emit; apply p_runner; reflexivity
    | apply silent_sleep; apply p_runner; reflexivity
    | apply silent_callback; apply p_runner; reflexivity
    | apply silent_browserExecute; apply p_runner; reflexivity
    | apply silent_fingerprint; apply p_runner; reflexivity
    | apply silent_pageGoto; apply p_runner; reflexivity
    | apply silent_aiRunAction; apply p_runner; reflexivity
    | silence_step ].

(** [executeTest] records runner events only *)
Lemma silent_executeTest fuel : forall skipCache,
  silent p (executeTest config fuel skipCache).
Proof.
  induction fuel as [|fuel IH]; intros skipCache; [intros w; exact I|].
  cbn [executeTest].
  unfold runDirect, runLive, beforeLive, decide, afterLive, settle, afterCached,
    fallback, runCachedTest, TestRunRepository.latestPassedRunOf,
    TestRunRepository.getRuns, replaySteps, replayStep, verifyTarget, replayAction, log.
  repeat first [ apply IH | quiet_step ].
Qed.

End Emitted.

Lemma forEach_hooks_returned k hooks : forall w w',
  forEach (callback k) hooks w = Returned tt w' ->
  testRun w' = testRun w /\ store w' = store w /\ now w' = now w
  /\ forall p, (forall cb, p (EvInvoke k cb) = false) ->
               count p (trace w') = count p (trace w).
Proof.
  induction hooks as [|cb hooks IH]; intros w w' H; simpl in H.
  - injection H as <-. auto.
  - apply bind_returned in H. destruct H as ([] & w1 & H1 & H2).
    apply IH in H2. destruct H2 as (R2 & S2 & N2 & T2).
    unfold callback in H1. cbn [page record] in H1.
    destruct (invoke cb (page w)) as [b [e|]]; [discriminate|].
    injection H1 as <-. cbn [testRun store now set_page record] in *.
    repeat split; try assumption.
    intros p Hp. rewrite (T2 p Hp). unfold count. cbn [trace set_page record filter].
    now rewrite Hp.
Qed.

(** X15.  If [executeTest] throws for a test (the initial screenshot fails,
    the Action Decider throws or answers with an unexpected status, a replay
    ends with an error that is not a cache error), the per-test body of
    [executeTestFile] logs "Handling error for executeTest" and rethrows the
    same error.  The end of the test is not reported, no afterEach hook is
    invoked, and the run is not saved: no cache entry is written and no lock
    is taken, the entries and the locks of the cache directory are as they
    were.  (A screenshot taken before the error stays in the directory of
    the run.) *)
Theorem thrown_test_is_not_saved
    (registry : Registry) (tc : TestCase.t) (w w1 w2 : World) (e : Thrown) :
  forEach (callback BeforeEach) (beforeEachFns registry) w = Returned tt w1 ->
  executeTest config 2 false
    (set_testRun (freshRun tc (now w)) (record (EvTestStart (TestCase.name tc)) w1))
  = Threw e w2 ->
  runTestCase config registry tc w
  = Threw e (record (EvLog "Handling error for executeTest") w2)
  /\ files (store w2) = files (store w)
  /\ locks (store w2) = locks (store w)
  /\ count isWrite (trace w2) = count isWrite (trace w)
  /\ count isTestEnd (trace w2) = count isTestEnd (trace w)
  /\ count (isInvoke AfterEach) (trace w2) = count (isInvoke AfterEach) (trace w)
  /\ count isTestStart (trace w2) = (1 + count isTestStart (trace w))%nat.
Proof.
  intros B X.
  apply forEach_hooks_returned in B as Q. destruct Q as (R1 & S1 & N1 & T1).
  set (w1' := set_testRun (freshRun tc (now w))
                (record (EvTestStart (TestCase.name tc)) w1)) in *.
  split.
  { unfold runTestCase.
    erewrite bind_run by exact B.
    erewrite bind_run by reflexivity.
    erewrite bind_run by reflexivity.
    erewrite bind_run by reflexivity.
    erewrite bind_threw; [reflexivity|].
    unfold tryCatch.
    erewrite bind_run by reflexivity.
    cbn [now record set_testRun testRun]. rewrite N1.
    change (set_testRun _ (set_testRun _ ?x)) with (set_testRun (freshRun tc (now w)) x).
    fold w1'. rewrite X. reflexivity. }
  pose proof (preserves_executeTest config 2 false w1') as F. rewrite X in F.
  destruct F as ((F2 & L2 & _) & _).
  split; [rewrite F2; cbn [store w1' set_testRun record]; now rewrite S1|].
  split; [rewrite L2; cbn [store w1' set_testRun record]; now rewrite S1|].
  assert (K : forall p, (forall e, runnerEvent e = true -> p e = false) ->
                        count p (trace w2) = count p (trace w1')).
  { intros p Hp. pose proof (silent_executeTest p Hp 2 false w1') as H.
    rewrite X in H. exact H. }
  repeat split.
  - rewrite K by (intros [] H; try reflexivity; discriminate H).
    unfold w1', count. cbn [trace set_testRun record filter isWrite].
    apply (T1 isWrite). reflexivity.
  - rewrite K by (intros [] H; try reflexivity; discriminate H).
    unfold w1', count. cbn [trace set_testRun record filter isTestEnd].
    apply (T1 isTestEnd). reflexivity.
  - rewrite K by (intros [| | | | | | |[] ?| | | | | | | |] H;
                  try reflexivity; discriminate H).
    unfold w1', count. cbn [trace set_testRun record filter isInvoke].
    apply (T1 (isInvoke AfterEach)). reflexivity.
  - rewrite K by (intros [] H; try reflexivity; discriminate H).
    pose proof (T1 isTestStart (fun _ => eq_refl)) as Q.
    unfold w1', count in *. cbn [trace set_testRun record filter isTestStart length].
    lia.
Qed.

(** X16.  A beforeEach hook that throws aborts the test before it starts:
    the hooks registered after it are not invoked, the start of the test is
    not reported, no run is created, and the error of the hook is what the
    per-test body throws. *)
Theorem failing_beforeEach_aborts_the_test
    (registry : Registry) (tc : TestCase.t) (pre post : list Callback)
    (cb : Callback) (b : Browser) (e : Thrown) (w w1 : World) :
  beforeEachFns registry = (pre ++ cb :: post)%list ->
  forEach (callback BeforeEach) pre w = Returned tt w1 ->
  invoke cb (page w1) = (b, Some e) ->
  exists w2,
    runTestCase config registry tc w = Threw e w2
    /\ trace w2 = EvInvoke BeforeEach cb :: trace w1
    /\ count (isInvoke BeforeEach) (trace w2)
       = (length pre + 1 + count (isInvoke BeforeEach) (trace w))%nat
    /\ count isTestStart (trace w2) = count isTestStart (trace w)
    /\ testRun w2 = testRun w
    /\ store w2 = store w.
Proof.
  intros Hooks Pre I.
  exists (set_page b (record (EvInvoke BeforeEach cb) w1)).
  assert (L : forall hooks w w',
             forEach (callback BeforeEach) hooks w = Returned tt w' ->
             count (isInvoke BeforeEach) (trace w')
             = (length hooks + count (isInvoke BeforeEach) (trace w))%nat).
  { clear. induction hooks as [|h hooks IH]; intros w w' H; simpl in H.
    - injection H as <-. reflexivity.
    - apply bind_returned in H. destruct H as ([] & w1 & H1 & H2).
      apply IH in H2. rewrite H2.
      unfold callback in H1. cbn [page record] in H1.
      destruct (invoke h (page w)) as [b [e|]]; [discriminate|].
      injection H1 as <-. unfold count. cbn. lia. }
  apply forEach_hooks_returned in Pre as Q. destruct Q as (R1 & S1 & _ & T1).
  split.
  { unfold runTestCase. rewrite Hooks.
    erewrite bind_threw; [reflexivity|].
    rewrite forEach_app. erewrite bind_run by exact Pre.
    simpl. erewrite bind_threw; [reflexivity|].
    unfold callback. cbn [page record]. rewrite I. reflexivity. }
  split; [reflexivity|].
  split.
  { unfold count at 1. cbn [trace set_page record filter isInvoke HookKind_eqb length].
    fold (count (isInvoke BeforeEach) (trace w1)). rewrite (L _ _ _ Pre). lia. }
  split.
  { unfold count at 1. cbn [trace set_page record filter isTestStart].
    apply (T1 isTestStart). reflexivity. }
  split; assumption.
Qed.

(** X17.  The tests of a file run in the order given, and a test whose body
    throws ends the loop: [runTests] throws the same error and none of the
    tests after it is started. *)
Theorem thrown_test_aborts_the_file
    (registry : Registry) (pre post : list TestCase.t) (tc : TestCase.t)
    (w w1 w2 : World) (e : Thrown) :
  forEach (runTestCase config registry) pre
    (record (EvLog ("Running " ++ Str.ofNat (length (pre ++ tc :: post)) ++ " test(s)")) w)
  = Returned tt w1 ->
  runTestCase config registry tc w1 = Threw e w2 ->
  runTests config registry (pre ++ tc :: post) w = Threw e w2.
Proof.
  intros Pre X. unfold runTests, log.
  erewrite bind_run by reflexivity.
  rewrite forEach_app. erewrite bind_run by exact Pre.
  simpl. erewrite bind_threw by exact X. reflexivity.
Qed.

End Harness.


(** the Action Decider is unavailable: the test throws and is not saved *)
Lemma thrown_test_is_not_saved_witness :
  let tc := Shop.testCase None None in
  let w := Overload.world Shop.buyButton tc Shop.cacheDir in
  exists w3,
    TestRunner.runTestCase (P := Shop.platform) (C := Overload.aiDown)
      Shop.cachingOff Shop.noHooks tc w
    = Threw (ThrownError OtherErrorC "overloaded") w3
    /\ files (store w3) = files Shop.cacheDir
    /\ locks (store w3) = []
    /\ count isTestEnd (trace w3) = 0%nat.
Proof.
  intros tc w.
  assert (X : exists w2,
             TestRunner.executeTest (P := Shop.platform) (C := Overload.aiDown)
               Shop.cachingOff 2 false
               (set_testRun (freshRun (H := Shop.platform) tc (now w))
                  (record (EvTestStart (TestCase.name tc)) w))
             = Threw (ThrownError OtherErrorC "overloaded") w2)
    by (eexists; vm_compute; reflexivity).
  destruct X as [w2 X].
  destruct (@thrown_test_is_not_saved Shop.platform Overload.aiDown Shop.cachingOff
              Shop.noHooks tc w w w2 _ eq_refl X)
    as (E & S & L & _ & T & _).
  exists (record (EvLog "Handling error for executeTest") w2).
  split; [exact E|]. split; [exact S|]. split; [exact L|exact T].
Defined.

(** the second of three beforeEach hooks throws *)
Lemma failing_beforeEach_aborts_the_test_witness :
  let tc := Shop.testCase None None in
  let w := Shop.world Shop.buyButton tc Shop.cacheDir in
  exists w2,
    TestRunner.runTestCase (P := Shop.platform) (C := Shop.site)
      Shop.cachingOn Hooks.secondThrows tc w
    = Threw (ThrownError OtherErrorC "boom") w2
    /\ trace w2 = [EvInvoke BeforeEach 1%nat; EvInvoke BeforeEach 0%nat]
    /\ store w2 = Shop.cacheDir.
Proof.
  intros tc w.
  destruct (@failing_beforeEach_aborts_the_test Shop.platform Shop.site Shop.cachingOn
              Hooks.secondThrows tc [0%nat] [0%nat] 1%nat _
              (ThrownError OtherErrorC "boom") w _
              eq_refl eq_refl eq_refl)
    as (w2 & E & T & _ & _ & _ & S).
  exists w2. split; [exact E|]. split; [exact T|exact S].
Defined.

(** two tests, the first of which throws: the second is never started *)
Lemma thrown_test_aborts_the_file_witness :
  let tc := Shop.testCase None None in
  let w := Overload.world Shop.buyButton tc Shop.cacheDir in
  exists w2,
    TestRunner.runTests (P := Shop.platform) (C := Overload.aiDown)
      Shop.cachingOff Shop.noHooks [tc; tc] w
    = Threw (ThrownError OtherErrorC "overloaded") w2
    /\ count isTestStart (trace w2) = 1%nat.
Proof.
  intros tc w.
  assert (X : exists w2,
             TestRunner.runTestCase (P := Shop.platform) (C := Overload.aiDown)
               Shop.cachingOff Shop.noHooks tc
               (record (EvLog ("Running " ++ Str.ofNat 2 ++ " test(s)")) w)
             = Threw (ThrownError OtherErrorC "overloaded") w2
             /\ count isTestStart (trace w2) = 1%nat)
    by (eexists; split; vm_compute; reflexivity).
  destruct X as (w2 & X & N).
  exists w2. split; [|exact N].
  exact (@thrown_test_aborts_the_file Shop.platform Overload.aiDown Shop.cachingOff
           Shop.noHooks [] [tc] tc w _ w2 _ eq_refl X).
Defined.


(** ** Registration: names *)

Section Names.
Import Registration.

Lemma isSpace_blank : isSpace " " = true.
Proof. reflexivity. Qed.

Lemma isSpace_eqb c : Ascii.eqb c " " = true -> c = " "%char.
Proof. apply Ascii.eqb_eq. Qed.

Lemma collapse_single s : forall b,
  single (collapse b s) = true /\ (b = true -> headed (collapse b s) = true).
Proof.
  induction s as [|c r IH]; intros b; simpl.
  - auto.
  - destruct (isSpace c) eqn:W.
    + destruct b.
      * apply IH.
      * destruct (IH true) as [S1 H1]. split; [|discriminate].
        cbn [single]. rewrite isSpace_blank, H1 by reflexivity. simpl. exact S1.
    + destruct (IH false) as [S1 _]. cbn [single headed]. rewrite W. simpl.
      split; [exact S1|reflexivity].
Qed.

Lemma trimStart_single s :
  single s = true -> single (trimStart s) = true /\ headed (trimStart s) = true.
Proof.
  induction s as [|c r IH]; simpl; [auto|].
  destruct (isSpace c) eqn:W.
  - intros H. apply andb_true_iff in H. apply IH. tauto.
  - intros H. cbn [single headed]. rewrite W in *. auto.
Qed.

Lemma trimEnd_head s : trimEnd s = "" \/ exists c t u, s = String c u /\ trimEnd s = String c t.
Proof.
  destruct s as [|c r]; simpl; [auto|].
  destruct (trimEnd r) as [|d t].
  - destruct (isSpace c); [auto|]. right. eauto.
  - right. eauto.
Qed.

Lemma trimEnd_spaced s :
  single s = true -> spaced (trimEnd s) = true /\ (headed s = true -> headed (trimEnd s) = true).
Proof.
  induction s as [|c r IH]; simpl; [auto|].
  intros H. apply andb_true_iff in H. destruct H as [Hc Hr].
  destruct (IH Hr) as [Sp Hd].
  destruct (trimEnd r) as [|d t] eqn:E.
  - destruct (isSpace c) eqn:W; simpl; [auto|]. rewrite W. auto.
  - cbn [spaced headed]. destruct (isSpace c) eqn:W.
    + apply andb_true_iff in Hc. destruct Hc as [Hb Hh].
      rewrite Hb. simpl.
      destruct (trimEnd_head r) as [Z|(c' & t' & u & Er & Et)]; [congruence|].
      rewrite E in Et. injection Et as -> ->. subst r. simpl in Hh.
      rewrite Hh. simpl. split; [exact Sp|discriminate].
    + simpl. split; [exact Sp|reflexivity].
Qed.

Lemma spaced_single s : spaced s = true -> single s = true.
Proof.
  induction s as [|c r IH]; simpl; [auto|].
  destruct (isSpace c).
  - intros H. apply andb_true_iff in H. destruct H as [H Hr].
    apply andb_true_iff in H. destruct H as [Hb Hn].
    rewrite Hb, (IH Hr). destruct r; [discriminate|]. simpl. now rewrite Hn.
  - intros H. now rewrite (IH H).
Qed.

Lemma collapse_fixed s : forall b,
  single s = true -> (b = true -> headed s = true) -> collapse b s = s.
Proof.
  induction s as [|c r IH]; intros b S H; simpl; [reflexivity|].
  simpl in S. apply andb_true_iff in S. destruct S as [Sc Sr].
  destruct (isSpace c) eqn:W.
  - apply andb_true_iff in Sc. destruct Sc as [Sb Sh].
    apply isSpace_eqb in Sb. subst c.
    destruct b.
    + specialize (H eq_refl). discriminate H.
    + f_equal. apply IH; auto.
  - f_equal. apply IH; [exact Sr|discriminate].
Qed.

Lemma trimStart_fixed s : headed s = true -> trimStart s = s.
Proof.
  destruct s as [|c r]; simpl; [reflexivity|].
  destruct (isSpace c); [discriminate|reflexivity].
Qed.

Lemma trimEnd_fixed s : spaced s = true -> trimEnd s = s.
Proof.
  induction s as [|c r IH]; simpl; [reflexivity|].
  destruct (isSpace c) eqn:W.
  - intros H. apply andb_true_iff in H. destruct H as [H Hr].
    apply andb_true_iff in H. destruct H as [_ Hn].
    rewrite (IH Hr). destruct r; [discriminate|reflexivity].
  - intros H. rewrite (IH H). destruct r; reflexivity.
Qed.

Lemma letters_collapse s : forall b, letters (collapse b s) = letters s.
Proof.
  induction s as [|c r IH]; intros b; simpl; [reflexivity|].
  destruct (isSpace c) eqn:W.
  - destruct b; [apply IH|]. cbn [letters]. rewrite isSpace_blank. apply IH.
  - cbn [letters]. rewrite W. f_equal. apply IH.
Qed.

Lemma letters_trimStart s : letters (trimStart s) = letters s.
Proof.
  induction s as [|c r IH]; simpl; [reflexivity|].
  destruct (isSpace c) eqn:W; [exact IH|]. cbn [letters]. now rewrite W.
Qed.

Lemma letters_trimEnd s : letters (trimEnd s) = letters s.
Proof.
  induction s as [|c r IH]; simpl; [reflexivity|].
  destruct (trimEnd r) as [|d t] eqn:E.
  - simpl in IH. destruct (isSpace c) eqn:W; simpl; rewrite ?W; [exact IH|].
    now rewrite <- IH.
  - cbn [letters] in *. destruct (isSpace c); [exact IH|]. now rewrite IH.
Qed.

Lemma normalizeName_fixed s : tidy s = true -> normalizeName s = s.
Proof.
  intros T. unfold normalizeName, trim.
  assert (Sp : spaced s = true).
  { destruct s; [reflexivity|]. unfold tidy in T.
    apply andb_true_iff in T. tauto. }
  assert (Hd : headed s = true).
  { destruct s; [reflexivity|]. unfold tidy in T.
    apply andb_true_iff in T. simpl. tauto. }
  rewrite collapse_fixed by (auto using spaced_single; discriminate).
  rewrite trimStart_fixed by exact Hd.
  now apply trimEnd_fixed.
Qed.

Lemma normalizeName_tidy name : tidy (normalizeName name) = true.
Proof.
  unfold normalizeName, trim.
  destruct (collapse_single name false) as [S1 _].
  destruct (trimStart_single _ S1) as [S2 H2].
  destruct (trimEnd_spaced _ S2) as [S3 H3]. specialize (H3 H2).
  destruct (trimEnd (trimStart (collapse false name))) as [|c t]; [reflexivity|].
  unfold tidy. simpl in H3. now rewrite H3, S3.
Qed.

Lemma normalizeName_twice name : normalizeName (normalizeName name) = normalizeName name.
Proof. apply normalizeName_fixed, normalizeName_tidy. Qed.

(** X18.  [normalizeName] turns every name into words separated by single
    blanks: the result has no white space at either end, and every
    white-space code unit in it is a blank between two other code units.
    It only touches white space (the other code units are kept, in order),
    it leaves a name of that shape as it is, and so normalizing twice is
    the same as normalizing once. *)
Theorem normalizeName_shape (name : string) :
  tidy (normalizeName name) = true
  /\ letters (normalizeName name) = letters name
  /\ (tidy name = true -> normalizeName name = name)
  /\ normalizeName (normalizeName name) = normalizeName name.
Proof.
  split; [apply normalizeName_tidy|]. split.
  - unfold normalizeName, trim.
    now rewrite letters_trimEnd, letters_trimStart, letters_collapse.
  - split; [apply normalizeName_fixed|apply normalizeName_twice].
Qed.

End Names.

(** ** Registration: tests *)

Section Registering.
Context {T : Registration.TestCases}.
Import Registration.

(** the test case registered for one name of an array of names *)
Lemma registerNames_spec names : forall r,
  exists r',
    registerNames names r
    = (combine (seq (length (heap r)) (length names))
         (map (fun name =>
                 createTestCase
                   {| in_name := normalizeName name; in_filePath := currentFilePath r;
                      in_payload := None; in_directExecution := false; in_fn := None;
                      in_expectations := Some [] |}) names),
       r')
    /\ heap r'
       = (heap r
          ++ map (fun name =>
                    createTestCase
                      {| in_name := normalizeName name; in_filePath := currentFilePath r;
                         in_payload := None; in_directExecution := false; in_fn := None;
                         in_expectations := Some [] |}) names)%list
    /\ currentFileTests r'
       = (currentFileTests r ++ seq (length (heap r)) (length names))%list
    /\ currentFilePath r' = currentFilePath r
    /\ directTestCount r' = directTestCount r
    /\ beforeAllFns r' = beforeAllFns r /\ afterAllFns r' = afterAllFns r
    /\ beforeEachFns r' = beforeEachFns r /\ afterEachFns r' = afterEachFns r.
Proof.
  induction names as [|name names IH]; intros r.
  - exists r. cbn. rewrite !app_nil_r. repeat split; reflexivity.
  - cbn [registerNames registerName alloc].
    match goal with |- context [registerNames names ?x] =>
      destruct (IH x) as (r' & E & H1 & H2 & H3 & H4 & H5 & H6 & H7 & H8) end.
    cbn [heap currentFileTests currentFilePath directTestCount beforeAllFns afterAllFns
         beforeEachFns afterEachFns push enter] in *.
    rewrite length_app in *. cbn [length] in *.
    rewrite Nat.add_1_r in *.
    exists r'. rewrite E.
    split; [reflexivity|].
    rewrite H1, H2. cbn. rewrite <- !app_assoc. cbn.
    repeat split; assumption.
Qed.

Lemma combine_append {A B} (l1 l2 : list A) (m1 m2 : list B) :
  length l1 = length m1 ->
  combine (l1 ++ l2) (m1 ++ m2) = (combine l1 m1 ++ combine l2 m2)%list.
Proof.
  revert m1. induction l1 as [|x l1 IH]; intros [|y m1]; simpl; try discriminate.
  - reflexivity.
  - intros [= H]. now rewrite IH.
Qed.

Lemma last_created {A} (mk : string -> A) (names : list string) (n : nat) :
  names <> [] ->
  List.last (map Some (combine (seq n (length names)) (map mk names))) None
  = Some ((n + length names - 1)%nat, mk (List.last names "")).
Proof.
  intros NE. destruct (exists_last NE) as (init & x & ->).
  rewrite map_app, length_app. cbn [map length].
  rewrite seq_app. cbn [seq].
  rewrite combine_append by (now rewrite length_seq, length_map).
  cbn [combine]. rewrite map_app. cbn [map]. rewrite !last_last.
  replace (n + (length init + 1) - 1)%nat with (n + length init)%nat by lia.
  reflexivity.
Qed.

Lemma mapGet_mapSet key value m : mapGet key (mapSet key value m) = Some value.
Proof.
  induction m as [|[k v] m IH]; simpl.
  - now rewrite String.eqb_refl.
  - destruct (String.eqb k key) eqn:E; simpl; rewrite E; [reflexivity|exact IH].
Qed.

(** X19.  [test([name1, ..., nameK], payloadOrFn, fn)] registers K + 1 test
    cases when the last name is not blank (and [createTestCase] keeps the
    name it is given): one for each name, without payload or function, and
    then one more for the last name, which alone carries the payload and the
    function.  The chain returned refers to this extra test case, so what is
    chained on it does not reach the test case first registered for the last
    name.  Normalizing the already normalized name again changes nothing:
    the extra test case has the same name as the one before it. *)
Theorem names_register_the_last_name_twice
    (names : list string) (lastName : string)
    (payloadOrFn : PayloadOrFn) (fn : option Callback) (r : t) :
  (forall input, TestCase.name (createTestCase input) = in_name input) ->
  List.last names "" = lastName ->
  names <> [] ->
  normalizeName lastName <> "" ->
  exists r',
    createTestChain (Names names) payloadOrFn fn r
    = (Ok (Chain (length (heap r) + length names)), r')
    /\ heap r'
       = (heap r
          ++ map (fun name =>
                    createTestCase
                      {| in_name := normalizeName name; in_filePath := currentFilePath r;
                         in_payload := None; in_directExecution := false; in_fn := None;
                         in_expectations := Some [] |}) names
          ++ [createTestCase
                {| in_name := normalizeName lastName; in_filePath := currentFilePath r;
                   in_payload := payloadOf payloadOrFn; in_directExecution := false;
                   in_fn := fnOf payloadOrFn fn; in_expectations := Some [] |}])%list
    /\ currentFileTests r'
       = (currentFileTests r ++ seq (length (heap r)) (length names + 1))%list
    /\ (exists others,
          mapGet (normalizeName lastName) (tests r')
          = Some (others ++ [(length (heap r) + length names)%nat])%list)
    /\ directTestCount r' = directTestCount r.
Proof.
  intros Keep Last NE Blank.
  unfold createTestChain.
  destruct (registerNames_spec names r) as (r1 & E & H1 & H2 & H3 & H4 & _).
  rewrite E, (last_created _ _ NE), Last.
  rewrite Keep. cbn [in_name].
  unfold Str.truthy.
  destruct (String.eqb_spec (normalizeName lastName) "") as [Z|_]; [contradiction|].
  cbn [negb]. unfold registerNamed.
  rewrite normalizeName_twice.
  cbn [alloc].
  assert (L : length (heap r1) = (length (heap r) + length names)%nat)
    by (now rewrite H1, length_app, length_map).
  rewrite L, H3.
  eexists. split; [reflexivity|].
  cbn [heap currentFileTests tests directTestCount push enter].
  rewrite H1, H2, H4.
  split; [now rewrite <- !app_assoc|].
  split; [now rewrite seq_app, <- !app_assoc|].
  split; [|reflexivity].
  eexists. now rewrite mapGet_mapSet.
Qed.

(** X20.  The array form of [test] fails in two ways.  On an empty array
    nothing is registered and a TypeError is thrown where the name of the
    last test is read.  When the last name is blank (empty or white space
    only) the ShortestError "Test name is required" is thrown, but only
    after a test case has been registered for every name of the array, the
    blank one included: they stay in [currentFileTests]. *)
Theorem names_failure_modes
    (names : list string) (payloadOrFn : PayloadOrFn) (fn : option Callback) (r : t) :
  (forall input, TestCase.name (createTestCase input) = in_name input) ->
  (names = [] ->
   createTestChain (Names names) payloadOrFn fn r
   = (Err (ThrownError TypeErrorC "Cannot read properties of undefined (reading 'name')"),
      r))
  /\ (names <> [] ->
      normalizeName (List.last names "") = "" ->
      exists r',
        createTestChain (Names names) payloadOrFn fn r
        = (Err (ShortestError "Test name is required"), r')
        /\ currentFileTests r'
           = (currentFileTests r ++ seq (length (heap r)) (length names))%list
        /\ length (heap r') = (length (heap r) + length names)%nat).
Proof.
  intros Keep. split.
  - intros ->. reflexivity.
  - intros NE Blank.
    unfold createTestChain.
    destruct (registerNames_spec names r) as (r1 & E & H1 & H2 & _).
    rewrite E, (last_created _ _ NE).
    rewrite Keep. cbn [in_name]. rewrite Blank. cbn.
    exists r1. split; [reflexivity|].
    split; [exact H2|].
    now rewrite H1, length_app, length_map.
Qed.

(** *** Chains *)

Lemma nth_error_mapAt {A} (f : A -> A) l : forall n m,
  nth_error (mapAt n f l) m
  = if Nat.eqb m n then option_map f (nth_error l m) else nth_error l m.
Proof.
  induction l as [|x l IH]; intros n m.
  - destruct n, m; simpl; try destruct (Nat.eqb m n); reflexivity.
  - destruct n, m; simpl; try reflexivity. apply IH.
Qed.

Lemma call_spec c ref tc r :
  deref r ref = Some tc ->
  exists r',
    call c (Chain ref) r = (Ok (Chain ref), r')
    /\ deref r' ref = Some (effect c tc)
    /\ (forall other, other <> ref -> deref r' other = deref r other)
    /\ tests r' = tests r
    /\ currentFileTests r' = currentFileTests r
    /\ currentFilePath r' = currentFilePath r
    /\ directTestCount r' = directTestCount r
    /\ beforeAllFns r' = beforeAllFns r /\ afterAllFns r' = afterAllFns r
    /\ beforeEachFns r' = beforeEachFns r /\ afterEachFns r' = afterEachFns r.
Proof.
  intros D. unfold deref in *.
  destruct c as [[d|f] p fn|fn|fn]; cbn [call expect before after effect];
    (eexists; split; [reflexivity|]);
    unfold deref, update; cbn [heap tests currentFileTests currentFilePath directTestCount
                               beforeAllFns afterAllFns beforeEachFns afterEachFns];
    (split; [rewrite nth_error_mapAt, Nat.eqb_refl, D; reflexivity|]);
    (split; [intros other N; rewrite nth_error_mapAt;
             destruct (Nat.eqb_spec other ref); [contradiction|reflexivity]|]);
    repeat split; reflexivity.
Qed.

(** X21.  The methods chained on the result of [test(name, ...)] change the
    test case of that call and nothing else.  None of them throws; the
    expectations are appended in call order, the last [before] and the last
    [after] win, and name, file path, identifier, payload and function of
    the test case stay as they were.  Every other test case, the [tests]
    map, the list of the file's tests, the hooks and the direct-test counter
    are untouched. *)
Theorem chained_calls_change_one_test_case
    (cs : list ChainCall) (ref : nat) (tc : TestCase.t) (r : t) :
  deref r ref = Some tc ->
  exists r' tc',
    calls cs (Chain ref) r = (Ok (Chain ref), r')
    /\ deref r' ref = Some tc'
    /\ tc' = fold_left (fun tc c => effect c tc) cs tc
    /\ TestCase.name tc' = TestCase.name tc
    /\ TestCase.filePath tc' = TestCase.filePath tc
    /\ TestCase.identifier tc' = TestCase.identifier tc
    /\ TestCase.payload tc' = TestCase.payload tc
    /\ TestCase.fn tc' = TestCase.fn tc
    /\ (length (TestCase.expectations tc')
        = length (TestCase.expectations tc)
          + length (filter (fun c => match c with Expect _ _ _ => true | _ => false end) cs))%nat
    /\ (forall other, other <> ref -> deref r' other = deref r other)
    /\ tests r' = tests r
    /\ currentFileTests r' = currentFileTests r
    /\ directTestCount r' = directTestCount r
    /\ beforeAllFns r' = beforeAllFns r /\ afterAllFns r' = afterAllFns r
    /\ beforeEachFns r' = beforeEachFns r /\ afterEachFns r' = afterEachFns r.
Proof.
  revert tc r. induction cs as [|c cs IH]; intros tc r D.
  - exists r, tc. cbn. rewrite Nat.add_0_r. repeat split; auto.
  - destruct (@call_spec c ref tc r D)
      as (r1 & E & D1 & O1 & T1 & F1 & _ & C1 & A1 & A2 & A3 & A4).
    destruct (IH _ _ D1)
      as (r2 & tc2 & E2 & D2 & Q & N & P & I & Pl & Fn & Len & O2 & T2 & F2 & C2 &
          B1 & B2 & B3 & B4).
    exists r2, tc2. cbn [calls fold_left]. rewrite E.
    split; [exact E2|]. split; [exact D2|]. split; [exact Q|].
    assert (K : TestCase.name (effect c tc) = TestCase.name tc
                /\ TestCase.filePath (effect c tc) = TestCase.filePath tc
                /\ TestCase.identifier (effect c tc) = TestCase.identifier tc
                /\ TestCase.payload (effect c tc) = TestCase.payload tc
                /\ TestCase.fn (effect c tc) = TestCase.fn tc
                /\ (length (TestCase.expectations (effect c tc))
                    = length (TestCase.expectations tc)
                      + (if match c with Expect _ _ _ => true | _ => false end
                         then 1 else 0))%nat).
    { destruct c as [[d|f] p fn|fn|fn]; cbn; rewrite ?length_app; cbn;
        repeat split; lia. }
    destruct K as (K1 & K2 & K3 & K4 & K5 & K6).
    repeat split; try congruence.
    + rewrite Len, K6. cbn [filter].
      destruct c as [[d|f] p fn|fn|fn]; cbn [length]; lia.
    + intros other NEq. rewrite O2 by exact NEq. apply O1. exact NEq.
Qed.

(** *** Whole files *)

Lemma wellFormed_alloc tc r :
  wellFormed r ->
  forall r1, r1 = snd (alloc tc r) ->
  (forall ref, In ref (currentFileTests r1) -> ref < length (heap r))%nat
  /\ NoDup (currentFileTests r1)
  /\ (forall key refs ref,
        In (key, refs) (tests r1) -> In ref refs -> In ref (currentFileTests r1))
  /\ length (heap r1) = S (length (heap r)).
Proof.
  intros (A & B & C0) r1 ->. cbn.
  rewrite length_app. cbn. repeat split; auto. lia.
Qed.

Lemma In_mapSet key value m k v :
  In (k, v) (mapSet key value m) ->
  (k = key /\ v = value) \/ In (k, v) m.
Proof.
  induction m as [|[k0 v0] m IH]; simpl.
  - intros [[= <- <-]|[]]. auto.
  - destruct (String.eqb_spec k0 key) as [->|N]; simpl.
    + intros [[= <- <-]|H]; auto.
    + intros [H|H]; auto. destruct (IH H); auto.
Qed.

Lemma mapGet_In key m l : mapGet key m = Some l -> In (key, l) m.
Proof.
  induction m as [|[k v] m IH]; simpl; [discriminate|].
  destruct (String.eqb_spec k key) as [->|N].
  - intros [= ->]. auto.
  - auto.
Qed.

(** registering the object just allocated, under a key or not *)
Lemma wellFormed_register tc r (key : option string) :
  wellFormed r ->
  wellFormed (push (length (heap r))
                (match key with
                 | Some k => enter k (length (heap r)) (snd (alloc tc r))
                 | None => snd (alloc tc r)
                 end)).
Proof.
  intros (A & B & C0).
  assert (Fresh : ~ In (length (heap r)) (currentFileTests r)).
  { intros I. apply A in I. lia. }
  unfold wellFormed.
  destruct key as [k|]; cbn [push enter alloc snd heap currentFileTests tests];
    rewrite length_app; cbn [length].
  - split; [|split].
    + intros ref I. apply in_app_or in I. destruct I as [I|[<-|[]]]; [apply A in I|]; lia.
    + apply NoDup_app; [exact B|repeat constructor; auto| ].
      intros x Ix [<-|[]]. contradiction.
    + intros key refs ref I J. apply in_or_app.
      apply In_mapSet in I. destruct I as [[-> ->]|I].
      * apply in_app_or in J. destruct J as [J|[<-|[]]]; [|right; now left].
        left. destruct (mapGet k (tests r)) as [l|] eqn:G; [|destruct J].
        apply mapGet_In in G. eapply C0; eassumption.
      * left. eapply C0; eassumption.
  - split; [|split].
    + intros ref I. apply in_app_or in I. destruct I as [I|[<-|[]]]; [apply A in I|]; lia.
    + apply NoDup_app; [exact B|repeat constructor; auto| ].
      intros x Ix [<-|[]]. contradiction.
    + intros key refs ref I J. apply in_or_app. left. eapply C0; eassumption.
Qed.

End Registering.

Section Loading.
Context {T : Registration.TestCases}.
Import Registration.

Lemma length_mapAt {A} (f : A -> A) l : forall n, length (mapAt n f l) = length l.
Proof.
  induction l as [|x l IH]; intros [|n]; simpl; auto.
Qed.

Lemma wellFormed_same r r' :
  length (heap r') = length (heap r) ->
  tests r' = tests r ->
  currentFileTests r' = currentFileTests r ->
  wellFormed r -> wellFormed r'.
Proof.
  unfold wellFormed. intros -> -> ->. auto.
Qed.

Lemma registerNames_wf names : forall r created r',
  wellFormed r ->
  registerNames names r = (created, r') ->
  wellFormed r'.
Proof.
  induction names as [|name names IH]; intros r created r' W E.
  - injection E as <- <-. exact W.
  - cbn [registerNames registerName alloc] in E.
    match type of E with context [registerNames names ?x] =>
      destruct (registerNames names x) as [xs r1] eqn:E1 end.
    injection E as <- <-.
    eapply IH; [|exact E1].
    exact (wellFormed_register (createTestCase _) (Some name) W).
Qed.

Lemma createTestChain_wf nameOrFn payloadOrFn fn r res r' :
  wellFormed r ->
  createTestChain nameOrFn payloadOrFn fn r = (res, r') ->
  wellFormed r'
  /\ (length (heap r) <= length (heap r'))%nat
  /\ currentFilePath r' = currentFilePath r
  /\ (forall chain, res = Ok chain ->
        length (currentFileTests r')
        = (length (currentFileTests r) + registered (Test nameOrFn payloadOrFn fn []))%nat
        /\ directTestCount r'
           = (directTestCount r
              + if isDirectTest (Test nameOrFn payloadOrFn fn []) then 1 else 0)%nat).
Proof.
  intros W E. destruct nameOrFn as [name|names|body]; cbn [createTestChain] in E.
  - unfold registerNamed in E. cbn [alloc] in E. injection E as <- <-.
    split; [exact (wellFormed_register (createTestCase _) (Some (normalizeName name)) W)|].
    cbn [heap currentFileTests currentFilePath directTestCount push enter registered
         isDirectTest].
    rewrite !length_app. cbn [length].
    repeat split; lia.
  - destruct (registerNames_spec names r) as (r1 & E1 & H1 & H2 & H3 & H4 & _).
    rewrite E1 in E.
    pose proof (registerNames_wf names W E1) as W1.
    assert (L1 : (length (heap r) <= length (heap r1))%nat)
      by (rewrite H1, length_app; lia).
    destruct (List.last _ None) as [[ref lastTest]|].
    + destruct (negb (Str.truthy (TestCase.name lastTest))).
      * injection E as <- <-.
        split; [exact W1|]. split; [exact L1|]. split; [exact H3|].
        intros chain [=].
      * unfold registerNamed in E. cbn [alloc] in E. injection E as <- <-.
        split; [exact (wellFormed_register (createTestCase _)
                         (Some (normalizeName (TestCase.name lastTest))) W1)|].
        cbn [heap currentFileTests currentFilePath directTestCount push enter registered
             isDirectTest].
        rewrite !length_app, H2, H4, length_app, length_seq. cbn [length].
        repeat split; try lia. exact H3.
    + injection E as <- <-.
      split; [exact W1|]. split; [exact L1|]. split; [exact H3|].
      intros chain [=].
  - cbn [alloc] in E. injection E as <- <-.
    assert (Wc : wellFormed (count r)) by (now apply (@wellFormed_same r)).
    split; [exact (wellFormed_register (createTestCase _) None Wc)|].
    cbn [heap currentFileTests currentFilePath directTestCount push count registered
         isDirectTest].
    rewrite !length_app. cbn [length].
    repeat split; lia.
Qed.

Lemma calls_wf cs : forall chain r res r',
  wellFormed r ->
  calls cs chain r = (res, r') ->
  wellFormed r'
  /\ length (heap r') = length (heap r)
  /\ currentFileTests r' = currentFileTests r
  /\ currentFilePath r' = currentFilePath r
  /\ directTestCount r' = directTestCount r.
Proof.
  induction cs as [|c cs IH]; intros chain r res r' W E.
  - injection E as <- <-. auto.
  - cbn [calls] in E.
    assert (Step : exists res1 r1,
               call c chain r = (res1, r1)
               /\ wellFormed r1
               /\ length (heap r1) = length (heap r)
               /\ currentFileTests r1 = currentFileTests r
               /\ currentFilePath r1 = currentFilePath r
               /\ directTestCount r1 = directTestCount r).
    { destruct chain as [|ref].
      - destruct c as [d p fn|fn|fn]; cbn; eexists; eexists; (split; [reflexivity|]); auto.
      - destruct c as [[d|f] p fn|fn|fn]; cbn [call expect before after];
          eexists; eexists; (split; [reflexivity|]);
          (split; [apply (@wellFormed_same r); cbn; auto using length_mapAt|]);
          cbn; auto using length_mapAt. }
    destruct Step as (res1 & r1 & E1 & W1 & L1 & F1 & P1 & C1).
    rewrite E1 in E. destruct res1 as [chain1|e].
    + destruct (IH _ _ _ _ W1 E) as (W2 & L2 & F2 & P2 & C2).
      split; [exact W2|]. repeat split; congruence.
    + injection E as <- <-. auto.
Qed.

Lemma hooks_wf r r' :
  heap r' = heap r -> tests r' = tests r -> currentFileTests r' = currentFileTests r ->
  wellFormed r -> wellFormed r'.
Proof. intros H. apply wellFormed_same. now rewrite H. Qed.

(** X22.  Loading a test file keeps the registry well formed, whether the
    file loads or throws half-way: every reference points to a test case,
    no test case is listed twice among the tests of the file, and every test
    case entered in the [tests] map is also among the tests of the file.
    Test cases are never removed and the current file path is not changed.
    When the file loads without error, the number of tests of the file has
    grown by one for each [test(name, ...)] and each [test(fn)] and by
    K + 1 for each [test([K names], ...)], and the direct-test counter by the
    number of [test(fn)] statements. *)
Theorem load_keeps_the_registry_well_formed
    (script : list Statement) (r r' : t) (o : option Thrown) :
  wellFormed r ->
  load script r = (o, r') ->
  wellFormed r'
  /\ (length (heap r) <= length (heap r'))%nat
  /\ currentFilePath r' = currentFilePath r
  /\ (o = None ->
      length (currentFileTests r')
      = (length (currentFileTests r) + list_sum (map registered script))%nat
      /\ directTestCount r'
         = (directTestCount r + length (filter isDirectTest script))%nat).
Proof.
  revert r. induction script as [|s script IH]; intros r W E.
  - injection E as <- <-. cbn. rewrite !Nat.add_0_r. auto.
  - cbn [load] in E.
    assert (Step : exists o1 r1,
               statement s r = (o1, r1)
               /\ wellFormed r1
               /\ (length (heap r) <= length (heap r1))%nat
               /\ currentFilePath r1 = currentFilePath r
               /\ (o1 = None ->
                   length (currentFileTests r1)
                   = (length (currentFileTests r) + registered s)%nat
                   /\ directTestCount r1
                      = (directTestCount r + if isDirectTest s then 1 else 0)%nat)).
    { destruct s as [n p fn chained|x|x|x|x].
      - cbn [statement].
        destruct (createTestChain n p fn r) as [res r1] eqn:E1.
        destruct (createTestChain_wf _ _ _ W E1) as (W1 & L1 & P1 & K1).
        destruct res as [chain|e].
        + destruct (calls chained chain r1) as [res2 r2] eqn:E2.
          destruct (calls_wf _ _ W1 E2) as (W2 & L2 & F2 & P2 & C2).
          destruct (K1 chain eq_refl) as [K K'].
          assert (Rg : registered (Test n p fn chained) = registered (Test n p fn []))
            by (destruct n; reflexivity).
          assert (Dg : isDirectTest (Test n p fn chained) = isDirectTest (Test n p fn []))
            by (destruct n; reflexivity).
          destruct res2 as [chain2|e]; eexists; eexists; (split; [reflexivity|]);
            (split; [exact W2|]); (split; [lia|]); (split; [congruence|]);
            intros Z; try discriminate Z.
          rewrite F2, C2, Rg, Dg. auto.
        + eexists. eexists. split; [reflexivity|].
          split; [exact W1|]. split; [exact L1|]. split; [exact P1|].
          intros Z; discriminate Z.
      - destruct x; cbn; eexists; eexists; (split; [reflexivity|]);
          (split; [first [exact W | apply (@hooks_wf r); auto]|]); cbn; auto.
      - destruct x; cbn; eexists; eexists; (split; [reflexivity|]);
          (split; [first [exact W | apply (@hooks_wf r); auto]|]); cbn; auto.
      - destruct x; cbn; eexists; eexists; (split; [reflexivity|]);
          (split; [first [exact W | apply (@hooks_wf r); auto]|]); cbn; auto.
      - destruct x; cbn; eexists; eexists; (split; [reflexivity|]);
          (split; [first [exact W | apply (@hooks_wf r); auto]|]); cbn; auto. }
    destruct Step as (o1 & r1 & E1 & W1 & L1 & P1 & K1).
    rewrite E1 in E. destruct o1 as [e|].
    + injection E as <- <-.
      split; [exact W1|]. split; [exact L1|]. split; [exact P1|].
      intros Z; discriminate Z.
    + destruct (IH _ W1 E) as (W2 & L2 & P2 & K2).
      split; [exact W2|]. split; [lia|]. split; [congruence|].
      intros Z. destruct (K2 Z) as [A B]. destruct (K1 eq_refl) as [A1 B1].
      change (list_sum (map registered (s :: script)))
        with (registered s + list_sum (map registered script))%nat.
      cbn [filter]. rewrite A, B, A1, B1.
      destruct (isDirectTest s); cbn [length]; lia.
Qed.

End Loading.

(** [test(["add  to cart", " check out "], fn0)] *)
Lemma names_register_the_last_name_twice_witness :
  exists r',
    Registration.createTestChain (T := Suite.plain)
      (Registration.Names ["add  to cart"; " check out "])
      (Registration.PayloadFn 0%nat) None Suite.opened
    = (Ok (Registration.Chain 2), r')
    /\ map TestCase.name (Registration.currentTests r')
       = ["add to cart"; "check out"; "check out"]
    /\ map TestCase.fn (Registration.currentTests r') = [None; None; Some 0%nat].
Proof.
  destruct (@names_register_the_last_name_twice Suite.plain
              ["add  to cart"; " check out "] " check out "
              (Registration.PayloadFn 0%nat) None Suite.opened
              (fun _ => eq_refl) eq_refl ltac:(discriminate) ltac:(discriminate))
    as (r' & E & H & F & _).
  exists r'. split; [exact E|].
  unfold Registration.currentTests, Registration.deref. rewrite H, F.
  split; reflexivity.
Defined.

(** [test(["first", "  "])]: two test cases stay registered *)
Lemma names_failure_modes_witness :
  Registration.createTestChain (T := Suite.plain) (Registration.Names [])
    Registration.NoPayload None Suite.opened
  = (Err (ThrownError TypeErrorC "Cannot read properties of undefined (reading 'name')"),
     Suite.opened)
  /\ exists r',
       Registration.createTestChain (T := Suite.plain)
         (Registration.Names ["first"; "  "]) Registration.NoPayload None Suite.opened
       = (Err (ShortestError "Test name is required"), r')
       /\ Registration.currentFileTests r' = [0; 1]%nat.
Proof.
  split.
  - exact (proj1 (@names_failure_modes Suite.plain [] Registration.NoPayload None
                    Suite.opened (fun _ => eq_refl)) eq_refl).
  - destruct (proj2 (@names_failure_modes Suite.plain ["first"; "  "]
                       Registration.NoPayload None Suite.opened (fun _ => eq_refl))
                ltac:(discriminate) eq_refl)
      as (r' & E & F & _).
    exists r'. split; [exact E|exact F].
Defined.

(** [test("buy a book").expect("the cart shows it").before(fn0).before(fn1)] *)
Lemma chained_calls_change_one_test_case_witness :
  let r := snd (Registration.createTestChain (T := Suite.plain)
                  (Registration.Name "buy a book") Registration.NoPayload None
                  Suite.opened) in
  exists r' tc',
    Registration.calls
      [ Registration.Expect (Registration.IsString "the cart shows it")
          Registration.NoPayload None;
        Registration.Before 0%nat; Registration.Before 1%nat ]
      (Registration.Chain 0) r
    = (Ok (Registration.Chain 0), r')
    /\ Registration.deref r' 0 = Some tc'
    /\ TestCase.name tc' = "buy a book"
    /\ TestCase.beforeFn tc' = Some 1%nat
    /\ length (TestCase.expectations tc') = 1%nat.
Proof.
  intros r.
  destruct (@chained_calls_change_one_test_case
              [ Registration.Expect (Registration.IsString "the cart shows it")
                  Registration.NoPayload None;
                Registration.Before 0%nat; Registration.Before 1%nat ]
              0%nat _ r eq_refl)
    as (r' & tc' & E & D & Q & N & _ & _ & _ & _ & L & _).
  exists r', tc'. split; [exact E|]. split; [exact D|]. split; [exact N|].
  split; [rewrite Q; reflexivity|exact L].
Defined.

(** the small test file: five tests, one of them direct *)
Lemma load_keeps_the_registry_well_formed_witness :
  exists r',
    Registration.load (H := Suite.plain) Suite.script Suite.opened = (None, r')
    /\ Registration.wellFormed r'
    /\ length (Registration.currentFileTests r') = 5%nat
    /\ Registration.directTestCount r' = 1%nat
    /\ map TestCase.name (Registration.currentTests r')
       = ["buy a book"; "Direct Test #1"; "log in"; "log out"; "log out"].
Proof.
  assert (L : exists r',
             Registration.load (H := Suite.plain) Suite.script Suite.opened = (None, r')
             /\ map TestCase.name (Registration.currentTests r')
                = ["buy a book"; "Direct Test #1"; "log in"; "log out"; "log out"])
    by (eexists; split; vm_compute; reflexivity).
  destruct L as (r' & E & N).
  assert (W : Registration.wellFormed Suite.opened).
  { repeat split; cbn; try tauto. constructor. }
  destruct (@load_keeps_the_registry_well_formed Suite.plain Suite.script
              Suite.opened r' None W E)
    as (W' & _ & _ & K).
  destruct (K eq_refl) as [A B].
  exists r'. split; [exact E|]. split; [exact W'|].
  split; [exact A|]. split; [exact B|exact N].
Defined.


(** ** Selection of tests by line number *)

Section Patterns.
Import LineFilter.

Lemma plain_not_backslash c : isSpecial c = false -> Ascii.eqb c backslash = false.
Proof.
  intros H. destruct (Ascii.eqb_spec c backslash) as [->|]; [discriminate H|reflexivity].
Qed.

Lemma plain_not_dot c : isSpecial c = false -> Ascii.eqb c "." = false.
Proof.
  intros H. destruct (Ascii.eqb_spec c ".") as [->|]; [discriminate H|reflexivity].
Qed.

Lemma parse_escapeRegex_app s rest :
  parse (escapeRegex s ++ rest) = option_map (app (literal s)) (parse rest).
Proof.
  induction s as [|c r IH].
  - simpl. destruct (parse rest); reflexivity.
  - cbn [escapeRegex]. destruct (isSpecial c) eqn:S.
    + cbn [append parse]. rewrite Ascii.eqb_refl, S, IH.
      destruct (parse rest); reflexivity.
    + cbn [append parse].
      rewrite (plain_not_backslash _ S), (plain_not_dot _ S), S. cbn [andb].
      rewrite IH. destruct (parse rest); reflexivity.
Qed.

Lemma parse_escapeRegex s : parse (escapeRegex s) = Some (literal s).
Proof.
  pose proof (parse_escapeRegex_app s "") as H.
  assert (E : forall a, a ++ "" = a)
    by (induction a as [|x a IHa]; simpl; [reflexivity|now rewrite IHa]).
  rewrite E in H. rewrite H. simpl. now rewrite app_nil_r.
Qed.

Lemma matches_literal_app pre rest s :
  matches (literal pre ++ rest) s = true <->
  exists s', s = pre ++ s' /\ matches rest s' = true.
Proof.
  revert s. induction pre as [|c pre IH]; intros s; simpl.
  - split; [eauto|]. now intros (s' & -> & H).
  - destruct s as [|d s].
    + split; [discriminate|]. intros (s' & E & _). discriminate E.
    + rewrite andb_true_iff, IH. split.
      * intros [E (s' & -> & H)]. apply Ascii.eqb_eq in E. subst d. eauto.
      * intros (s' & [= -> ->] & H). split; [apply Ascii.eqb_refl|eauto].
Qed.

Lemma matches_literal s t : matches (literal s) t = String.eqb s t.
Proof.
  revert t. induction s as [|c s IH]; intros [|d t]; simpl; try reflexivity.
  now rewrite IH.
Qed.

Lemma matches_star_unfold rest s :
  matches (AnyStar :: rest) s
  = (matches rest s
     || match s with
        | String d r => negb (isLineTerminator d) && matches (AnyStar :: rest) r
        | EmptyString => false
        end)%bool.
Proof. destruct s; reflexivity. Qed.

Lemma matches_star rest s :
  matches (AnyStar :: rest) s = true <->
  exists gap s', s = gap ++ s' /\ oneLine gap = true /\ matches rest s' = true.
Proof.
  induction s as [|d r IH]; rewrite matches_star_unfold.
  - rewrite orb_false_r. split.
    + intros H. exists "", "". auto.
    + intros (gap & s' & E & _ & H). destruct gap; [|discriminate E].
      simpl in E. now subst s'.
  - rewrite orb_true_iff, andb_true_iff, IH. split.
    + intros [H|[N (gap & s' & -> & O & H)]].
      * exists "", (String d r). auto.
      * exists (String d gap), s'. simpl. rewrite N, O. auto.
    + intros (gap & s' & E & O & H). destruct gap as [|g gap].
      * simpl in E. subst s'. auto.
      * simpl in E. injection E as -> ->. simpl in O.
        apply andb_true_iff in O. destruct O as [N O].
        right. split; [exact N|]. eauto.
Qed.

Lemma prefix_escapeRegex p : forall s,
  plain p = true -> String.prefix p (escapeRegex s) = String.prefix p s.
Proof.
  induction p as [|c p IH]; intros s P.
  - destruct s; simpl; [reflexivity|]. destruct (isSpecial a); reflexivity.
  - simpl in P. apply andb_true_iff in P. destruct P as [Pc Pp].
    apply negb_true_iff in Pc.
    destruct s as [|d r]; [reflexivity|].
    cbn [escapeRegex]. destruct (isSpecial d) eqn:S; cbn [String.prefix].
    + destruct (ascii_dec c backslash) as [->|_]; [discriminate Pc|].
      destruct (ascii_dec c d) as [->|_]; [congruence|reflexivity].
    + destruct (ascii_dec c d); [now apply IH|reflexivity].
Qed.

Lemma includes_escapeRegex p s :
  plain p = true -> p <> "" ->
  Str.includes p (escapeRegex s) = Str.includes p s.
Proof.
  intros P N. induction s as [|d r IH]; [reflexivity|].
  cbn [Str.includes]. rewrite <- IH.
  rewrite <- (@prefix_escapeRegex p (String d r) P).
  cbn [escapeRegex]. destruct (isSpecial d) eqn:S; [|reflexivity].
  cbn [Str.includes].
  destruct p as [|c p]; [contradiction|].
  simpl in P. apply andb_true_iff in P. destruct P as [Pc _].
  apply negb_true_iff in Pc.
  cbn [String.prefix].
  destruct (ascii_dec c backslash) as [->|_]; [discriminate Pc|].
  destruct (ascii_dec c d) as [->|_]; [congruence|reflexivity].
Qed.

Lemma replaceAll_absent p x s : Str.includes p s = false -> replaceAll p x s = s.
Proof.
  unfold replaceAll. induction s as [|c r IH]; cbn [Str.includes replaceFrom].
  - destruct p; [discriminate|reflexivity].
  - intros H. apply orb_false_iff in H. destruct H as [H1 H2].
    rewrite H1, (IH H2). reflexivity.
Qed.

(** X23.  A regular expression made with [escapeRegex] matches literally:
    for a location whose name contains neither the expression placeholder
    nor the text "##PLACEHOLDER##", the pattern built by
    [filterTestsByLineNumber] reads as the name itself, character by
    character, and accepts a test name exactly when it is equal to the
    location's name.  Special characters in test names (dots, parentheses,
    question marks ...) are therefore never taken as operators. *)
Theorem escaped_pattern_matches_literally
    (EXPRESSION_PLACEHOLDER locationName name : string) :
  Str.includes EXPRESSION_PLACEHOLDER locationName = false ->
  Str.includes TEMP_TOKEN locationName = false ->
  parse (patternOf EXPRESSION_PLACEHOLDER locationName) = Some (literal locationName)
  /\ patternMatches EXPRESSION_PLACEHOLDER locationName name
     = String.eqb locationName name.
Proof.
  intros A B.
  assert (E : patternOf EXPRESSION_PLACEHOLDER locationName = escapeRegex locationName).
  { unfold patternOf. rewrite (replaceAll_absent _ _ _ A).
    apply replaceAll_absent.
    rewrite includes_escapeRegex by (reflexivity || discriminate). exact B. }
  unfold patternMatches. rewrite E, parse_escapeRegex.
  split; [reflexivity|apply matches_literal].
Qed.

(** X24.  Where the pattern of a location reads as the escaped text [pre],
    then [.*], then the escaped text [post], it accepts exactly the test
    names made of [pre], any text without a line break, and [post]: the
    placeholder stands for any single-line text, the rest of the name must
    agree character by character, and the whole name must be covered. *)
Theorem placeholder_matches_one_line_text
    (EXPRESSION_PLACEHOLDER locationName pre post name : string) :
  patternOf EXPRESSION_PLACEHOLDER locationName
  = escapeRegex pre ++ ".*" ++ escapeRegex post ->
  (patternMatches EXPRESSION_PLACEHOLDER locationName name = true
   <-> exists gap, oneLine gap = true /\ name = pre ++ gap ++ post).
Proof.
  intros E. unfold patternMatches. rewrite E, parse_escapeRegex_app.
  assert (Q : parse (".*" ++ escapeRegex post) = Some (AnyStar :: literal post)).
  { change (".*" ++ escapeRegex post) with (String "." (String "*" (escapeRegex post))).
    cbn [parse]. change (Ascii.eqb "." backslash) with false.
    change (Ascii.eqb "." "." && String.prefix "*" (String "*" (escapeRegex post)))%bool
      with (String.prefix "" (escapeRegex post)).
    assert (Z : String.prefix "" (escapeRegex post) = true)
      by (destruct (escapeRegex post); reflexivity).
    rewrite Z, parse_escapeRegex. reflexivity. }
  rewrite Q. cbn [option_map].
  rewrite matches_literal_app. split.
  - intros (s' & -> & H). apply matches_star in H.
    destruct H as (gap & s2 & -> & O & H).
    rewrite matches_literal in H. apply String.eqb_eq in H. subst s2.
    exists gap. auto.
  - intros (gap & O & ->). exists (gap ++ post). split; [reflexivity|].
    apply matches_star. exists gap, post. split; [reflexivity|]. split; [exact O|].
    rewrite matches_literal. apply String.eqb_refl.
Qed.

End Patterns.

(** the name of a test with dots and parentheses, and a name that differs
    in one character where the name has a dot *)
Lemma escaped_pattern_matches_literally_witness :
  LineFilter.patternMatches "${}" "checks v1.2 (beta)?" "checks v1.2 (beta)?" = true
  /\ LineFilter.patternMatches "${}" "checks v1.2 (beta)?" "checks v1x2 (beta)?" = false.
Proof.
  split.
  - exact (proj2 (@escaped_pattern_matches_literally "${}" "checks v1.2 (beta)?"
                    "checks v1.2 (beta)?" eq_refl eq_refl)).
  - exact (proj2 (@escaped_pattern_matches_literally "${}" "checks v1.2 (beta)?"
                    "checks v1x2 (beta)?" eq_refl eq_refl)).
Defined.

(** a test named with a template expression *)
Lemma placeholder_matches_one_line_text_witness :
  LineFilter.patternMatches "${}" "log in as ${} (admin)" "log in as alice (admin)"
  = true.
Proof.
  apply (proj2 (@placeholder_matches_one_line_text "${}" "log in as ${} (admin)"
                  "log in as " " (admin)" "log in as alice (admin)" eq_refl)).
  exists "alice". split; reflexivity.
Defined.


(** ** Test files *)

Section FileFacts.
Context {P : Platform} {C : Collaborators} {H : Files.Harness}.
Variable config : ShortestStrictConfig.
Import Files.

Lemma fbind_done {A B} (m : F A) (k : A -> F B) s a s1 :
  m s = Done a s1 -> fbind m k s = k a s1.
Proof. unfold fbind. now intros ->. Qed.

Lemma fbind_failed {A B} (m : F A) (k : A -> F B) s e s1 :
  m s = Failed e s1 -> fbind m k s = Failed e s1.
Proof. unfold fbind. now intros ->. Qed.

(** *** Termination *)

Lemma ftotal_ret {A} (a : A) : ftotal (fret a).
Proof. intros s. discriminate. Qed.

Lemma ftotal_throw {A} e : ftotal (fthrow (A := A) e).
Proof. intros s. discriminate. Qed.

Lemma ftotal_bind {A B} (m : F A) (k : A -> F B) :
  ftotal m -> (forall a, ftotal (k a)) -> ftotal (fbind m k).
Proof.
  intros Hm Hk s. unfold fbind. specialize (Hm s).
  destruct (m s) as [a s1|e s1|]; [apply Hk|discriminate|contradiction].
Qed.

Lemma ftotal_tryCatch {A} (m : F A) (h : Thrown -> F A) :
  ftotal m -> (forall e, ftotal (h e)) -> ftotal (ftryCatch m h).
Proof.
  intros Hm Hh s. unfold ftryCatch. specialize (Hm s).
  destruct (m s) as [a s1|e s1|]; [discriminate|apply Hh|contradiction].
Qed.

Lemma ftotal_tryFinally {A} (m : F A) (f : F unit) :
  ftotal m -> ftotal f -> ftotal (ftryFinally m f).
Proof.
  intros Hm Hf s. unfold ftryFinally, fbind, fret, fthrow. specialize (Hm s).
  destruct (m s) as [a s1|e s1|]; [| |contradiction];
    specialize (Hf s1); destruct (f s1); congruence.
Qed.

Lemma ftotal_forEach {A} (f : A -> F unit) xs :
  (forall x, ftotal (f x)) -> ftotal (fforEach f xs).
Proof.
  intros Hf. induction xs as [|x xs IH]; simpl.
  - apply ftotal_ret.
  - apply ftotal_bind; auto.
Qed.

Lemma ftotal_lift {A} (m : M A) : total m -> ftotal (lift m).
Proof.
  intros Hm s. unfold lift. specialize (Hm (world s)).
  destruct (m (world s)); [discriminate|discriminate|destruct Hm].
Qed.

Lemma total_acquireLock tc : total (TestRunRepository.acquireLock tc).
Proof.
  intros w. unfold TestRunRepository.acquireLock.
  destruct (existsb _ _); exact I.
Qed.

Lemma total_runTests hooks tests : total (TestRunner.runTests config hooks tests).
Proof.
  unfold TestRunner.runTests, TestRunner.runTestCase, TestRunRepository.saveRun,
    TestRunRepository.applyRetentionPolicyOf, TestRunRepository.getRuns,
    TestRunRepository.writeFile, TestRunRepository.releaseLock,
    TestRunRepository.deleteRun, log, emit.
  repeat first [ apply total_executeTest | apply total_acquireLock | totality_step ].
Qed.

Ltac ftotality_step :=
  first
    [ apply ftotal_ret | apply ftotal_throw
    | apply ftotal_lift; first [ apply total_runTests | unfold log, emit; apply total_modify ]
    | apply ftotal_bind; [|intros ?]
    | apply ftotal_tryCatch; [|intros ?]
    | apply ftotal_tryFinally
    | apply ftotal_forEach; intros ?
    | match goal with
      | |- ftotal (match ?x with _ => _ end) => destruct x
      | |- ftotal (if ?x then _ else _) => destruct x
      end ].

Lemma ftotal_primitive {A} (m : F A) :
  (forall s, exists s', (exists a, m s = Done a s') \/ (exists e, m s = Failed e s')) ->
  ftotal m.
Proof.
  intros Hm s. destruct (Hm s) as (s' & [(a & ->)|(e & ->)]); discriminate.
Qed.

Lemma ftotal_report r : ftotal (report r).
Proof. intros s. discriminate. Qed.

Lemma ftotal_getsRegistry {A} (f : Registration.t -> A) : ftotal (getsRegistry f).
Proof. intros s. discriminate. Qed.

Lemma ftotal_modifyRegistry f : ftotal (modifyRegistry f).
Proof. intros s. discriminate. Qed.

Lemma ftotal_compile filePath : ftotal (compile filePath).
Proof. intros s. unfold compile. destruct (compileFile filePath); discriminate. Qed.

Lemma ftotal_import compiledPath : ftotal (import compiledPath).
Proof.
  intros s. unfold import. destruct (importFile _ _) as [[e|] r]; discriminate.
Qed.

Lemma ftotal_launchBrowser : ftotal launchBrowser.
Proof. intros s. unfold launchBrowser. destruct (launch _) as [b [e|]]; discriminate. Qed.

Lemma ftotal_closeBrowser : ftotal closeBrowser.
Proof. intros s. unfold closeBrowser. destruct (close _) as [b [e|]]; discriminate. Qed.

Lemma ftotal_createFileTestContext : ftotal createFileTestContext.
Proof.
  intros s. unfold createFileTestContext. destruct (testFileContext s); discriminate.
Qed.

Lemma ftotal_hookAll before hook : ftotal (hookAll before hook).
Proof. intros s. unfold hookAll. destruct (invoke _ _) as [b [e|]]; discriminate. Qed.

Ltac ftotality :=
  repeat first
    [ apply ftotal_report | apply ftotal_getsRegistry | apply ftotal_modifyRegistry
    | apply ftotal_compile | apply ftotal_import | apply ftotal_launchBrowser
    | apply ftotal_closeBrowser | apply ftotal_createFileTestContext
    | apply ftotal_hookAll | ftotality_step ].

Lemma ftotal_running fwc tests : ftotal (running config fwc tests).
Proof. unfold running. ftotality. Qed.

Lemma ftotal_executeTestFile filePath lineNumber :
  ftotal (executeTestFile config filePath lineNumber).
Proof.
  unfold executeTestFile, attempt, handle, select, launching, running, cleanup, flog.
  ftotality.
Qed.

(** *** Frames *)

Section FFrame.
Variable R : Session -> Session -> Prop.
Hypothesis R_refl : forall s, R s s.
Hypothesis R_trans : forall s1 s2 s3, R s1 s2 -> R s2 s3 -> R s1 s3.

Lemma fpreserves_ret {A} (a : A) : fpreserves R (fret a).
Proof. intros s. apply R_refl. Qed.

Lemma fpreserves_throw {A} e : fpreserves R (fthrow (A := A) e).
Proof. intros s. apply R_refl. Qed.

Lemma fpreserves_getsRegistry {A} (f : Registration.t -> A) :
  fpreserves R (getsRegistry f).
Proof. intros s. apply R_refl. Qed.

Lemma fpreserves_bind {A B} (m : F A) (k : A -> F B) :
  fpreserves R m -> (forall a, fpreserves R (k a)) -> fpreserves R (fbind m k).
Proof.
  intros Hm Hk s. unfold fbind. specialize (Hm s).
  destruct (m s) as [a s1|e s1|]; auto.
  specialize (Hk a s1). destruct (k a s1); eauto.
Qed.

Lemma fpreserves_tryCatch {A} (m : F A) (h : Thrown -> F A) :
  fpreserves R m -> (forall e, fpreserves R (h e)) -> fpreserves R (ftryCatch m h).
Proof.
  intros Hm Hh s. unfold ftryCatch. specialize (Hm s).
  destruct (m s) as [a s1|e s1|]; auto.
  specialize (Hh e s1). destruct (h e s1); eauto.
Qed.

Lemma fpreserves_tryFinally {A} (m : F A) (f : F unit) :
  fpreserves R m -> fpreserves R f -> fpreserves R (ftryFinally m f).
Proof.
  intros Hm Hf s. unfold ftryFinally, fbind, fret, fthrow. specialize (Hm s).
  destruct (m s) as [a s1|e s1|]; auto;
    specialize (Hf s1); destruct (f s1) as [[] s2|e2 s2|]; eauto.
Qed.

Lemma fpreserves_forEach {A} (f : A -> F unit) xs :
  (forall x, fpreserves R (f x)) -> fpreserves R (fforEach f xs).
Proof.
  intros Hf. induction xs as [|x xs IH]; simpl.
  - apply fpreserves_ret.
  - apply fpreserves_bind; auto.
Qed.

(** [R] does not look at the world *)
Hypothesis R_world : forall s w, R s (set_world w s).

Lemma fpreserves_lift {A} (m : M A) : fpreserves R (lift m).
Proof.
  intros s. unfold lift. destruct (m (world s)); auto.
Qed.

End FFrame.

Ltac fstep :=
  first
    [ erewrite fbind_done by reflexivity
    | erewrite fbind_failed by reflexivity ].

(** X25.  If the browser cannot be launched for a file, [executeTestFile]
    reports the file as failed, with the message of the error that
    [asShortestError] made of the launch error, and returns (given that this
    error is a ShortestError).  The inner [finally] clause is not reached:
    nothing is closed, no "passed" is reported, and the hooks that the file
    registered while it was imported are not reset.  They stay in the
    registry, where the next file finds them; only the current file path
    is cleared. *)
Theorem failed_launch_keeps_the_hooks
    (filePath compiledPath : string) (lineNumber : option Z) (s : Session)
    (r1 : Registration.t) (testsToRun : list TestCase.t) (b : Browser) (e : Thrown) :
  compileFile filePath = Ok compiledPath ->
  importFile compiledPath
    (openFile (replaceFirst (cwd ++ "/") "" filePath) (registry s)) = (None, r1) ->
  select (Registration.currentTests r1) filePath
    (replaceFirst (cwd ++ "/") "" filePath) lineNumber = fret testsToRun ->
  launch (page (world s)) = (b, Some e) ->
  instanceofShortestError (asShortestError e) = true ->
  exists s',
    executeTestFile config filePath lineNumber s = Done tt s'
    /\ journal s'
       = Reported (OnFileEnd filePath failed (errorMessage (asShortestError e)))
         :: Imported compiledPath :: Compiled filePath :: journal s
    /\ hooksOf (registry s') = hooksOf r1
    /\ Registration.currentFilePath (registry s') = ""
    /\ launches s' = launches s
    /\ testFileContext s' = testFileContext s.
Proof.
  intros Hc Hi Hs Hl Hk.
  unfold executeTestFile, ftryFinally, ftryCatch, attempt.
  set (fwc := replaceFirst (cwd ++ "/") "" filePath) in *.
  do 2 fstep.
  erewrite fbind_done
    by (unfold compile; rewrite Hc; reflexivity).
  fstep.
  erewrite fbind_done
    by (unfold import; cbn [registry note set_registry set_world]; rewrite Hi; reflexivity).
  fstep. cbn [registry set_registry]. rewrite Hs. fstep.
  erewrite fbind_failed
    by (unfold launching, ftryCatch; fstep; unfold launchBrowser;
        cbn [world page set_world set_registry note record]; rewrite Hl;
        fstep; reflexivity).
  unfold handle. fstep. rewrite Hk. cbn [negb].
  eexists. split; [reflexivity|].
  repeat split; reflexivity.
Qed.

(** X26.  When a line number is given and no test of the file is located at
    that line, [executeTestFile] reports the error "No test found at line N
    in <file>" under "Test Discovery", then reports the file as failed with
    the same message, and returns.  The browser is not launched, nothing is
    closed, and the hooks registered by the file stay in the registry. *)
Theorem no_test_at_line_is_a_failed_file
    (filePath compiledPath : string) (n : Z) (s : Session) (r1 : Registration.t)
    (testLocations : list LineFilter.TestLocation) :
  compileFile filePath = Ok compiledPath ->
  importFile compiledPath
    (openFile (replaceFirst (cwd ++ "/") "" filePath) (registry s)) = (None, r1) ->
  n <> 0 ->
  parseShortestTestFile filePath = Ok testLocations ->
  LineFilter.filterTestsByLineNumber EXPRESSION_PLACEHOLDER
    (Registration.currentTests r1) testLocations n = [] ->
  exists s',
    executeTestFile config filePath (Some n) s = Done tt s'
    /\ journal s'
       = Reported (OnFileEnd filePath failed
                     ("No test found at line " ++ ofZ n ++ " in "
                      ++ replaceFirst (cwd ++ "/") "" filePath))
         :: Reported (ReportError "Test Discovery"
                        ("No test found at line " ++ ofZ n ++ " in "
                         ++ replaceFirst (cwd ++ "/") "" filePath))
         :: Imported compiledPath :: Compiled filePath :: journal s
    /\ hooksOf (registry s') = hooksOf r1
    /\ Registration.currentFilePath (registry s') = ""
    /\ launches s' = launches s.
Proof.
  intros Hc Hi Hn Hp Hf.
  unfold executeTestFile, ftryFinally, ftryCatch, attempt.
  set (fwc := replaceFirst (cwd ++ "/") "" filePath) in *.
  do 2 fstep.
  erewrite fbind_done by (unfold compile; rewrite Hc; reflexivity).
  fstep.
  erewrite fbind_done
    by (unfold import; cbn [registry note set_registry set_world]; rewrite Hi; reflexivity).
  fstep. cbn [registry set_registry].
  erewrite fbind_failed
    by (unfold select; apply Z.eqb_neq in Hn; rewrite Hn, Hp, Hf; cbn [length Nat.eqb];
        fstep; reflexivity).
  unfold handle. fstep. cbn [instanceofShortestError ShortestError negb].
  eexists. split; [reflexivity|].
  repeat split; reflexivity.
Qed.

(** *** What the hooks and the tests of a file leave alone *)

Section Counted.
Variable p : FileEvent -> bool.
Hypothesis p_hook : forall before hook, p (InvokedAll before hook) = false.
Hypothesis p_start : forall f n, p (Reported (OnFileStart f n)) = false.

Lemma sameFile_refl s : sameFile p s s.
Proof. unfold sameFile. auto. Qed.

Lemma sameFile_trans s1 s2 s3 : sameFile p s1 s2 -> sameFile p s2 s3 -> sameFile p s1 s3.
Proof.
  unfold sameFile. intros (A & B & C0 & D) (A' & B' & C' & D').
  repeat split; congruence.
Qed.

Lemma sameFile_world s w : sameFile p s (set_world w s).
Proof. unfold sameFile. auto. Qed.

Lemma sameFile_hookAll before hook : fpreserves (sameFile p) (hookAll before hook).
Proof.
  intros s. unfold hookAll.
  destruct (invoke hook _) as [b [e|]]; unfold sameFile, tally; cbn;
    rewrite p_hook; auto.
Qed.

Lemma sameFile_start f n : fpreserves (sameFile p) (report (OnFileStart f n)).
Proof.
  intros s. unfold report, sameFile, tally. cbn. rewrite p_start. auto.
Qed.

Lemma sameFile_running fwc tests : fpreserves (sameFile p) (running config fwc tests).
Proof.
  unfold running.
  repeat first
    [ apply sameFile_hookAll
    | apply sameFile_start
    | apply (@fpreserves_getsRegistry (sameFile p) sameFile_refl)
    | apply (@fpreserves_lift (sameFile p) sameFile_world)
    | apply (@fpreserves_forEach (sameFile p) sameFile_refl sameFile_trans); intros ?
    | apply (@fpreserves_bind (sameFile p) sameFile_trans); [|intros ?] ].
Qed.

End Counted.

(** X27.  Once the browser has been launched for a file, the inner
    [finally] clause runs however the beforeAll hooks, the tests and the
    afterAll hooks end (closing is taken not to throw): the browser is
    closed once, the four hook lists are emptied, and the file is reported
    as "passed" even when a hook or a test threw.  If what was thrown is
    a ShortestError, the file is then reported a second time, as "failed"
    with the message of the error, and [executeTestFile] returns; any other
    error is thrown on to the caller.  The current file path is cleared in
    all cases. *)
Theorem launched_file_is_cleaned_up_and_reported_passed
    (filePath compiledPath : string) (lineNumber : option Z) (s : Session)
    (r1 : Registration.t) (testsToRun : list TestCase.t) (b : Browser) :
  compileFile filePath = Ok compiledPath ->
  importFile compiledPath
    (openFile (replaceFirst (cwd ++ "/") "" filePath) (registry s)) = (None, r1) ->
  select (Registration.currentTests r1) filePath
    (replaceFirst (cwd ++ "/") "" filePath) lineNumber = fret testsToRun ->
  launch (page (world s)) = (b, None) ->
  (forall b', snd (close b') = None) ->
  exists s',
    tally isLaunched (journal s') = (1 + tally isLaunched (journal s))%nat
    /\ tally isClosed (journal s') = (1 + tally isClosed (journal s))%nat
    /\ tally (isFileEnd passed) (journal s')
       = (1 + tally (isFileEnd passed) (journal s))%nat
    /\ hooksOf (registry s') = [[]; []; []; []]
    /\ Registration.currentFilePath (registry s') = ""
    /\ ((executeTestFile config filePath lineNumber s = Done tt s'
         /\ tally (isFileEnd failed) (journal s') = tally (isFileEnd failed) (journal s))
        \/ (exists e rest,
              instanceofShortestError e = true
              /\ executeTestFile config filePath lineNumber s = Done tt s'
              /\ journal s'
                 = Reported (OnFileEnd filePath failed (errorMessage e))
                   :: Reported (OnFileEnd filePath passed "") :: rest)
        \/ (exists e,
              instanceofShortestError e = false
              /\ executeTestFile config filePath lineNumber s = Failed e s'
              /\ tally (isFileEnd failed) (journal s')
                 = tally (isFileEnd failed) (journal s))).
Proof.
  intros Hc Hi Hs Hl Hq.
  remember (executeTestFile config filePath lineNumber s) as out eqn:Out.
  unfold executeTestFile, attempt in Out.
  set (fwc := replaceFirst (cwd ++ "/") "" filePath) in *.
  unfold ftryFinally at 1 in Out. unfold ftryCatch in Out.
  do 2 (erewrite fbind_done in Out by reflexivity).
  erewrite fbind_done in Out by (unfold compile; rewrite Hc; reflexivity).
  erewrite fbind_done in Out by reflexivity.
  erewrite fbind_done in Out
    by (unfold import; cbn [registry note set_registry set_world]; rewrite Hi; reflexivity).
  erewrite fbind_done in Out by reflexivity.
  cbn [registry set_registry] in Out. rewrite Hs in Out.
  erewrite fbind_done in Out by reflexivity.
  erewrite fbind_done in Out
    by (unfold launching, ftryCatch; erewrite fbind_done by reflexivity;
        unfold launchBrowser;
        cbn [world page set_world set_registry note record]; rewrite Hl; reflexivity).
  erewrite fbind_done in Out by reflexivity.
  match type of Out with context [fbind createFileTestContext ?k ?x] =>
    destruct (createFileTestContext x) as [[] s2|e2 s2|] eqn:Ctx end;
    [| unfold createFileTestContext in Ctx;
       match type of Ctx with context [match ?x with _ => _ end] => destruct x end;
       discriminate Ctx
     | unfold createFileTestContext in Ctx;
       match type of Ctx with context [match ?x with _ => _ end] => destruct x end;
       discriminate Ctx ].
  erewrite fbind_done in Out by exact Ctx.
  assert (J2 : journal s2 = Launched :: Imported compiledPath :: Compiled filePath
                              :: journal s
               /\ registry s2 = r1).
  { unfold createFileTestContext in Ctx.
    match type of Ctx with context [match ?x with _ => _ end] => destruct x end;
      injection Ctx as <-; split; reflexivity. }
  destruct J2 as [J2 R2].
  unfold ftryFinally in Out.
  pose proof (ftotal_running fwc testsToRun s2) as Tot.
  pose proof (fun q h1 h2 => @sameFile_running q h1 h2 fwc testsToRun s2) as Frame.
  assert (Clean : forall s3,
             registry s3 = r1 ->
             exists s4, cleanup filePath s3 = Done tt s4
                        /\ journal s4 = Reported (OnFileEnd filePath passed "")
                                        :: Closed :: journal s3
                        /\ registry s4 = resetHooks r1).
  { intros s3 R3. unfold cleanup, closeBrowser, fbind, modifyRegistry, report.
    cbn [world page note set_world].
    pose proof (Hq (page (world s3))) as Q.
    destruct (close (page (world s3))) as [b' o]. simpl in Q. subst o.
    eexists. split; [reflexivity|]. cbn. rewrite R3. auto. }
  destruct (running config fwc testsToRun s2) as [[] s3|e s3|] eqn:Run;
    [ | |contradiction];
    pose proof (Frame isLaunched (fun _ _ => eq_refl) (fun _ _ => eq_refl))
      as (R3 & _ & _ & L3);
    pose proof (Frame isClosed (fun _ _ => eq_refl) (fun _ _ => eq_refl))
      as (_ & _ & _ & C3);
    pose proof (Frame (isFileEnd passed) (fun _ _ => eq_refl) (fun _ _ => eq_refl))
      as (_ & _ & _ & P3);
    pose proof (Frame (isFileEnd failed) (fun _ _ => eq_refl) (fun _ _ => eq_refl))
      as (_ & _ & _ & F3);
    rewrite R2 in R3; destruct (Clean s3 R3) as (s4 & E4 & J4 & R4);
    erewrite fbind_done in Out by exact E4.
  - cbn [fbind fret modifyRegistry] in Out.
    eexists.
    split; [|split; [|split; [|split; [|split; [|left; split; [exact Out|]]]]]];
      cbn [journal registry set_registry]; rewrite ?J4, ?R4; try reflexivity;
      unfold tally in *; cbn [filter isLaunched isClosed isFileEnd TestStatus_eqb length];
      rewrite ?L3, ?C3, ?P3, ?F3, J2; reflexivity.
  - cbn [fbind fthrow] in Out. unfold handle in Out.
    erewrite fbind_done in Out by reflexivity.
    destruct (instanceofShortestError e) eqn:K; cbn [negb] in Out.
    + cbn [fbind fthrow fret report modifyRegistry] in Out.
      eexists.
      split; [|split; [|split; [|split; [|split;
        [|right; left; exists e; eexists; split; [exact K|split; [exact Out|]]]]]]];
        cbn [journal registry set_registry set_world note]; rewrite ?J4, ?R4;
        try reflexivity;
        unfold tally in *; cbn [filter isLaunched isClosed isFileEnd TestStatus_eqb length];
        rewrite ?L3, ?C3, ?P3, ?F3, J2; reflexivity.
    + cbn [fbind fthrow fret modifyRegistry] in Out.
      eexists.
      split; [|split; [|split; [|split; [|split;
        [|right; right; exists e; split; [exact K|split; [exact Out|]]]]]]];
        cbn [journal registry set_registry set_world note]; rewrite ?J4, ?R4;
        try reflexivity;
        unfold tally in *; cbn [filter isLaunched isClosed isFileEnd TestStatus_eqb length];
        rewrite ?L3, ?C3, ?P3, ?F3, J2; reflexivity.
Qed.

(** *** The file context *)

Lemma keepsContext_refl s : keepsContext s s.
Proof. unfold keepsContext. split; [auto|lia]. Qed.

Lemma keepsContext_trans s1 s2 s3 :
  keepsContext s1 s2 -> keepsContext s2 s3 -> keepsContext s1 s3.
Proof.
  unfold keepsContext. intros [A B] [A' B']. split; [auto|lia].
Qed.

Lemma keepsContext_world s w : keepsContext s (set_world w s).
Proof. unfold keepsContext. cbn. split; [auto|lia]. Qed.

Lemma keepsContext_primitive {A} (m : F A) :
  (forall s, match m s with
             | Done _ s' | Failed _ s' =>
                 testFileContext s' = testFileContext s /\ launches s' = launches s
             | Stuck => True
             end) ->
  fpreserves keepsContext m.
Proof.
  intros Hm s. specialize (Hm s). unfold keepsContext.
  destruct (m s) as [a s'|e s'|]; auto; destruct Hm as [-> ->]; split; auto; lia.
Qed.

Lemma keepsContext_report r : fpreserves keepsContext (report r).
Proof. apply keepsContext_primitive. intros s. cbn. auto. Qed.

Lemma keepsContext_modifyRegistry f : fpreserves keepsContext (modifyRegistry f).
Proof. apply keepsContext_primitive. intros s. cbn. auto. Qed.

Lemma keepsContext_compile filePath : fpreserves keepsContext (compile filePath).
Proof.
  apply keepsContext_primitive. intros s. unfold compile.
  destruct (compileFile filePath); cbn; auto.
Qed.

Lemma keepsContext_import compiledPath : fpreserves keepsContext (import compiledPath).
Proof.
  apply keepsContext_primitive. intros s. unfold import.
  destruct (importFile _ _) as [[e|] r]; cbn; auto.
Qed.

Lemma keepsContext_closeBrowser : fpreserves keepsContext closeBrowser.
Proof.
  apply keepsContext_primitive. intros s. unfold closeBrowser.
  destruct (close _) as [b [e|]]; cbn; auto.
Qed.

Lemma keepsContext_hookAll before hook : fpreserves keepsContext (hookAll before hook).
Proof.
  apply keepsContext_primitive. intros s. unfold hookAll.
  destruct (invoke _ _) as [b [e|]]; cbn; auto.
Qed.

Lemma keepsContext_launchBrowser : fpreserves keepsContext launchBrowser.
Proof.
  intros s. unfold launchBrowser, keepsContext.
  destruct (launch _) as [b [e|]]; cbn; split; auto; lia.
Qed.

Lemma keepsContext_createFileTestContext : fpreserves keepsContext createFileTestContext.
Proof.
  intros s. unfold createFileTestContext, keepsContext.
  destruct (testFileContext s) eqn:E; cbn.
  - rewrite E. split; [auto|lia].
  - split; [intros k [=]|lia].
Qed.

Ltac context_step :=
  first
    [ apply keepsContext_report | apply keepsContext_modifyRegistry
    | apply keepsContext_compile | apply keepsContext_import
    | apply keepsContext_closeBrowser | apply keepsContext_hookAll
    | apply keepsContext_launchBrowser | apply keepsContext_createFileTestContext
    | apply (@fpreserves_ret keepsContext keepsContext_refl)
    | apply (@fpreserves_throw keepsContext keepsContext_refl)
    | apply (@fpreserves_getsRegistry keepsContext keepsContext_refl)
    | apply (@fpreserves_lift keepsContext keepsContext_world)
    | apply (@fpreserves_forEach keepsContext keepsContext_refl keepsContext_trans);
      intros ?
    | apply (@fpreserves_bind keepsContext keepsContext_trans); [|intros ?]
    | apply (@fpreserves_tryCatch keepsContext keepsContext_trans); [|intros ?]
    | apply (@fpreserves_tryFinally keepsContext keepsContext_trans)
    | match goal with
      | |- fpreserves _ (match ?x with _ => _ end) => destruct x
      | |- fpreserves _ (if ?x then _ else _) => destruct x
      end ].

Lemma keepsContext_executeTestFile filePath lineNumber :
  fpreserves keepsContext (executeTestFile config filePath lineNumber).
Proof.
  unfold executeTestFile, attempt, handle, select, launching, running, cleanup, flog.
  repeat context_step.
Qed.

Lemma keepsContext_execute testPattern lineNumber :
  fpreserves keepsContext (execute config testPattern lineNumber).
Proof.
  unfold execute, flog.
  repeat first [ apply keepsContext_executeTestFile | context_step ].
Qed.

Lemma ftotal_execute testPattern lineNumber :
  ftotal (execute config testPattern lineNumber).
Proof.
  unfold execute, flog.
  repeat first [ apply ftotal_executeTestFile | apply ftotal_report | ftotality_step
               | (intros s; discriminate) ].
Qed.

(** X28.  The file context of the runner is made once.  When
    [testFileContext] is already set, [createFileTestContext] ignores the
    browser context it is given, and nothing in [executeTestFile] or
    [execute] resets the field: whatever the files do and however the call
    ends, the field still holds the context it held before, while further
    browser contexts may have been launched (and closed) since. *)
Theorem file_context_is_made_once
    (testPattern : string) (lineNumber : option Z) (s : Session) (k : nat) :
  testFileContext s = Some k ->
  (forall filePath,
     exists s',
       (executeTestFile config filePath lineNumber s = Done tt s'
        \/ exists e, executeTestFile config filePath lineNumber s = Failed e s')
       /\ testFileContext s' = Some k
       /\ (launches s <= launches s')%nat)
  /\ exists s',
       ((exists allPassed, execute config testPattern lineNumber s = Done allPassed s')
        \/ exists e, execute config testPattern lineNumber s = Failed e s')
       /\ testFileContext s' = Some k
       /\ (launches s <= launches s')%nat.
Proof.
  intros K. split.
  - intros filePath.
    pose proof (keepsContext_executeTestFile filePath lineNumber s) as Keep.
    pose proof (ftotal_executeTestFile filePath lineNumber s) as Tot.
    destruct (executeTestFile config filePath lineNumber s) as [[] s'|e s'|];
      [| |contradiction]; destruct Keep as [A B]; exists s';
      (split; [first [left; reflexivity | right; exists e; reflexivity]|]);
      (split; [apply A, K|exact B]).
  - pose proof (keepsContext_execute testPattern lineNumber s) as Keep.
    pose proof (ftotal_execute testPattern lineNumber s) as Tot.
    destruct (execute config testPattern lineNumber s) as [a s'|e s'|];
      [| |contradiction]; destruct Keep as [A B]; exists s';
      (split; [first [left; exists a; reflexivity | right; exists e; reflexivity]|]);
      (split; [apply A, K|exact B]).
Qed.

End FileFacts.

(** the browser cannot be launched: the beforeEach hook of the file stays *)
Lemma failed_launch_keeps_the_hooks_witness :
  exists s',
    Files.executeTestFile (P := Shop.platform) (H := Studio.harness false)
      Shop.cachingOff "/repo/shop.test.ts" None Studio.fresh
    = Files.Done tt s'
    /\ Files.journal s'
       = [ Files.Reported (Files.OnFileEnd "/repo/shop.test.ts" failed "no browser");
           Files.Imported "/repo/shop.test.ts.mjs";
           Files.Compiled "/repo/shop.test.ts" ]
    /\ Registration.beforeEachFns (Files.registry s') = [0%nat].
Proof.
  pose (r1 := snd (Registration.load (H := Suite.plain) Suite.script
                     (Files.openFile "shop.test.ts" Registration.initial))).
  assert (Hi : Files.importFile (Harness := Studio.harness false) "/repo/shop.test.ts.mjs"
                 (Files.openFile
                    (Files.replaceFirst
                       (Files.cwd (Harness := Studio.harness false) ++ "/") ""
                       "/repo/shop.test.ts")
                    (Files.registry Studio.fresh))
               = (None, r1))
    by (vm_compute; reflexivity).
  destruct (@failed_launch_keeps_the_hooks Shop.platform Shop.site (Studio.harness false)
              Shop.cachingOff "/repo/shop.test.ts" "/repo/shop.test.ts.mjs" None
              Studio.fresh r1 (Registration.currentTests r1) Shop.buyButton
              (ThrownError OtherErrorC "no browser")
              eq_refl Hi eq_refl eq_refl eq_refl)
    as (s' & E & J & Hk & _).
  exists s'. split; [exact E|]. split; [exact J|].
  vm_compute in Hk. injection Hk as _ _ B _. exact B.
Defined.

(** no test of the file is located at line 50 *)
Lemma no_test_at_line_is_a_failed_file_witness :
  exists s',
    Files.executeTestFile (P := Shop.platform) (H := Studio.harness true)
      Shop.cachingOff "/repo/shop.test.ts" (Some 50) Studio.fresh
    = Files.Done tt s'
    /\ Files.journal s'
       = [ Files.Reported
             (Files.OnFileEnd "/repo/shop.test.ts" failed
                "No test found at line 50 in shop.test.ts");
           Files.Reported
             (Files.ReportError "Test Discovery"
                "No test found at line 50 in shop.test.ts");
           Files.Imported "/repo/shop.test.ts.mjs";
           Files.Compiled "/repo/shop.test.ts" ]
    /\ Files.launches s' = 0%nat.
Proof.
  pose (r1 := snd (Registration.load (H := Suite.plain) Suite.script
                     (Files.openFile "shop.test.ts" Registration.initial))).
  assert (Hi : Files.importFile (Harness := Studio.harness true) "/repo/shop.test.ts.mjs"
                 (Files.openFile
                    (Files.replaceFirst
                       (Files.cwd (Harness := Studio.harness true) ++ "/") ""
                       "/repo/shop.test.ts")
                    (Files.registry Studio.fresh))
               = (None, r1))
    by (vm_compute; reflexivity).
  assert (Hf : LineFilter.filterTestsByLineNumber
                 (Files.EXPRESSION_PLACEHOLDER (Harness := Studio.harness true))
                 (Registration.currentTests r1)
                 [ {| LineFilter.testName := "buy a book";
                      LineFilter.startLine := 3; LineFilter.endLine := 9 |} ] 50
               = [])
    by (vm_compute; reflexivity).
  destruct (@no_test_at_line_is_a_failed_file Shop.platform Shop.site
              (Studio.harness true) Shop.cachingOff "/repo/shop.test.ts"
              "/repo/shop.test.ts.mjs" 50 Studio.fresh r1 _
              eq_refl Hi ltac:(discriminate) eq_refl Hf)
    as (s' & E & J & _ & _ & L).
  exists s'. split; [exact E|]. split; [exact J|exact L].
Defined.

(** the first test throws "Unexpected AI response status: pending": the
    file is reported as passed and then as failed *)
Lemma launched_file_is_cleaned_up_and_reported_passed_witness :
  exists s',
    Files.tally Files.isClosed (Files.journal s') = 1%nat
    /\ Files.hooksOf (Files.registry s') = [[]; []; []; []]
    /\ Files.executeTestFile (P := Shop.platform) (H := Limbo.harness)
         Shop.cachingOff "/repo/shop.test.ts" None Limbo.fresh
       = Files.Done tt s'
    /\ exists rest,
         Files.journal s'
         = Files.Reported (Files.OnFileEnd "/repo/shop.test.ts" failed
                             "Unexpected AI response status: pending")
           :: Files.Reported (Files.OnFileEnd "/repo/shop.test.ts" passed "") :: rest.
Proof.
  assert (Run : exists s1 rest,
             Files.executeTestFile (P := Shop.platform) (H := Limbo.harness)
               Shop.cachingOff "/repo/shop.test.ts" None Limbo.fresh
             = Files.Done tt s1
             /\ Files.journal s1
                = Files.Reported (Files.OnFileEnd "/repo/shop.test.ts" failed
                                    "Unexpected AI response status: pending")
                  :: Files.Reported (Files.OnFileEnd "/repo/shop.test.ts" passed "")
                  :: rest)
    by (eexists; eexists; split; vm_compute; reflexivity).
  destruct Run as (s1 & rest & E1 & J1).
  pose (r1 := snd (Registration.load (H := Suite.plain) Suite.script
                     (Files.openFile "shop.test.ts" Registration.initial))).
  assert (Hi : Files.importFile (Harness := Limbo.harness) "/repo/shop.test.ts.mjs"
                 (Files.openFile
                    (Files.replaceFirst
                       (Files.cwd (Harness := Limbo.harness) ++ "/") ""
                       "/repo/shop.test.ts")
                    (Files.registry Limbo.fresh))
               = (None, r1))
    by (vm_compute; reflexivity).
  destruct (@launched_file_is_cleaned_up_and_reported_passed Shop.platform
              Limbo.undecided Limbo.harness Shop.cachingOff "/repo/shop.test.ts"
              "/repo/shop.test.ts.mjs" None Limbo.fresh r1
              (Registration.currentTests r1) Shop.buyButton
              eq_refl Hi eq_refl eq_refl (fun _ => eq_refl))
    as (s' & _ & Cl & _ & Hk & _ & [[E _]|[(e & rest' & _ & E & _)|(e & _ & E & _)]]);
    rewrite E1 in E; try discriminate E; injection E as <-;
    exists s1; (split; [exact Cl|]); (split; [exact Hk|]); (split; [exact E1|]);
    exists rest; exact J1.
Defined.

(** a runner that has executed one file runs two more: two more contexts
    are launched, the file context is still that of the first *)
Lemma file_context_is_made_once_witness :
  exists s' allPassed,
    Files.execute (P := Shop.platform) (H := Studio.harness true)
      Shop.cachingOff "**/*.test.ts" None Studio.used
    = Files.Done allPassed s'
    /\ Files.launches s' = 3%nat
    /\ Files.testFileContext s' = Some 1%nat.
Proof.
  assert (Run : exists s1 a,
             Files.execute (P := Shop.platform) (H := Studio.harness true)
               Shop.cachingOff "**/*.test.ts" None Studio.used
             = Files.Done a s1
             /\ Files.launches s1 = 3%nat)
    by (eexists; eexists; split; vm_compute; reflexivity).
  destruct Run as (s1 & a & E1 & L1).
  destruct (@file_context_is_made_once Shop.platform Shop.site (Studio.harness true)
              Shop.cachingOff "**/*.test.ts" None Studio.used 1%nat eq_refl)
    as (_ & s' & [(a' & E)|(e & E)] & K & _);
    rewrite E1 in E; try discriminate E; injection E as <- <-.
  exists s1, a. split; [exact E1|]. split; [exact L1|exact K].
Defined.


(** ** The whole run *)

Section RunFacts.
Context {P : Platform} {C : Collaborators} {H : Files.Harness}.
Variable config : ShortestStrictConfig.
Import Files.

Lemma sameTally_refl p s : sameTally p s s.
Proof. reflexivity. Qed.

Lemma sameTally_trans p s1 s2 s3 :
  sameTally p s1 s2 -> sameTally p s2 s3 -> sameTally p s1 s3.
Proof. unfold sameTally. congruence. Qed.

Lemma sameTally_world p s w : sameTally p s (set_world w s).
Proof. reflexivity. Qed.

Lemma sameTally_primitive {A} p (m : F A) :
  (forall s, match m s with
             | Done _ s' | Failed _ s' =>
                 journal s' = journal s
                 \/ exists e, p e = false /\ journal s' = e :: journal s
             | Stuck => True
             end) ->
  fpreserves (sameTally p) m.
Proof.
  intros Hm s. specialize (Hm s). unfold sameTally, tally.
  destruct (m s) as [a s'|e s'|]; auto;
    destruct Hm as [->|(x & Px & ->)]; cbn; rewrite ?Px; reflexivity.
Qed.

Section Quiet.
Variable p : FileEvent -> bool.
Hypothesis p_compiled : forall f, p (Compiled f) = false.
Hypothesis p_imported : forall f, p (Imported f) = false.
Hypothesis p_launched : p Launched = false.
Hypothesis p_closed : p Closed = false.
Hypothesis p_hook : forall before hook, p (InvokedAll before hook) = false.
Hypothesis p_report : forall r, r <> OnRunEnd -> p (Reported r) = false.

Lemma quiet_compile filePath : fpreserves (sameTally p) (compile filePath).
Proof.
  apply sameTally_primitive. intros s. unfold compile.
  destruct (compileFile filePath); cbn; right; eexists; (split; [|reflexivity]);
    apply p_compiled.
Qed.

Lemma quiet_import compiledPath : fpreserves (sameTally p) (import compiledPath).
Proof.
  apply sameTally_primitive. intros s. unfold import.
  destruct (importFile _ _) as [[e|] r]; cbn; right; eexists; (split; [|reflexivity]);
    apply p_imported.
Qed.

Lemma quiet_launchBrowser : fpreserves (sameTally p) launchBrowser.
Proof.
  apply sameTally_primitive. intros s. unfold launchBrowser.
  destruct (launch _) as [b [e|]]; cbn; [left; reflexivity|].
  right; eexists; (split; [|reflexivity]); apply p_launched.
Qed.

Lemma quiet_closeBrowser : fpreserves (sameTally p) closeBrowser.
Proof.
  apply sameTally_primitive. intros s. unfold closeBrowser.
  destruct (close _) as [b [e|]]; cbn; right; eexists; (split; [|reflexivity]);
    apply p_closed.
Qed.

Lemma quiet_createFileTestContext : fpreserves (sameTally p) createFileTestContext.
Proof.
  apply sameTally_primitive. intros s. unfold createFileTestContext.
  destruct (testFileContext s); cbn; left; reflexivity.
Qed.

Lemma quiet_hookAll before hook : fpreserves (sameTally p) (hookAll before hook).
Proof.
  apply sameTally_primitive. intros s. unfold hookAll.
  destruct (invoke _ _) as [b [e|]]; cbn; right; eexists; (split; [|reflexivity]);
    apply p_hook.
Qed.

Lemma quiet_report r : r <> OnRunEnd -> fpreserves (sameTally p) (report r).
Proof.
  intros N. apply sameTally_primitive. intros s. cbn.
  right; eexists; (split; [|reflexivity]). now apply p_report.
Qed.

Lemma quiet_modifyRegistry f : fpreserves (sameTally p) (modifyRegistry f).
Proof. apply sameTally_primitive. intros s. cbn. left; reflexivity. Qed.

Lemma quiet_executeTestFile filePath lineNumber :
  fpreserves (sameTally p) (executeTestFile config filePath lineNumber).
Proof.
  unfold executeTestFile, attempt, handle, select, launching, running, cleanup, flog.
  repeat first
    [ apply quiet_compile | apply quiet_import | apply quiet_launchBrowser
    | apply quiet_closeBrowser | apply quiet_createFileTestContext
    | apply quiet_hookAll | apply quiet_modifyRegistry
    | apply quiet_report; discriminate
    | apply (@fpreserves_ret _ (sameTally p) (sameTally_refl p))
    | apply (@fpreserves_throw _ (sameTally p) (sameTally_refl p))
    | apply (@fpreserves_getsRegistry _ (sameTally p) (sameTally_refl p))
    | apply (@fpreserves_lift _ (sameTally p) (sameTally_world p))
    | apply (@fpreserves_forEach _ (sameTally p) (sameTally_refl p)
               (@sameTally_trans p)); intros ?
    | apply (@fpreserves_bind _ (sameTally p) (@sameTally_trans p)); [|intros ?]
    | apply (@fpreserves_tryCatch _ (sameTally p) (@sameTally_trans p)); [|intros ?]
    | apply (@fpreserves_tryFinally _ (sameTally p) (@sameTally_trans p))
    | match goal with
      | |- fpreserves _ (match ?x with _ => _ end) => destruct x
      | |- fpreserves _ (if ?x then _ else _) => destruct x
      end ].
Qed.

End Quiet.

Lemma runEnd_executeTestFile filePath lineNumber :
  fpreserves (sameTally isRunEnd) (executeTestFile config filePath lineNumber).
Proof.
  apply quiet_executeTestFile; try reflexivity.
  intros [] N; try reflexivity. contradiction.
Qed.

(** a ShortestError never leaves [executeTestFile] *)
Lemma executeTestFile_failed filePath lineNumber s e s' :
  executeTestFile config filePath lineNumber s = Failed e s' ->
  instanceofShortestError e = false.
Proof.
  unfold executeTestFile, ftryFinally, ftryCatch.
  destruct (attempt config filePath lineNumber s) as [[] s1|e1 s1|].
  - cbn. discriminate.
  - unfold handle. erewrite fbind_done by reflexivity.
    destruct (instanceofShortestError e1) eqn:K; cbn.
    + discriminate.
    + intros [= <- _]. exact K.
  - discriminate.
Qed.

Lemma files_outcome lineNumber files : forall s,
  match fforEach (fun file => executeTestFile config file lineNumber) files s with
  | Done _ s' => sameTally isRunEnd s s'
  | Failed e s' => sameTally isRunEnd s s' /\ instanceofShortestError e = false
  | Stuck => False
  end.
Proof.
  induction files as [|file files IH]; intros s; cbn [fforEach].
  - apply sameTally_refl.
  - unfold fbind.
    pose proof (runEnd_executeTestFile file lineNumber s) as Keep.
    pose proof (ftotal_executeTestFile config file lineNumber s) as Tot.
    destruct (executeTestFile config file lineNumber s) as [[] s1|e s1|] eqn:E;
      [| |contradiction].
    + specialize (IH s1).
      destruct (fforEach _ files s1) as [[] s2|e2 s2|]; [| |exact IH].
      * eapply sameTally_trans; eassumption.
      * destruct IH as [A B]. split; [eapply sameTally_trans; eassumption|exact B].
    + split; [exact Keep|]. eapply executeTestFile_failed. exact E.
Qed.

(** X29.  [execute] always ends, in one of three ways.  With no matching
    file it reports a "Test Discovery" error and returns false without
    starting a run.  Otherwise it returns what the reporter says after
    having reported the end of the run exactly once.  Or it throws: then the
    end of the run has not been reported, and unless [glob] itself threw,
    what is thrown is not a ShortestError, because [executeTestFile] turns
    every ShortestError into the report of a failed file. *)
Theorem execute_ends_the_run_or_throws
    (testPattern : string) (lineNumber : option Z) (s : Session) :
  match execute config testPattern lineNumber s with
  | Done allPassed s' =>
      (glob testPattern = Ok []
       /\ allPassed = false
       /\ journal s'
          = Reported (ReportError "Test Discovery"
                        ("No test files found matching the test pattern " ++ testPattern))
            :: journal s
       /\ registry s' = registry s)
      \/ (exists files,
            glob testPattern = Ok files /\ files <> []
            /\ tally isRunEnd (journal s') = (1 + tally isRunEnd (journal s))%nat
            /\ allPassed = allTestsPassed (journal s') (trace (world s')))
  | Failed e s' =>
      tally isRunEnd (journal s') = tally isRunEnd (journal s)
      /\ (glob testPattern = Err e
          \/ exists files, glob testPattern = Ok files /\ files <> []
                           /\ instanceofShortestError e = false)
  | Stuck => False
  end.
Proof.
  unfold execute. erewrite fbind_done by reflexivity.
  destruct (glob testPattern) as [files|e].
  - erewrite fbind_done by reflexivity.
    destruct files as [|file files].
    + cbn. left. auto.
    + cbn [length Nat.eqb].
      erewrite fbind_done by reflexivity.
      match goal with |- context [fbind (fforEach ?f ?l) ?k ?x] =>
        pose proof (files_outcome lineNumber l x) as Out;
        unfold fbind at 1;
        destruct (fforEach f l x) as [[] s1|e1 s1|]
      end; [| |exact Out].
      * cbn. right. exists (file :: files).
        split; [reflexivity|]. split; [discriminate|].
        split; [|reflexivity].
        unfold sameTally, tally in *. cbn in Out. now rewrite Out.
      * destruct Out as [A B]. split.
        -- unfold sameTally, tally in *. cbn in A. exact A.
        -- right. exists (file :: files). split; [reflexivity|].
           split; [discriminate|exact B].
  - cbn. split; [reflexivity|]. left. reflexivity.
Qed.

End RunFacts.

(** ** Framework detection *)

Section DetectorFacts.
Context {E : Detector.Project}.

Lemma save_outcome (infos : list Detector.FrameworkInfo) (l : list Detector.Effect) :
  match fst (Detector.save infos l) with
  | Ok (Detector.Detected info) =>
      Detector.version info = 2 /\ Detector.timestamp info = Detector.dateNow
      /\ Detector.frameworks info = infos
      /\ Detector.writeFile (Detector.stringify info) = None
      /\ Detector.written (snd (Detector.save infos l))
         = Detector.stringify info :: Detector.written l
  | Ok (Detector.Cached _) => False
  | Err e =>
      e = ShortestError "Failed to save project information"
      /\ ((exists g, Detector.getGitInfo = Err g)
          \/ exists g content x, Detector.getGitInfo = Ok g
               /\ Detector.writeFile content = Some x)
  end.
Proof.
  unfold Detector.save, Detector.dtryCatch, Detector.dbind, Detector.does,
    Detector.dlog, Detector.dret, Detector.dthrow.
  destruct Detector.getGitInfo as [g|g] eqn:G; cbn.
  - destruct (Detector.writeFile _) as [x|] eqn:W; cbn.
    + split; [reflexivity|]. right. eauto.
    + repeat split; assumption.
  - split; [reflexivity|]. left. eauto.
Qed.

Lemma frameworkInfosOf_outcome (d : option string) (l : list Detector.Effect) :
  match fst (Detector.frameworkInfosOf d l) with
  | Ok infos =>
      (d = None -> infos = [])
      /\ (exists dir, Forall (fun f => Detector.dirPath f = dir) infos)
  | Err _ => True
  end
  /\ Detector.written (snd (Detector.frameworkInfosOf d l)) = Detector.written l.
Proof.
  unfold Detector.frameworkInfosOf, Detector.dbind, Detector.does, Detector.dret.
  destruct d as [dir|]; cbn.
  - destruct (Str.truthy dir); cbn.
    + destruct (Detector.listFrameworks dir) as [fs|e]; cbn; split; auto.
      split; [discriminate|]. exists dir.
      induction fs; cbn; constructor; auto.
    + split; auto. split; auto. exists "". constructor.
  - split; auto. split; auto. exists "". constructor.
Qed.

Lemma detectNextJsDirPathFromConfig_outcome (l : list Detector.Effect) :
  match fst (Detector.detectNextJsDirPathFromConfig l) with
  | Ok d =>
      exists paths, Detector.getPaths = Ok paths
        /\ (filter Detector.isNextConfig paths = [] -> d = None)
  | Err e => Detector.getPaths = Err e
  end
  /\ Detector.written (snd (Detector.detectNextJsDirPathFromConfig l))
     = Detector.written l.
Proof.
  unfold Detector.detectNextJsDirPathFromConfig, Detector.dbind, Detector.does,
    Detector.dlog, Detector.dret.
  destruct Detector.getPaths as [paths|e]; cbn; [|auto].
  destruct (filter Detector.isNextConfig paths) as [|p ps] eqn:F; cbn.
  - split; eauto.
  - split; auto. exists paths. split; [reflexivity|]. rewrite F. discriminate.
Qed.

Lemma detect_outcome (l : list Detector.Effect) :
  match fst (Detector.detect l) with
  | Ok (Detector.Detected info) =>
      Detector.version info = 2 /\ Detector.timestamp info = Detector.dateNow
      /\ (exists dir, Forall (fun f => Detector.dirPath f = dir)
                        (Detector.frameworks info))
      /\ (forall paths, Detector.getPaths = Ok paths ->
          filter Detector.isNextConfig paths = [] -> Detector.frameworks info = [])
      /\ Detector.mkdir = None
      /\ Detector.writeFile (Detector.stringify info) = None
      /\ Detector.written (snd (Detector.detect l))
         = Detector.stringify info :: Detector.written l
  | Ok (Detector.Cached _) => False
  | Err e =>
      (e = ShortestError "Failed to save project information"
       /\ Detector.mkdir = None
       /\ ((exists g, Detector.getGitInfo = Err g)
           \/ exists g content x, Detector.getGitInfo = Ok g
                /\ Detector.writeFile content = Some x))
      \/ (Detector.written (snd (Detector.detect l)) = Detector.written l
          /\ (Detector.getPaths = Err e
              \/ (exists dir, Detector.listFrameworks dir = Err e)
              \/ Detector.mkdir = Some e))
  end.
Proof.
  destruct (Detector.detect l) as [r out] eqn:Out. cbn [fst snd].
  unfold Detector.detect in Out. unfold Detector.dbind at 1 in Out.
  pose proof (detectNextJsDirPathFromConfig_outcome l) as [N NW].
  destruct (Detector.detectNextJsDirPathFromConfig l) as [[d|e] l1] eqn:D1;
    cbn [fst snd] in *.
  2:{ injection Out as <- <-. right. auto. }
  destruct N as (paths & P & N).
  unfold Detector.dbind at 1 in Out.
  pose proof (frameworkInfosOf_outcome d l1) as [I IW].
  destruct (Detector.frameworkInfosOf d l1) as [[infos|e] l2] eqn:D2;
    cbn [fst snd] in *.
  2:{ injection Out as <- <-. right. split; [congruence|]. right. left.
      unfold Detector.frameworkInfosOf, Detector.dbind, Detector.does, Detector.dret in D2.
      destruct d as [dir|]; [|discriminate].
      destruct (Str.truthy dir); [|discriminate].
      destruct (Detector.listFrameworks dir) eqn:L; [discriminate|].
      exists dir. congruence. }
  destruct I as [I0 I].
  unfold Detector.dbind at 1 in Out. unfold Detector.dlog at 1 in Out.
  unfold Detector.does at 1 in Out.
  unfold Detector.dbind at 1 in Out. unfold Detector.does at 1 in Out.
  destruct Detector.mkdir as [x|] eqn:M; cbn [fst snd] in Out.
  { injection Out as <- <-. right. unfold Detector.written in *. cbn.
    split; [congruence|]. auto. }
  pose proof (save_outcome infos (Detector.MadeDir :: Detector.Logged "Frameworks detected" :: l2)) as S.
  rewrite Out in S. cbn [fst snd] in S.
  destruct r as [[text|info]|e].
  - exact S.
  - destruct S as (V & T & F & W & Wr).
    repeat split; auto.
    + rewrite F. exact I.
    + intros paths' P' Z. rewrite F. apply I0. apply N. congruence.
    + rewrite Wr. unfold Detector.written in *. cbn. congruence.
  - left. destruct S as [-> S]. auto.
Qed.

Lemma appends_dret {A} (a : A) : Detector.appends (Detector.dret a).
Proof. exists (Ok a), []. reflexivity. Qed.

Lemma appends_dthrow {A} (e : Thrown) : Detector.appends (@Detector.dthrow A e).
Proof. exists (Err e), []. reflexivity. Qed.

Lemma appends_does {A} (e : Detector.Effect) (r : Result A) :
  Detector.appends (Detector.does e r).
Proof. exists r, [e]. reflexivity. Qed.

Lemma appends_dbind {A B} (m : Detector.D A) (k : A -> Detector.D B) :
  Detector.appends m -> (forall a, Detector.appends (k a)) ->
  Detector.appends (Detector.dbind m k).
Proof.
  intros (r & new & Hm) Hk. unfold Detector.dbind.
  destruct r as [a|e].
  - destruct (Hk a) as (r' & new' & Hk').
    exists r', (new' ++ new)%list. intros l. rewrite Hm, Hk', app_assoc. reflexivity.
  - exists (Err e), new. intros l. rewrite Hm. reflexivity.
Qed.

Lemma appends_dtryCatch {A} (m : Detector.D A) (h : Thrown -> Detector.D A) :
  Detector.appends m -> (forall e, Detector.appends (h e)) ->
  Detector.appends (Detector.dtryCatch m h).
Proof.
  intros (r & new & Hm) Hh. unfold Detector.dtryCatch.
  destruct r as [a|e].
  - exists (Ok a), new. intros l. rewrite Hm. reflexivity.
  - destruct (Hh e) as (r' & new' & Hh').
    exists r', (new' ++ new)%list. intros l. rewrite Hm, Hh', app_assoc. reflexivity.
Qed.

Lemma appends_detect : Detector.appends Detector.detect.
Proof.
  unfold Detector.detect, Detector.detectNextJsDirPathFromConfig,
    Detector.frameworkInfosOf, Detector.save, Detector.dlog.
  repeat first
    [ apply appends_dret | apply appends_dthrow | apply appends_does
    | apply appends_dbind | apply appends_dtryCatch | intro
    | match goal with
      | |- Detector.appends (match ?x with _ => _ end) => destruct x
      | |- Detector.appends (if ?x then _ else _) => destruct x
      end ].
Qed.

(** X30 ([detectFramework]): a [project.json] that is there, readable and
    parsable is returned as it is, after one read and nothing else, unless
    [force] is given.  In every other case the call behaves as a forced one:
    same result and same detection steps.  Then a result is the object that
    was written to [project.json] just before, with version 2, the current
    time and frameworks that share one directory (none when no Next.js
    configuration file is found); a failure of [getGitInfo] or of the write
    becomes the ShortestError [Failed to save project information], while a
    failure of the file listing, of [listFrameworks] or of [mkdir] is thrown
    as it is, before anything is written. *)
Theorem detectFramework_uses_or_rebuilds_the_cache
    (force : bool) (l : list Detector.Effect) :
  let out := Detector.detectFramework force l in
  if Detector.usable force
  then exists text, Detector.readFile = Ok text
         /\ out = (Ok (Detector.Cached text),
                   Detector.Logged "Using cached framework information"
                     :: Detector.ReadProject :: l)
  else
    fst out = fst (Detector.detectFramework true l)
    /\ filter Detector.isDetection (snd out)
       = filter Detector.isDetection (snd (Detector.detectFramework true l))
    /\ match fst out with
       | Ok (Detector.Detected info) =>
           Detector.version info = 2
           /\ Detector.timestamp info = Detector.dateNow
           /\ (exists dir, Forall (fun f => Detector.dirPath f = dir)
                             (Detector.frameworks info))
           /\ (forall paths, Detector.getPaths = Ok paths ->
               filter Detector.isNextConfig paths = [] ->
               Detector.frameworks info = [])
           /\ Detector.mkdir = None
           /\ Detector.writeFile (Detector.stringify info) = None
           /\ Detector.written (snd out)
              = Detector.stringify info :: Detector.written l
       | Ok (Detector.Cached _) => False
       | Err e =>
           (e = ShortestError "Failed to save project information"
            /\ Detector.mkdir = None
            /\ ((exists g, Detector.getGitInfo = Err g)
                \/ exists g content x, Detector.getGitInfo = Ok g
                     /\ Detector.writeFile content = Some x))
           \/ (Detector.written (snd out) = Detector.written l
               /\ (Detector.getPaths = Err e
                   \/ (exists dir, Detector.listFrameworks dir = Err e)
                   \/ Detector.mkdir = Some e))
       end.
Proof.
  cbv zeta. destruct (Detector.usable force) eqn:U.
  - unfold Detector.usable in U.
    apply andb_true_iff in U as [U P]. apply andb_true_iff in U as [F X].
    destruct Detector.readFile as [text|e] eqn:R; [|discriminate].
    exists text. split; [reflexivity|].
    unfold Detector.detectFramework, Detector.cached, Detector.dbind,
      Detector.dtryCatch, Detector.does, Detector.dlog, Detector.dret.
    rewrite F, X, R, P. reflexivity.
  - assert (exists l', Detector.detectFramework force l = Detector.detect l'
              /\ Detector.written l' = Detector.written l
              /\ filter Detector.isDetection l' = filter Detector.isDetection l)
      as (l' & -> & W & D).
    { unfold Detector.usable in U.
      unfold Detector.detectFramework, Detector.cached, Detector.dbind,
        Detector.dtryCatch, Detector.does, Detector.dlog, Detector.dret,
        Detector.dthrow.
      destruct (negb force && Detector.existsSync)%bool; [|exists l; auto].
      destruct Detector.readFile as [text|e]; cbn in *.
      - rewrite U. cbn. eexists. split; [reflexivity|]. split; reflexivity.
      - eexists. split; [reflexivity|]. split; reflexivity. }
    assert (Detector.detectFramework true l = Detector.detect l) as -> by reflexivity.
    destruct appends_detect as (r & new & A).
    split; [rewrite !A; reflexivity|].
    split; [rewrite !A; cbn [snd]; rewrite !filter_app, D; reflexivity|].
    pose proof (detect_outcome l') as O. rewrite W in O. exact O.
Qed.


End DetectorFacts.
